(** * Critical: Blender content-generation scripts

    A shallow embedding of the five Blender scripts of the repository

    - [Assets/Scripts/Blender/create_reactor_panel.py]   (module [Panel])
    - [Assets/Scripts/Blender/render_panel_textures.py]  (module [Render])
    - [Updates/Screen2_RCS_Primary_Loop/BlenderArcGauge_v1.py]          (module [ArcGauge])
    - [Updates/Archive_DEPRECATED/.../BlenderTemperatureGauge_v1.py]    (module [BarGauge])
    - [Updates/Screen2_RCS_Primary_Loop/RCS_Primary_Loop_Blender.py]    (module [RCS])

    and the properties of their coordinate arithmetic, scene handling and
    error handling.

    Numbers.  Python floats are idealised as exact numbers: rationals [Q]
    for the panel and gauge scripts (every operation there is rational, and
    the model stays executable), reals [R] for the coolant-loop script,
    whose geometry goes through [cos], [sin] and [sqrt].  Decimal literals
    denote their decimal value.  Rounding error is outside the model. *)

From Stdlib Require Import QArith Qround Qabs Qminmax ZArith List String Ascii Bool.
From Stdlib Require Import Lia Psatz DecimalString.
From Stdlib Require Import Reals.
Import ListNotations.

Set Implicit Arguments.

(** * Python numerics over exact rationals *)

Module Py.
Local Open Scope Q_scope.

(** Results of running a piece of Python: a value, or an exception that
    propagates to the caller. *)
Inductive exn : Type :=
| ZeroDivisionError
| RuntimeError
| TypeError.

Inductive outcome (A : Type) : Type :=
| Ok (a : A)
| Raised (e : exn).
Arguments Ok {A} a.
Arguments Raised {A} e.

Definition bind {A B : Type} (m : outcome A) (k : A -> outcome B) : outcome B :=
  match m with
  | Ok a => k a
  | Raised e => Raised e
  end.

(** [try: body / except: handler] with a bare [except]. *)
Definition try_except {A : Type} (body : outcome A) (handler : outcome A) : outcome A :=
  match body with
  | Ok a => Ok a
  | Raised _ => handler
  end.

Definition ltb (a b : Q) : bool := negb (Qle_bool b a).

(** [min(a, b)]: the first argument unless the second is strictly smaller. *)
Definition min (a b : Q) : Q := if ltb b a then b else a.

(** [max(a, b)]: the first argument unless the second is strictly larger. *)
Definition max (a b : Q) : Q := if ltb a b then b else a.

(** [a / b] on floats raises [ZeroDivisionError] on a zero divisor. *)
Definition truediv (a b : Q) : outcome Q :=
  if Qeq_bool b 0 then Raised ZeroDivisionError else Ok (a / b).

(** [a % b] on floats: [a - floor(a / b) * b], the sign of the divisor. *)
Definition mod_ (a b : Q) : outcome Q :=
  if Qeq_bool b 0 then Raised ZeroDivisionError
  else Ok (a - inject_Z (Qfloor (a / b)) * b).

(** [int(x)] truncates toward zero. *)
Definition int (x : Q) : Z := Z.quot (Qnum x) (Zpos (Qden x)).

(** [str(n)] for an integer. *)
Definition str (n : Z) : string := NilZero.string_of_int (Z.to_int n).

(** [round-half-even] to an integer, the rounding of float formatting. *)
Definition round_half_even (x : Q) : Z :=
  let f := Qfloor x in
  match ((x - inject_Z f) ?= (1 # 2))%Q with
  | Lt => f
  | Gt => (f + 1)%Z
  | Eq => if Z.even f then f else (f + 1)%Z
  end.

Definition sign_prefix (x : Q) : string := if ltb x 0 then "-"%string else ""%string.

(** [f"{x:.1f}"]. *)
Definition format_1f (x : Q) : string :=
  let n := round_half_even (Qabs x * 10) in
  (sign_prefix x ++ str (n / 10) ++ "." ++ str (n mod 10))%string.

(** [f"{x:.0f}"]. *)
Definition format_0f (x : Q) : string :=
  (sign_prefix x ++ str (round_half_even (Qabs x)))%string.

(** [math.pi] is a binary64 constant, hence a rational number: this is its
    exact value.  [math.radians(x)] multiplies by [pi / 180]. *)
Definition pi : Q := 884279719003555 # 281474976710656.

Definition degToRad : Q := pi / 180.

Definition radians (x : Q) : Q := x * degToRad.

End Py.

(** * The host application's scene, as far as the scripts touch it *)

Module Blender.

Inductive ObjType : Type := MESH | EMPTY | FONT | LIGHT | CAMERA.

Section Data.
Variable num : Type.

Definition vec3 : Type := (num * num * num)%type.

(** An object's location.  [Polar r theta z] stands for the point
    [(r * cos theta, r * sin theta, z)], kept symbolic where the number
    type has no cosine. *)
Inductive Loc : Type :=
| XYZ (x y z : num)
| Polar (r theta z : num).

(** An object's rotation: Euler angles, or the quaternion
    [Vector((0, 0, 1)).rotation_difference(direction)], which turns the
    local Z axis onto [direction]. *)
Inductive Rot : Type :=
| Euler (x y z : num)
| AlignZ (direction : vec3).

Record Modifier : Type := mkModifier {
  mod_name : string;
  mod_type : string;
  mod_width : num;
  mod_segments : nat;
  mod_limit_method : string;
  mod_angle_limit : num
}.

(** Mesh geometry: the [bpy.ops.mesh.primitive_*_add] primitives and the
    meshes the gauge scripts assemble with bmesh, by their parameters. *)
Inductive Mesh : Type :=
| Cube (dims : vec3)
| Cylinder (radius depth : num) (vertices : nat)
| UVSphere (radius : num) (segments ring_count : nat)
| Cone (radius1 radius2 depth : num) (vertices : nat)
| Torus (major_radius minor_radius : num) (major_segments minor_segments : nat)
| Arc (inner_radius outer_radius start_angle end_angle : num) (segments : nat) (depth : num)
| Disk (radius : num) (segments : nat) (depth : num)
| Tick (inner_radius outer_radius angle width depth : num)
| Needle (length width depth : num)
| Box (width height depth : num) (center_bottom : bool)
| RoundedBox (width height depth corner_radius : num) (segments : nat)
| TubeOutline (width height thickness depth : num)
| Sphere (radius : num) (segments rings : nat).

(** One mesh of an object obtained with [bpy.ops.object.join]. *)
Record Part : Type := mkPart {
  part_name : string;
  part_mesh : Mesh;
  part_location : vec3;
  part_rotation : Rot;
  part_scale_z : option num
}.

Inductive Data : Type :=
| NoData
| MeshData (m : Mesh)
| JoinedMesh (parts : list Part)
| TextCurve (body : string) (size extrude : num)
| LightData (kind : string) (energy : num) (size : option num)
| CameraData (kind : string) (ortho_scale : option num).

Record Object : Type := mkObject {
  name : string;
  data : Data;
  location : Loc;
  rotation : Rot;
  parent : option string;
  modifiers : list Modifier;
  applied : list Modifier;
  materials : list string
}.

Definition type (o : Object) : ObjType :=
  match data o with
  | NoData => EMPTY
  | MeshData _ | JoinedMesh _ => MESH
  | TextCurve _ _ _ => FONT
  | LightData _ _ _ => LIGHT
  | CameraData _ _ => CAMERA
  end.

(** [bpy.data.objects.get(key)]. *)
Definition get (objects : list Object) (key : string) : option Object :=
  find (fun o => String.eqb (name o) key) objects.

(** The mesh primitives an object is made of. *)
Definition meshes (o : Object) : list Mesh :=
  match data o with
  | MeshData m => [m]
  | JoinedMesh parts => map part_mesh parts
  | _ => []
  end.

Definition is_torus (m : Mesh) : bool :=
  match m with Torus _ _ _ _ => true | _ => false end.

Definition is_cylinder (m : Mesh) : bool :=
  match m with Cylinder _ _ _ => true | _ => false end.

Definition is_uv_sphere (m : Mesh) : bool :=
  match m with UVSphere _ _ _ => true | _ => false end.

Definition is_cone (m : Mesh) : bool :=
  match m with Cone _ _ _ _ => true | _ => false end.

(** A cylinder, a UV sphere or a cone. *)
Definition plain_primitive (m : Mesh) : bool :=
  is_cylinder m || is_uv_sphere m || is_cone m.

End Data.

Arguments NoData {num}.

End Blender.

(** * create_reactor_panel.py *)

Module Panel.
Import Blender.
Local Open Scope Q_scope.
Local Open Scope string_scope.

Definition Object : Type := Blender.Object Q.

(** ** Configuration *)

Definition PANEL_WIDTH : Q := 19.20.
Definition PANEL_HEIGHT : Q := 10.80.
Definition PANEL_DEPTH : Q := 0.15.

Definition BEZEL_DEPTH : Q := 0.08.
Definition BEZEL_BEVEL : Q := 0.02.
Definition RECESS_DEPTH : Q := 0.06.
Definition SECTION_DIVIDER_WIDTH : Q := 0.03.

Definition LABEL_DEPTH : Q := 0.005.

Definition BANK_NAMES_SHORT : list string :=
  ["SA"; "SB"; "SC"; "SD"; "D"; "C"; "B"; "A"].

(** The materials [build_panel] creates and keeps in globals, by name. *)
Definition mat_panel : string := "Panel_Base".
Definition mat_bezel : string := "Bezel".
Definition mat_recess : string := "Recess_Display".
Definition mat_label : string := "Label_Engraved".
Definition mat_divider : string := "Divider".
Definition mat_accent_green : string := "Accent_Green".
Definition mat_accent_red : string := "Accent_Red".

(** ** The scene state and the builder monad *)

(** [objects] is [bpy.data.objects]; [active] indexes the active object. *)
Record State : Type := mkState {
  objects : list Object;
  active : option nat
}.

Definition M (A : Type) : Type := State -> Py.outcome (A * State).

Definition ret {A : Type} (a : A) : M A := fun s => Py.Ok (a, s).

Definition bind {A B : Type} (m : M A) (k : A -> M B) : M B :=
  fun s =>
    match m s with
    | Py.Ok (a, s') => k a s'
    | Py.Raised e => Py.Raised e
    end.

Notation "x <- m ;; k" := (bind m (fun x => k))
  (at level 61, m at next level, right associativity).
Notation "m ;; k" := (bind m (fun _ => k))
  (at level 61, right associativity).

(** [try: body / except: pass]. *)
Definition try_pass (body : M unit) : M unit :=
  fun s =>
    match body s with
    | Py.Ok r => Py.Ok r
    | Py.Raised _ => Py.Ok (tt, s)
    end.

(** [for x in xs: body x]. *)
Fixpoint for_each {A : Type} (xs : list A) (body : A -> M unit) : M unit :=
  match xs with
  | [] => ret tt
  | x :: rest => body x ;; for_each rest body
  end.

Definition enumerate {A : Type} (xs : list A) : list (nat * A) :=
  combine (seq 0 (List.length xs)) xs.

Definition range (n : nat) : list nat := seq 0 n.

Definition of_nat (n : nat) : Q := inject_Z (Z.of_nat n).

(** A new object enters [bpy.data.objects] and becomes the active one. *)
Definition add_object (o : Object) : M Object :=
  fun s =>
    Py.Ok (o, {| objects := objects s ++ [o];
                 active := Some (List.length (objects s)) |}).

(** ** Utility functions *)

(** [clear_scene]: select everything and delete it. *)
Definition clear_scene : M unit :=
  fun s => Py.Ok (tt, {| objects := []; active := None |}).

Definition bevel (bevel_width : Q) : Modifier Q :=
  {| mod_name := "Bevel"; mod_type := "BEVEL";
     mod_width := bevel_width; mod_segments := 3;
     mod_limit_method := "ANGLE"; mod_angle_limit := Py.radians 60 |}.

(** [create_box]: a unit cube placed at the centre of the box, scaled to
    [(width, height, depth)] with the scale applied to the mesh. *)
Definition create_box (name : string) (x y z width height depth : Q)
  (material : option string) (bevel_width : Q) (parent : option string) : M Object :=
  add_object
    {| Blender.name := name;
       data := MeshData (Cube (width, height, depth));
       location := XYZ (x + width / 2) (y + height / 2) (z + depth / 2);
       rotation := Euler 0 0 0;
       Blender.parent := parent;
       modifiers := if Py.ltb 0 bevel_width then [bevel bevel_width] else [];
       applied := [];
       materials := match material with Some m => [m] | None => [] end |}.

Definition create_recessed_area (name : string) (x y width height : Q)
  (material : option string) (parent : option string) : M Object :=
  create_box name x y (- RECESS_DEPTH) width height RECESS_DEPTH material 0 parent.

Definition create_bezel (name : string) (x y width height : Q)
  (material : option string) (parent : option string) : M (list Object) :=
  let frame_w := 0.04 in
  let bezel_mat := material in
  let recess_mat := Some mat_recess in
  top <- create_box (name ++ "_top") x (y + height - frame_w) 0
           width frame_w BEZEL_DEPTH bezel_mat BEZEL_BEVEL parent ;;
  bot <- create_box (name ++ "_bot") x y 0
           width frame_w BEZEL_DEPTH bezel_mat BEZEL_BEVEL parent ;;
  left <- create_box (name ++ "_left") x y 0
           frame_w height BEZEL_DEPTH bezel_mat BEZEL_BEVEL parent ;;
  right <- create_box (name ++ "_right") (x + width - frame_w) y 0
           frame_w height BEZEL_DEPTH bezel_mat BEZEL_BEVEL parent ;;
  display <- create_recessed_area (name ++ "_display")
           (x + frame_w) (y + frame_w)
           (width - 2 * frame_w) (height - 2 * frame_w)
           recess_mat parent ;;
  ret [top; bot; left; right; display].

Definition create_gauge_bezel (name : string) (x y width height : Q)
  (parent : option string) : M (list Object) :=
  create_bezel name x y width height (Some mat_bezel) parent.

Definition create_section_divider (x y width height : Q)
  (parent : option string) : M Object :=
  create_box "Divider" x y 0 width height 0.02 (Some mat_divider) 0.005 parent.

Definition create_text_label (name text : string) (x y z size : Q)
  (parent : option string) : M Object :=
  add_object
    {| Blender.name := name;
       data := TextCurve text size LABEL_DEPTH;
       location := XYZ x y z;
       rotation := Euler 0 0 0;
       Blender.parent := parent;
       modifiers := [];
       applied := [];
       materials := [mat_label] |}.

(** [anchor_to_panel]: Unity anchor coordinates (0-1) to panel units. *)
Definition anchor_to_panel (ax ay aw ah : Q) : Q * Q * Q * Q :=
  let x := ax * PANEL_WIDTH in
  let y := ay * PANEL_HEIGHT in
  let w := aw * PANEL_WIDTH in
  let h := ah * PANEL_HEIGHT in
  (x, y, w, h).

(** ** String helpers used by the object names *)

Definition nl : string := String (ascii_of_nat 10) "".

(** [s.replace(c, '')] for a one-character [c]. *)
Fixpoint remove_char (c : ascii) (s : string) : string :=
  match s with
  | EmptyString => EmptyString
  | String a rest =>
      if Ascii.eqb a c then remove_char c rest else String a (remove_char c rest)
  end.

(** [s.replace(c, d)] for one-character [c] and [d]. *)
Fixpoint replace_char (c d : ascii) (s : string) : string :=
  match s with
  | EmptyString => EmptyString
  | String a rest =>
      String (if Ascii.eqb a c then d else a) (replace_char c d rest)
  end.

(** [f"{n:02d}"]. *)
Definition format_02d (n : nat) : string :=
  if (n <? 10)%nat then "0" ++ Py.str (Z.of_nat n) else Py.str (Z.of_nat n).

Definition light (name : string) (energy size : Q) (x y z : Q)
  (parent : option string) : Object :=
  {| Blender.name := name;
     data := LightData "AREA" energy (Some size);
     location := XYZ x y z;
     rotation := Euler 0 0 0;
     Blender.parent := parent;
     modifiers := [];
     applied := [];
     materials := [] |}.

(** ** The host operator behind the modifier loop *)

Section Host.

(** Whether [bpy.ops.object.modifier_apply] fails on the object at a given
    index of [bpy.data.objects] for the modifier of a given name: the host
    decides, the script cannot know. *)
Variable apply_fails : nat -> string -> bool.

Definition set_active (i : nat) : M unit :=
  fun s => Py.Ok (tt, {| objects := objects s; active := Some i |}).

Definition get_objects : M (list Object) :=
  fun s => Py.Ok (objects s, s).

Definition has_name (modifier : string) (m : Modifier Q) : bool :=
  String.eqb (mod_name m) modifier.

(** A successful application bakes the modifier into the mesh and takes it
    off the modifier stack. *)
Definition bake (modifier : string) (o : Object) : Object :=
  {| Blender.name := Blender.name o;
     data := data o;
     location := location o;
     rotation := rotation o;
     Blender.parent := Blender.parent o;
     modifiers := filter (fun m => negb (has_name modifier m)) (modifiers o);
     applied := applied o ++ filter (has_name modifier) (modifiers o);
     materials := materials o |}.

Fixpoint update_nth {A : Type} (i : nat) (f : A -> A) (xs : list A) : list A :=
  match xs, i with
  | [], _ => []
  | x :: rest, O => f x :: rest
  | x :: rest, S j => x :: update_nth j f rest
  end.

(** [bpy.ops.object.modifier_apply(modifier=...)] on the active object. *)
Definition modifier_apply (modifier : string) : M unit :=
  fun s =>
    match active s with
    | None => Py.Raised Py.RuntimeError
    | Some i =>
        match nth_error (objects s) i with
        | None => Py.Raised Py.RuntimeError
        | Some o =>
            if existsb (has_name modifier) (modifiers o)
            then
              if apply_fails i modifier then Py.Raised Py.RuntimeError
              else Py.Ok (tt, {| objects := update_nth i (bake modifier) (objects s);
                                 active := active s |})
            else Py.Raised Py.RuntimeError
        end
    end.

(** The body of the loop "Apply all bevel modifiers" for the object at
    index [i].  The inner loop runs over the modifier stack as it stands
    when the object is reached. *)
Definition apply_object_modifiers (i : nat) (obj : Object) : M unit :=
  match Blender.type obj, modifiers obj with
  | MESH, _ :: _ =>
      set_active i ;;
      for_each (modifiers obj) (fun mod_ =>
        try_pass (modifier_apply (mod_name mod_)))
  | _, _ => ret tt
  end.

(** The loop "Apply all bevel modifiers" of [build_panel]. *)
Definition apply_all_modifiers : M unit :=
  objs <- get_objects ;;
  for_each (enumerate objs) (fun '(i, obj) => apply_object_modifiers i obj).

(** ** Main panel construction *)

Definition panel_root : option string := Some "ReactorOperatorPanel".

Definition gauge_padding : Q := 0.08.
Definition gauge_top_margin : Q := 0.35.

Definition gauge_names_left : list string :=
  ["NeutronPower"; "ThermalPower"; "StartupRate"; "Period";
   "Reactivity"; "Keff"; "Boron"; "Xenon"; "RCSFlow"].

Definition gauge_names_right : list string :=
  ["Tavg"; "Thot"; "Tcold"; "DeltaT";
   "FuelCenterline"; "HotChannel"; "Pressure"; "PZRLevel"].

Definition mode_labels : list string :=
  ["POWER"; "FUEL TEMP"; "COOLANT"; "ROD BANKS"].

Definition bank_labels : list string :=
  ["ALL"; "SA"; "SB"; "SC"; "SD"; "D"; "C"; "B"; "A"].

Definition ann_labels : list string :=
  ["REACTOR" ++ nl ++ "TRIPPED"; "NEUTRON" ++ nl ++ "POWER HI";
   "STARTUP" ++ nl ++ "RATE HI"; "ROD BOTTOM" ++ nl ++ "ALARM";
   "PRESS" ++ nl ++ "LOW"; "PRESS" ++ nl ++ "HIGH";
   "T-AVG" ++ nl ++ "LOW"; "T-AVG" ++ nl ++ "HIGH";
   "SUBCOOL" ++ nl ++ "LOW"; "PZR LVL" ++ nl ++ "LOW";
   "PZR LVL" ++ nl ++ "HIGH"; "OVERPOWER" ++ nl ++ "DT";
   "REACTOR" ++ nl ++ "CRITICAL"; "AUTO ROD" ++ nl ++ "CONTROL";
   "PZR HTRS" ++ nl ++ "ON"; "LOW" ++ nl ++ "FLOW"].

(** Left gauge panel: 9 nuclear-instrumentation gauge bezels. *)
Definition left_gauge_panel : M unit :=
  let '(lx, ly, lw, lh) := anchor_to_panel 0.00 0.26 0.15 0.74 in
  create_text_label "Label_LeftPanel" "NUCLEAR INSTRUMENTATION"
    (lx + lw / 2) (ly + lh - 0.1) 0.001 0.12 panel_root ;;
  let available_height := lh - gauge_top_margin - gauge_padding in
  let gauge_h := (available_height - gauge_padding * 8) / 9 in
  let gauge_w := lw - gauge_padding * 2 in
  for_each (enumerate gauge_names_left) (fun '(i, gname) =>
    let gx := lx + gauge_padding in
    let gy := ly + lh - gauge_top_margin
              - (of_nat i + 1) * (gauge_h + gauge_padding) + gauge_padding in
    create_gauge_bezel ("Gauge_L_" ++ gname) gx gy gauge_w gauge_h panel_root ;;
    ret tt).

(** Core map panel: mode buttons, the core map frame, bank filter buttons. *)
Definition core_map_panel : M unit :=
  let '(cx, cy, cw, ch) := anchor_to_panel 0.15 0.26 0.50 0.74 in
  create_text_label "Label_CoreMap" "REACTOR CORE"
    (cx + cw / 2) (cy + ch - 0.1) 0.001 0.18 panel_root ;;
  let btn_row_y := cy + ch * 0.90 in
  let btn_row_h := ch * 0.08 in
  let btn_w := (cw * 0.90) / 4 in
  let btn_start_x := cx + cw * 0.05 in
  for_each (enumerate mode_labels) (fun '(i, label) =>
    let bx := btn_start_x + of_nat i * btn_w + 0.04 * of_nat i in
    create_bezel ("ModeBtn_" ++ remove_char " " label)
      bx btn_row_y (btn_w - 0.02) btn_row_h (Some mat_bezel) panel_root ;;
    ret tt) ;;
  let map_x := cx + cw * 0.05 in
  let map_y := cy + ch * 0.12 in
  let map_w := cw * 0.90 in
  let map_h := ch * 0.76 in
  create_bezel "CoreMapFrame" map_x map_y map_w map_h (Some mat_bezel) panel_root ;;
  let filt_row_y := cy + ch * 0.02 in
  let filt_row_h := ch * 0.08 in
  let filt_btn_w := (cw * 0.90) / 9 in
  let filt_start_x := cx + cw * 0.05 in
  for_each (enumerate bank_labels) (fun '(i, label) =>
    let bx := filt_start_x + of_nat i * filt_btn_w + 0.02 * of_nat i in
    create_bezel ("BankBtn_" ++ label)
      bx filt_row_y (filt_btn_w - 0.01) filt_row_h (Some mat_bezel) panel_root ;;
    ret tt).

(** Right gauge panel: 8 thermal-hydraulic gauge bezels. *)
Definition right_gauge_panel : M unit :=
  let '(rx, ry, rw, rh) := anchor_to_panel 0.65 0.26 0.15 0.74 in
  create_text_label "Label_RightPanel" "THERMAL-HYDRAULIC"
    (rx + rw / 2) (ry + rh - 0.1) 0.001 0.12 panel_root ;;
  let available_height_r := rh - gauge_top_margin - gauge_padding in
  let gauge_h_r := (available_height_r - gauge_padding * 7) / 8 in
  let gauge_w_r := rw - gauge_padding * 2 in
  for_each (enumerate gauge_names_right) (fun '(i, gname) =>
    let gx := rx + gauge_padding in
    let gy := ry + rh - gauge_top_margin
              - (of_nat i + 1) * (gauge_h_r + gauge_padding) + gauge_padding in
    create_gauge_bezel ("Gauge_R_" ++ gname) gx gy gauge_w_r gauge_h_r panel_root ;;
    ret tt).

(** Detail panel: the assembly detail area. *)
Definition detail_panel : M unit :=
  let '(dx, dy, dw, dh) := anchor_to_panel 0.80 0.26 0.20 0.74 in
  create_text_label "Label_Detail" "ASSEMBLY DETAIL"
    (dx + dw / 2) (dy + dh - 0.1) 0.001 0.12 panel_root ;;
  create_recessed_area "DetailDisplay"
    (dx + 0.06) (dy + 0.06) (dw - 0.12) (dh - 0.45)
    (Some mat_recess) panel_root ;;
  ret tt.

(** Bottom panel: the controls area below the horizontal divider.  The
    indices into [BANK_NAMES_SHORT] and [ann_labels] stay in range, so the
    default of [nth] is never used. *)
Definition bottom_panel : M unit :=
  let '(bx_base, by_base, bw_base, bh_base) := anchor_to_panel 0.0 0.0 1.0 0.26 in
  create_section_divider 0 bh_base PANEL_WIDTH SECTION_DIVIDER_WIDTH panel_root ;;
  (* Rod control *)
  let rc_x := bx_base + bw_base * 0.01 in
  let rc_y := by_base + bh_base * 0.55 in
  let rc_w := bw_base * 0.14 in
  let rc_h := bh_base * 0.40 in
  create_bezel "RodControlFrame" rc_x rc_y rc_w rc_h (Some mat_bezel) panel_root ;;
  create_text_label "Label_RodControl" "ROD CONTROL"
    (rc_x + rc_w / 2) (rc_y + rc_h + 0.04) 0.001 0.10 panel_root ;;
  (* Bank positions *)
  let bp_x := bx_base + bw_base * 0.16 in
  let bp_y := by_base + bh_base * 0.55 in
  let bp_w := bw_base * 0.29 in
  let bp_h := bh_base * 0.40 in
  create_bezel "BankPositionsFrame" bp_x bp_y bp_w bp_h (Some mat_bezel) panel_root ;;
  create_text_label "Label_BankPos" "BANK POSITIONS"
    (bp_x + bp_w / 2) (bp_y + bp_h + 0.04) 0.001 0.10 panel_root ;;
  let bar_w := (bp_w - 0.20) / 8 in
  for_each (range 8) (fun i =>
    let bar_x := bp_x + 0.10 + of_nat i * (bar_w + 0.005) in
    create_recessed_area ("BankBar_" ++ nth i BANK_NAMES_SHORT "")
      bar_x (bp_y + 0.10) bar_w (bp_h - 0.20) (Some mat_recess) panel_root ;;
    ret tt) ;;
  (* Boron control *)
  let bc_x := bx_base + bw_base * 0.46 in
  let bc_y := by_base + bh_base * 0.55 in
  let bc_w := bw_base * 0.14 in
  let bc_h := bh_base * 0.40 in
  create_bezel "BoronControlFrame" bc_x bc_y bc_w bc_h (Some mat_bezel) panel_root ;;
  create_text_label "Label_Boron" "BORON CONTROL"
    (bc_x + bc_w / 2) (bc_y + bc_h + 0.04) 0.001 0.10 panel_root ;;
  create_recessed_area "BoronReadout"
    (bc_x + 0.08) (bc_y + 0.06) (bc_w - 0.16) (bc_h * 0.30)
    (Some mat_recess) panel_root ;;
  (* Trip control *)
  let tc_x := bx_base + bw_base * 0.61 in
  let tc_y := by_base + bh_base * 0.55 in
  let tc_w := bw_base * 0.14 in
  let tc_h := bh_base * 0.40 in
  create_bezel "TripControlFrame" tc_x tc_y tc_w tc_h (Some mat_bezel) panel_root ;;
  create_text_label "Label_Trip" "TRIP CONTROL"
    (tc_x + tc_w / 2) (tc_y + tc_h + 0.04) 0.001 0.10 panel_root ;;
  let trip_btn_x := tc_x + tc_w * 0.15 in
  let trip_btn_y := tc_y + tc_h * 0.25 in
  let trip_btn_size := Py.min (tc_w * 0.40) (tc_h * 0.50) in
  create_box "TripBtnRing" trip_btn_x trip_btn_y 0
    trip_btn_size trip_btn_size (BEZEL_DEPTH * 0.8)
    (Some mat_accent_red) 0.015 panel_root ;;
  (* Time control *)
  let tm_x := bx_base + bw_base * 0.76 in
  let tm_y := by_base + bh_base * 0.55 in
  let tm_w := bw_base * 0.23 in
  let tm_h := bh_base * 0.40 in
  create_bezel "TimeControlFrame" tm_x tm_y tm_w tm_h (Some mat_bezel) panel_root ;;
  create_text_label "Label_Time" "TIME CONTROL"
    (tm_x + tm_w / 2) (tm_y + tm_h + 0.04) 0.001 0.10 panel_root ;;
  create_recessed_area "SimTimeReadout"
    (tm_x + 0.06) (tm_y + tm_h * 0.50) (tm_w * 0.45) (tm_h * 0.30)
    (Some mat_recess) panel_root ;;
  create_recessed_area "TimeCompReadout"
    (tm_x + tm_w * 0.55) (tm_y + tm_h * 0.50) (tm_w * 0.35) (tm_h * 0.30)
    (Some mat_recess) panel_root ;;
  (* Annunciator panel *)
  let al_x := bx_base + bw_base * 0.01 in
  let al_y := by_base + bh_base * 0.05 in
  let al_w := bw_base * 0.98 in
  let al_h := bh_base * 0.45 in
  create_bezel "AnnunciatorFrame" al_x al_y al_w al_h (Some mat_bezel) panel_root ;;
  create_text_label "Label_Annunciator" "ANNUNCIATOR PANEL"
    (al_x + al_w / 2) (al_y + al_h + 0.04) 0.001 0.10 panel_root ;;
  let ann_frame_w := 0.04 in
  let ann_inner_x := al_x + ann_frame_w + 0.06 in
  let ann_inner_y := al_y + ann_frame_w + 0.04 in
  let ann_inner_w := al_w - 2 * ann_frame_w - 0.12 in
  let ann_inner_h := al_h - 2 * ann_frame_w - 0.08 in
  let ann_cols := 8%nat in
  let ann_rows := 2%nat in
  let ann_gap := 0.03 in
  let ann_tile_w := (ann_inner_w - (of_nat ann_cols - 1) * ann_gap) / of_nat ann_cols in
  let ann_tile_h := (ann_inner_h - (of_nat ann_rows - 1) * ann_gap) / of_nat ann_rows in
  for_each (range ann_rows) (fun row =>
    for_each (range ann_cols) (fun col =>
      let idx := (row * ann_cols + col)%nat in
      let tile_x := ann_inner_x + of_nat col * (ann_tile_w + ann_gap) in
      let tile_y := ann_inner_y
                    + (of_nat ann_rows - 1 - of_nat row) * (ann_tile_h + ann_gap) in
      create_recessed_area ("AnnTile_" ++ format_02d idx)
        tile_x tile_y ann_tile_w ann_tile_h (Some mat_recess) panel_root ;;
      let label_text := replace_char (ascii_of_nat 10) " " (nth idx ann_labels "") in
      create_text_label ("AnnLabel_" ++ format_02d idx) label_text
        (tile_x + ann_tile_w / 2) (tile_y + ann_tile_h / 2)
        (- RECESS_DEPTH + 0.002) 0.06 panel_root ;;
      ret tt)).

Definition fst4 (t : Q * Q * Q * Q) : Q := let '(a, _, _, _) := t in a.
Definition snd4 (t : Q * Q * Q * Q) : Q := let '(_, b, _, _) := t in b.
Definition fth4 (t : Q * Q * Q * Q) : Q := let '(_, _, _, d) := t in d.

(** Vertical section dividers between the upper panels. *)
Definition section_dividers : M unit :=
  for_each [0.15; 0.65; 0.80] (fun ax =>
    let div_x := fst4 (anchor_to_panel ax 0.26 0 0.74) in
    create_section_divider (div_x - SECTION_DIVIDER_WIDTH / 2)
      (snd4 (anchor_to_panel 0 0.26 0 0))
      SECTION_DIVIDER_WIDTH
      (fth4 (anchor_to_panel 0 0 0 0.74))
      panel_root ;;
    ret tt).

(** Key, fill and rim lights. *)
Definition setup_lighting : M unit :=
  add_object (light "KeyLight" 500 15.0
                (PANEL_WIDTH / 2) (PANEL_HEIGHT / 2) 5.0 panel_root) ;;
  add_object (light "FillLight" 150 10.0
                (PANEL_WIDTH / 2) (- 2.0) 3.0 panel_root) ;;
  add_object (light "RimLight" 200 12.0
                (PANEL_WIDTH / 2) (PANEL_HEIGHT + 2.0) 4.0 panel_root) ;;
  ret tt.

(** [build_panel] up to the modifier loop: the scene is cleared, then the
    root, the main plate and every section are created. *)
Definition construct_panel : M unit :=
  clear_scene ;;
  add_object
    {| Blender.name := "ReactorOperatorPanel";
       data := NoData;
       location := XYZ 0 0 0;
       rotation := Euler 0 0 0;
       Blender.parent := None;
       modifiers := [];
       applied := [];
       materials := [] |} ;;
  create_box "MainPanel" 0 0 (- PANEL_DEPTH)
    PANEL_WIDTH PANEL_HEIGHT PANEL_DEPTH (Some mat_panel) 0.03 panel_root ;;
  left_gauge_panel ;;
  core_map_panel ;;
  right_gauge_panel ;;
  detail_panel ;;
  bottom_panel ;;
  section_dividers.

(** [build_panel]: the script's entry point. *)
Definition build_panel : M unit :=
  construct_panel ;;
  apply_all_modifiers ;;
  setup_lighting ;;
  set_active 0.

End Host.

End Panel.

(** * render_panel_textures.py *)

Module Render.
Import Blender.
Local Open Scope Q_scope.
Local Open Scope string_scope.

Definition Object : Type := Blender.Object Q.

Definition PANEL_WIDTH : Q := 19.20.
Definition PANEL_HEIGHT : Q := 10.80.
Definition RENDER_WIDTH : Q := 3840.
Definition RENDER_HEIGHT : Q := 2160.

(** A path is its list of components; the empty list is the empty string. *)
Definition Path : Type := list string.

(** [os.path.dirname] and [os.path.join]. *)
Definition dirname (p : Path) : Path := removelast p.
Definition join (p : Path) (parts : list string) : Path := (p ++ parts)%list.

(** What the script reads from its surroundings: the path of the .blend
    file ([bpy.data.filepath], empty when unsaved), the home directory, the
    directories that exist, and which host calls fail. *)
Record Env : Type := mkEnv {
  blend_path : Path;
  home : Path;
  isdir : Path -> bool;
  makedirs_fails : Path -> bool;
  settings_fail : bool;
  render_fails : bool
}.

(** [objects] is [bpy.data.objects]; [OUTPUT_DIR] the module global;
    [filepath] is [scene.render.filepath]; [written] the stills rendered. *)
Record State : Type := mkState {
  objects : list Object;
  OUTPUT_DIR : option Path;
  filepath : Path;
  written : list Path
}.

Section Script.
Variable env : Env.

Definition candidates : list Path :=
  let common :=
    [ ["C:"; "Users"; "craig"; "Projects"; "Critical"; "Assets"; "Resources";
       "ReactorOperatorPanel"];
      ["C:"; "Users"; "craig"; "Projects"; "Critical"; "Assets"; "Textures";
       "ReactorOperatorPanel"];
      join (home env) ["Projects"; "Critical"; "Assets"; "Resources";
                       "ReactorOperatorPanel"];
      join (home env) ["Projects"; "Critical"; "Assets"; "Textures";
                       "ReactorOperatorPanel"] ] in
  match blend_path env with
  | [] => common
  | _ :: _ =>
      let project_root := dirname (dirname (dirname (blend_path env))) in
      join project_root ["Textures"; "ReactorOperatorPanel"] :: common
  end.

(** The [for path in candidates] loop: the first candidate that exists, or
    whose parent exists and that [os.makedirs] manages to create. *)
Fixpoint first_usable (paths : list Path) : option Path :=
  match paths with
  | [] => None
  | path :: rest =>
      if isdir env path then Some path
      else if isdir env (dirname path)
           then if makedirs_fails env path then first_usable rest else Some path
           else first_usable rest
  end.

(** [find_output_dir]: the returned flag and the new value of [OUTPUT_DIR]. *)
Definition find_output_dir (s : State) : bool * State :=
  let set dir := {| objects := objects s; OUTPUT_DIR := Some dir;
                    filepath := filepath s; written := written s |} in
  match first_usable candidates with
  | Some path => (true, set path)
  | None =>
      match blend_path env with
      | _ :: _ => (true, set (dirname (blend_path env)))
      | [] => (true, set (join (home env) ["Desktop"]))
      end
  end.

Definition is_camera (o : Object) : bool :=
  match Blender.type o with CAMERA => true | _ => false end.

(** [setup_camera]: drop every camera, add an orthographic one. *)
Definition setup_camera (s : State) : State :=
  let aspect := RENDER_WIDTH / RENDER_HEIGHT in
  let panel_aspect := PANEL_WIDTH / PANEL_HEIGHT in
  let ortho_scale :=
    if Py.ltb aspect panel_aspect then PANEL_WIDTH * 1.01
    else PANEL_HEIGHT * aspect * 1.01 in
  let camera :=
    {| Blender.name := "RenderCamera";
       data := CameraData "ORTHO" (Some ortho_scale);
       location := XYZ (PANEL_WIDTH / 2) (PANEL_HEIGHT / 2) 8.0;
       rotation := Euler 0 0 0;
       Blender.parent := None;
       modifiers := [];
       applied := [];
       materials := [] |} in
  {| objects := (filter (fun o => negb (is_camera o)) (objects s) ++ [camera])%list;
     OUTPUT_DIR := OUTPUT_DIR s;
     filepath := filepath s;
     written := written s |}.

(** [bpy.ops.render.render(write_still=True)]. *)
Definition render (s : State) : Py.outcome State :=
  if render_fails env then Py.Raised Py.RuntimeError
  else Py.Ok {| objects := objects s; OUTPUT_DIR := OUTPUT_DIR s;
                filepath := filepath s;
                written := (written s ++ [filepath s])%list |}.

(** [setup_render_settings] and [make_recess_materials_transparent] only
    touch render settings and shader nodes, which [State] does not hold;
    what matters here is whether one of their host calls raises. *)
Definition setup_render_settings (s : State) : Py.outcome State :=
  if settings_fail env then Py.Raised Py.RuntimeError else Py.Ok s.

(** [render_panel]: the script's entry point, with its return value.
    [os.path.join] on an unset [OUTPUT_DIR] would raise. *)
Definition render_panel (s : State) : Py.outcome (bool * State) :=
  match get (objects s) "ReactorOperatorPanel" with
  | None => Py.Ok (false, s)
  | Some panel_root =>
      let '(found, s1) := find_output_dir s in
      if negb found then Py.Ok (false, s1)
      else
        Py.bind (setup_render_settings (setup_camera s1)) (fun s2 =>
        match OUTPUT_DIR s2 with
        | None => Py.Raised Py.TypeError
        | Some dir =>
            let output_path := join dir ["panel_base_color.png"] in
            let s3 := {| objects := objects s2; OUTPUT_DIR := OUTPUT_DIR s2;
                         filepath := output_path; written := written s2 |} in
            Py.bind (render s3) (fun s4 => Py.Ok (true, s4))
        end)
  end.

End Script.

End Render.

(** * Runs that may not end *)

(** The gauge scripts have [while] loops.  A run is given some fuel, one
    unit per loop iteration: [None] means the fuel ran out, [Some] carries
    what Python would produce. *)

Module Run.
Local Open Scope Q_scope.

Definition R (A : Type) : Type := option (Py.outcome A).

Definition ret {A : Type} (a : A) : R A := Some (Py.Ok a).

Definition lift {A : Type} (r : Py.outcome A) : R A := Some r.

Definition bind {A B : Type} (m : R A) (k : A -> R B) : R B :=
  match m with
  | Some (Py.Ok a) => k a
  | Some (Py.Raised e) => Some (Py.Raised e)
  | None => None
  end.

Notation "x <- m ;; k" := (bind m (fun x => k))
  (at level 61, m at next level, right associativity).

(** The scale loops of both gauge scripts:

      value = start; index = 0
      while value <= limit:
          (body: may create an object, and then bumps its index)
          value += step

    [body value index] returns the object created in that iteration, if
    any.  The result lists the created objects in order. *)
Fixpoint scale_loop {A : Type} (fuel : nat) (value limit step : Q) (index : nat)
  (body : Q -> nat -> R (option A)) : R (list A) :=
  match fuel with
  | O => None
  | S fuel' =>
      if Qle_bool value limit then
        made <- body value index ;;
        match made with
        | Some o =>
            rest <- scale_loop fuel' (value + step) limit step (S index) body ;;
            ret (o :: rest)
        | None => scale_loop fuel' (value + step) limit step index body
        end
      else ret []
  end.

End Run.

(** * BlenderArcGauge_v1.py *)

Module ArcGauge.
Import Blender Run.
Local Open Scope Q_scope.
Local Open Scope string_scope.

Definition Object : Type := Blender.Object Q.

(** [GaugeConfig], without the colours (materials are kept by name).  A zone
    is [Some (start, end)], or [None] for the empty list. *)
Record GaugeConfig : Type := mkGaugeConfig {
  name : string;
  label : string;
  units : string;
  radius : Q;
  depth : Q;
  bezel_width : Q;
  min_value : Q;
  max_value : Q;
  major_tick_interval : Q;
  minor_tick_interval : Q;
  sweep_angle : Q;
  start_angle : Q;
  needle_length : Q;
  needle_width : Q;
  needle_pivot_offset : Q;
  zone_normal : option (Q * Q);
  zone_warning : option (Q * Q);
  zone_danger : option (Q * Q);
  zone_width : Q;
  label_size : Q;
  units_size : Q;
  number_size : Q
}.

(** The class attributes of [GaugeConfig]. *)
Definition default_config : GaugeConfig :=
  {| name := "Temperature"; label := "T-HOT"; units := "°F";
     radius := 1.0; depth := 0.08; bezel_width := 0.08;
     min_value := 100.0; max_value := 700.0;
     major_tick_interval := 100.0; minor_tick_interval := 20.0;
     sweep_angle := 270.0; start_angle := 225.0;
     needle_length := 0.75; needle_width := 0.03; needle_pivot_offset := 0.0;
     zone_normal := Some (100.0, 550.0);
     zone_warning := Some (550.0, 620.0);
     zone_danger := Some (620.0, 700.0);
     zone_width := 0.06;
     label_size := 0.12; units_size := 0.08; number_size := 0.06 |}.

(** ** Geometry creation *)

(** [value_to_angle]: a gauge value to an angle in radians. *)
Definition value_to_angle (value : Q) (config : GaugeConfig) : Py.outcome Q :=
  Py.bind (Py.truediv (value - min_value config)
                      (max_value config - min_value config))
    (fun normalized =>
       let normalized := Py.max 0.0 (Py.min 1.0 normalized) in
       let angle_deg := start_angle config - (normalized * sweep_angle config) in
       Py.Ok (Py.radians angle_deg)).

(** A mesh or text object as the [create_*] helpers return it: at the
    origin, unparented, without material. *)
Definition new_object (name : string) (d : Data Q) : Object :=
  {| Blender.name := name; data := d;
     location := XYZ 0 0 0; rotation := Euler 0 0 0;
     parent := None; modifiers := []; applied := []; materials := [] |}.

Definition create_arc_mesh (name : string)
  (inner_radius outer_radius start_angle end_angle : Q) (segments : nat) (depth : Q) : Object :=
  new_object name (MeshData (Arc inner_radius outer_radius start_angle end_angle segments depth)).

Definition create_disk (name : string) (radius : Q) (segments : nat) (depth : Q) : Object :=
  new_object name (MeshData (Disk radius segments depth)).

Definition create_tick_mark (name : string)
  (inner_radius outer_radius angle width depth : Q) : Object :=
  new_object name (MeshData (Tick inner_radius outer_radius angle width depth)).

Definition create_needle (name : string) (length width depth : Q) : Object :=
  new_object name (MeshData (Needle length width depth)).

Definition create_text_object (name text : string) (size depth : Q) : Object :=
  new_object name (TextCurve text size (depth / 2)).

(** Attribute assignments on a fresh object. *)
Definition place (loc : Loc Q) (rot : Rot Q) (parent : option string)
  (mats : list string) (o : Object) : Object :=
  {| Blender.name := Blender.name o; data := data o;
     location := loc; rotation := rot;
     Blender.parent := parent; modifiers := modifiers o;
     applied := applied o; materials := mats |}.

(** ** Gauge assembly *)

(** The assembled gauge, part by part, in the order of creation. *)
Record Gauge : Type := mkGauge {
  root : Object;
  bezel : Object;
  face : Object;
  scale_empty : Object;
  major_ticks_empty : Object;
  major_ticks : list Object;
  minor_ticks_empty : Object;
  minor_ticks : list Object;
  numbers_empty : Object;
  numbers : list Object;
  zones_empty : Object;
  zones : list Object;
  needle : Object;
  hub : Object;
  label_text : Object;
  units_text : Object
}.

Definition gauge_objects (g : Gauge) : list Object :=
  ([root g; bezel g; face g; scale_empty g; major_ticks_empty g]
   ++ major_ticks g ++ [minor_ticks_empty g] ++ minor_ticks g
   ++ [numbers_empty g] ++ numbers g ++ [zones_empty g] ++ zones g
   ++ [needle g; hub g; label_text g; units_text g])%list.

Definition material (key : string) (config : GaugeConfig) : string :=
  "MAT_Gauge_" ++ key ++ "_" ++ name config.

Definition index_name (prefix : string) (index : nat) : string :=
  prefix ++ Py.str (Z.of_nat index).

Definition still : Rot Q := Euler 0 0 0.

(** Body of the major-tick loop. *)
Definition major_tick_body (config : GaugeConfig) (value : Q) (tick_index : nat)
  : R (option Object) :=
  let tick_inner := radius config - bezel_width config - 0.12 in
  let tick_outer := radius config - bezel_width config - 0.02 in
  angle <- lift (value_to_angle value config) ;;
  ret (Some (place (XYZ 0 0 (depth config * 0.5 + 0.002)) still
               (Some "MajorTicks") [material "Tick" config]
               (create_tick_mark (index_name "MajorTick_" tick_index)
                  tick_inner tick_outer angle 0.015 0.008))).

(** The guard of the minor-tick loop:
    [abs((value - config.min_value) % config.major_tick_interval) > 0.001]. *)
Definition minor_tick_guard (config : GaugeConfig) (value : Q) : Py.outcome bool :=
  Py.bind (Py.mod_ (value - min_value config) (major_tick_interval config))
    (fun r => Py.Ok (Py.ltb 0.001 (Qabs r))).

(** Body of the minor-tick loop: nothing at a major tick position. *)
Definition minor_tick_body (config : GaugeConfig) (value : Q) (tick_index : nat)
  : R (option Object) :=
  let tick_inner_minor := radius config - bezel_width config - 0.08 in
  let tick_outer_minor := radius config - bezel_width config - 0.02 in
  go <- lift (minor_tick_guard config value) ;;
  if (go : bool) then
    angle <- lift (value_to_angle value config) ;;
    ret (Some (place (XYZ 0 0 (depth config * 0.5 + 0.002)) still
                 (Some "MinorTicks") [material "Tick" config]
                 (create_tick_mark (index_name "MinorTick_" tick_index)
                    tick_inner_minor tick_outer_minor angle 0.008 0.006)))
  else ret None.

(** The text of a scale number: no decimal when the value is whole. *)
Definition number_text (value : Q) : string :=
  if Qeq_bool value (inject_Z (Py.int value)) then Py.str (Py.int value)
  else Py.format_1f value.

(** Body of the numbers loop. *)
Definition number_body (config : GaugeConfig) (value : Q) (num_index : nat)
  : R (option Object) :=
  let number_radius := radius config - bezel_width config - 0.20 in
  angle <- lift (value_to_angle value config) ;;
  ret (Some (place (Polar number_radius angle (depth config * 0.5 + 0.003))
               (Euler (Py.radians 90) 0 0) (Some "Numbers") []
               (create_text_object (index_name "Number_" num_index)
                  (number_text value) (number_size config) 0.004))).

(** One colour zone: an arc from the angle of the zone's end back to the
    angle of its start, if the zone is given and not empty. *)
Definition create_zone (config : GaugeConfig) (zone_name key : string)
  (zone : option (Q * Q)) : R (list Object) :=
  let zone_inner := radius config - bezel_width config - zone_width config - 0.02 in
  let zone_outer := radius config - bezel_width config - 0.02 in
  match zone with
  | Some (z0, z1) =>
      if Py.ltb z0 z1 then
        start_angle <- lift (value_to_angle z1 config) ;;
        end_angle <- lift (value_to_angle z0 config) ;;
        ret [place (XYZ 0 0 (depth config * 0.5 + 0.001)) still
               (Some "Zones") [material key config]
               (create_arc_mesh zone_name zone_inner zone_outer
                  start_angle end_angle 32 0.004)]
      else ret []
  | None => ret []
  end.

Definition empty (name : string) (parent : option string) : Object :=
  place (XYZ 0 0 0) still parent [] (new_object name NoData).

(** [create_gauge]: the complete gauge assembly. *)
Definition create_gauge (fuel : nat) (config : GaugeConfig) : R Gauge :=
  let limit := max_value config + 0.001 in
  let top := Some ("Gauge_" ++ name config) in
  let root := empty ("Gauge_" ++ name config) None in
  let bezel :=
    place (XYZ 0 0 0) still top [material "Bezel" config]
      (create_arc_mesh "Bezel" (radius config - bezel_width config) (radius config)
         0 (2 * Py.pi) 64 (depth config)) in
  let face :=
    place (XYZ 0 0 (depth config * 0.25)) still top [material "Face" config]
      (create_disk "Face" (radius config - bezel_width config - 0.005) 64
         (depth config * 0.5)) in
  let scale_empty := empty "Scale" top in
  let major_ticks_empty := empty "MajorTicks" (Some "Scale") in
  major_ticks <- scale_loop fuel (min_value config) limit
                   (major_tick_interval config) 0 (major_tick_body config) ;;
  let minor_ticks_empty := empty "MinorTicks" (Some "Scale") in
  minor_ticks <- scale_loop fuel (min_value config) limit
                   (minor_tick_interval config) 0 (minor_tick_body config) ;;
  let numbers_empty := empty "Numbers" (Some "Scale") in
  numbers <- scale_loop fuel (min_value config) limit
               (major_tick_interval config) 0 (number_body config) ;;
  let zones_empty := empty "Zones" (Some "Scale") in
  zone_n <- create_zone config "Zone_Normal" "Zone_Normal" (zone_normal config) ;;
  zone_w <- create_zone config "Zone_Warning" "Zone_Warning" (zone_warning config) ;;
  zone_d <- create_zone config "Zone_Danger" "Zone_Danger" (zone_danger config) ;;
  let needle_len := radius config * needle_length config in
  let mid_value := (min_value config + max_value config) / 2 in
  mid_angle <- lift (value_to_angle mid_value config) ;;
  let needle :=
    place (XYZ 0 0 (depth config * 0.5 + 0.01))
      (Euler 0 0 (mid_angle - Py.radians 90)) top [material "Needle" config]
      (create_needle "Needle" needle_len (needle_width config) 0.015) in
  let hub :=
    place (XYZ 0 0 (depth config * 0.5 + 0.015)) still top [material "Hub" config]
      (create_disk "NeedleHub" (needle_width config * 2) 32 0.02) in
  let label_text :=
    place (XYZ 0 (- radius config * 0.35) (depth config * 0.5 + 0.005))
      (Euler (Py.radians 90) 0 0) top []
      (create_text_object "Label" (label config) (label_size config) 0.005) in
  let units_text :=
    place (XYZ 0 (- radius config * 0.55) (depth config * 0.5 + 0.005))
      (Euler (Py.radians 90) 0 0) top []
      (create_text_object "Units" (units config) (units_size config) 0.004) in
  ret {| root := root; bezel := bezel; face := face; scale_empty := scale_empty;
         major_ticks_empty := major_ticks_empty; major_ticks := major_ticks;
         minor_ticks_empty := minor_ticks_empty; minor_ticks := minor_ticks;
         numbers_empty := numbers_empty; numbers := numbers;
         zones_empty := zones_empty; zones := (zone_n ++ zone_w ++ zone_d)%list;
         needle := needle; hub := hub;
         label_text := label_text; units_text := units_text |}.

(** [main]: the script's entry point.  The lines that would select and
    delete the existing objects are commented out in the source, so the
    gauge joins whatever the scene holds. *)
Definition main (fuel : nat) (scene : list Object) : R (list Object) :=
  gauge <- create_gauge fuel default_config ;;
  ret (scene ++ gauge_objects gauge)%list.

End ArcGauge.

(** * BlenderTemperatureGauge_v1.py *)

Module BarGauge.
Import Blender Run.
Local Open Scope Q_scope.
Local Open Scope string_scope.

Definition Object : Type := Blender.Object Q.

(** [BarGaugeConfig], without the colours. *)
Record BarGaugeConfig : Type := mkBarGaugeConfig {
  name : string;
  label : string;
  units : string;
  height : Q;
  width : Q;
  depth : Q;
  tube_width : Q;
  tube_margin : Q;
  style : string;
  bulb_radius : Q;
  corner_radius : Q;
  min_value : Q;
  max_value : Q;
  major_tick_interval : Q;
  minor_tick_interval : Q;
  zone_normal : option (Q * Q);
  zone_warning : option (Q * Q);
  zone_danger : option (Q * Q);
  zone_width : Q;
  label_size : Q;
  units_size : Q;
  number_size : Q;
  initial_fill : Q
}.

Definition default_config : BarGaugeConfig :=
  {| name := "Temperature"; label := "TEMP"; units := "°F";
     height := 2.0; width := 0.4; depth := 0.15;
     tube_width := 0.12; tube_margin := 0.08;
     style := "bar"; bulb_radius := 0.1; corner_radius := 0.02;
     min_value := 100.0; max_value := 700.0;
     major_tick_interval := 100.0; minor_tick_interval := 20.0;
     zone_normal := Some (100.0, 550.0);
     zone_warning := Some (550.0, 620.0);
     zone_danger := Some (620.0, 700.0);
     zone_width := 0.03;
     label_size := 0.08; units_size := 0.06; number_size := 0.05;
     initial_fill := 0.5 |}.

(** ** Value conversion *)

(** [value_to_normalized]: a gauge value to the 0-1 range. *)
Definition value_to_normalized (value : Q) (config : BarGaugeConfig) : Py.outcome Q :=
  Py.bind (Py.truediv (value - min_value config)
                      (max_value config - min_value config))
    (fun normalized => Py.Ok (Py.max 0.0 (Py.min 1.0 normalized))).

(** [value_to_y_position]: a gauge value to a height on the tube. *)
Definition value_to_y_position (value : Q) (config : BarGaugeConfig) (tube_height : Q)
  : Py.outcome Q :=
  Py.bind (value_to_normalized value config)
    (fun normalized => Py.Ok (normalized * tube_height)).

(** ** Geometry creation *)

Definition new_object (name : string) (d : Data Q) : Object :=
  {| Blender.name := name; data := d;
     location := XYZ 0 0 0; rotation := Euler 0 0 0;
     parent := None; modifiers := []; applied := []; materials := [] |}.

Definition create_box (name : string) (width height depth : Q) (center_bottom : bool)
  : Object :=
  new_object name (MeshData (Box width height depth center_bottom)).

Definition create_rounded_box (name : string) (width height depth corner_radius : Q)
  : Object :=
  new_object name (MeshData (RoundedBox width height depth corner_radius 4)).

Definition create_sphere (name : string) (radius : Q) : Object :=
  new_object name (MeshData (Sphere radius 16 8)).

Definition create_tube_outline (name : string) (width height thickness depth : Q)
  : Object :=
  new_object name (MeshData (TubeOutline width height thickness depth)).

Definition create_text_object (name text : string) (size depth : Q) : Object :=
  new_object name (TextCurve text size (depth / 2)).

Definition place (loc : Loc Q) (rot : Rot Q) (parent : option string)
  (mats : list string) (o : Object) : Object :=
  {| Blender.name := Blender.name o; data := data o;
     location := loc; rotation := rot;
     Blender.parent := parent; modifiers := modifiers o;
     applied := applied o; materials := mats |}.

Definition still : Rot Q := Euler 0 0 0.

Definition empty (name : string) (parent : option string) : Object :=
  place (XYZ 0 0 0) still parent [] (new_object name NoData).

Definition material (key : string) (config : BarGaugeConfig) : string :=
  "MAT_BarGauge_" ++ key ++ "_" ++ name config.

Definition index_name (prefix : string) (index : nat) : string :=
  prefix ++ Py.str (Z.of_nat index).

(** ** Bar gauge assembly *)

Record Gauge : Type := mkGauge {
  root : Object;
  housing : Object;
  background : Object;
  tube : Object;
  fill : Object;
  bulb : list Object;
  scale_empty : Object;
  major_ticks_empty : Object;
  major_ticks : list Object;
  minor_ticks_empty : Object;
  minor_ticks : list Object;
  numbers_empty : Object;
  numbers : list Object;
  zones_empty : Object;
  zones : list Object;
  label_text : Object;
  units_text : Object
}.

Definition gauge_objects (g : Gauge) : list Object :=
  ([root g; housing g; background g; tube g; fill g] ++ bulb g
   ++ [scale_empty g; major_ticks_empty g] ++ major_ticks g
   ++ [minor_ticks_empty g] ++ minor_ticks g
   ++ [numbers_empty g] ++ numbers g ++ [zones_empty g] ++ zones g
   ++ [label_text g; units_text g])%list.

Definition is_thermometer (config : BarGaugeConfig) : bool :=
  String.eqb (style config) "thermometer".

Definition tube_height (config : BarGaugeConfig) : Q :=
  let h := height config - (tube_margin config * 2) in
  if is_thermometer config then h - bulb_radius config else h.

Definition tube_bottom_y (config : BarGaugeConfig) : Q :=
  let y := - height config / 2 + tube_margin config in
  if is_thermometer config then y + bulb_radius config else y.

Definition tick_x (config : BarGaugeConfig) : Q :=
  width config / 2 - tube_margin config / 2.

Definition major_tick_length : Q := 0.06.

(** Body of the major-tick loop. *)
Definition major_tick_body (config : BarGaugeConfig) (value : Q) (tick_idx : nat)
  : R (option Object) :=
  y <- lift (value_to_y_position value config (tube_height config)) ;;
  let y_pos := tube_bottom_y config + y in
  ret (Some (place (XYZ (tick_x config) y_pos (depth config * 0.55)) still
               (Some "MajorTicks") [material "Tick" config]
               (create_box (index_name "MajorTick_" tick_idx)
                  major_tick_length 0.012 (depth config * 0.1) false))).

(** The guard of the minor-tick loop. *)
Definition minor_tick_guard (config : BarGaugeConfig) (value : Q) : Py.outcome bool :=
  Py.bind (Py.mod_ (value - min_value config) (major_tick_interval config))
    (fun r => Py.Ok (Py.ltb 0.001 (Qabs r))).

(** Body of the minor-tick loop: nothing at a major tick position. *)
Definition minor_tick_body (config : BarGaugeConfig) (value : Q) (tick_idx : nat)
  : R (option Object) :=
  go <- lift (minor_tick_guard config value) ;;
  if (go : bool) then
    y <- lift (value_to_y_position value config (tube_height config)) ;;
    let y_pos := tube_bottom_y config + y in
    ret (Some (place (XYZ (tick_x config) y_pos (depth config * 0.55)) still
                 (Some "MinorTicks") [material "Tick" config]
                 (create_box (index_name "MinorTick_" tick_idx)
                    0.03 0.008 (depth config * 0.08) false)))
  else ret None.

Definition number_text (value : Q) : string :=
  if Qeq_bool value (inject_Z (Py.int value)) then Py.str (Py.int value)
  else Py.format_0f value.

(** Body of the numbers loop. *)
Definition number_body (config : BarGaugeConfig) (value : Q) (num_idx : nat)
  : R (option Object) :=
  let number_x := tick_x config + major_tick_length / 2 + 0.04 in
  y <- lift (value_to_y_position value config (tube_height config)) ;;
  let y_pos := tube_bottom_y config + y in
  ret (Some (place (XYZ number_x y_pos (depth config * 0.55))
               (Euler (Py.radians 90) 0 0) (Some "Numbers") []
               (create_text_object (index_name "Number_" num_idx)
                  (number_text value) (number_size config) 0.005))).

(** The nested [create_zone]: a bar from the height of the zone's start to
    the height of its end, if the zone is given and not empty. *)
Definition create_zone (config : BarGaugeConfig) (zone_name : string)
  (zone_range : option (Q * Q)) (material : string) : R (list Object) :=
  let zone_x := - width config / 2 + tube_margin config / 2 + zone_width config / 2 in
  match zone_range with
  | Some (z0, z1) =>
      if Py.ltb z0 z1 then
        y0 <- lift (value_to_y_position z0 config (tube_height config)) ;;
        let y_start := tube_bottom_y config + y0 in
        y1 <- lift (value_to_y_position z1 config (tube_height config)) ;;
        let y_end := tube_bottom_y config + y1 in
        let zone_height := y_end - y_start in
        ret [place (XYZ zone_x (y_start + zone_height / 2) (depth config * 0.55)) still
               (Some "Zones") [material]
               (create_box zone_name (zone_width config) zone_height
                  (depth config * 0.1) false)]
      else ret []
  | None => ret []
  end.

(** [create_bar_gauge]: the complete bar gauge assembly. *)
Definition create_bar_gauge (fuel : nat) (config : BarGaugeConfig) : R Gauge :=
  let limit := max_value config + 0.001 in
  let top := Some ("BarGauge_" ++ name config) in
  let root := empty ("BarGauge_" ++ name config) None in
  let tube_height := tube_height config in
  let tube_bottom_y := tube_bottom_y config in
  let housing :=
    place (XYZ 0 0 0) still top [material "Housing" config]
      (if Py.ltb 0.001 (corner_radius config)
       then create_rounded_box "Housing" (width config) (height config)
              (depth config) (corner_radius config)
       else create_box "Housing" (width config) (height config) (depth config) false) in
  let bg_margin := 0.02 in
  let background :=
    place (XYZ 0 0 (depth config * 0.35)) still top [material "Background" config]
      (create_box "Background" (width config - bg_margin * 2)
         (height config - bg_margin * 2) (depth config * 0.3) false) in
  let tube_thickness := 0.01 in
  let tube :=
    place (XYZ 0 (tube_bottom_y + tube_height / 2) (depth config * 0.5)) still top
      [material "Tube" config]
      (create_tube_outline "Tube" (tube_width config + tube_thickness * 2)
         (tube_height + tube_thickness * 2) tube_thickness (depth config * 0.2)) in
  let fill :=
    place (XYZ 0 tube_bottom_y (depth config * 0.5)) still top [material "Fill" config]
      (create_box "Fill" (tube_width config) tube_height (depth config * 0.15) true) in
  let bulb :=
    if is_thermometer config then
      [place (XYZ 0 (- height config / 2 + tube_margin config
                     + bulb_radius config * 0.3) (depth config * 0.5))
         still top [material "Bulb" config]
         (create_sphere "Bulb" (bulb_radius config))]
    else [] in
  let scale_empty := empty "Scale" top in
  let major_ticks_empty := empty "MajorTicks" (Some "Scale") in
  major_ticks <- scale_loop fuel (min_value config) limit
                   (major_tick_interval config) 0 (major_tick_body config) ;;
  let minor_ticks_empty := empty "MinorTicks" (Some "Scale") in
  minor_ticks <- scale_loop fuel (min_value config) limit
                   (minor_tick_interval config) 0 (minor_tick_body config) ;;
  let numbers_empty := empty "Numbers" (Some "Scale") in
  numbers <- scale_loop fuel (min_value config) limit
               (major_tick_interval config) 0 (number_body config) ;;
  let zones_empty := empty "Zones" top in
  zone_n <- create_zone config "Zone_Normal" (zone_normal config)
              (material "Zone_Normal" config) ;;
  zone_w <- create_zone config "Zone_Warning" (zone_warning config)
              (material "Zone_Warning" config) ;;
  zone_d <- create_zone config "Zone_Danger" (zone_danger config)
              (material "Zone_Danger" config) ;;
  let label_text :=
    place (XYZ 0 (height config / 2 - tube_margin config * 0.7) (depth config * 0.55))
      (Euler (Py.radians 90) 0 0) top []
      (create_text_object "Label" (label config) (label_size config) 0.005) in
  let units_text :=
    place (XYZ 0 (- height config / 2 + tube_margin config * 0.5) (depth config * 0.55))
      (Euler (Py.radians 90) 0 0) top []
      (create_text_object "Units" (units config) (units_size config) 0.005) in
  ret {| root := root; housing := housing; background := background;
         tube := tube; fill := fill; bulb := bulb;
         scale_empty := scale_empty;
         major_ticks_empty := major_ticks_empty; major_ticks := major_ticks;
         minor_ticks_empty := minor_ticks_empty; minor_ticks := minor_ticks;
         numbers_empty := numbers_empty; numbers := numbers;
         zones_empty := zones_empty; zones := (zone_n ++ zone_w ++ zone_d)%list;
         label_text := label_text; units_text := units_text |}.

(** [main]: the script's entry point; nothing is removed from the scene. *)
Definition main (fuel : nat) (scene : list Object) : R (list Object) :=
  gauge <- create_bar_gauge fuel default_config ;;
  ret (scene ++ gauge_objects gauge)%list.

End BarGauge.

(** * RCS_Primary_Loop_Blender.py *)

Module RCS.
Import Blender.
Local Open Scope R_scope.
Local Open Scope string_scope.

Definition Object : Type := Blender.Object R.
Definition Part : Type := Blender.Part R.
Definition vec3 : Type := Blender.vec3 R.

(** ** Configuration *)

Module Config.
Definition SCALE : R := 1.0.
Definition DETAIL_LEVEL : nat := 32.
Definition RV_RADIUS : R := 7.2.
Definition RV_HEIGHT : R := 40.0.
Definition RV_WALL_THICKNESS : R := 0.7.
Definition HOT_LEG_RADIUS : R := 1.21.
Definition HOT_LEG_LENGTH : R := 27.0.
Definition COLD_LEG_RADIUS : R := 1.15.
Definition COLD_LEG_LENGTH : R := 22.0.
Definition CROSSOVER_RADIUS : R := 1.29.
Definition CROSSOVER_LENGTH : R := 18.0.
Definition SG_LOWER_RADIUS : R := 5.6.
Definition SG_UPPER_RADIUS : R := 7.3.
Definition SG_HEIGHT : R := 67.75.
Definition SG_TRANSITION_HEIGHT : R := 25.0.
Definition RCP_BODY_RADIUS : R := 4.0.
Definition RCP_BODY_HEIGHT : R := 8.0.
Definition RCP_MOTOR_RADIUS : R := 3.0.
Definition RCP_MOTOR_HEIGHT : R := 20.0.
Definition RCP_TOTAL_HEIGHT : R := 28.5.
Definition PZR_RADIUS : R := 3.5.
Definition PZR_HEIGHT : R := 53.0.
Definition SURGE_LINE_RADIUS : R := 0.58.
Definition LOOP_RADIUS : R := 35.0.
Definition RV_NOZZLE_HEIGHT : R := 10.0.
Definition SG_INLET_HEIGHT : R := 12.0.
Definition RCP_HEIGHT : R := 8.0.
Definition PZR_ELEVATION : R := 15.0.
Definition ARROW_LENGTH : R := 3.0.
Definition ARROW_RADIUS : R := 0.3.
End Config.

(** [math.radians], here with the real number pi. *)
Definition radians (deg : R) : R := deg * (PI / 180).

(** ** Utility functions *)

(** [clear_scene]: select everything and delete it. *)
Definition clear_scene (scene : list Object) : list Object := [].

Definition scaled (location : vec3) : vec3 :=
  let '(x, y, z) := location in
  (x * Config.SCALE, y * Config.SCALE, z * Config.SCALE).

Definition at_ (location : vec3) : Loc R :=
  let '(x, y, z) := location in XYZ x y z.

Definition still : Rot R := Euler 0 0 0.

Definition new_object (name : string) (d : Data R) (location : vec3) : Object :=
  {| Blender.name := name; data := d;
     location := at_ location; rotation := still;
     parent := None; modifiers := []; applied := []; materials := [] |}.

Definition create_cylinder (name : string) (radius height : R) (segments : nat)
  (location : vec3) : Object :=
  new_object name
    (MeshData (Cylinder (radius * Config.SCALE) (height * Config.SCALE) segments))
    (scaled location).

Definition create_sphere (name : string) (radius : R) (segments : nat)
  (location : vec3) : Object :=
  new_object name
    (MeshData (UVSphere (radius * Config.SCALE) segments (Nat.div segments 2)))
    (scaled location).

Definition create_torus (name : string) (major_radius minor_radius : R)
  (location : vec3) (rotation : Rot R) : Object :=
  {| Blender.name := name;
     data := MeshData (Torus (major_radius * Config.SCALE) (minor_radius * Config.SCALE)
                         48 Config.DETAIL_LEVEL);
     location := at_ (scaled location); rotation := rotation;
     parent := None; modifiers := []; applied := []; materials := [] |}.

Definition create_cone (name : string) (radius1 radius2 height : R)
  (location : vec3) : Object :=
  new_object name
    (MeshData (Cone (radius1 * Config.SCALE) (radius2 * Config.SCALE)
                 (height * Config.SCALE) Config.DETAIL_LEVEL))
    (scaled location).

Definition create_empty (name : string) (location : vec3) : Object :=
  new_object name NoData (scaled location).

(** Attribute assignments. *)
Definition with_parent (p : string) (o : Object) : Object :=
  {| Blender.name := Blender.name o; data := data o;
     location := location o; rotation := rotation o;
     parent := Some p; modifiers := modifiers o;
     applied := applied o; materials := materials o |}.

Definition with_rotation (r : Rot R) (o : Object) : Object :=
  {| Blender.name := Blender.name o; data := data o;
     location := location o; rotation := r;
     parent := parent o; modifiers := modifiers o;
     applied := applied o; materials := materials o |}.

Definition with_material (m : string) (o : Object) : Object :=
  {| Blender.name := Blender.name o; data := data o;
     location := location o; rotation := rotation o;
     parent := parent o; modifiers := modifiers o;
     applied := applied o; materials := (materials o ++ [m])%list |}.

Definition xyz (o : Object) : vec3 :=
  match location o with
  | XYZ x y z => (x, y, z)
  | Polar r theta z => (r * cos theta, r * sin theta, z)
  end.

(** A primitive on its way into [bpy.ops.object.join()]; [scale_z] is the
    [scale[2] = 0.5] of the hemispherical heads. *)
Definition part (scale_z : option R) (o : Object) : list Part :=
  match data o with
  | MeshData m =>
      [ {| part_name := Blender.name o; part_mesh := m;
           part_location := xyz o; part_rotation := rotation o;
           part_scale_z := scale_z |} ]
  | _ => []
  end.

(** [bpy.ops.object.join()] with [active] as the active object, then the
    renaming of the result. *)
Definition join (name : string) (active : Object) (parts : list Part) : Object :=
  {| Blender.name := name; data := JoinedMesh parts;
     location := location active; rotation := rotation active;
     parent := None; modifiers := []; applied := []; materials := [] |}.

(** [Vector(v).normalized()]. *)
Definition normalized (v : vec3) : vec3 :=
  let '(x, y, z) := v in
  let len := sqrt (x * x + y * y + z * z) in
  (x / len, y / len, z / len).

(** ** Component creation *)

Definition num (n : nat) : string := Py.str (Z.of_nat n).

(** The angle of loop [i] (counted from 0): 45, 135, 225, 315 degrees. *)
Definition loop_angle (i : nat) : R := radians (45 + INR i * 90).

(** The outlet and inlet nozzle stubs of loop [i] on the reactor vessel. *)
Definition nozzles (i : nat) : list Part :=
  let angle := loop_angle i in
  let outlet_x := cos angle * Config.RV_RADIUS in
  let outlet_y := sin angle * Config.RV_RADIUS in
  let nozzle_out :=
    with_rotation (Euler 0 (PI / 2) angle)
      (create_cylinder ("RV_Outlet_Nozzle_" ++ num (i + 1)) Config.HOT_LEG_RADIUS 3.0 16
         (outlet_x + cos angle * 1.5, outlet_y + sin angle * 1.5,
          Config.RV_NOZZLE_HEIGHT + 2)) in
  let inlet_angle := angle + radians 45 in
  let inlet_x := cos inlet_angle * Config.RV_RADIUS in
  let inlet_y := sin inlet_angle * Config.RV_RADIUS in
  let nozzle_in :=
    with_rotation (Euler 0 (PI / 2) inlet_angle)
      (create_cylinder ("RV_Inlet_Nozzle_" ++ num (i + 1)) Config.COLD_LEG_RADIUS 3.0 16
         (inlet_x + cos inlet_angle * 1.5, inlet_y + sin inlet_angle * 1.5,
          Config.RV_NOZZLE_HEIGHT)) in
  (part None nozzle_out ++ part None nozzle_in)%list.

Definition create_reactor_vessel : Object :=
  let body :=
    create_cylinder "RV_Body" Config.RV_RADIUS
      (Config.RV_HEIGHT - Config.RV_RADIUS * 2) Config.DETAIL_LEVEL
      (0, 0, Config.RV_HEIGHT / 2) in
  let bottom_head :=
    create_sphere "RV_BottomHead" Config.RV_RADIUS Config.DETAIL_LEVEL
      (0, 0, Config.RV_RADIUS) in
  let top_head :=
    create_sphere "RV_TopHead" Config.RV_RADIUS Config.DETAIL_LEVEL
      (0, 0, Config.RV_HEIGHT - Config.RV_RADIUS * 0.5) in
  with_material "MAT_ReactorVessel"
    (join "ReactorVessel" body
       (part None body ++ part (Some 0.5) bottom_head ++ part (Some 0.5) top_head
        ++ flat_map nozzles (seq 0 4))%list).

Definition create_steam_generator (loop_number : nat) (angle : R) : Object :=
  let x := cos angle * Config.LOOP_RADIUS in
  let y := sin angle * Config.LOOP_RADIUS in
  let base_z := 0 in
  let sg := "SG" ++ num loop_number in
  let lower_shell :=
    create_cylinder (sg ++ "_LowerShell") Config.SG_LOWER_RADIUS
      Config.SG_TRANSITION_HEIGHT Config.DETAIL_LEVEL
      (x, y, base_z + Config.SG_TRANSITION_HEIGHT / 2) in
  let transition :=
    create_cone (sg ++ "_Transition") Config.SG_LOWER_RADIUS Config.SG_UPPER_RADIUS 8.0
      (x, y, base_z + Config.SG_TRANSITION_HEIGHT + 4) in
  let upper_height :=
    Config.SG_HEIGHT - Config.SG_TRANSITION_HEIGHT - 8.0 - Config.SG_UPPER_RADIUS in
  let upper_shell :=
    create_cylinder (sg ++ "_UpperShell") Config.SG_UPPER_RADIUS upper_height
      Config.DETAIL_LEVEL
      (x, y, base_z + Config.SG_TRANSITION_HEIGHT + 8 + upper_height / 2) in
  let top_dome :=
    create_sphere (sg ++ "_TopDome") Config.SG_UPPER_RADIUS Config.DETAIL_LEVEL
      (x, y, base_z + Config.SG_HEIGHT - Config.SG_UPPER_RADIUS * 0.5) in
  let bottom_head :=
    create_sphere (sg ++ "_BottomHead") Config.SG_LOWER_RADIUS Config.DETAIL_LEVEL
      (x, y, base_z + Config.SG_LOWER_RADIUS * 0.5) in
  with_material "MAT_SteamGenerator"
    (join ("SteamGenerator_" ++ num loop_number) lower_shell
       (part None lower_shell ++ part None transition ++ part None upper_shell
        ++ part (Some 0.5) top_dome ++ part (Some 0.5) bottom_head)%list).

(** [create_rcp]: the pump, and the position it stores in its custom
    properties [position_x], [position_y], [position_z]. *)
Definition create_rcp (loop_number : nat) (angle : R) : Object * vec3 :=
  let rcp_radius := Config.LOOP_RADIUS * 0.6 in
  let rcp_angle := angle + radians 25 in
  let x := cos rcp_angle * rcp_radius in
  let y := sin rcp_angle * rcp_radius in
  let base_z := Config.RCP_HEIGHT in
  let rcp := "RCP" ++ num loop_number in
  let casing :=
    create_cylinder (rcp ++ "_Casing") Config.RCP_BODY_RADIUS Config.RCP_BODY_HEIGHT
      Config.DETAIL_LEVEL (x, y, base_z + Config.RCP_BODY_HEIGHT / 2) in
  let motor :=
    create_cylinder (rcp ++ "_Motor") Config.RCP_MOTOR_RADIUS Config.RCP_MOTOR_HEIGHT
      Config.DETAIL_LEVEL
      (x, y, base_z + Config.RCP_BODY_HEIGHT + Config.RCP_MOTOR_HEIGHT / 2) in
  let flywheel :=
    create_cylinder (rcp ++ "_Flywheel") (Config.RCP_MOTOR_RADIUS * 1.3) 1.5
      Config.DETAIL_LEVEL
      (x, y, base_z + Config.RCP_BODY_HEIGHT + Config.RCP_MOTOR_HEIGHT + 0.75) in
  (with_material "MAT_RCP"
     (join ("RCP_" ++ num loop_number) casing
        (part None casing ++ part None motor ++ part None flywheel)%list),
   (x, y, base_z)).

Definition create_pressurizer : Object * vec3 :=
  let pzr_angle := radians (135 + 30) in
  let pzr_radius := Config.LOOP_RADIUS * 0.5 in
  let x := cos pzr_angle * pzr_radius in
  let y := sin pzr_angle * pzr_radius in
  let base_z := Config.PZR_ELEVATION in
  let body :=
    create_cylinder "PZR_Body" Config.PZR_RADIUS
      (Config.PZR_HEIGHT - Config.PZR_RADIUS * 2) Config.DETAIL_LEVEL
      (x, y, base_z + Config.PZR_HEIGHT / 2) in
  let bottom_head :=
    create_sphere "PZR_BottomHead" Config.PZR_RADIUS Config.DETAIL_LEVEL
      (x, y, base_z + Config.PZR_RADIUS) in
  let top_head :=
    create_sphere "PZR_TopHead" Config.PZR_RADIUS Config.DETAIL_LEVEL
      (x, y, base_z + Config.PZR_HEIGHT - Config.PZR_RADIUS * 0.5) in
  (with_material "MAT_Pressurizer"
     (join "Pressurizer" body
        (part None body ++ part (Some 0.5) bottom_head ++ part (Some 0.5) top_head)%list),
   (x, y, base_z)).

(** The block shared by the four pipe builders: a cylinder as long as the
    distance from [a] to [b], centred at their midpoint, its axis turned
    from +Z onto the direction from [a] to [b]. *)
Definition straight_pipe (name : string) (radius : R) (segments : nat)
  (a b : vec3) : Object :=
  let '(ax, ay, az) := a in
  let '(bx, by_, bz) := b in
  let dx := bx - ax in
  let dy := by_ - ay in
  let dz := bz - az in
  let length := sqrt (dx * dx + dy * dy + dz * dz) in
  let pipe :=
    create_cylinder name radius length segments
      ((ax + bx) / 2, (ay + by_) / 2, (az + bz) / 2) in
  with_rotation (AlignZ (normalized (dx, dy, dz))) pipe.

(** The points the pipe builders connect, as their comments name them. *)
Definition rv_outlet_nozzle (angle : R) : vec3 :=
  (cos angle * (Config.RV_RADIUS + 2), sin angle * (Config.RV_RADIUS + 2),
   Config.RV_NOZZLE_HEIGHT + 2).

Definition sg_inlet (angle : R) : vec3 :=
  (cos angle * Config.LOOP_RADIUS, sin angle * Config.LOOP_RADIUS,
   Config.SG_INLET_HEIGHT).

Definition rcp_discharge (rcp_pos : vec3) : vec3 :=
  let '(x, y, z) := rcp_pos in (x, y, z + Config.RCP_BODY_HEIGHT / 2).

Definition rv_inlet_nozzle (angle : R) : vec3 :=
  let inlet_angle := angle + radians 45 in
  (cos inlet_angle * (Config.RV_RADIUS + 2), sin inlet_angle * (Config.RV_RADIUS + 2),
   Config.RV_NOZZLE_HEIGHT).

Definition sg_outlet (angle : R) : vec3 :=
  (cos angle * Config.LOOP_RADIUS, sin angle * Config.LOOP_RADIUS,
   Config.SG_LOWER_RADIUS + 2).

Definition rcp_suction (rcp_pos : vec3) : vec3 := rcp_pos.

(** [create_hot_leg]: from the RV outlet nozzle to the SG inlet. *)
Definition create_hot_leg (loop_number : nat) (angle : R) : Object :=
  with_material "MAT_HotLeg"
    (straight_pipe ("HotLeg_" ++ num loop_number) Config.HOT_LEG_RADIUS
       Config.DETAIL_LEVEL (rv_outlet_nozzle angle) (sg_inlet angle)).

(** [create_cold_leg]: from the RCP discharge to the RV inlet nozzle. *)
Definition create_cold_leg (loop_number : nat) (angle : R) (rcp_pos : vec3) : Object :=
  with_material "MAT_ColdLeg"
    (straight_pipe ("ColdLeg_" ++ num loop_number) Config.COLD_LEG_RADIUS
       Config.DETAIL_LEVEL (rcp_discharge rcp_pos) (rv_inlet_nozzle angle)).

(** [create_crossover_leg]: from the SG outlet (bottom) to the RCP suction. *)
Definition create_crossover_leg (loop_number : nat) (angle : R) (rcp_pos : vec3)
  : Object :=
  with_material "MAT_CrossoverLeg"
    (straight_pipe ("CrossoverLeg_" ++ num loop_number) Config.CROSSOVER_RADIUS
       Config.DETAIL_LEVEL (sg_outlet angle) (rcp_suction rcp_pos)).

(** [create_surge_line]: from the pressurizer bottom to the loop 2 hot leg. *)
Definition create_surge_line (pzr_pos : vec3) : Object :=
  let loop2_angle := radians 135 in
  let hl : vec3 :=
    (cos loop2_angle * (Config.RV_RADIUS + 5), sin loop2_angle * (Config.RV_RADIUS + 5),
     Config.RV_NOZZLE_HEIGHT + 2) in
  with_material "MAT_HotLeg"
    (straight_pipe "SurgeLine" Config.SURGE_LINE_RADIUS 16 pzr_pos hl).

(** [create_arrow]: a shaft and a head, joined. *)
Definition create_arrow (name : string) (length radius : R) (location : vec3)
  (rotation : Rot R) : Object :=
  let shaft :=
    new_object (name ++ "_shaft")
      (MeshData (Cylinder (radius * Config.SCALE * 0.5) (length * Config.SCALE * 0.7) 12))
      (0, 0, 0) in
  let head :=
    new_object (name ++ "_head")
      (MeshData (Cone (radius * Config.SCALE) 0 (length * Config.SCALE * 0.3) 12))
      (0, 0, length * Config.SCALE * 0.5) in
  {| Blender.name := name;
     data := JoinedMesh (part None shaft ++ part None head)%list;
     location := at_ (scaled location); rotation := rotation;
     parent := None; modifiers := []; applied := []; materials := [] |}.

Definition create_flow_arrows : list Object :=
  flat_map (fun i =>
    let angle := loop_angle i in
    let hl : vec3 :=
      (cos angle * (Config.RV_RADIUS + 10), sin angle * (Config.RV_RADIUS + 10),
       Config.RV_NOZZLE_HEIGHT + 2) in
    let inlet_angle := angle + radians 45 in
    let cl : vec3 :=
      (cos inlet_angle * (Config.RV_RADIUS + 10),
       sin inlet_angle * (Config.RV_RADIUS + 10),
       Config.RV_NOZZLE_HEIGHT) in
    [ with_material "MAT_FlowArrow"
        (create_arrow ("FlowArrow_HotLeg_" ++ num (i + 1))
           Config.ARROW_LENGTH Config.ARROW_RADIUS hl (Euler 0 (PI / 2) angle));
      with_material "MAT_FlowArrow"
        (create_arrow ("FlowArrow_ColdLeg_" ++ num (i + 1))
           Config.ARROW_LENGTH Config.ARROW_RADIUS cl
           (Euler 0 (PI / 2) (inlet_angle + PI))) ])
    (seq 0 4).

Definition create_loop_labels : list Object :=
  map (fun i =>
    let angle := loop_angle i in
    let x := cos angle * (Config.LOOP_RADIUS + 10) in
    let y := sin angle * (Config.LOOP_RADIUS + 10) in
    with_rotation (Euler (PI / 2) 0 (angle + PI / 2))
      (new_object ("Label_Loop_" ++ num (i + 1))
         (TextCurve ("LOOP " ++ num (i + 1)) 3.0 0)
         (x * Config.SCALE, y * Config.SCALE, 70 * Config.SCALE)))
    (seq 0 4).

(** ** Main function *)

(** The components of loop [i]: its steam generator and its pump. *)
Definition loop_components (i : nat) : list Object :=
  let loop_num := (i + 1)%nat in
  let angle := loop_angle i in
  [ with_parent "Components" (create_steam_generator loop_num angle);
    with_parent "Components" (fst (create_rcp loop_num angle)) ].

Definition rcp_positions : list vec3 :=
  map (fun i => snd (create_rcp (i + 1) (loop_angle i))) (seq 0 4).

(** The piping of loop [i]; the index into [rcp_positions] is in range. *)
Definition loop_piping (i : nat) : list Object :=
  let loop_num := (i + 1)%nat in
  let angle := loop_angle i in
  let rcp_pos := nth i rcp_positions (0, 0, 0) in
  [ with_parent "Piping" (create_hot_leg loop_num angle);
    with_parent "Piping" (create_crossover_leg loop_num angle rcp_pos);
    with_parent "Piping" (create_cold_leg loop_num angle rcp_pos) ].

(** [main]: the script's entry point. *)
Definition main (scene : list Object) : list Object :=
  let scene := clear_scene scene in
  let root := create_empty "RCS_Primary_Loop" (0, 0, 0) in
  let group name := with_parent "RCS_Primary_Loop" (create_empty name (0, 0, 0)) in
  let rv := with_parent "Components" create_reactor_vessel in
  let pzr := create_pressurizer in
  let sun :=
    new_object "Sun" (LightData "SUN" 3.0 None) (50, 50, 100) in
  let camera :=
    with_rotation (Euler (radians 60) 0 (radians 45))
      (new_object "Camera" (CameraData "PERSP" None) (100, -100, 80)) in
  (scene
   ++ [root; group "Components"; group "Piping"; group "FlowArrows"; group "Labels"; rv]
   ++ flat_map loop_components (seq 0 4)
   ++ [with_parent "Components" (fst pzr)]
   ++ flat_map loop_piping (seq 0 4)
   ++ [with_parent "Piping" (create_surge_line (snd pzr))]
   ++ map (with_parent "FlowArrows") create_flow_arrows
   ++ map (with_parent "Labels") create_loop_labels
   ++ [sun; camera])%list.

(** ** Reading a cylinder back *)

(** The two ends of the axis of a cylinder turned by [AlignZ]: half its
    depth from the centre, either way along the direction. *)
Definition axis_ends (o : Object) : option (vec3 * vec3) :=
  match data o, location o, rotation o with
  | MeshData (Cylinder _ depth _), XYZ cx cy cz, AlignZ (ux, uy, uz) =>
      Some ((cx - depth / 2 * ux, cy - depth / 2 * uy, cz - depth / 2 * uz),
            (cx + depth / 2 * ux, cy + depth / 2 * uy, cz + depth / 2 * uz))
  | _, _, _ => None
  end.

End RCS.

(** * Reading boxes back *)

Module Box.
Import Blender.
Local Open Scope Q_scope.

(** [spans o x0 x1 y0 y1 z0 z1]: [o] is a box mesh occupying
    [x0, x1] x [y0, y1] x [z0, z1]: a cube of size 1, scaled to its
    dimensions, reaches half a dimension either side of its centre. *)
Definition spans (o : Panel.Object) (x0 x1 y0 y1 z0 z1 : Q) : Prop :=
  match data o, location o with
  | MeshData (Cube (w, h, d)), XYZ cx cy cz =>
      cx - w / 2 == x0 /\ cx + w / 2 == x1 /\
      cy - h / 2 == y0 /\ cy + h / 2 == y1 /\
      cz - d / 2 == z0 /\ cz + d / 2 == z1
  | _, _ => False
  end.

(** The frame width [create_bezel] uses. *)
Definition frame_w : Q := 0.04.

(** Componentwise equality of the tuples [anchor_to_panel] returns. *)
Definition eq4 (a b : Q * Q * Q * Q) : Prop :=
  let '(a1, a2, a3, a4) := a in
  let '(b1, b2, b3, b4) := b in
  a1 == b1 /\ a2 == b2 /\ a3 == b3 /\ a4 == b4.

Definition add4 (a b : Q * Q * Q * Q) : Q * Q * Q * Q :=
  let '(a1, a2, a3, a4) := a in
  let '(b1, b2, b3, b4) := b in
  (a1 + b1, a2 + b2, a3 + b3, a4 + b4).

Definition scale4 (k : Q) (a : Q * Q * Q * Q) : Q * Q * Q * Q :=
  let '(a1, a2, a3, a4) := a in
  (k * a1, k * a2, k * a3, k * a4).

End Box.

(** * What the modifier loop should leave behind *)

Module Settled.
Import Blender.

(** [o] with its modifier stack and its baked modifiers replaced. *)
Definition set_mods (stack baked : list (Modifier Q)) (o : Panel.Object) : Panel.Object :=
  {| name := name o; data := data o;
     location := location o; rotation := rotation o;
     parent := parent o;
     modifiers := stack; applied := baked;
     materials := materials o |}.

(** An object as [construct_panel] makes them: nothing baked yet, and at
    most one modifier, on meshes only. *)
Definition fresh (o : Panel.Object) : bool :=
  match applied o, modifiers o, type o with
  | [], [], _ => true
  | [], [_], MESH => true
  | _, _, _ => false
  end.

Section Host.
Variable apply_fails : nat -> string -> bool.

Definition fails (i : nat) (m : Modifier Q) : bool := apply_fails i (mod_name m).

(** The object at index [i] once every modifier of a mesh has had its
    turn: those the host refused stay on the stack, all the others are
    baked, in stack order. *)
Definition settle (i : nat) (o : Panel.Object) : Panel.Object :=
  match type o, modifiers o with
  | MESH, _ :: _ =>
      set_mods (filter (fails i) (modifiers o))
        (applied o ++ filter (fun m => negb (fails i m)) (modifiers o)) o
  | _, _ => o
  end.

Definition settle_all (k : nat) (objs : list Panel.Object) : list Panel.Object :=
  map (fun '(i, o) => settle i o) (combine (seq k (List.length objs)) objs).

End Host.

End Settled.

(** * What the scale loops should produce *)

Module Scale.
Local Open Scope Q_scope.

(** The value a scale loop holds after [k] additions of [step]. *)
Fixpoint loop_value (start step : Q) (k : nat) : Q :=
  match k with
  | O => start
  | S k' => loop_value (start + step) step k'
  end.

(** How often a scale loop with a positive step runs: the number of [k]
    with [start + k * step <= limit]. *)
Definition iterations (start limit step : Q) : nat :=
  if Qle_bool start limit then S (Z.to_nat (Qfloor ((limit - start) / step)))
  else O.

(** What [n] iterations from [value] and [index] create, when the body
    creates [f value index] (if anything) without failing. *)
Fixpoint collect {A : Type} (f : Q -> nat -> option A) (step : Q)
  (n : nat) (value : Q) (index : nat) : list A :=
  match n with
  | O => []
  | S n' =>
      match f value index with
      | Some o => o :: collect f step n' (value + step) (S index)
      | None => collect f step n' (value + step) index
      end
  end.

(** What a loop body creates at a value, if it returns normally. *)
Definition made {A : Type} (body : Q -> nat -> Run.R (option A))
  (value : Q) (index : nat) : option A :=
  match body value index with
  | Some (Py.Ok r) => r
  | _ => None
  end.

(** Whether a zone is given and not empty. *)
Definition zone_drawn (zone : option (Q * Q)) : bool :=
  match zone with
  | Some (z0, z1) => Py.ltb z0 z1
  | None => false
  end.

Definition zone_names : list (string * option (Q * Q)) -> list string :=
  flat_map (fun '(name, zone) => if zone_drawn zone then [name] else []).

End Scale.

(** * Sample configurations *)

Module Samples.
Local Open Scope Q_scope.
Local Open Scope string_scope.

(** An arc gauge with the scale [min_value .. max_value] and the given
    tick intervals, everything else as in the default configuration. *)
Definition arc_scale (min_value max_value major minor : Q) : ArcGauge.GaugeConfig :=
  let d := ArcGauge.default_config in
  {| ArcGauge.name := ArcGauge.name d; ArcGauge.label := ArcGauge.label d;
     ArcGauge.units := ArcGauge.units d;
     ArcGauge.radius := ArcGauge.radius d; ArcGauge.depth := ArcGauge.depth d;
     ArcGauge.bezel_width := ArcGauge.bezel_width d;
     ArcGauge.min_value := min_value; ArcGauge.max_value := max_value;
     ArcGauge.major_tick_interval := major; ArcGauge.minor_tick_interval := minor;
     ArcGauge.sweep_angle := ArcGauge.sweep_angle d;
     ArcGauge.start_angle := ArcGauge.start_angle d;
     ArcGauge.needle_length := ArcGauge.needle_length d;
     ArcGauge.needle_width := ArcGauge.needle_width d;
     ArcGauge.needle_pivot_offset := ArcGauge.needle_pivot_offset d;
     ArcGauge.zone_normal := ArcGauge.zone_normal d;
     ArcGauge.zone_warning := ArcGauge.zone_warning d;
     ArcGauge.zone_danger := ArcGauge.zone_danger d;
     ArcGauge.zone_width := ArcGauge.zone_width d;
     ArcGauge.label_size := ArcGauge.label_size d;
     ArcGauge.units_size := ArcGauge.units_size d;
     ArcGauge.number_size := ArcGauge.number_size d |}.

(** The default scale, with minor ticks switched off by a zero interval. *)
Definition no_minor_ticks : ArcGauge.GaugeConfig := arc_scale 100.0 700.0 100.0 0.

(** A scale from 0 to 1 with a minor tick every thousandth. *)
Definition fine_scale : ArcGauge.GaugeConfig := arc_scale 0 1 1 0.001.

End Samples.

(** * What a gauge part occupies *)

Module Extent.
Import Blender.
Local Open Scope Q_scope.

(** The interval of heights a box of the bar gauge occupies: [create_box]
    lays the mesh out from [-height / 2] to [height / 2] about the object's
    origin, or from 0 to [height] with [center_bottom]. *)
Definition y_extent (o : BarGauge.Object) : option (Q * Q) :=
  match data o, location o with
  | MeshData (Box _ h _ center_bottom), XYZ _ y _ =>
      if center_bottom then Some (y, y + h) else Some (y - h / 2, y + h / 2)
  | _, _ => None
  end.

(** The angles between which an arc mesh of the arc gauge runs. *)
Definition arc_extent (o : ArcGauge.Object) : option (Q * Q) :=
  match data o with
  | MeshData (Arc _ _ start_angle end_angle _ _) => Some (start_angle, end_angle)
  | _ => None
  end.

End Extent.

(** * Names and parents of the scale objects *)

Module ScaleNames.
Import Blender.

(** [objs] carry the names [prefix ++ "0"], [prefix ++ "1"], ... in order. *)
Definition counts_up (prefix : string) (objs : list (Object Q)) : Prop :=
  map (@name Q) objs
  = map (fun i => (prefix ++ Py.str (Z.of_nat i))%string) (seq 0 (List.length objs)).

(** The number of values [start, start + step, ...] up to [limit], for
    [start <= limit] and a positive step. *)
Definition steps (start limit step : Q) : nat :=
  S (Z.to_nat (Qfloor ((limit - start) / step))).

(** [o] is parented to [p]. *)
Definition child_of (p o : Object Q) : Prop := parent o = Some (name p).

End ScaleNames.

(** * Reading the render script's scene *)

Module RenderSpec.
Import Blender.
Local Open Scope string_scope.

(** A candidate directory the loop of [find_output_dir] settles on: it
    exists, or its parent exists and [os.makedirs] creates it. *)
Definition usable (env : Render.Env) (path : Render.Path) : bool :=
  Render.isdir env path
  || (Render.isdir env (Render.dirname path) && negb (Render.makedirs_fails env path)).

(** Where [find_output_dir] ends up when no candidate is usable. *)
Definition fallback (env : Render.Env) : Render.Path :=
  match Render.blend_path env with
  | _ :: _ => Render.dirname (Render.blend_path env)
  | [] => Render.join (Render.home env) ["Desktop"]
  end.

Definition cameras (objects : list Render.Object) : list Render.Object :=
  filter Render.is_camera objects.

Definition others (objects : list Render.Object) : list Render.Object :=
  filter (fun o => negb (Render.is_camera o)) objects.



End RenderSpec.

(** * Reading the panel's scene *)

Module PanelSpec.
Import Blender.
Local Open Scope Q_scope.
Local Open Scope string_scope.

Definition init : Panel.State := {| Panel.objects := []; Panel.active := None |}.

(** The scene [build_panel] has constructed when it reaches the modifier
    loop. *)
Definition built : Panel.State :=
  match Panel.construct_panel init with
  | Py.Ok (_, s) => s
  | Py.Raised _ => init
  end.

(** The key, fill and rim lights, as [build_panel] adds them. *)
Definition lights : list Panel.Object :=
  [ Panel.light "KeyLight" 500 15.0
      (Panel.PANEL_WIDTH / 2) (Panel.PANEL_HEIGHT / 2) 5.0 Panel.panel_root;
    Panel.light "FillLight" 150 10.0
      (Panel.PANEL_WIDTH / 2) (- 2.0) 3.0 Panel.panel_root;
    Panel.light "RimLight" 200 12.0
      (Panel.PANEL_WIDTH / 2) (Panel.PANEL_HEIGHT + 2.0) 4.0 Panel.panel_root ].

(** Two objects that differ in their modifier stacks at most. *)
Definition same_layout (o o' : Panel.Object) : Prop :=
  name o' = name o /\ data o' = data o /\ location o' = location o /\
  rotation o' = rotation o /\ parent o' = parent o /\ materials o' = materials o.

Definition is_root (o : Panel.Object) : bool :=
  String.eqb (name o) "ReactorOperatorPanel".

Definition child_of_root (o : Panel.Object) : bool :=
  match parent o with
  | Some p => String.eqb p "ReactorOperatorPanel"
  | None => false
  end.

(** A box within the plate: inside the footprint of the panel, not below
    the back of the plate and not above the bezels.  A label: its origin
    over the footprint. *)
Definition within_plate (o : Panel.Object) : bool :=
  match data o, location o with
  | MeshData (Cube (w, h, d)), XYZ cx cy cz =>
      Qle_bool 0 (cx - w / 2) && Qle_bool (cx + w / 2) Panel.PANEL_WIDTH
      && Qle_bool 0 (cy - h / 2) && Qle_bool (cy + h / 2) Panel.PANEL_HEIGHT
      && Qle_bool (- Panel.PANEL_DEPTH) (cz - d / 2)
      && Qle_bool (cz + d / 2) Panel.BEZEL_DEPTH
  | TextCurve _ _ _, XYZ x y z =>
      Qle_bool 0 x && Qle_bool x Panel.PANEL_WIDTH
      && Qle_bool 0 y && Qle_bool y Panel.PANEL_HEIGHT
  | NoData, _ => true
  | _, _ => false
  end.

(** [Box.spans], decided. *)
Definition spans_b (o : Panel.Object) (x0 x1 y0 y1 z0 z1 : Q) : bool :=
  match data o, location o with
  | MeshData (Cube (w, h, d)), XYZ cx cy cz =>
      Qeq_bool (cx - w / 2) x0 && Qeq_bool (cx + w / 2) x1
      && Qeq_bool (cy - h / 2) y0 && Qeq_bool (cy + h / 2) y1
      && Qeq_bool (cz - d / 2) z0 && Qeq_bool (cz + d / 2) z1
  | _, _ => false
  end.

(** The scene holds a bezel called [name] around the rectangle
    [x, x + w] x [y, y + h]: its four bars on the panel surface and its
    display recess below it. *)
Definition bezel_around (objs : list Panel.Object) (name : string) (x y w h : Q) : Prop :=
  exists top bot left right display,
    get objs (name ++ "_top") = Some top /\
    get objs (name ++ "_bot") = Some bot /\
    get objs (name ++ "_left") = Some left /\
    get objs (name ++ "_right") = Some right /\
    get objs (name ++ "_display") = Some display /\
    Box.spans top x (x + w) (y + h - Box.frame_w) (y + h) 0 Panel.BEZEL_DEPTH /\
    Box.spans bot x (x + w) y (y + Box.frame_w) 0 Panel.BEZEL_DEPTH /\
    Box.spans left x (x + Box.frame_w) y (y + h) 0 Panel.BEZEL_DEPTH /\
    Box.spans right (x + w - Box.frame_w) (x + w) y (y + h) 0 Panel.BEZEL_DEPTH /\
    Box.spans display (x + Box.frame_w) (x + w - Box.frame_w)
      (y + Box.frame_w) (y + h - Box.frame_w) (- Panel.RECESS_DEPTH) 0.

Definition part_b (objs : list Panel.Object) (name : string)
  (x0 x1 y0 y1 z0 z1 : Q) : bool :=
  match get objs name with
  | Some o => spans_b o x0 x1 y0 y1 z0 z1
  | None => false
  end.

Definition bezel_b (objs : list Panel.Object) (name : string) (x y w h : Q) : bool :=
  part_b objs (name ++ "_top") x (x + w) (y + h - Box.frame_w) (y + h) 0 Panel.BEZEL_DEPTH
  && part_b objs (name ++ "_bot") x (x + w) y (y + Box.frame_w) 0 Panel.BEZEL_DEPTH
  && part_b objs (name ++ "_left") x (x + Box.frame_w) y (y + h) 0 Panel.BEZEL_DEPTH
  && part_b objs (name ++ "_right") (x + w - Box.frame_w) (x + w) y (y + h)
       0 Panel.BEZEL_DEPTH
  && part_b objs (name ++ "_display") (x + Box.frame_w) (x + w - Box.frame_w)
       (y + Box.frame_w) (y + h - Box.frame_w) (- Panel.RECESS_DEPTH) 0.

(** The gauge columns of [build_panel]: [n] gauges of height [gauge_h]
    stacked downwards from [top], [gauge_padding] apart. *)
Definition gauge_h (region_h : Q) (n : nat) : Q :=
  (region_h - Panel.gauge_top_margin - Panel.gauge_padding
   - Panel.gauge_padding * (Panel.of_nat n - 1)) / Panel.of_nat n.

Definition gauge_y (region_y region_h : Q) (n i : nat) : Q :=
  region_y + region_h - Panel.gauge_top_margin
  - Panel.of_nat i * (gauge_h region_h n + Panel.gauge_padding)
  - gauge_h region_h n.

Definition column_b (objs : list Panel.Object) (prefix : string) (names : list string)
  (region_x region_y region_w region_h : Q) : bool :=
  forallb (fun '(i, gname) =>
             bezel_b objs (prefix ++ gname)
               (region_x + Panel.gauge_padding)
               (gauge_y region_y region_h (List.length names) i)
               (region_w - Panel.gauge_padding * 2)
               (gauge_h region_h (List.length names)))
    (Panel.enumerate names).

End PanelSpec.

(** * Reading the coolant loops *)

Module RCSSpec.
Import Blender.
Local Open Scope R_scope.

(** A quarter turn about the vessel's axis. *)
Definition quarter_turn (v : RCS.vec3) : RCS.vec3 :=
  let '(x, y, z) := v in (- y, x, z).

(** [o'] is the pipe [o] after a quarter turn about the vessel's axis: the
    same cylinder, its centre and its direction turned. *)
Definition turned (o o' : RCS.Object) : Prop :=
  data o' = data o /\
  RCS.xyz o' = quarter_turn (RCS.xyz o) /\
  exists d, rotation o = AlignZ d /\ rotation o' = AlignZ (quarter_turn d).

(** A part that stands upright. *)
Definition upright (p : RCS.Part) : Prop := part_rotation p = Euler 0 0 0.

(** The heights an upright part of a joined vessel occupies: a cylinder
    or a cone reaches half its depth either side of its centre, a sphere
    its radius times the scale applied along Z. *)
Definition z_extent (p : RCS.Part) : option (R * R) :=
  let '(_, _, z) := part_location p in
  match part_mesh p with
  | Cylinder _ depth _ => Some (z - depth / 2, z + depth / 2)
  | Cone _ _ depth _ => Some (z - depth / 2, z + depth / 2)
  | UVSphere radius _ _ =>
      match part_scale_z p with
      | Some s => Some (z - s * radius, z + s * radius)
      | None => Some (z - radius, z + radius)
      end
  | _ => None
  end.

(** The axis an upright part stands on. *)
Definition axis (p : RCS.Part) : R * R :=
  let '(x, y, _) := part_location p in (x, y).

Definition parts (o : RCS.Object) : list RCS.Part :=
  match data o with
  | JoinedMesh ps => ps
  | _ => []
  end.

(** No string occurs twice. *)
Fixpoint distinct (l : list string) : bool :=
  match l with
  | [] => true
  | x :: rest => negb (existsb (String.eqb x) rest) && distinct rest
  end.

Definition is_empty (o : RCS.Object) : bool :=
  match type o with EMPTY => true | _ => false end.

(** The children of the object called [p]. *)
Definition children (scene : list RCS.Object) (p : string) : list string :=
  map (@name R)
    (filter (fun o => match parent o with
                      | Some q => String.eqb q p
                      | None => false
                      end) scene).

End RCSSpec.

(** * bpy.data.materials *)

Module Store.
Local Open Scope Q_scope.
Local Open Scope string_scope.

Definition Color : Type := (Q * Q * Q * Q)%type.

(** What a [create_material] writes into the node tree of a material:
    the inputs of the Principled BSDF it sets. *)
Record Settings : Type := mkSettings {
  base_color : Color;
  metallic : Q;
  roughness : Q;
  emission : option (Color * Q);
  alpha : option Q
}.

(** A material datablock: the name the host filed it under, its node
    settings once a [create_material] has written them, and whether a
    script has switched it to alpha blending ([blend_method = 'BLEND'],
    [shadow_method = 'HASHED']). *)
Record Material : Type := mkMaterial {
  key : string;
  settings : option Settings;
  blend : bool
}.

(** [bpy.data.materials], in creation order.  A material is identified by
    its position: the scripts never remove one between creating it and
    attaching it. *)
Definition T : Type := list Material.

Definition keys (s : T) : list string := map key s.

(** The material a lookup by name finds: [bpy.data.materials.get(name)],
    [bpy.data.materials[name]]. *)
Fixpoint index_of (name : string) (s : T) : option nat :=
  match s with
  | [] => None
  | m :: rest =>
      if String.eqb (key m) name then Some O else option_map S (index_of name rest)
  end.

(** [name in bpy.data.materials]. *)
Definition contains (name : string) (s : T) : bool :=
  match index_of name s with
  | Some _ => true
  | None => false
  end.

Fixpoint set_settings (i : nat) (st : Settings) (s : T) : T :=
  match s, i with
  | [], _ => []
  | m :: rest, O => {| key := key m; settings := Some st; blend := blend m |} :: rest
  | m :: rest, S j => m :: set_settings j st rest
  end.

Fixpoint set_blend (i : nat) (s : T) : T :=
  match s, i with
  | [], _ => []
  | m :: rest, O => {| key := key m; settings := settings m; blend := true |} :: rest
  | m :: rest, S j => m :: set_blend j rest
  end.

Section Host.

(** The name the host files a new material under when the requested name
    is taken (Blender appends a numeric suffix). *)
Variable rename : list string -> string -> string.

(** [bpy.data.materials.new(name=name)]: a new datablock, under the
    requested name if that name is free. *)
Definition new (name : string) (s : T) : nat * T :=
  let k := if contains name s then rename (keys s) name else name in
  (List.length s, (s ++ [ {| key := k; settings := None; blend := false |} ])%list).

(** ** The gauge scripts *)

(** [create_material] of the arc gauge script: the material of that name
    if there is one, a new one otherwise; its node tree is rebuilt either
    way. *)
Definition arc_create_material (name : string) (color : Color)
  (metallic roughness emission : Q) (s : T) : nat * T :=
  let '(mat, s) :=
    match index_of name s with
    | Some mat => (mat, s)
    | None => new name s
    end in
  (mat,
   set_settings mat
     {| base_color := color; metallic := metallic; roughness := roughness;
        emission := if Py.ltb 0 emission then Some (color, emission) else None;
        alpha := None |} s).

(** [create_material] of the bar gauge script, which also sets Alpha and,
    for an alpha below 1, the blend mode. *)
Definition bar_create_material (name : string) (color : Color)
  (metallic roughness emission alpha : Q) (s : T) : nat * T :=
  let '(mat, s) :=
    match index_of name s with
    | Some mat => (mat, s)
    | None => new name s
    end in
  let s :=
    set_settings mat
      {| base_color := color; metallic := metallic; roughness := roughness;
         emission := if Py.ltb 0 emission then Some (color, emission) else None;
         alpha := Some alpha |} s in
  (mat, if Py.ltb alpha 1.0 then set_blend mat s else s).

(** One [materials[slot] = create_material(name, color, ...)] of
    [create_gauge_materials] and [create_bar_gauge_materials]. *)
Record Call : Type := mkCall {
  slot : string;
  mat_name : string;
  color : Color;
  call_metallic : Q;
  call_roughness : Q;
  call_emission : Q;
  call_alpha : option Q
}.

Definition create (c : Call) (s : T) : nat * T :=
  match call_alpha c with
  | None =>
      arc_create_material (mat_name c) (color c)
        (call_metallic c) (call_roughness c) (call_emission c) s
  | Some a =>
      bar_create_material (mat_name c) (color c)
        (call_metallic c) (call_roughness c) (call_emission c) a s
  end.

(** The calls in order; the result is the [materials] dict, slot by slot. *)
Fixpoint run (calls : list Call) (s : T) : list (string * nat) * T :=
  match calls with
  | [] => ([], s)
  | c :: rest =>
      let '(mat, s) := create c s in
      let '(dict, s) := run rest s in
      ((slot c, mat) :: dict, s)
  end.

(** ** The coolant loop script *)

Definition opaque (c : Q * Q * Q) : Color := let '(r, g, b) := c in (r, g, b, 1.0).

(** [create_material] of the coolant loop script: always a new datablock. *)
Definition rcs_create_material (name : string) (base_color : Q * Q * Q)
  (metallic roughness : Q) (emission_color : option (Q * Q * Q))
  (emission_strength : Q) (s : T) : nat * T :=
  let '(mat, s) := new name s in
  (mat,
   set_settings mat
     {| base_color := opaque base_color; metallic := metallic; roughness := roughness;
        emission :=
          match emission_color with
          | Some e =>
              if Py.ltb 0 emission_strength then Some (opaque e, emission_strength)
              else None
          | None => None
          end;
        alpha := None |} s).

(** How a component attaches the material it has just created: directly
    ([obj.data.materials.append(mat)]), or through the name
    ([if name not in bpy.data.materials: append(mat)]
     [else: append(bpy.data.materials[name])]); [None] stands for the
    [KeyError] of the subscript. *)
Inductive Attach : Type := Direct | Shared.

Definition attach_shared (name : string) (mat : nat) (s : T) : option nat :=
  if negb (contains name s) then Some mat else index_of name s.

(** The [create_material] call of a component, and how the result is
    attached. *)
Record Component : Type := mkComponent {
  comp_material : string;
  comp_color : Q * Q * Q;
  comp_metallic : Q;
  comp_roughness : Q;
  comp_emission_color : option (Q * Q * Q);
  comp_emission_strength : Q;
  comp_attach : Attach
}.

Definition rcs_component (c : Component) (s : T) : option nat * T :=
  let '(mat, s) :=
    rcs_create_material (comp_material c) (comp_color c) (comp_metallic c)
      (comp_roughness c) (comp_emission_color c) (comp_emission_strength c) s in
  (match comp_attach c with
   | Direct => Some mat
   | Shared => attach_shared (comp_material c) mat s
   end, s).

Fixpoint rcs_run (cs : list Component) (s : T) : list (option nat) * T :=
  match cs with
  | [] => ([], s)
  | c :: rest =>
      let '(a, s) := rcs_component c s in
      let '(l, s) := rcs_run rest s in
      (a :: l, s)
  end.

Definition vessel_material : Component :=
  mkComponent "MAT_ReactorVessel" (0.44, 0.5, 0.56) 0.8 0.3 None 0.0 Direct.
Definition steam_generator_material : Component :=
  mkComponent "MAT_SteamGenerator" (0.75, 0.75, 0.75) 0.7 0.35 None 0.0 Shared.
Definition rcp_material : Component :=
  mkComponent "MAT_RCP" (0.3, 0.3, 0.35) 0.6 0.4 None 0.0 Shared.
Definition pressurizer_material : Component :=
  mkComponent "MAT_Pressurizer" (0.85, 0.7, 0.2) 0.7 0.3 None 0.0 Direct.
Definition hot_leg_material : Component :=
  mkComponent "MAT_HotLeg" (1.0, 0.27, 0.0) 0.6 0.35 None 0.0 Shared.
Definition crossover_leg_material : Component :=
  mkComponent "MAT_CrossoverLeg" (0.0, 0.8, 0.8) 0.6 0.35 None 0.0 Shared.
Definition cold_leg_material : Component :=
  mkComponent "MAT_ColdLeg" (0.12, 0.56, 1.0) 0.6 0.35 None 0.0 Shared.
Definition flow_arrow_material : Component :=
  mkComponent "MAT_FlowArrow" (0.0, 1.0, 0.3) 0.2 0.8 (Some (0.0, 1.0, 0.3)) 2.0 Direct.

(** The components of [main] up to the surge line, in the order they are
    created: the vessel, the steam generator and pump of each loop, the
    pressurizer, the three legs of each loop. *)
Definition main_components : list Component :=
  (vessel_material
     :: List.concat (repeat [steam_generator_material; rcp_material] 4)
     ++ pressurizer_material
     :: List.concat (repeat [hot_leg_material; crossover_leg_material; cold_leg_material] 4))%list.

(** The materials of [main]: what each component of [main_components] and
    the flow arrows get attached, what [create_surge_line] finds with
    [bpy.data.materials.get("MAT_HotLeg")], and the store at the end. *)
Definition rcs_main_materials (s : T) : list (option nat) * option nat * T :=
  let '(attached, s) := rcs_run main_components s in
  let surge := index_of "MAT_HotLeg" s in
  let '(arrows, s) := rcs_run [flow_arrow_material] s in
  ((attached ++ arrows)%list, surge, s).

End Host.

(** [materials[slot]]. *)
Definition lookup (dict : list (string * nat)) (slot : string) : option nat :=
  option_map snd (find (fun e => String.eqb (fst e) slot) dict).

(** The colours of [GaugeConfig]. *)
Record ArcColors : Type := mkArcColors {
  color_bezel : Color;
  color_face : Color;
  color_tick : Color;
  color_needle : Color;
  color_hub : Color;
  color_text : Color;
  color_zone_normal : Color;
  color_zone_warning : Color;
  color_zone_danger : Color
}.

Definition arc_default_colors : ArcColors :=
  {| color_bezel := (0.3, 0.3, 0.32, 1.0);
     color_face := (0.1, 0.1, 0.12, 1.0);
     color_tick := (0.9, 0.9, 0.9, 1.0);
     color_needle := (0.9, 0.2, 0.1, 1.0);
     color_hub := (0.2, 0.2, 0.22, 1.0);
     color_text := (0.9, 0.9, 0.9, 1.0);
     color_zone_normal := (0.2, 0.7, 0.3, 1.0);
     color_zone_warning := (0.9, 0.8, 0.2, 1.0);
     color_zone_danger := (0.9, 0.2, 0.2, 1.0) |}.

(** The calls of [create_gauge_materials(config)]. *)
Definition arc_calls (name : string) (c : ArcColors) : list Call :=
  [ mkCall "bezel" ("MAT_Gauge_Bezel_" ++ name) (color_bezel c) 0.8 0.3 0.0 None;
    mkCall "face" ("MAT_Gauge_Face_" ++ name) (color_face c) 0.0 0.8 0.0 None;
    mkCall "tick" ("MAT_Gauge_Tick_" ++ name) (color_tick c) 0.0 0.5 0.0 None;
    mkCall "needle" ("MAT_Gauge_Needle_" ++ name) (color_needle c) 0.1 0.4 0.3 None;
    mkCall "hub" ("MAT_Gauge_Hub_" ++ name) (color_hub c) 0.6 0.4 0.0 None;
    mkCall "text" ("MAT_Gauge_Text_" ++ name) (color_text c) 0.0 0.5 0.0 None;
    mkCall "zone_normal" ("MAT_Gauge_Zone_Normal_" ++ name) (color_zone_normal c)
      0.0 0.6 0.1 None;
    mkCall "zone_warning" ("MAT_Gauge_Zone_Warning_" ++ name) (color_zone_warning c)
      0.0 0.6 0.2 None;
    mkCall "zone_danger" ("MAT_Gauge_Zone_Danger_" ++ name) (color_zone_danger c)
      0.0 0.6 0.3 None ].

(** The colours of [BarGaugeConfig] that [create_bar_gauge_materials]
    reads. *)
Record BarColors : Type := mkBarColors {
  color_housing : Color;
  color_background : Color;
  color_tube : Color;
  color_fill : Color;
  color_bulb : Color;
  bar_color_tick : Color;
  bar_color_text : Color;
  bar_color_zone_normal : Color;
  bar_color_zone_warning : Color;
  bar_color_zone_danger : Color
}.

Definition bar_default_colors : BarColors :=
  {| color_housing := (0.25, 0.25, 0.28, 1.0);
     color_background := (0.08, 0.08, 0.10, 1.0);
     color_tube := (0.6, 0.7, 0.8, 0.3);
     color_fill := (0.2, 0.6, 0.9, 1.0);
     color_bulb := (0.8, 0.2, 0.2, 1.0);
     bar_color_tick := (0.85, 0.85, 0.85, 1.0);
     bar_color_text := (0.9, 0.9, 0.9, 1.0);
     bar_color_zone_normal := (0.2, 0.7, 0.3, 1.0);
     bar_color_zone_warning := (0.9, 0.8, 0.2, 1.0);
     bar_color_zone_danger := (0.9, 0.2, 0.2, 1.0) |}.

Definition alpha_of (c : Color) : Q := let '(_, _, _, a) := c in a.

(** The calls of [create_bar_gauge_materials(config)]; [alpha] defaults
    to 1.0. *)
Definition bar_calls (name : string) (c : BarColors) : list Call :=
  [ mkCall "housing" ("MAT_BarGauge_Housing_" ++ name) (color_housing c)
      0.6 0.4 0.0 (Some 1.0);
    mkCall "background" ("MAT_BarGauge_Background_" ++ name) (color_background c)
      0.0 0.9 0.0 (Some 1.0);
    mkCall "tube" ("MAT_BarGauge_Tube_" ++ name) (color_tube c)
      0.0 0.1 0.0 (Some (alpha_of (color_tube c)));
    mkCall "fill" ("MAT_BarGauge_Fill_" ++ name) (color_fill c) 0.0 0.3 0.2 (Some 1.0);
    mkCall "bulb" ("MAT_BarGauge_Bulb_" ++ name) (color_bulb c) 0.0 0.3 0.3 (Some 1.0);
    mkCall "tick" ("MAT_BarGauge_Tick_" ++ name) (bar_color_tick c) 0.0 0.5 0.0 (Some 1.0);
    mkCall "text" ("MAT_BarGauge_Text_" ++ name) (bar_color_text c) 0.0 0.5 0.0 (Some 1.0);
    mkCall "zone_normal" ("MAT_BarGauge_Zone_Normal_" ++ name) (bar_color_zone_normal c)
      0.0 0.6 0.15 (Some 1.0);
    mkCall "zone_warning" ("MAT_BarGauge_Zone_Warning_" ++ name)
      (bar_color_zone_warning c) 0.0 0.6 0.2 (Some 1.0);
    mkCall "zone_danger" ("MAT_BarGauge_Zone_Danger_" ++ name)
      (bar_color_zone_danger c) 0.0 0.6 0.3 (Some 1.0) ].

Section Scripts.
Variable rename : list string -> string -> string.

(** [create_gauge_materials] and [create_bar_gauge_materials]. *)
Definition create_gauge_materials (name : string) (c : ArcColors) (s : T)
  : list (string * nat) * T :=
  run rename (arc_calls name c) s.

Definition create_bar_gauge_materials (name : string) (c : BarColors) (s : T)
  : list (string * nat) * T :=
  run rename (bar_calls name c) s.

End Scripts.

(** The settings a call writes. *)
Definition written (c : Call) : Settings :=
  {| base_color := color c; metallic := call_metallic c; roughness := call_roughness c;
     emission := if Py.ltb 0 (call_emission c) then Some (color c, call_emission c)
                 else None;
     alpha := call_alpha c |}.

Definition settings_at (s : T) (i : nat) : option Settings :=
  match nth_error s i with
  | Some m => settings m
  | None => None
  end.

Definition key_at (s : T) (i : nat) : option string :=
  option_map key (nth_error s i).

(** What a [materials] dict records about the call that filled a slot:
    the material a lookup of the call's name finds, with the call's
    settings. *)
Definition resolved (s : T) (c : Call) (e : string * nat) : Prop :=
  fst e = slot c /\
  index_of (mat_name c) s = Some (snd e) /\
  settings_at s (snd e) = Some (written c).

(** What a [create_..._materials] made of the store [s]: every slot of the
    returned dict holds the material a lookup of the call's name finds, with
    the call's settings; the names that were missing have been added, as
    requested; and no other material has been rewritten. *)
Definition fills (calls : list Call) (s : T) (r : list (string * nat) * T) : Prop :=
  (forall call, In call calls ->
     exists i, lookup (fst r) (slot call) = Some i /\
               index_of (mat_name call) (snd r) = Some i /\
               settings_at (snd r) i = Some (written call)) /\
  keys (snd r)
  = (keys s ++ filter (fun n => negb (contains n s)) (map mat_name calls))%list /\
  (forall j, (forall call, In call calls -> index_of (mat_name call) (snd r) <> Some j) ->
             settings_at (snd r) j = settings_at s j).

(** What a component of the coolant loop got attached, seen from the
    store [s] at the end of the run: some material, and for a component
    that attaches through the name, the one a lookup of that name finds. *)
Definition attached_as (s : T) (c : Component) (a : option nat) : Prop :=
  a <> None /\
  (comp_attach c = Shared -> a = index_of (comp_material c) s).

Definition option_nat_dec (a b : option nat) : {a = b} + {a <> b}.
Proof. decide equality. apply Nat.eq_dec. Defined.

(** The distinct materials among those attached. *)
Definition distinct (l : list (option nat)) : list (option nat) :=
  nodup option_nat_dec l.

Definition blend_at (s : T) (i : nat) : bool :=
  match nth_error s i with
  | Some m => blend m
  | None => false
  end.

End Store.

(** * Materials on the parts of a gauge *)

Module GaugeMaterials.
Import Blender Store.
Local Open Scope string_scope.

(** [m], the name of a material attached to a part of a gauge, is the name
    of the material in one of the slots of [r], the result of the gauge's
    [create_..._materials], other than the slot ['text']. *)
Definition carried (calls : list Call) (r : list (string * nat) * Store.T) (m : string)
  : Prop :=
  exists call i,
    In call calls /\ slot call <> "text" /\ mat_name call = m /\
    lookup (fst r) (slot call) = Some i /\
    key_at (snd r) i = Some m /\
    settings_at (snd r) i = Some (written call).

(** Every material attached to [o] is one of those. *)
Definition dressed (calls : list Call) (r : list (string * nat) * Store.T) (o : Object Q)
  : Prop :=
  Forall (carried calls r) (materials o).

Definition bare (o : Object Q) : Prop := materials o = [].

End GaugeMaterials.

(** * The meshes the gauge scripts build with bmesh *)

Module Bmesh.

(** A mesh as bmesh holds it when [bm.to_mesh] is called: the vertices in
    the order of the [bm.verts.new] calls, and each face of a
    [bm.faces.new] call as the positions of its vertices in that order. *)
Record T (num : Type) : Type := mkMesh {
  verts : list (num * num * num);
  faces : list (list nat)
}.

(** The directed edges of a face, around its loop. *)
Definition edges (face : list nat) : list (nat * nat) :=
  match face with
  | [] => []
  | v :: rest => combine face (rest ++ [v])
  end.

Definition all_edges {num : Type} (m : T num) : list (nat * nat) :=
  flat_map edges (faces m).

Definition edge_eqb (e f : nat * nat) : bool :=
  Nat.eqb (fst e) (fst f) && Nat.eqb (snd e) (snd f).

Definition occurrences (e : nat * nat) (l : list (nat * nat)) : nat :=
  List.length (filter (edge_eqb e) l).

(** Every face names vertices of the mesh. *)
Definition well_formed {num : Type} (m : T num) : bool :=
  forallb (forallb (fun v => Nat.ltb v (List.length (verts m)))) (faces m).

(** A closed surface with one winding: every edge of a face runs along
    exactly one other face, in the opposite direction. *)
Definition closed {num : Type} (m : T num) : bool :=
  well_formed m
  && forallb (fun e => Nat.eqb (occurrences e (all_edges m)) 1
                       && Nat.eqb (occurrences (snd e, fst e) (all_edges m)) 1)
       (all_edges m).

(** ** BlenderTemperatureGauge_v1.py *)

Module Bar.
Local Open Scope Q_scope.

Definition create_box (width height depth : Q) (center_bottom : bool) : T Q :=
  let hw := width / 2 in
  let hh := height / 2 in
  let hd := depth / 2 in
  let y_offset := if center_bottom then hh else 0 in
  {| verts :=
       [ (- hw, - hh + y_offset, - hd);
         (hw, - hh + y_offset, - hd);
         (hw, hh + y_offset, - hd);
         (- hw, hh + y_offset, - hd);
         (- hw, - hh + y_offset, hd);
         (hw, - hh + y_offset, hd);
         (hw, hh + y_offset, hd);
         (- hw, hh + y_offset, hd) ];
     faces :=
       [ [0; 1; 2; 3]; [4; 7; 6; 5]; [0; 4; 5; 1];
         [2; 6; 7; 3]; [0; 3; 7; 4]; [1; 5; 6; 2] ]%nat |}.

Definition create_rect_verts (hw hh z : Q) : list (Q * Q * Q) :=
  [ (- hw, - hh, z); (hw, - hh, z); (hw, hh, z); (- hw, hh, z) ].

(** The four rectangles take the positions 0-3 (outer front), 4-7 (outer
    back), 8-11 (inner front) and 12-15 (inner back). *)
Definition create_tube_outline (width height thickness depth : Q) : T Q :=
  let hw_outer := width / 2 in
  let hh_outer := height / 2 in
  let hw_inner := hw_outer - thickness in
  let hh_inner := hh_outer - thickness in
  let hd := depth / 2 in
  let outer_front := fun i => i in
  let outer_back := fun i => (4 + i)%nat in
  let inner_front := fun i => (8 + i)%nat in
  let inner_back := fun i => (12 + i)%nat in
  let next := fun i => ((i + 1) mod 4)%nat in
  {| verts :=
       (create_rect_verts hw_outer hh_outer hd
        ++ create_rect_verts hw_outer hh_outer (- hd)
        ++ create_rect_verts hw_inner hh_inner hd
        ++ create_rect_verts hw_inner hh_inner (- hd))%list;
     faces :=
       (map (fun i => [outer_front i; outer_front (next i);
                       inner_front (next i); inner_front i]) (seq 0 4)
        ++ map (fun i => [outer_back (next i); outer_back i;
                          inner_back i; inner_back (next i)]) (seq 0 4)
        ++ map (fun i => [outer_front i; outer_back i;
                          outer_back (next i); outer_front (next i)]) (seq 0 4)
        ++ map (fun i => [inner_front (next i); inner_back (next i);
                          inner_back i; inner_front i]) (seq 0 4))%list |}.

(** The vertices behind the mesh of a part, for the meshes without
    curvature. *)
Definition geometry (m : Blender.Mesh Q) : option (T Q) :=
  match m with
  | Blender.Box width height depth center_bottom =>
      Some (create_box width height depth center_bottom)
  | Blender.TubeOutline width height thickness depth =>
      Some (create_tube_outline width height thickness depth)
  | _ => None
  end.

(** Where the vertices of an object stand in the gauge: the mesh scaled by
    [scale_y] along Y about the object's origin, at the object's location.
    The parts of the bar gauge are not rotated, and their parent, the
    root empty, stays at the origin. *)
Definition world (o : BarGauge.Object) (scale_y : Q) : option (list (Q * Q * Q)) :=
  match Blender.data o, Blender.location o with
  | Blender.MeshData m, Blender.XYZ lx ly lz =>
      option_map
        (fun g => map (fun '(x, y, z) => (lx + x, ly + scale_y * y, lz + z)) (verts g))
        (geometry m)
  | _, _ => None
  end.

(** The inner rectangle of a tube outline, front and back. *)
Definition hole (vs : list (Q * Q * Q)) : list (Q * Q * Q) := skipn 8 vs.

End Bar.

(** ** BlenderArcGauge_v1.py *)

Module Arc.

(** The needle: a wedge from a base of the needle's width, 0.05 behind
    the pivot, to a tip at [length]. *)
Definition create_needle (length width depth : Q) : T Q :=
  let half_depth := (depth / 2)%Q in
  let base_width := width in
  {| verts :=
       [ (- base_width / 2, - 0.05, half_depth);
         (base_width / 2, - 0.05, half_depth);
         (- base_width / 2, - 0.05, - half_depth);
         (base_width / 2, - 0.05, - half_depth);
         (0, length, half_depth);
         (0, length, - half_depth) ]%Q;
     faces := [ [0; 1; 4]; [3; 2; 5]; [0; 4; 5; 2]; [1; 3; 5; 4]; [0; 2; 3; 1] ]%nat |}.

Local Open Scope R_scope.

(** A vertex turned about the Z axis, as a rotation [Euler 0 0 angle] of
    its object turns it. *)
Definition rotate_z (angle : R) (v : R * R * R) : R * R * R :=
  let '(x, y, z) := v in
  (x * cos angle - y * sin angle, x * sin angle + y * cos angle, z).

Definition to_R (v : Q * Q * Q) : R * R * R :=
  let '(x, y, z) := v in (Q2R x, Q2R y, Q2R z).

(** Column [i] of an arc takes the positions [4 i] (inner front),
    [4 i + 1] (outer front), [4 i + 2] (inner back), [4 i + 3] (outer
    back).  [angle_range / segments] raises on [segments = 0]. *)
Definition create_arc_mesh (inner_radius outer_radius start_angle end_angle : R)
  (segments : nat) (depth : R) : Py.outcome (T R) :=
  match segments with
  | O => Py.Raised Py.ZeroDivisionError
  | S _ =>
      let angle_range := end_angle - start_angle in
      let angle_step := angle_range / INR segments in
      let half_depth := depth / 2 in
      let inner_front := fun i => (4 * i)%nat in
      let outer_front := fun i => (4 * i + 1)%nat in
      let inner_back := fun i => (4 * i + 2)%nat in
      let outer_back := fun i => (4 * i + 3)%nat in
      Py.Ok
        {| verts :=
             flat_map
               (fun i =>
                  let angle := start_angle + INR i * angle_step in
                  let cos_a := cos angle in
                  let sin_a := sin angle in
                  [ (inner_radius * cos_a, inner_radius * sin_a, half_depth);
                    (outer_radius * cos_a, outer_radius * sin_a, half_depth);
                    (inner_radius * cos_a, inner_radius * sin_a, - half_depth);
                    (outer_radius * cos_a, outer_radius * sin_a, - half_depth) ])
               (seq 0 (segments + 1));
           faces :=
             (flat_map
                (fun i =>
                   [ [inner_front i; outer_front i; outer_front (i + 1); inner_front (i + 1)];
                     [inner_back (i + 1); outer_back (i + 1); outer_back i; inner_back i];
                     [outer_front i; outer_back i; outer_back (i + 1); outer_front (i + 1)];
                     [inner_front (i + 1); inner_back (i + 1); inner_back i; inner_front i] ]%nat)
                (seq 0 segments)
              ++ [ [inner_front 0; inner_back 0; outer_back 0; outer_front 0];
                   [outer_front segments; outer_back segments;
                    inner_back segments; inner_front segments] ]%nat)%list |}
  end.

(** The two centres take the positions 0 and 1, rim vertex [i] the
    positions [2 + 2 i] (front) and [3 + 2 i] (back).  With
    [segments = 0] no loop body runs, and nothing is divided. *)
Definition create_disk (radius : R) (segments : nat) (depth : R) : T R :=
  let half_depth := depth / 2 in
  let front := fun i => (2 + 2 * i)%nat in
  let back := fun i => (3 + 2 * i)%nat in
  {| verts :=
       (0, 0, half_depth) :: (0, 0, - half_depth)
       :: flat_map
            (fun i =>
               let angle := INR i / INR segments * 2 * PI in
               let x := radius * cos angle in
               let y := radius * sin angle in
               [ (x, y, half_depth); (x, y, - half_depth) ])
            (seq 0 segments);
     faces :=
       flat_map
         (fun i =>
            let next_i := ((i + 1) mod segments)%nat in
            [ [0; front i; front next_i];
              [1; back next_i; back i];
              [front i; back i; back next_i; front next_i] ]%nat)
         (seq 0 segments) |}.

(** The eight corners, in the order of the three nested loops. *)
Definition create_tick_mark (inner_radius outer_radius angle width depth : R) : T R :=
  let half_width := width / 2 in
  let half_depth := depth / 2 in
  let cos_a := cos angle in
  let sin_a := sin angle in
  let perp_x := - sin_a in
  let perp_y := cos_a in
  {| verts :=
       flat_map
         (fun r =>
            flat_map
              (fun w =>
                 map (fun d => (r * cos_a + w * perp_x, r * sin_a + w * perp_y, d))
                   [- half_depth; half_depth])
              [- half_width; half_width])
         [inner_radius; outer_radius];
     faces :=
       [ [1; 3; 7; 5]; [0; 4; 6; 2]; [4; 5; 7; 6];
         [0; 2; 3; 1]; [0; 1; 5; 4]; [2; 6; 7; 3] ]%nat |}.

End Arc.

End Bmesh.

(** * Properties *)

Unset Implicit Arguments.

(** ** Python's [min], [max] and comparisons *)

Section PyFacts.
Local Open Scope Q_scope.

Lemma ltb_true (a b : Q) : Py.ltb a b = true <-> a < b.
Proof.
  unfold Py.ltb. rewrite negb_true_iff.
  split; intro H.
  - apply Qnot_le_lt. intro Hle. apply Qle_bool_iff in Hle. congruence.
  - destruct (Qle_bool b a) eqn:E; [|reflexivity].
    apply Qle_bool_iff in E. exfalso. apply (Qlt_not_le _ _ H E).
Qed.

Lemma ltb_false (a b : Q) : Py.ltb a b = false <-> b <= a.
Proof.
  unfold Py.ltb. rewrite negb_false_iff. apply Qle_bool_iff.
Qed.

Lemma py_min_spec (a b : Q) :
  (b < a /\ Py.min a b = b) \/ (a <= b /\ Py.min a b = a).
Proof.
  unfold Py.min. destruct (Py.ltb b a) eqn:E.
  - left. split; [apply ltb_true; exact E | reflexivity].
  - right. split; [apply ltb_false; exact E | reflexivity].
Qed.

Lemma py_max_spec (a b : Q) :
  (a < b /\ Py.max a b = b) \/ (b <= a /\ Py.max a b = a).
Proof.
  unfold Py.max. destruct (Py.ltb a b) eqn:E.
  - left. split; [apply ltb_true; exact E | reflexivity].
  - right. split; [apply ltb_false; exact E | reflexivity].
Qed.

(** The clamp [max(0.0, min(1.0, x))] is the mathematical clamp to [0, 1]. *)
Lemma clamp_spec (x : Q) :
  Py.max 0.0 (Py.min 1.0 x) == Qmax 0 (Qmin 1 x).
Proof.
  destruct (py_min_spec 1.0 x) as [[H1 E1]|[H1 E1]];
  destruct (py_max_spec 0.0 (Py.min 1.0 x)) as [[H2 E2]|[H2 E2]];
  rewrite E2; rewrite ?E1 in *.
  - rewrite (Q.min_r 1 x) by lra. rewrite Q.max_r by lra. reflexivity.
  - rewrite (Q.min_r 1 x) by lra. rewrite Q.max_l by lra. reflexivity.
  - rewrite (Q.min_l 1 x) by lra. rewrite Q.max_r by lra. reflexivity.
  - exfalso. lra.
Qed.

Lemma clamp_bounds (x : Q) : 0 <= Qmax 0 (Qmin 1 x) <= 1.
Proof.
  split.
  - apply Q.le_max_l.
  - apply Q.max_lub; [lra | apply Q.le_min_l].
Qed.

Lemma truediv_ok (a b : Q) : ~ b == 0 -> Py.truediv a b = Py.Ok (a / b).
Proof.
  intro H. unfold Py.truediv.
  destruct (Qeq_bool b 0) eqn:E; [|reflexivity].
  apply Qeq_bool_iff in E. contradiction.
Qed.

Lemma truediv_zero (a b : Q) : b == 0 -> Py.truediv a b = Py.Raised Py.ZeroDivisionError.
Proof.
  intro H. unfold Py.truediv.
  apply Qeq_bool_iff in H. rewrite H. reflexivity.
Qed.

Lemma degToRad_pos : 0 < Py.degToRad.
Proof. reflexivity. Qed.

Lemma radians_mono (a b : Q) : a <= b -> Py.radians a <= Py.radians b.
Proof.
  intro H. unfold Py.radians.
  apply Qmult_le_compat_r; [exact H | apply Qlt_le_weak, degToRad_pos].
Qed.

End PyFacts.

(** ** The value conversions of the gauges (C1, C6) *)

Section ValueConversion.
Local Open Scope Q_scope.

Lemma value_to_angle_ok (v : Q) (c : ArcGauge.GaugeConfig) :
  ~ ArcGauge.max_value c - ArcGauge.min_value c == 0 ->
  ArcGauge.value_to_angle v c =
  Py.Ok (Py.radians
           (ArcGauge.start_angle c
            - Py.max 0.0 (Py.min 1.0 ((v - ArcGauge.min_value c)
                                      / (ArcGauge.max_value c - ArcGauge.min_value c)))
              * ArcGauge.sweep_angle c)).
Proof.
  intro H. unfold ArcGauge.value_to_angle.
  rewrite (truediv_ok _ _ H). reflexivity.
Qed.

Lemma value_to_normalized_ok (v : Q) (c : BarGauge.BarGaugeConfig) :
  ~ BarGauge.max_value c - BarGauge.min_value c == 0 ->
  BarGauge.value_to_normalized v c =
  Py.Ok (Py.max 0.0 (Py.min 1.0 ((v - BarGauge.min_value c)
                                 / (BarGauge.max_value c - BarGauge.min_value c)))).
Proof.
  intro H. unfold BarGauge.value_to_normalized.
  rewrite (truediv_ok _ _ H). reflexivity.
Qed.

Lemma interpolation_between (s w n d : Q) :
  0 < d -> 0 <= n <= 1 ->
  Qmin ((s - w) * d) (s * d) <= (s - n * w) * d <= Qmax ((s - w) * d) (s * d).
Proof.
  intros Hd [Hn0 Hn1].
  destruct (Qlt_le_dec w 0) as [Hw|Hw].
  - assert (0 <= - (n * w)) by nra.
    assert (0 <= n * w - w) by nra.
    rewrite Q.min_r, Q.max_l by nra. split; nra.
  - assert (0 <= n * w) by nra.
    assert (0 <= w - n * w) by nra.
    rewrite Q.min_l, Q.max_r by nra. split; nra.
Qed.

(** C1.  For a configuration with [min_value < max_value], [value_to_angle]
    returns [radians (start_angle - n * sweep_angle)], where [n] is the
    fraction [(v - min_value) / (max_value - min_value)] clamped to [0, 1]:
    a linear interpolation, whose result lies between
    [radians (start_angle - sweep_angle)] and [radians start_angle]. *)
Theorem value_to_angle_interpolates (v : Q) (c : ArcGauge.GaugeConfig) :
  ArcGauge.min_value c < ArcGauge.max_value c ->
  let n := Qmax 0 (Qmin 1 ((v - ArcGauge.min_value c)
                           / (ArcGauge.max_value c - ArcGauge.min_value c))) in
  let lo := Py.radians (ArcGauge.start_angle c - ArcGauge.sweep_angle c) in
  let hi := Py.radians (ArcGauge.start_angle c) in
  exists a : Q,
    ArcGauge.value_to_angle v c = Py.Ok a /\
    a == Py.radians (ArcGauge.start_angle c - n * ArcGauge.sweep_angle c) /\
    0 <= n <= 1 /\
    Qmin lo hi <= a <= Qmax lo hi.
Proof.
  intros Hlt n lo hi.
  assert (Hne : ~ ArcGauge.max_value c - ArcGauge.min_value c == 0) by lra.
  rewrite (value_to_angle_ok v c Hne).
  eexists. split; [reflexivity|].
  pose proof (clamp_spec ((v - ArcGauge.min_value c)
                          / (ArcGauge.max_value c - ArcGauge.min_value c))) as Hc.
  fold n in Hc.
  pose proof (clamp_bounds ((v - ArcGauge.min_value c)
                            / (ArcGauge.max_value c - ArcGauge.min_value c))) as Hb.
  fold n in Hb.
  set (m := Py.max 0.0 _) in *.
  assert (Ha : Py.radians (ArcGauge.start_angle c - m * ArcGauge.sweep_angle c)
               == Py.radians (ArcGauge.start_angle c - n * ArcGauge.sweep_angle c)).
  { unfold Py.radians. rewrite Hc. reflexivity. }
  split; [exact Ha|]. split; [exact Hb|].
  rewrite Ha. subst lo hi. clearbody n. clear - Hb.
  apply interpolation_between; [apply degToRad_pos | exact Hb].
Qed.

(** An input for C1: the default gauge at 400 degrees Fahrenheit. *)
Lemma value_to_angle_interpolates_witness :
  ArcGauge.min_value ArcGauge.default_config < ArcGauge.max_value ArcGauge.default_config /\
  exists a : Q,
    ArcGauge.value_to_angle 400 ArcGauge.default_config = Py.Ok a /\
    a == Py.radians (225 - (1 # 2) * 270).
Proof.
  split; [reflexivity|].
  destruct (value_to_angle_interpolates 400 ArcGauge.default_config)
    as [a [Ha [Heq _]]]; [reflexivity|].
  exists a. split; [exact Ha|].
  rewrite Heq. reflexivity.
Defined.

(** C6.  The two conversions fail in one way only, the division by
    [max_value - min_value]: they return a number when [max_value] differs
    from [min_value], and raise [ZeroDivisionError] exactly when the two
    are equal. *)
Theorem value_conversions_total (v : Q)
  (c : ArcGauge.GaugeConfig) (b : BarGauge.BarGaugeConfig) :
  ((exists a, ArcGauge.value_to_angle v c = Py.Ok a)
   <-> ~ ArcGauge.max_value c == ArcGauge.min_value c) /\
  (forall e, ArcGauge.value_to_angle v c = Py.Raised e
   <-> e = Py.ZeroDivisionError /\ ArcGauge.max_value c == ArcGauge.min_value c) /\
  ((exists a, BarGauge.value_to_normalized v b = Py.Ok a)
   <-> ~ BarGauge.max_value b == BarGauge.min_value b) /\
  (forall e, BarGauge.value_to_normalized v b = Py.Raised e
   <-> e = Py.ZeroDivisionError /\ BarGauge.max_value b == BarGauge.min_value b).
Proof.
  assert (A : forall x y : Q, x == y \/ ~ x == y).
  { intros x y. destruct (Qeq_dec x y); [left|right]; assumption. }
  repeat split.
  - intros [a Ha] Heq. unfold ArcGauge.value_to_angle in Ha.
    rewrite truediv_zero in Ha by lra. discriminate.
  - intro Hne. eexists. apply value_to_angle_ok. lra.
  - destruct (A (ArcGauge.max_value c) (ArcGauge.min_value c)) as [Heq|Hne].
    + unfold ArcGauge.value_to_angle in H. rewrite truediv_zero in H by lra.
      simpl in H. congruence.
    + rewrite value_to_angle_ok in H by lra. discriminate.
  - destruct (A (ArcGauge.max_value c) (ArcGauge.min_value c)) as [Heq|Hne];
      [exact Heq|].
    rewrite value_to_angle_ok in H by lra. discriminate.
  - intros [-> Heq]. unfold ArcGauge.value_to_angle.
    rewrite truediv_zero by lra. reflexivity.
  - intros [a Ha] Heq. unfold BarGauge.value_to_normalized in Ha.
    rewrite truediv_zero in Ha by lra. discriminate.
  - intro Hne. eexists. apply value_to_normalized_ok. lra.
  - destruct (A (BarGauge.max_value b) (BarGauge.min_value b)) as [Heq|Hne].
    + unfold BarGauge.value_to_normalized in H. rewrite truediv_zero in H by lra.
      simpl in H. congruence.
    + rewrite value_to_normalized_ok in H by lra. discriminate.
  - destruct (A (BarGauge.max_value b) (BarGauge.min_value b)) as [Heq|Hne];
      [exact Heq|].
    rewrite value_to_normalized_ok in H by lra. discriminate.
  - intros [-> Heq]. unfold BarGauge.value_to_normalized.
    rewrite truediv_zero by lra. reflexivity.
Qed.

End ValueConversion.

(** ** The panel's coordinate arithmetic (C7, C8) *)

Section PanelGeometry.
Local Open Scope Q_scope.

(** C8.  [anchor_to_panel] scales the horizontal anchors by
    [PANEL_WIDTH = 19.20] and the vertical ones by [PANEL_HEIGHT = 10.80];
    it is additive and commutes with multiplication by a scalar. *)
Theorem anchor_to_panel_linear (ax ay aw ah bx by_ bw bh k : Q) :
  Panel.PANEL_WIDTH == 19.20 /\ Panel.PANEL_HEIGHT == 10.80 /\
  Panel.anchor_to_panel ax ay aw ah
  = (ax * Panel.PANEL_WIDTH, ay * Panel.PANEL_HEIGHT,
     aw * Panel.PANEL_WIDTH, ah * Panel.PANEL_HEIGHT) /\
  Box.eq4 (Panel.anchor_to_panel (ax + bx) (ay + by_) (aw + bw) (ah + bh))
          (Box.add4 (Panel.anchor_to_panel ax ay aw ah)
                    (Panel.anchor_to_panel bx by_ bw bh)) /\
  Box.eq4 (Panel.anchor_to_panel (k * ax) (k * ay) (k * aw) (k * ah))
          (Box.scale4 k (Panel.anchor_to_panel ax ay aw ah)).
Proof.
  split; [reflexivity|]. split; [reflexivity|]. split; [reflexivity|].
  unfold Panel.anchor_to_panel, Box.eq4, Box.add4, Box.scale4.
  repeat split; ring.
Qed.

Lemma create_box_spans (name : string) (x y z w h d : Q)
  (material : option string) (bevel_width : Q) (parent : option string)
  (s : Panel.State) :
  exists o,
    Panel.create_box name x y z w h d material bevel_width parent s
    = Py.Ok (o, {| Panel.objects := (Panel.objects s ++ [o])%list;
                   Panel.active := Some (List.length (Panel.objects s)) |}) /\
    Box.spans o x (x + w) y (y + h) z (z + d).
Proof.
  eexists. split; [reflexivity|].
  unfold Box.spans. simpl. repeat split; field.
Qed.

(** C7.  [create_bezel] makes four frame bars that stand on the panel
    surface, from z = 0 up to z = [BEZEL_DEPTH], around a display box sunk
    from z = 0 down to z = -[RECESS_DEPTH]; the display box takes the
    rectangle left inside the frame, which lies within the outer rectangle
    [x, x + width] x [y, y + height]. *)
Theorem create_bezel_raised_frame (name : string) (x y width height : Q)
  (material parent : option string) (s : Panel.State) :
  exists top bot left right display s',
    Panel.create_bezel name x y width height material parent s
    = Py.Ok ([top; bot; left; right; display], s') /\
    Panel.objects s' = (Panel.objects s ++ [top; bot; left; right; display])%list /\
    Box.spans top x (x + width) (y + height - Box.frame_w) (y + height)
      0 Panel.BEZEL_DEPTH /\
    Box.spans bot x (x + width) y (y + Box.frame_w) 0 Panel.BEZEL_DEPTH /\
    Box.spans left x (x + Box.frame_w) y (y + height) 0 Panel.BEZEL_DEPTH /\
    Box.spans right (x + width - Box.frame_w) (x + width) y (y + height)
      0 Panel.BEZEL_DEPTH /\
    Box.spans display (x + Box.frame_w) (x + width - Box.frame_w)
      (y + Box.frame_w) (y + height - Box.frame_w) (- Panel.RECESS_DEPTH) 0 /\
    0 < Panel.BEZEL_DEPTH /\ 0 < Panel.RECESS_DEPTH /\
    x <= x + Box.frame_w /\ x + width - Box.frame_w <= x + width /\
    y <= y + Box.frame_w /\ y + height - Box.frame_w <= y + height.
Proof.
  do 6 eexists.
  split; [reflexivity|].
  split.
  { simpl. repeat rewrite <- app_assoc. reflexivity. }
  unfold Box.spans, Box.frame_w, Panel.BEZEL_DEPTH, Panel.RECESS_DEPTH. simpl.
  repeat split; try field; try reflexivity; try lra.
Qed.

End PanelGeometry.

(** ** The render script's output directory (C9) *)

Section RenderFacts.
Variable env : Render.Env.

Lemma find_output_dir_always (s : Render.State) :
  exists dir,
    Render.find_output_dir env s
    = (true, {| Render.objects := Render.objects s;
                Render.OUTPUT_DIR := Some dir;
                Render.filepath := Render.filepath s;
                Render.written := Render.written s |}).
Proof.
  unfold Render.find_output_dir.
  destruct (Render.first_usable env (Render.candidates env)) as [path|].
  - exists path. reflexivity.
  - destruct (Render.blend_path env) as [|c rest]; eexists; reflexivity.
Qed.

(** C9.  [find_output_dir] returns [True] whatever the file system looks
    like, and leaves a directory in [OUTPUT_DIR]; so [render_panel]
    returns [False] exactly when the scene data hold no object named
    "ReactorOperatorPanel". *)
Theorem render_panel_false_iff_no_panel (s : Render.State) :
  fst (Render.find_output_dir env s) = true /\
  (exists dir, Render.OUTPUT_DIR (snd (Render.find_output_dir env s)) = Some dir) /\
  ((exists s', Render.render_panel env s = Py.Ok (false, s'))
   <-> Blender.get (Render.objects s) "ReactorOperatorPanel" = None).
Proof.
  destruct (find_output_dir_always s) as [dir Hdir].
  split; [rewrite Hdir; reflexivity|].
  split; [exists dir; rewrite Hdir; reflexivity|].
  unfold Render.render_panel. rewrite Hdir.
  destruct (Blender.get (Render.objects s) "ReactorOperatorPanel") as [panel|].
  - split; [|discriminate].
    intros [s' H]. exfalso. simpl in H.
    unfold Render.setup_render_settings in H.
    destruct (Render.settings_fail env); simpl in H; [discriminate|].
    unfold Render.render in H.
    destruct (Render.render_fails env); simpl in H; discriminate.
  - split; [reflexivity|]. intros _. exists s. reflexivity.
Qed.

End RenderFacts.

(** ** The modifier loop of the panel script (C5) *)

Section ModifierLoop.
Import Blender.
Variable apply_fails : nat -> string -> bool.

Local Abbreviation fails := (Settled.fails apply_fails).
Local Abbreviation apply_one :=
  (fun m : Modifier Q => Panel.try_pass (Panel.modifier_apply apply_fails (mod_name m))).

Lemma update_nth_app {A : Type} (f : A -> A) (pre : list A) (x : A) (post : list A) :
  Panel.update_nth (List.length pre) f (pre ++ x :: post) = pre ++ f x :: post.
Proof.
  induction pre as [|p pre IH]; simpl; [reflexivity|].
  rewrite IH. reflexivity.
Qed.

Lemma nth_error_middle {A : Type} (pre : list A) (x : A) (post : list A) :
  nth_error (pre ++ x :: post) (List.length pre) = Some x.
Proof.
  induction pre as [|p pre IH]; simpl; [reflexivity | exact IH].
Qed.

Lemma has_name_self (m : Modifier Q) : Panel.has_name (mod_name m) m = true.
Proof. unfold Panel.has_name. apply String.eqb_refl. Qed.

Lemma filter_other_names (n : string) (l : list (Modifier Q)) :
  ~ In n (map (@mod_name Q) l) ->
  filter (fun m => negb (Panel.has_name n m)) l = l /\
  filter (Panel.has_name n) l = [].
Proof.
  induction l as [|m l IH]; intro Hn; simpl; [split; reflexivity|].
  simpl in Hn.
  assert (Hm : Panel.has_name n m = false).
  { unfold Panel.has_name. apply String.eqb_neq. intro E. apply Hn. left. exact E. }
  rewrite Hm. simpl.
  destruct IH as [IH1 IH2]; [intro H; apply Hn; right; exact H|].
  rewrite IH1, IH2. split; reflexivity.
Qed.

Lemma bake_distinct (m : Modifier Q) (kept rest : list (Modifier Q)) (cur : Panel.Object) :
  modifiers cur = kept ++ m :: rest ->
  NoDup (map (@mod_name Q) (kept ++ m :: rest)) ->
  Panel.bake (mod_name m) cur
  = Settled.set_mods (kept ++ rest) (applied cur ++ [m]) cur.
Proof.
  intros Hmods Hnd.
  rewrite map_app in Hnd. simpl in Hnd.
  pose proof (NoDup_remove_2 _ _ _ Hnd) as Hnot.
  assert (Hk : ~ In (mod_name m) (map (@mod_name Q) kept)).
  { intro H. apply Hnot. apply in_or_app. left. exact H. }
  assert (Hr : ~ In (mod_name m) (map (@mod_name Q) rest)).
  { intro H. apply Hnot. apply in_or_app. right. exact H. }
  destruct (filter_other_names _ _ Hk) as [Hk1 Hk2].
  destruct (filter_other_names _ _ Hr) as [Hr1 Hr2].
  unfold Panel.bake, Settled.set_mods. rewrite Hmods.
  rewrite !filter_app. simpl. rewrite has_name_self. simpl.
  rewrite Hk1, Hk2, Hr1, Hr2. reflexivity.
Qed.

(** One turn of the inner loop: a refusal by the host is swallowed and
    leaves the scene as it was. *)
Lemma apply_one_step (m : Modifier Q) (kept rest : list (Modifier Q))
  (cur : Panel.Object) (pre post : list Panel.Object) :
  modifiers cur = kept ++ m :: rest ->
  NoDup (map (@mod_name Q) (kept ++ m :: rest)) ->
  Panel.try_pass (Panel.modifier_apply apply_fails (mod_name m))
    {| Panel.objects := pre ++ cur :: post; Panel.active := Some (List.length pre) |}
  = Py.Ok (tt,
      {| Panel.objects :=
           pre ++ (if fails (List.length pre) m then cur
                   else Settled.set_mods (kept ++ rest) (applied cur ++ [m]) cur)
               :: post;
         Panel.active := Some (List.length pre) |}).
Proof.
  intros Hmods Hnd.
  unfold Panel.try_pass, Panel.modifier_apply, Settled.fails. simpl.
  rewrite nth_error_middle. rewrite Hmods.
  rewrite existsb_app. simpl. rewrite has_name_self.
  rewrite orb_true_r.
  destruct (apply_fails (List.length pre) (mod_name m)); [reflexivity|].
  rewrite update_nth_app.
  rewrite (bake_distinct _ _ _ _ Hmods Hnd). reflexivity.
Qed.

(** The inner loop on one object: failures leave the modifier on the
    stack, and the loop goes on to the next modifier. *)
Lemma inner_loop (mods kept : list (Modifier Q)) (cur : Panel.Object)
  (pre post : list Panel.Object) :
  modifiers cur = kept ++ mods ->
  NoDup (map (@mod_name Q) (kept ++ mods)) ->
  Panel.for_each mods apply_one
    {| Panel.objects := pre ++ cur :: post; Panel.active := Some (List.length pre) |}
  = Py.Ok (tt,
      {| Panel.objects :=
           pre ++ Settled.set_mods (kept ++ filter (fails (List.length pre)) mods)
                    (applied cur
                     ++ filter (fun m => negb (fails (List.length pre) m)) mods) cur
               :: post;
         Panel.active := Some (List.length pre) |}).
Proof.
  revert kept cur.
  induction mods as [|m rest IH]; intros kept cur Hmods Hnd.
  - simpl. unfold Panel.ret. rewrite !app_nil_r in *.
    rewrite <- Hmods. destruct cur; reflexivity.
  - change (Panel.for_each (m :: rest) apply_one)
      with (Panel.bind (apply_one m) (fun _ => Panel.for_each rest apply_one)).
    unfold Panel.bind. cbv beta.
    rewrite (apply_one_step m kept rest cur pre post Hmods Hnd).
    simpl filter.
    destruct (fails (List.length pre) m) eqn:Hf; simpl negb; cbv iota.
    + rewrite (IH (kept ++ [m]) cur).
      * rewrite <- app_assoc. reflexivity.
      * rewrite <- app_assoc. exact Hmods.
      * rewrite <- app_assoc. exact Hnd.
    + rewrite (IH kept).
      * unfold Settled.set_mods. simpl.
        rewrite <- app_assoc. reflexivity.
      * reflexivity.
      * rewrite map_app in *. simpl in Hnd. apply NoDup_remove_1 in Hnd. exact Hnd.
Qed.

Local Abbreviation loop_body :=
  (fun '(i, obj) => Panel.apply_object_modifiers apply_fails i obj).

(** The outer loop: every object gets its turn, whatever happened to the
    objects before it. *)
Lemma outer_loop (rest pre : list Panel.Object) (act : option nat) :
  (forall o, In o rest -> NoDup (map (@mod_name Q) (modifiers o))) ->
  exists act',
    Panel.for_each (combine (seq (List.length pre) (List.length rest)) rest) loop_body
      {| Panel.objects := pre ++ rest; Panel.active := act |}
    = Py.Ok (tt,
        {| Panel.objects := pre ++ Settled.settle_all apply_fails (List.length pre) rest;
           Panel.active := act' |}).
Proof.
  revert pre act.
  induction rest as [|o rest IH]; intros pre act Hnd.
  - exists act. reflexivity.
  - simpl List.length. simpl seq. simpl combine.
    change (Panel.for_each ((List.length pre, o) :: ?l) loop_body)
      with (Panel.bind (Panel.apply_object_modifiers apply_fails (List.length pre) o)
              (fun _ => Panel.for_each l loop_body)).
    assert (Hstep : exists act1,
      Panel.apply_object_modifiers apply_fails (List.length pre) o
        {| Panel.objects := pre ++ o :: rest; Panel.active := act |}
      = Py.Ok (tt,
          {| Panel.objects :=
               (pre ++ [Settled.settle apply_fails (List.length pre) o]) ++ rest;
             Panel.active := act1 |})).
    { unfold Panel.apply_object_modifiers, Settled.settle.
      destruct (type o);
        try (exists act; unfold Panel.ret; rewrite <- app_assoc; reflexivity).
      destruct (modifiers o) as [|m ms] eqn:Hm;
        [exists act; unfold Panel.ret; rewrite <- app_assoc; reflexivity|].
      exists (Some (List.length pre)).
      unfold Panel.bind, Panel.set_active. cbv beta iota. simpl Panel.objects.
      rewrite (inner_loop (m :: ms) [] o pre rest).
      - rewrite <- app_assoc. reflexivity.
      - exact Hm.
      - rewrite <- Hm. apply Hnd. left. reflexivity. }
    destruct Hstep as [act1 Hstep].
    unfold Panel.bind. rewrite Hstep.
    destruct (IH (pre ++ [Settled.settle apply_fails (List.length pre) o]) act1)
      as [act' Hrest].
    { intros o' Ho'. apply Hnd. right. exact Ho'. }
    exists act'.
    rewrite length_app in Hrest. simpl List.length in Hrest.
    rewrite Nat.add_1_r in Hrest. rewrite Hrest.
    rewrite <- app_assoc. reflexivity.
Qed.

Lemma apply_all_modifiers_settles (s : Panel.State) :
  (forall o, In o (Panel.objects s) -> NoDup (map (@mod_name Q) (modifiers o))) ->
  exists act',
    Panel.apply_all_modifiers apply_fails s
    = Py.Ok (tt, {| Panel.objects := Settled.settle_all apply_fails 0 (Panel.objects s);
                    Panel.active := act' |}).
Proof.
  intro Hnd. destruct s as [objs act]. simpl in Hnd.
  destruct (outer_loop objs [] act Hnd) as [act' H].
  exists act'. exact H.
Qed.

Lemma nth_error_settle_all (l : list Panel.Object) (k i : nat) :
  nth_error (Settled.settle_all apply_fails k l) i
  = option_map (Settled.settle apply_fails (k + i)) (nth_error l i).
Proof.
  revert k i. induction l as [|o l IH]; intros k i.
  - destruct i; reflexivity.
  - destruct i as [|i].
    + simpl. rewrite Nat.add_0_r. reflexivity.
    + unfold Settled.settle_all in *. simpl.
      rewrite (IH (S k) i). rewrite Nat.add_succ_r. reflexivity.
Qed.

Lemma fresh_spec (o : Panel.Object) :
  Settled.fresh o = true ->
  applied o = [] /\ NoDup (map (@mod_name Q) (modifiers o)) /\
  (modifiers o = [] \/ type o = MESH).
Proof.
  unfold Settled.fresh.
  destruct (applied o); [|discriminate].
  destruct (modifiers o) as [|m [|m' ms]].
  - intros _. repeat split; [constructor | left; reflexivity].
  - destruct (type o); try discriminate.
    intros _. repeat split; [|right; reflexivity].
    simpl. constructor; [intros []|constructor].
  - discriminate.
Qed.

Lemma settle_fresh (i : nat) (o : Panel.Object) :
  Settled.fresh o = true ->
  modifiers (Settled.settle apply_fails i o) = filter (fails i) (modifiers o) /\
  applied (Settled.settle apply_fails i o)
  = filter (fun m => negb (fails i m)) (modifiers o).
Proof.
  intro Hf. destruct (fresh_spec o Hf) as [Ha [_ Hm]].
  unfold Settled.settle.
  destruct Hm as [Hm|Hm].
  - rewrite Hm. destruct (type o); simpl; rewrite ?Hm, ?Ha; split; reflexivity.
  - rewrite Hm. destruct (modifiers o) as [|m ms] eqn:E.
    + rewrite E, Ha. split; reflexivity.
    + simpl modifiers. simpl applied. rewrite Ha. split; reflexivity.
Qed.

Lemma construct_panel_fresh (s : Panel.State) :
  exists built,
    Panel.construct_panel s = Py.Ok (tt, built) /\
    forallb Settled.fresh (Panel.objects built) = true.
Proof.
  eexists. split.
  - vm_compute. reflexivity.
  - vm_compute. reflexivity.
Qed.

(** C5.  Whatever [bpy.ops.object.modifier_apply] refuses, [build_panel]
    runs to its end: a refused modifier stays on its object, and every
    modifier the host accepts, on that object and on all later ones, is
    baked all the same. *)
Theorem build_panel_ignores_modifier_failures (s : Panel.State) :
  exists built final : Panel.State,
    Panel.construct_panel s = Py.Ok (tt, built) /\
    Panel.build_panel apply_fails s = Py.Ok (tt, final) /\
    forall (i : nat) (o : Panel.Object),
      nth_error (Panel.objects built) i = Some o ->
      exists o',
        nth_error (Panel.objects final) i = Some o' /\
        modifiers o' = filter (fails i) (modifiers o) /\
        applied o' = filter (fun m => negb (fails i m)) (modifiers o).
Proof.
  destruct (construct_panel_fresh s) as [built [Hbuilt Hfresh]].
  rewrite forallb_forall in Hfresh.
  destruct (apply_all_modifiers_settles built) as [act Hloop].
  { intros o Ho. apply (fresh_spec o (Hfresh o Ho)). }
  exists built. eexists.
  split; [exact Hbuilt|].
  split.
  { unfold Panel.build_panel. unfold Panel.bind at 1. rewrite Hbuilt.
    unfold Panel.bind at 1. rewrite Hloop.
    reflexivity. }
  intros i o Hi.
  exists (Settled.settle apply_fails i o).
  split.
  - simpl Panel.objects.
    assert (Hlen : (i < List.length (Settled.settle_all apply_fails 0 (Panel.objects built)))%nat).
    { unfold Settled.settle_all. rewrite length_map, length_combine, length_seq.
      rewrite Nat.min_id. apply nth_error_Some. congruence. }
    rewrite !nth_error_app1
      by (rewrite ?length_app; simpl; lia).
    rewrite nth_error_settle_all. rewrite Hi. reflexivity.
  - apply settle_fresh. apply Hfresh. apply (nth_error_In _ _ Hi).
Qed.

End ModifierLoop.

(** ** Which scripts clear the scene (C3) *)

Section SceneClearing.
Import Blender.

(** Against C3 as stated: the arc gauge script does not clear the scene.
    Run on a scene that holds one object, [main] keeps that object and
    adds the gauge after it. *)
Lemma arc_gauge_main_keeps_the_scene :
  let existing := ArcGauge.empty "Existing" None in
  exists created,
    ArcGauge.main 100 [] = Some (Py.Ok created) /\
    ArcGauge.main 100 [existing] = Some (Py.Ok (existing :: created)) /\
    ArcGauge.main 100 [existing] <> ArcGauge.main 100 [].
Proof.
  intro existing.
  exists (match ArcGauge.main 100 [] with Some (Py.Ok l) => l | _ => [] end).
  split; [vm_compute; reflexivity|].
  split; [vm_compute; reflexivity|].
  intro H.
  apply (f_equal (fun r => match r with
                           | Some (Py.Ok l) => List.length l
                           | _ => O
                           end)) in H.
  vm_compute in H. discriminate.
Qed.

Lemma clear_scene_first {A : Type} (k : unit -> Panel.M A) (s : Panel.State) :
  Panel.bind Panel.clear_scene k s
  = Panel.bind Panel.clear_scene k {| Panel.objects := []; Panel.active := None |}.
Proof. reflexivity. Qed.

Lemma construct_panel_from_scratch (s : Panel.State) :
  Panel.construct_panel s
  = Panel.construct_panel {| Panel.objects := []; Panel.active := None |}.
Proof. unfold Panel.construct_panel. apply clear_scene_first. Qed.

Lemma arc_gauge_main_appends (fuel : nat) (scene : list ArcGauge.Object) :
  ArcGauge.main fuel scene
  = Run.bind (ArcGauge.main fuel []) (fun made => Run.ret (scene ++ made)).
Proof.
  unfold ArcGauge.main.
  destruct (ArcGauge.create_gauge fuel ArcGauge.default_config) as [[g|e]|];
    reflexivity.
Qed.

Lemma bar_gauge_main_appends (fuel : nat) (scene : list BarGauge.Object) :
  BarGauge.main fuel scene
  = Run.bind (BarGauge.main fuel []) (fun made => Run.ret (scene ++ made)).
Proof.
  unfold BarGauge.main.
  destruct (BarGauge.create_bar_gauge fuel BarGauge.default_config) as [[g|e]|];
    reflexivity.
Qed.

Lemma render_panel_keeps_objects (env : Render.Env) (s s' : Render.State) (b : bool)
  (o : Render.Object) :
  Render.render_panel env s = Py.Ok (b, s') ->
  In o (Render.objects s) -> Render.is_camera o = false ->
  In o (Render.objects s').
Proof.
  intros H Ho Hc. unfold Render.render_panel in H.
  destruct (get (Render.objects s) "ReactorOperatorPanel").
  - destruct (find_output_dir_always env s) as [dir Hdir]. rewrite Hdir in H.
    simpl in H. unfold Render.setup_render_settings in H.
    destruct (Render.settings_fail env); simpl in H; [discriminate|].
    unfold Render.render in H.
    destruct (Render.render_fails env); simpl in H; [discriminate|].
    inversion H; subst. simpl.
    apply in_or_app. left. apply filter_In. split; [exact Ho|].
    rewrite Hc. reflexivity.
  - inversion H; subst. exact Ho.
Qed.

(** C3, amended.  The panel builder and the coolant-loop builder clear the
    scene first: what they leave does not depend on what the scene held,
    and is what they construct.  The two gauge scripts clear nothing: they
    append their gauge to the scene as it is.  The render script removes
    cameras only. *)
Theorem scripts_that_clear_the_scene :
  (forall apply_fails s,
     Panel.build_panel apply_fails s
     = Panel.build_panel apply_fails {| Panel.objects := []; Panel.active := None |}) /\
  (forall apply_fails s, exists final,
     Panel.build_panel apply_fails s = Py.Ok (tt, final) /\
     List.length (Panel.objects final) = 249%nat) /\
  (forall scene, RCS.main scene = RCS.main []) /\
  List.length (RCS.main []) = 42%nat /\
  (forall fuel scene,
     ArcGauge.main fuel scene
     = Run.bind (ArcGauge.main fuel []) (fun made => Run.ret (scene ++ made))) /\
  (forall fuel scene,
     BarGauge.main fuel scene
     = Run.bind (BarGauge.main fuel []) (fun made => Run.ret (scene ++ made))) /\
  (forall env s s' b o,
     Render.render_panel env s = Py.Ok (b, s') ->
     In o (Render.objects s) -> Render.is_camera o = false ->
     In o (Render.objects s')).
Proof.
  split.
  { intros f s. unfold Panel.build_panel.
    change (Panel.bind Panel.construct_panel ?k s)
      with (match Panel.construct_panel s with
            | Py.Ok (a, s') => k a s'
            | Py.Raised e => Py.Raised e
            end).
    rewrite (construct_panel_from_scratch s). reflexivity. }
  split.
  { intros f s.
    destruct (construct_panel_fresh s) as [built [Hb Hfresh]].
    rewrite forallb_forall in Hfresh.
    destruct (apply_all_modifiers_settles f built) as [act Hloop].
    { intros o Ho. apply (fresh_spec o (Hfresh o Ho)). }
    eexists. split.
    { unfold Panel.build_panel. unfold Panel.bind at 1. rewrite Hb.
      unfold Panel.bind at 1. rewrite Hloop.
      reflexivity. }
    simpl.
    rewrite !length_app. simpl.
    unfold Settled.settle_all. rewrite length_map, length_combine, length_seq.
    rewrite Nat.min_id.
    assert (Hlen : List.length (Panel.objects built) = 246%nat).
    { revert Hb. vm_compute. intro Hb. inversion Hb. reflexivity. }
    rewrite Hlen. reflexivity. }
  split; [reflexivity|].
  split; [reflexivity|].
  split; [exact arc_gauge_main_appends|].
  split; [exact bar_gauge_main_appends|].
  exact render_panel_keeps_objects.
Qed.

End SceneClearing.

(** ** The coolant loops (C2) *)

Section CoolantLoops.
Import Blender.
Local Open Scope R_scope.

(** Against C2 as stated: no torus takes part in the model.
    [create_torus] is defined but never called, so the scene [main]
    builds holds no torus primitive. *)
Lemma rcs_main_builds_no_torus :
  existsb (fun o => existsb (@is_torus R) (meshes o)) (RCS.main []) = false.
Proof. reflexivity. Qed.

Lemma sqrt_sum_squares_pos (dx dy dz : R) :
  0 < dx * dx + dy * dy + dz * dz ->
  sqrt (dx * dx + dy * dy + dz * dz) <> 0.
Proof.
  intros H E. apply sqrt_lt_R0 in H. rewrite E in H. apply (Rlt_irrefl 0 H).
Qed.

Lemma vec3_eq (x y z x' y' z' : R) :
  x = x' -> y = y' -> z = z' -> (x, y, z) = (x', y', z').
Proof. intros -> -> ->. reflexivity. Qed.

(** A straight pipe between two distinct points runs from the first to
    the second. *)
Lemma straight_pipe_ends (name : string) (radius : R) (segments : nat)
  (ax ay az bx by_ bz : R) :
  0 < (bx - ax) * (bx - ax) + (by_ - ay) * (by_ - ay) + (bz - az) * (bz - az) ->
  RCS.axis_ends (RCS.straight_pipe name radius segments (ax, ay, az) (bx, by_, bz))
  = Some ((ax, ay, az), (bx, by_, bz)).
Proof.
  intro H. pose proof (sqrt_sum_squares_pos _ _ _ H) as Hs.
  unfold RCS.axis_ends, RCS.straight_pipe, RCS.create_cylinder, RCS.with_rotation,
    RCS.new_object, RCS.normalized, RCS.scaled, RCS.at_, RCS.Config.SCALE.
  simpl.
  set (len := sqrt _) in *.
  clearbody len. assert (E1 : 1.0 = 1) by lra. rewrite E1.
  apply f_equal. apply f_equal2; apply vec3_eq; field; exact Hs.
Qed.

Lemma sum_squares_pos_z (dx dy dz : R) :
  dz <> 0 -> 0 < dx * dx + dy * dy + dz * dz.
Proof.
  intro H.
  assert (0 <= dx * dx) by nra.
  assert (0 <= dy * dy) by nra.
  assert (0 < dz * dz) by nra.
  lra.
Qed.

Lemma cos_sin_square (a : R) : cos a * cos a + sin a * sin a = 1.
Proof.
  pose proof (sin2_cos2 a) as H. unfold Rsqr in H. lra.
Qed.

Lemma hot_leg_ends (n : nat) (angle : R) :
  RCS.axis_ends (RCS.create_hot_leg n angle)
  = Some (RCS.rv_outlet_nozzle angle, RCS.sg_inlet angle).
Proof.
  unfold RCS.create_hot_leg, RCS.rv_outlet_nozzle, RCS.sg_inlet.
  change (RCS.axis_ends (RCS.with_material ?m ?o)) with (RCS.axis_ends o).
  apply straight_pipe_ends.
  unfold RCS.Config.LOOP_RADIUS, RCS.Config.RV_RADIUS, RCS.Config.SG_INLET_HEIGHT,
    RCS.Config.RV_NOZZLE_HEIGHT.
  pose proof (cos_sin_square angle) as H.
  set (c := cos angle) in *. set (s := sin angle) in *. clearbody c s.
  nra.
Qed.

Lemma crossover_leg_ends (n : nat) (angle x y : R) :
  RCS.axis_ends (RCS.create_crossover_leg n angle (x, y, RCS.Config.RCP_HEIGHT))
  = Some (RCS.sg_outlet angle, RCS.rcp_suction (x, y, RCS.Config.RCP_HEIGHT)).
Proof.
  unfold RCS.create_crossover_leg, RCS.sg_outlet, RCS.rcp_suction.
  change (RCS.axis_ends (RCS.with_material ?m ?o)) with (RCS.axis_ends o).
  apply straight_pipe_ends.
  apply sum_squares_pos_z.
  unfold RCS.Config.RCP_HEIGHT, RCS.Config.SG_LOWER_RADIUS. lra.
Qed.

Lemma cold_leg_ends (n : nat) (angle x y : R) :
  RCS.axis_ends (RCS.create_cold_leg n angle (x, y, RCS.Config.RCP_HEIGHT))
  = Some (RCS.rcp_discharge (x, y, RCS.Config.RCP_HEIGHT), RCS.rv_inlet_nozzle angle).
Proof.
  unfold RCS.create_cold_leg, RCS.rcp_discharge, RCS.rv_inlet_nozzle.
  change (RCS.axis_ends (RCS.with_material ?m ?o)) with (RCS.axis_ends o).
  apply straight_pipe_ends.
  apply sum_squares_pos_z.
  unfold RCS.Config.RCP_HEIGHT, RCS.Config.RCP_BODY_HEIGHT, RCS.Config.RV_NOZZLE_HEIGHT.
  lra.
Qed.

(** C2, amended.  The four loops stand at 45 + 90 i degrees.  Each has a
    steam generator and a pump, joined from cylinder, sphere and cone
    primitives, and three straight cylinders: the hot leg from the vessel's
    outlet nozzle to the steam generator inlet, the crossover leg from the
    steam generator bottom to the loop's pump suction, the cold leg from
    the pump discharge to the vessel's inlet nozzle.  Every mesh of the
    model is a cylinder, a sphere or a cone. *)
Theorem rcs_loop_piping (scene : list RCS.Object) (i : nat) :
  (i < 4)%nat ->
  let n := (i + 1)%nat in
  let angle := RCS.loop_angle i in
  let rcp_pos := snd (RCS.create_rcp n angle) in
  angle = RCS.radians (45 + INR i * 90) /\
  (exists sg rcp,
     get (RCS.main scene) ("SteamGenerator_" ++ RCS.num n)%string = Some sg /\
     get (RCS.main scene) ("RCP_" ++ RCS.num n)%string = Some rcp /\
     rcp = RCS.with_parent "Components" (fst (RCS.create_rcp n angle)) /\
     forallb (@plain_primitive R) (meshes sg ++ meshes rcp) = true) /\
  (exists hot,
     get (RCS.main scene) ("HotLeg_" ++ RCS.num n)%string = Some hot /\
     RCS.axis_ends hot = Some (RCS.rv_outlet_nozzle angle, RCS.sg_inlet angle)) /\
  (exists crossover,
     get (RCS.main scene) ("CrossoverLeg_" ++ RCS.num n)%string = Some crossover /\
     RCS.axis_ends crossover = Some (RCS.sg_outlet angle, RCS.rcp_suction rcp_pos)) /\
  (exists cold,
     get (RCS.main scene) ("ColdLeg_" ++ RCS.num n)%string = Some cold /\
     RCS.axis_ends cold = Some (RCS.rcp_discharge rcp_pos, RCS.rv_inlet_nozzle angle)) /\
  forallb (fun o => forallb (@plain_primitive R) (meshes o)) (RCS.main scene) = true.
Proof.
  intros Hi n angle rcp_pos.
  split; [reflexivity|].
  assert (Hcases : i = 0%nat \/ i = 1%nat \/ i = 2%nat \/ i = 3%nat) by lia.
  split.
  { exists (RCS.with_parent "Components" (RCS.create_steam_generator n angle)).
    exists (RCS.with_parent "Components" (fst (RCS.create_rcp n angle))).
    subst n angle.
    destruct Hcases as [-> | [-> | [-> | ->]]];
      (split; [reflexivity|]; split; [reflexivity|]; split; reflexivity). }
  split.
  { exists (RCS.with_parent "Piping" (RCS.create_hot_leg n angle)).
    split; [|exact (hot_leg_ends n angle)].
    subst n angle. destruct Hcases as [-> | [-> | [-> | ->]]]; reflexivity. }
  split.
  { exists (RCS.with_parent "Piping" (RCS.create_crossover_leg n angle rcp_pos)).
    split; [|exact (crossover_leg_ends n angle _ _)].
    subst n angle rcp_pos. destruct Hcases as [-> | [-> | [-> | ->]]]; reflexivity. }
  split.
  { exists (RCS.with_parent "Piping" (RCS.create_cold_leg n angle rcp_pos)).
    split; [|exact (cold_leg_ends n angle _ _)].
    subst n angle rcp_pos. destruct Hcases as [-> | [-> | [-> | ->]]]; reflexivity. }
  reflexivity.
Qed.

(** An input for C2: the first loop, on an empty scene. *)
Lemma rcs_loop_piping_witness :
  (0 < 4)%nat /\
  exists hot,
    get (RCS.main []) "HotLeg_1" = Some hot /\
    RCS.axis_ends hot
    = Some (RCS.rv_outlet_nozzle (RCS.loop_angle 0), RCS.sg_inlet (RCS.loop_angle 0)).
Proof.
  split; [lia|].
  exact (proj1 (proj2 (proj2 (rcs_loop_piping [] 0 ltac:(lia))))).
Defined.

End CoolantLoops.

(** ** The scale loops of the gauges *)

Section ScaleLoops.
Local Open Scope Q_scope.

Lemma loop_value_eq (start step : Q) (k : nat) :
  Scale.loop_value start step k == start + inject_Z (Z.of_nat k) * step.
Proof.
  revert start. induction k as [|k IH]; intro start.
  - simpl. ring.
  - change (Scale.loop_value start step (S k))
      with (Scale.loop_value (start + step) step k).
    rewrite IH. rewrite Nat2Z.inj_succ. unfold Z.succ.
    rewrite inject_Z_plus. ring.
Qed.

Lemma floor_ge (z : Z) (x : Q) : (z <= Qfloor x)%Z <-> inject_Z z <= x.
Proof.
  split; intro H.
  - apply Qle_trans with (inject_Z (Qfloor x)); [|apply Qfloor_le].
    rewrite <- Zle_Qle. exact H.
  - rewrite <- (Qfloor_Z z). apply Qfloor_resp_le. exact H.
Qed.

(** [iterations] counts the values of the scale that do not exceed the
    limit. *)
Lemma iterations_spec (start limit step : Q) (k : nat) :
  0 < step ->
  ((k < Scale.iterations start limit step)%nat
   <-> start + inject_Z (Z.of_nat k) * step <= limit).
Proof.
  intro Hstep. unfold Scale.iterations.
  assert (Hk : 0 <= inject_Z (Z.of_nat k)).
  { change 0 with (inject_Z 0). rewrite <- Zle_Qle. lia. }
  destruct (Qle_bool start limit) eqn:E.
  - apply Qle_bool_iff in E.
    assert (Hq : (limit - start) / step * step == limit - start) by (field; lra).
    assert (Hq0 : 0 <= (limit - start) / step).
    { apply Qle_shift_div_l; [exact Hstep | lra]. }
    assert (Hf0 : (0 <= Qfloor ((limit - start) / step))%Z).
    { apply floor_ge. exact Hq0. }
    rewrite Nat.lt_succ_r.
    rewrite <- (Nat2Z.id k) at 1.
    rewrite <- Z2Nat.inj_le by lia.
    rewrite floor_ge.
    split; intro H.
    + assert (inject_Z (Z.of_nat k) * step <= (limit - start) / step * step).
      { apply Qmult_le_compat_r; [exact H | lra]. }
      lra.
    + apply Qle_shift_div_l; [exact Hstep | lra].
  - assert (Hlt : limit < start).
    { apply Qnot_le_lt. intro H. apply Qle_bool_iff in H. congruence. }
    split; [intro H; lia|].
    intro H. exfalso.
    assert (0 <= inject_Z (Z.of_nat k) * step) by (apply Qmult_le_0_compat; lra).
    lra.
Qed.

Section Body.
Context {A : Type}.
Variable body : Q -> nat -> Run.R (option A).
Variable f : Q -> nat -> option A.
Hypothesis body_ok : forall value index, body value index = Run.ret (f value index).

(** With a body that does not fail, a loop that is given more fuel than
    it has iterations returns what [collect] says. *)
Lemma scale_loop_collect (n fuel : nat) (value limit step : Q) (index : nat) :
  (forall k, (k < n)%nat -> Scale.loop_value value step k <= limit) ->
  ~ Scale.loop_value value step n <= limit ->
  (n < fuel)%nat ->
  Run.scale_loop fuel value limit step index body
  = Run.ret (Scale.collect f step n value index).
Proof.
  revert fuel value index.
  induction n as [|n IH]; intros fuel value index Hin Hout Hfuel.
  - destruct fuel as [|fuel]; [lia|].
    simpl in Hout. simpl.
    destruct (Qle_bool value limit) eqn:E; [|reflexivity].
    apply Qle_bool_iff in E. contradiction.
  - destruct fuel as [|fuel]; [lia|].
    simpl Run.scale_loop.
    assert (E : Qle_bool value limit = true).
    { apply Qle_bool_iff. apply (Hin 0%nat). lia. }
    rewrite E. rewrite body_ok. simpl Run.bind.
    simpl Scale.collect.
    destruct (f value index) as [o|].
    + rewrite (IH fuel (value + step) (S index)); [reflexivity| | |lia].
      * intros k Hk. apply (Hin (S k)). lia.
      * exact Hout.
    + apply IH; [| |lia].
      * intros k Hk. apply (Hin (S k)). lia.
      * exact Hout.
Qed.

(** With a step that is not positive the loop never ends. *)
Lemma scale_loop_endless (fuel : nat) (value limit step : Q) (index : nat) :
  step <= 0 -> value <= limit ->
  Run.scale_loop fuel value limit step index body = None.
Proof.
  revert value index.
  induction fuel as [|fuel IH]; intros value index Hstep Hle; [reflexivity|].
  simpl.
  assert (E : Qle_bool value limit = true) by (apply Qle_bool_iff; exact Hle).
  rewrite E. rewrite body_ok. simpl.
  destruct (f value index); rewrite IH; try reflexivity; try exact Hstep; lra.
Qed.

(** A loop whose body does not fail does not fail. *)
Lemma scale_loop_no_raise (fuel : nat) (value limit step : Q) (index : nat) (e : Py.exn) :
  Run.scale_loop fuel value limit step index body <> Some (Py.Raised e).
Proof.
  revert value index e.
  induction fuel as [|fuel IH]; intros value index e; [discriminate|].
  simpl. destruct (Qle_bool value limit); [|discriminate].
  rewrite body_ok. simpl.
  destruct (f value index).
  - pose proof (IH (value + step) (S index)) as IH'.
    destruct (Run.scale_loop fuel (value + step) limit step (S index) body)
      as [[l|e']|]; simpl; try discriminate.
    exfalso. apply (IH' e'). reflexivity.
  - apply IH.
Qed.

End Body.

(** With a positive step the loop has [iterations] iterations. *)
Lemma scale_loop_runs {A : Type} (body : Q -> nat -> Run.R (option A))
  (f : Q -> nat -> option A) (fuel : nat) (start limit step : Q) :
  (forall value index, body value index = Run.ret (f value index)) ->
  0 < step ->
  (Scale.iterations start limit step < fuel)%nat ->
  Run.scale_loop fuel start limit step 0 body
  = Run.ret (Scale.collect f step (Scale.iterations start limit step) start 0).
Proof.
  intros Hbody Hstep Hfuel.
  apply scale_loop_collect; [exact Hbody | | | exact Hfuel].
  - intros k Hk. rewrite loop_value_eq. apply iterations_spec; assumption.
  - rewrite loop_value_eq. intro H.
    apply (iterations_spec start limit step _ Hstep) in H. lia.
Qed.

(** When the body creates something at every value, the loop creates one
    object for every value of the scale, in order. *)
Lemma collect_all {A : Type} (mk : Q -> nat -> A) (step : Q) (n : nat)
  (value : Q) (index : nat) :
  Scale.collect (fun v i => Some (mk v i)) step n value index
  = map (fun k => mk (Scale.loop_value value step k) (index + k)%nat) (seq 0 n).
Proof.
  revert value index. induction n as [|n IH]; intros value index; [reflexivity|].
  simpl Scale.collect. rewrite IH.
  simpl seq. simpl map. rewrite Nat.add_0_r. f_equal.
  rewrite <- seq_shift. rewrite map_map.
  apply map_ext. intro k. simpl. rewrite Nat.add_succ_r. reflexivity.
Qed.

End ScaleLoops.

(** ** The guard of the minor-tick loops (C10) *)

Section MinorGuard.
Local Open Scope Q_scope.

Lemma mod_ok (a b : Q) :
  ~ b == 0 -> Py.mod_ a b = Py.Ok (a - inject_Z (Qfloor (a / b)) * b).
Proof.
  intro H. unfold Py.mod_.
  destruct (Qeq_bool b 0) eqn:E; [|reflexivity].
  apply Qeq_bool_iff in E. contradiction.
Qed.

(** The remainder lies in [0, b). *)
Lemma mod_range (a b : Q) :
  0 < b ->
  0 <= a - inject_Z (Qfloor (a / b)) * b < b.
Proof.
  intro Hb.
  pose proof (Qfloor_le (a / b)) as Hlo.
  pose proof (Qlt_floor (a / b)) as Hhi.
  rewrite inject_Z_plus in Hhi.
  assert (Ha : a / b * b == a) by (field; lra).
  set (q := a / b) in *. set (f := inject_Z (Qfloor q)) in *.
  change (inject_Z 1) with 1 in Hhi.
  split.
  - assert (f * b <= q * b) by (apply Qmult_le_compat_r; lra). lra.
  - assert (q * b < (f + 1) * b) by (apply Qmult_lt_compat_r; lra). lra.
Qed.

(** At a whole multiple of [b] the remainder is zero. *)
Lemma mod_at_multiple (a b : Q) (k : Z) :
  0 < b -> a == inject_Z k * b ->
  a - inject_Z (Qfloor (a / b)) * b == 0.
Proof.
  intros Hb Ha.
  assert (Hq : a / b == inject_Z k) by (rewrite Ha; field; lra).
  rewrite Hq. rewrite Qfloor_Z. rewrite Ha. ring.
Qed.

(** The guard [abs(a % b) > 0.001] is false at whole multiples of [b]. *)
Lemma guard_false_at_multiple (a b : Q) (k : Z) :
  0 < b -> a == inject_Z k * b ->
  Py.ltb 0.001 (Qabs (a - inject_Z (Qfloor (a / b)) * b)) = false.
Proof.
  intros Hb Ha. apply ltb_false.
  rewrite (mod_at_multiple a b k Hb Ha). unfold Qle. simpl. lia.
Qed.

Lemma inject_Z_nonneg (t : Z) : 0 <= inject_Z t -> (0 <= t)%Z.
Proof. intro H. change 0 with (inject_Z 0) in H. rewrite <- Zle_Qle in H. exact H. Qed.

Lemma inject_Z_lt_1 (t : Z) : inject_Z t < 1 -> (t < 1)%Z.
Proof. intro H. change 1 with (inject_Z 1) in H. rewrite <- Zlt_Qlt in H. exact H. Qed.

(** When the minor interval exceeds the tolerance 0.001 and divides the
    major interval, the guard is false at whole multiples of the major
    interval only. *)
Lemma guard_false_only_at_multiples (a major minor : Q) (m j : Z) :
  0.001 < minor -> (0 < m)%Z ->
  major == inject_Z m * minor ->
  a == inject_Z j * minor ->
  Py.ltb 0.001 (Qabs (a - inject_Z (Qfloor (a / major)) * major)) = false ->
  exists k : Z, a == inject_Z k * major.
Proof.
  intros Hminor Hm Hmajor Ha Hguard.
  assert (Hm' : 0 < inject_Z m).
  { change 0 with (inject_Z 0). rewrite <- Zlt_Qlt. exact Hm. }
  assert (Hmaj : 0 < major).
  { rewrite Hmajor. apply Qmult_lt_0_compat; lra. }
  pose proof (mod_range a major Hmaj) as [Hr0 Hr1].
  apply ltb_false in Hguard.
  rewrite Qabs_pos in Hguard by exact Hr0.
  set (f := Qfloor (a / major)) in *.
  assert (Hr : a - inject_Z f * major == inject_Z (j - f * m) * minor).
  { unfold Z.sub. rewrite inject_Z_plus, inject_Z_opp, inject_Z_mult.
    rewrite Ha, Hmajor. ring. }
  rewrite Hr in Hr0, Hguard.
  set (t := (j - f * m)%Z) in *.
  assert (Ht0 : (0 <= t)%Z).
  { apply inject_Z_nonneg.
    destruct (Qlt_le_dec (inject_Z t) 0) as [Hneg|Hpos]; [|exact Hpos].
    exfalso. assert (inject_Z t * minor < 0) by nra. lra. }
  assert (Ht1 : (t < 1)%Z).
  { apply inject_Z_lt_1.
    destruct (Qlt_le_dec (inject_Z t) 1) as [Hlt|Hge]; [exact Hlt|].
    exfalso. assert (minor <= inject_Z t * minor) by nra. lra. }
  exists f.
  assert (Hj : j = (f * m)%Z) by (subst t; lia).
  rewrite Ha, Hmajor, Hj, inject_Z_mult. ring.
Qed.

End MinorGuard.

Section MinorTicks.
Local Open Scope Q_scope.

Lemma arc_guard_at_major (c : ArcGauge.GaugeConfig) (k : Z) (value : Q) (index : nat) :
  0 < ArcGauge.major_tick_interval c ->
  value == ArcGauge.min_value c + inject_Z k * ArcGauge.major_tick_interval c ->
  ArcGauge.minor_tick_guard c value = Py.Ok false /\
  ArcGauge.minor_tick_body c value index = Run.ret None.
Proof.
  intros Hmajor Hv.
  assert (Ha : value - ArcGauge.min_value c
               == inject_Z k * ArcGauge.major_tick_interval c) by (rewrite Hv; ring).
  assert (Hg : ArcGauge.minor_tick_guard c value = Py.Ok false).
  { unfold ArcGauge.minor_tick_guard. rewrite mod_ok by lra. unfold Py.bind.
    rewrite (guard_false_at_multiple _ _ k Hmajor Ha). reflexivity. }
  split; [exact Hg|].
  unfold ArcGauge.minor_tick_body. rewrite Hg. reflexivity.
Qed.

Lemma bar_guard_at_major (b : BarGauge.BarGaugeConfig) (k : Z) (value : Q) (index : nat) :
  0 < BarGauge.major_tick_interval b ->
  value == BarGauge.min_value b + inject_Z k * BarGauge.major_tick_interval b ->
  BarGauge.minor_tick_guard b value = Py.Ok false /\
  BarGauge.minor_tick_body b value index = Run.ret None.
Proof.
  intros Hmajor Hv.
  assert (Ha : value - BarGauge.min_value b
               == inject_Z k * BarGauge.major_tick_interval b) by (rewrite Hv; ring).
  assert (Hg : BarGauge.minor_tick_guard b value = Py.Ok false).
  { unfold BarGauge.minor_tick_guard. rewrite mod_ok by lra. unfold Py.bind.
    rewrite (guard_false_at_multiple _ _ k Hmajor Ha). reflexivity. }
  split; [exact Hg|].
  unfold BarGauge.minor_tick_body. rewrite Hg. reflexivity.
Qed.

Lemma arc_guard_only_at_major (c : ArcGauge.GaugeConfig) (m : Z) (j : nat) :
  0.001 < ArcGauge.minor_tick_interval c -> (0 < m)%Z ->
  ArcGauge.major_tick_interval c == inject_Z m * ArcGauge.minor_tick_interval c ->
  let value := Scale.loop_value (ArcGauge.min_value c) (ArcGauge.minor_tick_interval c) j in
  ArcGauge.minor_tick_guard c value = Py.Ok false ->
  exists k : Z,
    value == ArcGauge.min_value c + inject_Z k * ArcGauge.major_tick_interval c.
Proof.
  intros Hminor Hm Hmajor value Hg.
  assert (Hm' : 0 < inject_Z m).
  { change 0 with (inject_Z 0). rewrite <- Zlt_Qlt. exact Hm. }
  assert (Hmaj : 0 < ArcGauge.major_tick_interval c).
  { rewrite Hmajor. apply Qmult_lt_0_compat; lra. }
  assert (Ha : value - ArcGauge.min_value c
               == inject_Z (Z.of_nat j) * ArcGauge.minor_tick_interval c).
  { subst value. rewrite loop_value_eq. ring. }
  unfold ArcGauge.minor_tick_guard in Hg. rewrite mod_ok in Hg by lra.
  unfold Py.bind in Hg. inversion Hg as [Hg'].
  destruct (guard_false_only_at_multiples _ _ _ m _ Hminor Hm Hmajor Ha Hg')
    as [k Hk].
  exists k. rewrite <- Hk. ring.
Qed.

Lemma bar_guard_only_at_major (b : BarGauge.BarGaugeConfig) (m : Z) (j : nat) :
  0.001 < BarGauge.minor_tick_interval b -> (0 < m)%Z ->
  BarGauge.major_tick_interval b == inject_Z m * BarGauge.minor_tick_interval b ->
  let value := Scale.loop_value (BarGauge.min_value b) (BarGauge.minor_tick_interval b) j in
  BarGauge.minor_tick_guard b value = Py.Ok false ->
  exists k : Z,
    value == BarGauge.min_value b + inject_Z k * BarGauge.major_tick_interval b.
Proof.
  intros Hminor Hm Hmajor value Hg.
  assert (Hm' : 0 < inject_Z m).
  { change 0 with (inject_Z 0). rewrite <- Zlt_Qlt. exact Hm. }
  assert (Hmaj : 0 < BarGauge.major_tick_interval b).
  { rewrite Hmajor. apply Qmult_lt_0_compat; lra. }
  assert (Ha : value - BarGauge.min_value b
               == inject_Z (Z.of_nat j) * BarGauge.minor_tick_interval b).
  { subst value. rewrite loop_value_eq. ring. }
  unfold BarGauge.minor_tick_guard in Hg. rewrite mod_ok in Hg by lra.
  unfold Py.bind in Hg. inversion Hg as [Hg'].
  destruct (guard_false_only_at_multiples _ _ _ m _ Hminor Hm Hmajor Ha Hg')
    as [k Hk].
  exists k. rewrite <- Hk. ring.
Qed.

(** Against C10 as stated: the guard is not false at the major tick
    positions only.  On a scale from 0 to 1 with major interval 1 and minor
    interval 0.001 (which divides 1), the loop reaches the value 0.001; the
    guard is false there, within its tolerance, yet 0.001 is no major tick
    position. *)
Lemma guard_false_off_the_major_ticks :
  let c := Samples.fine_scale in
  let value := Scale.loop_value (ArcGauge.min_value c) (ArcGauge.minor_tick_interval c) 1 in
  0 < ArcGauge.minor_tick_interval c /\
  ArcGauge.major_tick_interval c == inject_Z 1000 * ArcGauge.minor_tick_interval c /\
  value <= ArcGauge.max_value c + 0.001 /\
  ArcGauge.minor_tick_guard c value = Py.Ok false /\
  ~ (exists k : Z,
       value == ArcGauge.min_value c + inject_Z k * ArcGauge.major_tick_interval c).
Proof.
  intros c value.
  split; [reflexivity|].
  split; [reflexivity|].
  split; [vm_compute; discriminate|].
  split; [vm_compute; reflexivity|].
  intros [k Hk]. subst c value.
  unfold Qeq in Hk. simpl in Hk. lia.
Qed.

(** C10, amended.  When a positive minor interval divides the major
    interval, the minor-tick loop of either gauge script creates nothing at
    a value [min_value + k * major_tick_interval]: its guard is false
    there.  When moreover the minor interval exceeds the guard's tolerance
    0.001, those are the only loop values at which the guard is false. *)
Theorem minor_ticks_skip_major_positions
  (c : ArcGauge.GaugeConfig) (b : BarGauge.BarGaugeConfig) (mc mb : Z) :
  0 < ArcGauge.minor_tick_interval c -> (0 < mc)%Z ->
  ArcGauge.major_tick_interval c == inject_Z mc * ArcGauge.minor_tick_interval c ->
  0 < BarGauge.minor_tick_interval b -> (0 < mb)%Z ->
  BarGauge.major_tick_interval b == inject_Z mb * BarGauge.minor_tick_interval b ->
  (forall (k : Z) (value : Q) (index : nat),
     value == ArcGauge.min_value c + inject_Z k * ArcGauge.major_tick_interval c ->
     ArcGauge.minor_tick_guard c value = Py.Ok false /\
     ArcGauge.minor_tick_body c value index = Run.ret None) /\
  (forall (k : Z) (value : Q) (index : nat),
     value == BarGauge.min_value b + inject_Z k * BarGauge.major_tick_interval b ->
     BarGauge.minor_tick_guard b value = Py.Ok false /\
     BarGauge.minor_tick_body b value index = Run.ret None) /\
  (0.001 < ArcGauge.minor_tick_interval c ->
   forall j : nat,
     let value :=
       Scale.loop_value (ArcGauge.min_value c) (ArcGauge.minor_tick_interval c) j in
     ArcGauge.minor_tick_guard c value = Py.Ok false ->
     exists k : Z,
       value == ArcGauge.min_value c + inject_Z k * ArcGauge.major_tick_interval c) /\
  (0.001 < BarGauge.minor_tick_interval b ->
   forall j : nat,
     let value :=
       Scale.loop_value (BarGauge.min_value b) (BarGauge.minor_tick_interval b) j in
     BarGauge.minor_tick_guard b value = Py.Ok false ->
     exists k : Z,
       value == BarGauge.min_value b + inject_Z k * BarGauge.major_tick_interval b).
Proof.
  intros Hc Hmc Hcm Hb Hmb Hbm.
  assert (Hmc' : 0 < inject_Z mc).
  { change 0 with (inject_Z 0). rewrite <- Zlt_Qlt. exact Hmc. }
  assert (Hmb' : 0 < inject_Z mb).
  { change 0 with (inject_Z 0). rewrite <- Zlt_Qlt. exact Hmb. }
  assert (Hcmaj : 0 < ArcGauge.major_tick_interval c).
  { rewrite Hcm. apply Qmult_lt_0_compat; lra. }
  assert (Hbmaj : 0 < BarGauge.major_tick_interval b).
  { rewrite Hbm. apply Qmult_lt_0_compat; lra. }
  split; [intros k value index Hv; apply (arc_guard_at_major c k); assumption|].
  split; [intros k value index Hv; apply (bar_guard_at_major b k); assumption|].
  split.
  - intros Htol j. apply (arc_guard_only_at_major c mc j Htol Hmc Hcm).
  - intros Htol j. apply (bar_guard_only_at_major b mb j Htol Hmb Hbm).
Qed.

(** An input for C10: the default configurations, whose major interval
    100 is five minor intervals of 20; no minor tick at 200. *)
Lemma minor_ticks_skip_major_positions_witness :
  (0 < ArcGauge.minor_tick_interval ArcGauge.default_config /\
   ArcGauge.major_tick_interval ArcGauge.default_config
   == inject_Z 5 * ArcGauge.minor_tick_interval ArcGauge.default_config) /\
  (0 < BarGauge.minor_tick_interval BarGauge.default_config /\
   BarGauge.major_tick_interval BarGauge.default_config
   == inject_Z 5 * BarGauge.minor_tick_interval BarGauge.default_config) /\
  ArcGauge.minor_tick_body ArcGauge.default_config 200 3 = Run.ret None /\
  BarGauge.minor_tick_body BarGauge.default_config 200 3 = Run.ret None.
Proof.
  split; [split; reflexivity|].
  split; [split; reflexivity|].
  pose proof (minor_ticks_skip_major_positions
                ArcGauge.default_config BarGauge.default_config 5 5
                ltac:(reflexivity) ltac:(reflexivity) ltac:(reflexivity)
                ltac:(reflexivity) ltac:(reflexivity) ltac:(reflexivity))
    as [Harc [Hbar _]].
  split.
  - apply (Harc 1%Z 200 3%nat). reflexivity.
  - apply (Hbar 1%Z 200 3%nat). reflexivity.
Defined.

End MinorTicks.

(** ** Ticks, labels and zones of the gauges (C4) *)

Section GaugeScale.
Import Blender.
Local Open Scope Q_scope.

Lemma made_ok {A : Type} (body : Q -> nat -> Run.R (option A)) (value : Q) (index : nat) :
  (exists r, body value index = Run.ret r) ->
  body value index = Run.ret (Scale.made body value index).
Proof.
  intros [r Hr]. unfold Scale.made. rewrite Hr. reflexivity.
Qed.

Lemma loop_value_succ (start step : Q) (k : nat) :
  Scale.loop_value start step (S k) = Scale.loop_value start step k + step.
Proof.
  revert start. induction k as [|k IH]; intro start; [reflexivity|].
  change (Scale.loop_value start step (S (S k)))
    with (Scale.loop_value (start + step) step (S k)).
  rewrite IH. reflexivity.
Qed.

(** A body that creates something at every value leaves one object per
    iteration: the [k]-th object is the one made at the [k]-th value, with
    index [k]. *)
Lemma collect_one_each {A : Type} (body : Q -> nat -> Run.R (option A))
  (start step : Q) (n a : nat) :
  (forall value index, exists o, body value index = Run.ret (Some o)) ->
  Forall2 (fun k o => body (Scale.loop_value start step k) k = Run.ret (Some o))
    (seq a n)
    (Scale.collect (Scale.made body) step n (Scale.loop_value start step a) a).
Proof.
  intro Hbody. revert a. induction n as [|n IH]; intro a; [constructor|].
  simpl seq. simpl Scale.collect.
  destruct (Hbody (Scale.loop_value start step a) a) as [o Ho].
  unfold Scale.made at 1. rewrite Ho. simpl.
  constructor; [exact Ho|].
  rewrite <- loop_value_succ. apply IH.
Qed.

(** The text of a whole value has no decimals. *)
Lemma int_of_whole (value : Q) (z : Z) : value == inject_Z z -> Py.int value = z.
Proof.
  intro H. unfold Py.int. unfold Qeq in H. simpl in H.
  rewrite Z.mul_1_r in H. rewrite H. apply Z.quot_mul. discriminate.
Qed.

Lemma arc_number_text_whole (value : Q) (z : Z) :
  value == inject_Z z -> ArcGauge.number_text value = Py.str z.
Proof.
  intro H. unfold ArcGauge.number_text. rewrite (int_of_whole value z H).
  apply Qeq_bool_iff in H. rewrite H. reflexivity.
Qed.

Lemma bar_number_text_whole (value : Q) (z : Z) :
  value == inject_Z z -> BarGauge.number_text value = Py.str z.
Proof.
  intro H. unfold BarGauge.number_text. rewrite (int_of_whole value z H).
  apply Qeq_bool_iff in H. rewrite H. reflexivity.
Qed.

Lemma zone_names_app (l1 l2 : list (string * option (Q * Q))) :
  Scale.zone_names (l1 ++ l2) = (Scale.zone_names l1 ++ Scale.zone_names l2)%list.
Proof. unfold Scale.zone_names. apply flat_map_app. Qed.

(** *** The arc gauge *)

Section Arc.
Variable c : ArcGauge.GaugeConfig.
Hypothesis scale : ArcGauge.min_value c < ArcGauge.max_value c.

Lemma arc_angle (value : Q) : exists a, ArcGauge.value_to_angle value c = Py.Ok a.
Proof. eexists. apply value_to_angle_ok. lra. Qed.

Lemma arc_major_body (value : Q) (index : nat) :
  exists o, ArcGauge.major_tick_body c value index = Run.ret (Some o).
Proof.
  destruct (arc_angle value) as [a Ha].
  unfold ArcGauge.major_tick_body. rewrite Ha. eexists. reflexivity.
Qed.

Lemma arc_number_body (value : Q) (index : nat) :
  exists o, ArcGauge.number_body c value index = Run.ret (Some o) /\
            exists size extrude,
              data o = TextCurve (ArcGauge.number_text value) size extrude.
Proof.
  destruct (arc_angle value) as [a Ha].
  unfold ArcGauge.number_body. rewrite Ha. eexists. split; [reflexivity|].
  eexists. eexists. reflexivity.
Qed.

Lemma arc_minor_body (value : Q) (index : nat) :
  0 < ArcGauge.major_tick_interval c ->
  exists r, ArcGauge.minor_tick_body c value index = Run.ret r.
Proof.
  intro Hmajor.
  destruct (arc_angle value) as [a Ha].
  unfold ArcGauge.minor_tick_body, ArcGauge.minor_tick_guard.
  rewrite mod_ok by lra. unfold Py.bind, Run.lift, Run.bind.
  destruct (Py.ltb _ _).
  - rewrite Ha. eexists. reflexivity.
  - eexists. reflexivity.
Qed.

Lemma arc_zone (zone_name key : string) (zone : option (Q * Q)) :
  exists l, ArcGauge.create_zone c zone_name key zone = Run.ret l /\
            map (@name Q) l = Scale.zone_names [(zone_name, zone)].
Proof.
  unfold ArcGauge.create_zone, Scale.zone_names, Scale.zone_drawn. simpl flat_map.
  destruct zone as [[z0 z1]|].
  - destruct (Py.ltb z0 z1).
    + destruct (arc_angle z1) as [a1 Ha1]. destruct (arc_angle z0) as [a0 Ha0].
      rewrite Ha1, Ha0. eexists. split; reflexivity.
    + eexists. split; reflexivity.
  - eexists. split; reflexivity.
Qed.

(** With positive tick intervals and enough fuel, [create_gauge] returns
    the gauge. *)
Lemma arc_create_gauge_runs (fuel : nat) :
  0 < ArcGauge.major_tick_interval c ->
  0 < ArcGauge.minor_tick_interval c ->
  let limit := ArcGauge.max_value c + 0.001 in
  let n := Scale.iterations (ArcGauge.min_value c) limit (ArcGauge.major_tick_interval c) in
  (n < fuel)%nat ->
  (Scale.iterations (ArcGauge.min_value c) limit (ArcGauge.minor_tick_interval c)
   < fuel)%nat ->
  exists g,
    ArcGauge.create_gauge fuel c = Run.ret g /\
    ArcGauge.major_ticks g
    = Scale.collect (Scale.made (ArcGauge.major_tick_body c))
        (ArcGauge.major_tick_interval c) n (ArcGauge.min_value c) 0 /\
    ArcGauge.numbers g
    = Scale.collect (Scale.made (ArcGauge.number_body c))
        (ArcGauge.major_tick_interval c) n (ArcGauge.min_value c) 0 /\
    map (@name Q) (ArcGauge.zones g)
    = Scale.zone_names [("Zone_Normal"%string, ArcGauge.zone_normal c);
                        ("Zone_Warning"%string, ArcGauge.zone_warning c);
                        ("Zone_Danger"%string, ArcGauge.zone_danger c)].
Proof.
  intros Hmajor Hminor limit n Hfuel1 Hfuel2.
  pose proof (scale_loop_runs (ArcGauge.major_tick_body c)
                (Scale.made (ArcGauge.major_tick_body c)) fuel
                (ArcGauge.min_value c) limit (ArcGauge.major_tick_interval c)) as H1.
  pose proof (scale_loop_runs (ArcGauge.minor_tick_body c)
                (Scale.made (ArcGauge.minor_tick_body c)) fuel
                (ArcGauge.min_value c) limit (ArcGauge.minor_tick_interval c)) as H2.
  pose proof (scale_loop_runs (ArcGauge.number_body c)
                (Scale.made (ArcGauge.number_body c)) fuel
                (ArcGauge.min_value c) limit (ArcGauge.major_tick_interval c)) as H3.
  specialize (H1 ltac:(intros v i; apply made_ok;
                       destruct (arc_major_body v i) as [o Ho]; eauto)
                 Hmajor Hfuel1).
  specialize (H2 ltac:(intros v i; apply made_ok; apply arc_minor_body; exact Hmajor)
                 Hminor Hfuel2).
  specialize (H3 ltac:(intros v i; apply made_ok;
                       destruct (arc_number_body v i) as [o [Ho _]]; eauto)
                 Hmajor Hfuel1).
  destruct (arc_zone "Zone_Normal" "Zone_Normal" (ArcGauge.zone_normal c))
    as [zn [Hzn Hzn']].
  destruct (arc_zone "Zone_Warning" "Zone_Warning" (ArcGauge.zone_warning c))
    as [zw [Hzw Hzw']].
  destruct (arc_zone "Zone_Danger" "Zone_Danger" (ArcGauge.zone_danger c))
    as [zd [Hzd Hzd']].
  destruct (arc_angle ((ArcGauge.min_value c + ArcGauge.max_value c) / 2))
    as [mid Hmid].
  unfold ArcGauge.create_gauge. cbv zeta. fold limit.
  rewrite H1. unfold Run.bind at 1. unfold Run.ret at 1.
  rewrite H2. unfold Run.bind at 1. unfold Run.ret at 1.
  rewrite H3. unfold Run.bind at 1. unfold Run.ret at 1.
  rewrite Hzn. unfold Run.bind at 1. unfold Run.ret at 1.
  rewrite Hzw. unfold Run.bind at 1. unfold Run.ret at 1.
  rewrite Hzd. unfold Run.bind at 1. unfold Run.ret at 1.
  rewrite Hmid. unfold Run.lift, Run.bind.
  eexists. split; [reflexivity|].
  split; [reflexivity|]. split; [reflexivity|].
  cbv beta iota delta [ArcGauge.zones]. unfold ArcGauge.Object in *.
  rewrite !map_app, Hzn', Hzw', Hzd'.
  rewrite <- !zone_names_app. reflexivity.
Qed.

End Arc.

(** *** The bar gauge *)

Section Bar.
Variable b : BarGauge.BarGaugeConfig.
Hypothesis scale : BarGauge.min_value b < BarGauge.max_value b.

Lemma bar_position (value height : Q) :
  exists y, BarGauge.value_to_y_position value b height = Py.Ok y.
Proof.
  unfold BarGauge.value_to_y_position.
  rewrite value_to_normalized_ok by lra. eexists. reflexivity.
Qed.

Lemma bar_major_body (value : Q) (index : nat) :
  exists o, BarGauge.major_tick_body b value index = Run.ret (Some o).
Proof.
  destruct (bar_position value (BarGauge.tube_height b)) as [y Hy].
  unfold BarGauge.major_tick_body. rewrite Hy. eexists. reflexivity.
Qed.

Lemma bar_number_body (value : Q) (index : nat) :
  exists o, BarGauge.number_body b value index = Run.ret (Some o) /\
            exists size extrude,
              data o = TextCurve (BarGauge.number_text value) size extrude.
Proof.
  destruct (bar_position value (BarGauge.tube_height b)) as [y Hy].
  unfold BarGauge.number_body. rewrite Hy. eexists. split; [reflexivity|].
  eexists. eexists. reflexivity.
Qed.

Lemma bar_minor_body (value : Q) (index : nat) :
  0 < BarGauge.major_tick_interval b ->
  exists r, BarGauge.minor_tick_body b value index = Run.ret r.
Proof.
  intro Hmajor.
  destruct (bar_position value (BarGauge.tube_height b)) as [y Hy].
  assert (Hg : exists go, BarGauge.minor_tick_guard b value = Py.Ok go).
  { unfold BarGauge.minor_tick_guard. rewrite mod_ok by lra.
    eexists. reflexivity. }
  destruct Hg as [go Hg].
  unfold BarGauge.minor_tick_body. rewrite Hg.
  unfold Run.lift at 1. unfold Run.bind at 1.
  destruct go.
  - rewrite Hy. eexists. reflexivity.
  - eexists. reflexivity.
Qed.

Lemma bar_zone (zone_name : string) (zone : option (Q * Q)) (material : string) :
  exists l, BarGauge.create_zone b zone_name zone material = Run.ret l /\
            map (@name Q) l = Scale.zone_names [(zone_name, zone)].
Proof.
  unfold BarGauge.create_zone, Scale.zone_names, Scale.zone_drawn. simpl flat_map.
  destruct zone as [[z0 z1]|].
  - destruct (Py.ltb z0 z1).
    + destruct (bar_position z0 (BarGauge.tube_height b)) as [y0 Hy0].
      destruct (bar_position z1 (BarGauge.tube_height b)) as [y1 Hy1].
      rewrite Hy0, Hy1. eexists. split; reflexivity.
    + eexists. split; reflexivity.
  - eexists. split; reflexivity.
Qed.

(** With positive tick intervals and enough fuel, [create_bar_gauge]
    returns the gauge. *)
Lemma bar_create_gauge_runs (fuel : nat) :
  0 < BarGauge.major_tick_interval b ->
  0 < BarGauge.minor_tick_interval b ->
  let limit := BarGauge.max_value b + 0.001 in
  let n := Scale.iterations (BarGauge.min_value b) limit (BarGauge.major_tick_interval b) in
  (n < fuel)%nat ->
  (Scale.iterations (BarGauge.min_value b) limit (BarGauge.minor_tick_interval b)
   < fuel)%nat ->
  exists g,
    BarGauge.create_bar_gauge fuel b = Run.ret g /\
    BarGauge.major_ticks g
    = Scale.collect (Scale.made (BarGauge.major_tick_body b))
        (BarGauge.major_tick_interval b) n (BarGauge.min_value b) 0 /\
    BarGauge.numbers g
    = Scale.collect (Scale.made (BarGauge.number_body b))
        (BarGauge.major_tick_interval b) n (BarGauge.min_value b) 0 /\
    map (@name Q) (BarGauge.zones g)
    = Scale.zone_names [("Zone_Normal"%string, BarGauge.zone_normal b);
                        ("Zone_Warning"%string, BarGauge.zone_warning b);
                        ("Zone_Danger"%string, BarGauge.zone_danger b)].
Proof.
  intros Hmajor Hminor limit n Hfuel1 Hfuel2.
  pose proof (scale_loop_runs (BarGauge.major_tick_body b)
                (Scale.made (BarGauge.major_tick_body b)) fuel
                (BarGauge.min_value b) limit (BarGauge.major_tick_interval b)) as H1.
  pose proof (scale_loop_runs (BarGauge.minor_tick_body b)
                (Scale.made (BarGauge.minor_tick_body b)) fuel
                (BarGauge.min_value b) limit (BarGauge.minor_tick_interval b)) as H2.
  pose proof (scale_loop_runs (BarGauge.number_body b)
                (Scale.made (BarGauge.number_body b)) fuel
                (BarGauge.min_value b) limit (BarGauge.major_tick_interval b)) as H3.
  specialize (H1 ltac:(intros v i; apply made_ok;
                       destruct (bar_major_body v i) as [o Ho]; eauto)
                 Hmajor Hfuel1).
  specialize (H2 ltac:(intros v i; apply made_ok; apply bar_minor_body; exact Hmajor)
                 Hminor Hfuel2).
  specialize (H3 ltac:(intros v i; apply made_ok;
                       destruct (bar_number_body v i) as [o [Ho _]]; eauto)
                 Hmajor Hfuel1).
  destruct (bar_zone "Zone_Normal" (BarGauge.zone_normal b)
              (BarGauge.material "Zone_Normal" b)) as [zn [Hzn Hzn']].
  destruct (bar_zone "Zone_Warning" (BarGauge.zone_warning b)
              (BarGauge.material "Zone_Warning" b)) as [zw [Hzw Hzw']].
  destruct (bar_zone "Zone_Danger" (BarGauge.zone_danger b)
              (BarGauge.material "Zone_Danger" b)) as [zd [Hzd Hzd']].
  unfold BarGauge.create_bar_gauge. cbv zeta. fold limit.
  rewrite H1. unfold Run.bind at 1. unfold Run.ret at 1.
  rewrite H2. unfold Run.bind at 1. unfold Run.ret at 1.
  rewrite H3. unfold Run.bind at 1. unfold Run.ret at 1.
  rewrite Hzn. unfold Run.bind at 1. unfold Run.ret at 1.
  rewrite Hzw. unfold Run.bind at 1. unfold Run.ret at 1.
  rewrite Hzd. unfold Run.bind at 1. unfold Run.ret at 1.
  eexists. split; [reflexivity|].
  split; [reflexivity|]. split; [reflexivity|].
  cbv beta iota delta [BarGauge.zones]. unfold BarGauge.Object in *.
  rewrite !map_app, Hzn', Hzw', Hzd'.
  rewrite <- !zone_names_app. reflexivity.
Qed.

End Bar.

End GaugeScale.

Section GaugeAssembly.
Import Blender.
Local Open Scope Q_scope.

(** Against C4 as stated: [min_value < max_value] and a positive major
    interval are not enough.  With a minor interval of 0 the minor-tick
    loop never advances, so [create_gauge] never gets to the labels and
    the zones: it returns nothing, however much fuel it is given. *)
Lemma create_gauge_hangs_on_zero_minor_interval :
  let c := Samples.no_minor_ticks in
  ArcGauge.min_value c < ArcGauge.max_value c /\
  0 < ArcGauge.major_tick_interval c /\
  forall fuel, ArcGauge.create_gauge fuel c = None.
Proof.
  intro c.
  assert (Hscale : ArcGauge.min_value c < ArcGauge.max_value c) by reflexivity.
  assert (Hmajor : 0 < ArcGauge.major_tick_interval c) by reflexivity.
  split; [exact Hscale|]. split; [exact Hmajor|].
  intro fuel. unfold ArcGauge.create_gauge. cbv zeta.
  destruct (Run.scale_loop fuel (ArcGauge.min_value c) (ArcGauge.max_value c + 0.001)
              (ArcGauge.major_tick_interval c) 0 (ArcGauge.major_tick_body c))
    as [[l|e]|] eqn:E.
  - unfold Run.bind at 1.
    rewrite (scale_loop_endless (ArcGauge.minor_tick_body c)
               (Scale.made (ArcGauge.minor_tick_body c))).
    + reflexivity.
    + intros v i. apply made_ok. apply (arc_minor_body c Hscale v i Hmajor).
    + vm_compute. discriminate.
    + vm_compute. discriminate.
  - exfalso.
    apply (scale_loop_no_raise (ArcGauge.major_tick_body c)
             (Scale.made (ArcGauge.major_tick_body c))
             ltac:(intros v i; apply made_ok;
                   destruct (arc_major_body c Hscale v i) as [o Ho]; eauto)
             _ _ _ _ _ _ E).
  - reflexivity.
Qed.

Lemma Forall2_weaken {A B : Type} (P Q' : A -> B -> Prop) (l : list A) (l' : list B) :
  (forall a b, P a b -> Q' a b) -> Forall2 P l l' -> Forall2 Q' l l'.
Proof.
  intros H F. induction F; constructor; auto.
Qed.

(** C4, amended.  For configurations with [min_value < max_value] and
    positive major and minor tick intervals, [create_gauge] and
    [create_bar_gauge] return, and the gauge they return has one major
    tick and one numeric label for every value
    [min_value + k * major_tick_interval] up to [max_value + 0.001], in
    order, the label of a whole value being printed without decimals, and
    one zone band for each of the normal, warning and danger zones that is
    given with start < end. *)
Theorem gauges_have_ticks_labels_zones
  (c : ArcGauge.GaugeConfig) (b : BarGauge.BarGaugeConfig) :
  ArcGauge.min_value c < ArcGauge.max_value c ->
  0 < ArcGauge.major_tick_interval c ->
  0 < ArcGauge.minor_tick_interval c ->
  BarGauge.min_value b < BarGauge.max_value b ->
  0 < BarGauge.major_tick_interval b ->
  0 < BarGauge.minor_tick_interval b ->
  let nc := Scale.iterations (ArcGauge.min_value c) (ArcGauge.max_value c + 0.001)
              (ArcGauge.major_tick_interval c) in
  let nb := Scale.iterations (BarGauge.min_value b) (BarGauge.max_value b + 0.001)
              (BarGauge.major_tick_interval b) in
  let vc := Scale.loop_value (ArcGauge.min_value c) (ArcGauge.major_tick_interval c) in
  let vb := Scale.loop_value (BarGauge.min_value b) (BarGauge.major_tick_interval b) in
  (forall k : nat,
     ((k < nc)%nat <-> ArcGauge.min_value c
                       + inject_Z (Z.of_nat k) * ArcGauge.major_tick_interval c
                       <= ArcGauge.max_value c + 0.001) /\
     vc k == ArcGauge.min_value c
             + inject_Z (Z.of_nat k) * ArcGauge.major_tick_interval c) /\
  (forall k : nat,
     ((k < nb)%nat <-> BarGauge.min_value b
                       + inject_Z (Z.of_nat k) * BarGauge.major_tick_interval b
                       <= BarGauge.max_value b + 0.001) /\
     vb k == BarGauge.min_value b
             + inject_Z (Z.of_nat k) * BarGauge.major_tick_interval b) /\
  (forall (value : Q) (z : Z), value == inject_Z z ->
     ArcGauge.number_text value = Py.str z /\ BarGauge.number_text value = Py.str z) /\
  exists fuel0 : nat, forall fuel : nat, (fuel0 <= fuel)%nat ->
  exists (g : ArcGauge.Gauge) (bg : BarGauge.Gauge),
    ArcGauge.create_gauge fuel c = Run.ret g /\
    BarGauge.create_bar_gauge fuel b = Run.ret bg /\
    Forall2 (fun k o => ArcGauge.major_tick_body c (vc k) k = Run.ret (Some o))
      (seq 0 nc) (ArcGauge.major_ticks g) /\
    Forall2 (fun k o =>
               ArcGauge.number_body c (vc k) k = Run.ret (Some o) /\
               exists size extrude,
                 data o = TextCurve (ArcGauge.number_text (vc k)) size extrude)
      (seq 0 nc) (ArcGauge.numbers g) /\
    map (@name Q) (ArcGauge.zones g)
    = Scale.zone_names [("Zone_Normal"%string, ArcGauge.zone_normal c);
                        ("Zone_Warning"%string, ArcGauge.zone_warning c);
                        ("Zone_Danger"%string, ArcGauge.zone_danger c)] /\
    Forall2 (fun k o => BarGauge.major_tick_body b (vb k) k = Run.ret (Some o))
      (seq 0 nb) (BarGauge.major_ticks bg) /\
    Forall2 (fun k o =>
               BarGauge.number_body b (vb k) k = Run.ret (Some o) /\
               exists size extrude,
                 data o = TextCurve (BarGauge.number_text (vb k)) size extrude)
      (seq 0 nb) (BarGauge.numbers bg) /\
    map (@name Q) (BarGauge.zones bg)
    = Scale.zone_names [("Zone_Normal"%string, BarGauge.zone_normal b);
                        ("Zone_Warning"%string, BarGauge.zone_warning b);
                        ("Zone_Danger"%string, BarGauge.zone_danger b)].
Proof.
  intros Hc Hcmaj Hcmin Hb Hbmaj Hbmin nc nb vc vb.
  split.
  { intro k. split; [apply iterations_spec; exact Hcmaj | apply loop_value_eq]. }
  split.
  { intro k. split; [apply iterations_spec; exact Hbmaj | apply loop_value_eq]. }
  split.
  { intros value z Hz.
    split; [apply arc_number_text_whole | apply bar_number_text_whole]; exact Hz. }
  set (mc := Scale.iterations (ArcGauge.min_value c) (ArcGauge.max_value c + 0.001)
               (ArcGauge.minor_tick_interval c)).
  set (mb := Scale.iterations (BarGauge.min_value b) (BarGauge.max_value b + 0.001)
               (BarGauge.minor_tick_interval b)).
  exists (S (nc + mc + nb + mb)). intros fuel Hfuel.
  destruct (arc_create_gauge_runs c Hc fuel Hcmaj Hcmin) as [g [Hg [Hg1 [Hg2 Hg3]]]];
    [fold nc; lia | fold mc; lia |].
  destruct (bar_create_gauge_runs b Hb fuel Hbmaj Hbmin) as [bg [Hbg [Hb1 [Hb2 Hb3]]]];
    [fold nb; lia | fold mb; lia |].
  exists g, bg.
  split; [exact Hg|]. split; [exact Hbg|].
  split.
  { rewrite Hg1. apply (collect_one_each (ArcGauge.major_tick_body c) _ _ nc 0).
    intros v i. apply (arc_major_body c Hc). }
  split.
  { rewrite Hg2.
    apply Forall2_weaken
      with (P := fun k o => ArcGauge.number_body c (vc k) k = Run.ret (Some o)).
    - intros k o Ho. split; [exact Ho|].
      destruct (arc_number_body c Hc (vc k) k) as [o' [Ho' Hdata]].
      rewrite Ho in Ho'. inversion Ho'. exact Hdata.
    - apply (collect_one_each (ArcGauge.number_body c) _ _ nc 0).
      intros v i. destruct (arc_number_body c Hc v i) as [o [Ho _]]. eauto. }
  split; [exact Hg3|].
  split.
  { rewrite Hb1. apply (collect_one_each (BarGauge.major_tick_body b) _ _ nb 0).
    intros v i. apply (bar_major_body b Hb). }
  split.
  { rewrite Hb2.
    apply Forall2_weaken
      with (P := fun k o => BarGauge.number_body b (vb k) k = Run.ret (Some o)).
    - intros k o Ho. split; [exact Ho|].
      destruct (bar_number_body b Hb (vb k) k) as [o' [Ho' Hdata]].
      rewrite Ho in Ho'. inversion Ho'. exact Hdata.
    - apply (collect_one_each (BarGauge.number_body b) _ _ nb 0).
      intros v i. destruct (bar_number_body b Hb v i) as [o [Ho _]]. eauto. }
  exact Hb3.
Qed.

(** An input for C4: the default configurations of the two scripts, whose
    scales run from 100 to 700 in steps of 100: seven major ticks each. *)
Lemma gauges_have_ticks_labels_zones_witness :
  (ArcGauge.min_value ArcGauge.default_config < ArcGauge.max_value ArcGauge.default_config /\
   0 < ArcGauge.major_tick_interval ArcGauge.default_config /\
   0 < ArcGauge.minor_tick_interval ArcGauge.default_config) /\
  (BarGauge.min_value BarGauge.default_config < BarGauge.max_value BarGauge.default_config /\
   0 < BarGauge.major_tick_interval BarGauge.default_config /\
   0 < BarGauge.minor_tick_interval BarGauge.default_config) /\
  exists fuel g bg,
    ArcGauge.create_gauge fuel ArcGauge.default_config = Run.ret g /\
    BarGauge.create_bar_gauge fuel BarGauge.default_config = Run.ret bg /\
    List.length (ArcGauge.major_ticks g) = 7%nat /\
    List.length (BarGauge.numbers bg) = 7%nat.
Proof.
  split; [repeat split; reflexivity|].
  split; [repeat split; reflexivity|].
  destruct (gauges_have_ticks_labels_zones
              ArcGauge.default_config BarGauge.default_config
              ltac:(reflexivity) ltac:(reflexivity) ltac:(reflexivity)
              ltac:(reflexivity) ltac:(reflexivity) ltac:(reflexivity))
    as [_ [_ [_ [fuel0 H]]]].
  destruct (H fuel0 (le_n fuel0)) as [g [bg [Hg [Hbg [Ht [_ [_ [_ [Hn _]]]]]]]]].
  exists fuel0, g, bg.
  split; [exact Hg|]. split; [exact Hbg|].
  split.
  - rewrite <- (Forall2_length Ht). reflexivity.
  - rewrite <- (Forall2_length Hn). reflexivity.
Defined.

End GaugeAssembly.

(** ** The range of the gauges' conversions and zones (X1 to X4) *)

Section GaugeRange.
Local Open Scope Q_scope.

(** The clamped fraction of a value on a scale from [lo] to [hi]. *)
Lemma clamp_fraction (lo hi v : Q) :
  lo < hi ->
  let n := Py.max 0.0 (Py.min 1.0 ((v - lo) / (hi - lo))) in
  0 <= n <= 1 /\
  (v <= lo -> n == 0) /\
  (hi <= v -> n == 1) /\
  (lo <= v <= hi -> n == (v - lo) / (hi - lo)).
Proof.
  intros Hlt n. subst n.
  rewrite clamp_spec.
  set (x := (v - lo) / (hi - lo)).
  assert (Hx : x * (hi - lo) == v - lo) by (unfold x; field; lra).
  split; [apply clamp_bounds|].
  split; [|split].
  - intro H. assert (x <= 0) by nra.
    rewrite Q.min_r by lra. rewrite Q.max_l by lra. reflexivity.
  - intro H. assert (1 <= x) by nra.
    rewrite Q.min_l by lra. rewrite Q.max_r by lra. reflexivity.
  - intros [H0 H1]. assert (0 <= x) by nra. assert (x <= 1) by nra.
    rewrite Q.min_r by lra. rewrite Q.max_r by lra. reflexivity.
Qed.

Lemma clamp_fraction_mono (lo hi v w : Q) :
  lo < hi -> v <= w ->
  Py.max 0.0 (Py.min 1.0 ((v - lo) / (hi - lo)))
  <= Py.max 0.0 (Py.min 1.0 ((w - lo) / (hi - lo))).
Proof.
  intros Hlt Hvw. rewrite !clamp_spec.
  set (x := (v - lo) / (hi - lo)). set (y := (w - lo) / (hi - lo)).
  assert (Hx : x * (hi - lo) == v - lo) by (unfold x; field; lra).
  assert (Hy : y * (hi - lo) == w - lo) by (unfold y; field; lra).
  assert (Hxy : x <= y) by nra.
  apply Q.max_le_compat_l. apply Q.min_le_compat_l. exact Hxy.
Qed.

Lemma arc_angles (c : ArcGauge.GaugeConfig) (v w : Q) :
  ArcGauge.min_value c < ArcGauge.max_value c ->
  exists av aw : Q,
    ArcGauge.value_to_angle v c = Py.Ok av /\
    ArcGauge.value_to_angle w c = Py.Ok aw /\
    (v <= ArcGauge.min_value c -> av == Py.radians (ArcGauge.start_angle c)) /\
    (ArcGauge.max_value c <= v ->
     av == Py.radians (ArcGauge.start_angle c - ArcGauge.sweep_angle c)) /\
    (v <= w -> 0 <= ArcGauge.sweep_angle c -> aw <= av) /\
    (v <= w -> ArcGauge.sweep_angle c <= 0 -> av <= aw) /\
    (0 <= ArcGauge.sweep_angle c ->
     Py.radians (ArcGauge.start_angle c - ArcGauge.sweep_angle c) <= av
     <= Py.radians (ArcGauge.start_angle c)).
Proof.
  intro Hlt.
  assert (Hne : ~ ArcGauge.max_value c - ArcGauge.min_value c == 0) by lra.
  rewrite !(value_to_angle_ok _ c Hne).
  do 2 eexists. split; [reflexivity|]. split; [reflexivity|].
  destruct (clamp_fraction _ _ v Hlt) as [Hb [Hlo [Hhi _]]].
  pose proof (clamp_fraction_mono _ _ v w Hlt) as Hm.
  pose proof (proj1 (clamp_fraction _ _ w Hlt)) as Hbw.
  set (n := Py.max 0.0 (Py.min 1.0 ((v - _) / _))) in *.
  set (m := Py.max 0.0 (Py.min 1.0 ((w - _) / _))) in *.
  pose proof degToRad_pos as Hd.
  unfold Py.radians. set (d := Py.degToRad) in *. clearbody d n m.
  split; [intro H; rewrite (Hlo H); ring|].
  split; [intro H; rewrite (Hhi H); ring|].
  split.
  { intros H Hs. specialize (Hm H).
    assert (0 <= (m - n) * ArcGauge.sweep_angle c) by nra. nra. }
  split.
  { intros H Hs. specialize (Hm H).
    assert (0 <= (m - n) * - ArcGauge.sweep_angle c) by nra. nra. }
  intro Hs.
  assert (0 <= n * ArcGauge.sweep_angle c) by nra.
  assert (0 <= (1 - n) * ArcGauge.sweep_angle c) by nra.
  split; nra.
Qed.

End GaugeRange.

Section GaugeZones.
Import Blender.
Local Open Scope Q_scope.

Lemma value_to_y_position_ok (b : BarGauge.BarGaugeConfig) (v h : Q) :
  BarGauge.min_value b < BarGauge.max_value b ->
  BarGauge.value_to_y_position v b h
  = Py.Ok (Py.max 0.0 (Py.min 1.0 ((v - BarGauge.min_value b)
                                   / (BarGauge.max_value b - BarGauge.min_value b)))
           * h).
Proof.
  intro Hlt. unfold BarGauge.value_to_y_position.
  rewrite value_to_normalized_ok by lra. reflexivity.
Qed.

Lemma bar_positions (b : BarGauge.BarGaugeConfig) (v w h : Q) :
  BarGauge.min_value b < BarGauge.max_value b ->
  0 <= h ->
  exists yv yw : Q,
    BarGauge.value_to_y_position v b h = Py.Ok yv /\
    BarGauge.value_to_y_position w b h = Py.Ok yw /\
    0 <= yv <= h /\
    (v <= BarGauge.min_value b -> yv == 0) /\
    (BarGauge.max_value b <= v -> yv == h) /\
    (v <= w -> yv <= yw).
Proof.
  intros Hlt Hh.
  rewrite !value_to_y_position_ok by exact Hlt.
  do 2 eexists. split; [reflexivity|]. split; [reflexivity|].
  destruct (clamp_fraction _ _ v Hlt) as [Hb [Hlo [Hhi _]]].
  pose proof (clamp_fraction_mono _ _ v w Hlt) as Hm.
  set (n := Py.max 0.0 (Py.min 1.0 ((v - _) / _))) in *.
  set (m := Py.max 0.0 (Py.min 1.0 ((w - _) / _))) in *.
  clearbody n m.
  repeat split.
  - nra.
  - nra.
  - intro H. rewrite (Hlo H). ring.
  - intro H. rewrite (Hhi H). ring.
  - intro H. specialize (Hm H). nra.
Qed.

(** X4.  On a bar gauge with [min_value < max_value] and a tube height
    that is not negative, the nested [create_zone] makes for a zone
    [(z0, z1)] with [z0 < z1] one box that reaches from the height of [z0]
    to the height of [z1].  The box lies within the tube, the height of
    every value between [z0] and [z1] falls on it, and a zone that lies
    wholly outside the scale is still made, as a box of no height. *)
Theorem bar_zone_covers_its_values (b : BarGauge.BarGaugeConfig)
  (zone_name material : string) (z0 z1 v : Q) :
  BarGauge.min_value b < BarGauge.max_value b ->
  0 <= BarGauge.tube_height b ->
  z0 < z1 ->
  exists (zone : BarGauge.Object) (y0 y1 yv lo hi : Q),
    BarGauge.create_zone b zone_name (Some (z0, z1)) material = Run.ret [zone] /\
    BarGauge.value_to_y_position z0 b (BarGauge.tube_height b) = Py.Ok y0 /\
    BarGauge.value_to_y_position z1 b (BarGauge.tube_height b) = Py.Ok y1 /\
    BarGauge.value_to_y_position v b (BarGauge.tube_height b) = Py.Ok yv /\
    Extent.y_extent zone = Some (lo, hi) /\
    lo == BarGauge.tube_bottom_y b + y0 /\
    hi == BarGauge.tube_bottom_y b + y1 /\
    BarGauge.tube_bottom_y b <= lo /\ lo <= hi /\
    hi <= BarGauge.tube_bottom_y b + BarGauge.tube_height b /\
    (z0 <= v <= z1 -> lo <= BarGauge.tube_bottom_y b + yv <= hi) /\
    (z1 <= BarGauge.min_value b \/ BarGauge.max_value b <= z0 -> lo == hi).
Proof.
  intros Hlt Hh Hz.
  destruct (bar_positions b z0 z1 _ Hlt Hh)
    as [y0 [y1 [E0 [E1 [B0 [L0 [H0 M01]]]]]]].
  destruct (bar_positions b z1 v _ Hlt Hh)
    as [y1' [yv [E1' [Ev [B1 [L1 [H1 M1v]]]]]]].
  destruct (bar_positions b z0 v _ Hlt Hh)
    as [y0' [yv' [E0' [Ev' [_ [_ [_ M0v]]]]]]].
  destruct (bar_positions b v z1 _ Hlt Hh)
    as [yv'' [y1'' [Ev'' [E1'' [_ [_ [_ Mv1]]]]]]].
  rewrite E1 in E1'. inversion E1'. subst y1'.
  rewrite E0 in E0'. inversion E0'. subst y0'.
  rewrite Ev in Ev'. inversion Ev'. subst yv'.
  rewrite Ev in Ev''. inversion Ev''. subst yv''.
  rewrite E1 in E1''. inversion E1''. subst y1''.
  exists (BarGauge.place
            (XYZ (- BarGauge.width b / 2 + BarGauge.tube_margin b / 2
                  + BarGauge.zone_width b / 2)
               (BarGauge.tube_bottom_y b + y0
                + (BarGauge.tube_bottom_y b + y1 - (BarGauge.tube_bottom_y b + y0)) / 2)
               (BarGauge.depth b * 0.55))
            BarGauge.still (Some "Zones"%string) [material]
            (BarGauge.create_box zone_name (BarGauge.zone_width b)
               (BarGauge.tube_bottom_y b + y1 - (BarGauge.tube_bottom_y b + y0))
               (BarGauge.depth b * 0.1) false)).
  exists y0, y1, yv. do 2 eexists.
  split.
  { unfold BarGauge.create_zone.
    rewrite (proj2 (ltb_true z0 z1) Hz).
    rewrite E0. unfold Run.lift at 1. unfold Run.bind at 1.
    rewrite E1. unfold Run.lift at 1. unfold Run.bind at 1.
    reflexivity. }
  split; [exact E0|]. split; [exact E1|]. split; [exact Ev|].
  split; [reflexivity|].
  specialize (M01 (Qlt_le_weak _ _ Hz)).
  set (tb := BarGauge.tube_bottom_y b) in *.
  set (th := BarGauge.tube_height b) in *. clearbody tb th.
  clear E0 E1 Ev E1' E0' Ev' Ev'' E1''.
  match goal with
  | |- ?l == _ /\ ?h == _ /\ _ =>
      assert (Elo : l == tb + y0) by field;
      assert (Ehi : h == tb + y1) by field;
      set (lo := l) in *; set (hi := h) in *; clearbody lo hi
  end.
  split; [exact Elo|]. split; [exact Ehi|].
  split; [lra|]. split; [lra|]. split; [lra|].
  split.
  - intros [Ha Hb]. specialize (M0v Ha). specialize (Mv1 Hb). lra.
  - intros [Hbelow|Habove].
    + assert (z0 <= BarGauge.min_value b) by lra.
      specialize (L0 H). specialize (L1 Hbelow). lra.
    + assert (BarGauge.max_value b <= z1) by lra.
      specialize (H0 Habove). specialize (H1 H). lra.
Qed.

(** X1.  For a configuration with [min_value < max_value],
    [value_to_angle] saturates at both ends of the scale: every value at or
    below [min_value] gives the start angle, every value at or above
    [max_value] the angle at the end of the sweep.  It is monotone: with a
    non-negative sweep a larger value never gives a larger angle, with a
    non-positive sweep never a smaller one. *)
Theorem value_to_angle_saturates (c : ArcGauge.GaugeConfig) (v w : Q) :
  ArcGauge.min_value c < ArcGauge.max_value c ->
  exists av aw : Q,
    ArcGauge.value_to_angle v c = Py.Ok av /\
    ArcGauge.value_to_angle w c = Py.Ok aw /\
    (v <= ArcGauge.min_value c -> av == Py.radians (ArcGauge.start_angle c)) /\
    (ArcGauge.max_value c <= v ->
     av == Py.radians (ArcGauge.start_angle c - ArcGauge.sweep_angle c)) /\
    (v <= w -> 0 <= ArcGauge.sweep_angle c -> aw <= av) /\
    (v <= w -> ArcGauge.sweep_angle c <= 0 -> av <= aw).
Proof.
  intro Hlt.
  destruct (arc_angles c v w Hlt) as [av [aw [Hv [Hw [H1 [H2 [H3 [H4 _]]]]]]]].
  exists av, aw. repeat split; assumption.
Qed.

Lemma value_to_angle_saturates_witness :
  ArcGauge.min_value ArcGauge.default_config < ArcGauge.max_value ArcGauge.default_config /\
  exists av aw : Q,
    ArcGauge.value_to_angle 50 ArcGauge.default_config = Py.Ok av /\
    ArcGauge.value_to_angle 900 ArcGauge.default_config = Py.Ok aw /\
    av == Py.radians 225 /\ aw <= av.
Proof.
  split; [reflexivity|].
  destruct (value_to_angle_saturates ArcGauge.default_config 50 900)
    as [av [aw [Hv [Hw [Hlo [_ [Hm _]]]]]]]; [reflexivity|].
  exists av, aw. split; [exact Hv|]. split; [exact Hw|].
  split.
  - rewrite Hlo; [reflexivity|]. unfold Qle. simpl. lia.
  - apply Hm; unfold Qle; simpl; lia.
Defined.

(** X2.  For [min_value < max_value] and a tube height [h >= 0],
    [value_to_y_position] stays on the tube: the height it returns lies
    between 0 and [h], is 0 for every value at or below [min_value], [h]
    for every value at or above [max_value], and never decreases when the
    value grows. *)
Theorem value_to_y_position_on_the_tube (b : BarGauge.BarGaugeConfig) (v w h : Q) :
  BarGauge.min_value b < BarGauge.max_value b ->
  0 <= h ->
  exists yv yw : Q,
    BarGauge.value_to_y_position v b h = Py.Ok yv /\
    BarGauge.value_to_y_position w b h = Py.Ok yw /\
    0 <= yv <= h /\
    (v <= BarGauge.min_value b -> yv == 0) /\
    (BarGauge.max_value b <= v -> yv == h) /\
    (v <= w -> yv <= yw).
Proof. exact (bar_positions b v w h). Qed.

Lemma value_to_y_position_on_the_tube_witness :
  BarGauge.min_value BarGauge.default_config < BarGauge.max_value BarGauge.default_config /\
  0 <= BarGauge.tube_height BarGauge.default_config /\
  exists yv : Q,
    BarGauge.value_to_y_position 400 BarGauge.default_config
      (BarGauge.tube_height BarGauge.default_config) = Py.Ok yv /\
    0 <= yv <= BarGauge.tube_height BarGauge.default_config.
Proof.
  split; [reflexivity|]. split; [unfold Qle; simpl; lia|].
  destruct (value_to_y_position_on_the_tube BarGauge.default_config 400 400
              (BarGauge.tube_height BarGauge.default_config))
    as [yv [_ [Hv [_ [Hb _]]]]]; [reflexivity|unfold Qle; simpl; lia|].
  exists yv. split; [exact Hv | exact Hb].
Defined.

(** X3.  On an arc gauge with [min_value < max_value] and a non-negative
    sweep, a colour zone [(z0, z1)] with [z0 < z1] is one arc that runs from
    the angle of [z1] to the angle of [z0].  The arc lies within the sweep
    of the scale, the angle of every value between [z0] and [z1] falls on
    it, and a zone that lies wholly outside the scale is still made, as an
    arc of no angular extent. *)
Theorem arc_zone_covers_its_values (c : ArcGauge.GaugeConfig)
  (zone_name key : string) (z0 z1 v : Q) :
  ArcGauge.min_value c < ArcGauge.max_value c ->
  0 <= ArcGauge.sweep_angle c ->
  z0 < z1 ->
  exists (zone : ArcGauge.Object) (a0 a1 av : Q),
    ArcGauge.create_zone c zone_name key (Some (z0, z1)) = Run.ret [zone] /\
    ArcGauge.value_to_angle z0 c = Py.Ok a0 /\
    ArcGauge.value_to_angle z1 c = Py.Ok a1 /\
    ArcGauge.value_to_angle v c = Py.Ok av /\
    Extent.arc_extent zone = Some (a1, a0) /\
    Py.radians (ArcGauge.start_angle c - ArcGauge.sweep_angle c) <= a1 /\
    a1 <= a0 /\
    a0 <= Py.radians (ArcGauge.start_angle c) /\
    (z0 <= v <= z1 -> a1 <= av <= a0) /\
    (z1 <= ArcGauge.min_value c \/ ArcGauge.max_value c <= z0 -> a1 == a0).
Proof.
  intros Hlt Hs Hz.
  destruct (arc_angles c z0 z1 Hlt)
    as [a0 [a1 [E0 [E1 [L0 [H0 [M01 [_ B0]]]]]]]].
  destruct (arc_angles c z1 v Hlt)
    as [a1' [av [E1' [Ev [L1 [H1 [_ [_ B1]]]]]]]].
  destruct (arc_angles c z0 v Hlt) as [a0' [av' [E0' [Ev' [_ [_ [M0v _]]]]]]].
  destruct (arc_angles c v z1 Hlt) as [av'' [a1'' [Ev'' [E1'' [_ [_ [Mv1 _]]]]]]].
  rewrite E1 in E1'. inversion E1'. subst a1'.
  rewrite E0 in E0'. inversion E0'. subst a0'.
  rewrite Ev in Ev'. inversion Ev'. subst av'.
  rewrite Ev in Ev''. inversion Ev''. subst av''.
  rewrite E1 in E1''. inversion E1''. subst a1''.
  eexists. exists a0, a1, av.
  split.
  { unfold ArcGauge.create_zone.
    rewrite (proj2 (ltb_true z0 z1) Hz).
    rewrite E1. unfold Run.lift at 1. unfold Run.bind at 1.
    rewrite E0. unfold Run.lift at 1. unfold Run.bind at 1.
    reflexivity. }
  split; [exact E0|]. split; [exact E1|]. split; [exact Ev|].
  split; [reflexivity|].
  specialize (M01 (Qlt_le_weak _ _ Hz) Hs).
  specialize (B0 Hs). specialize (B1 Hs).
  clear E0 E1 Ev E1' E0' Ev' Ev'' E1''.
  split; [lra|]. split; [lra|]. split; [lra|].
  split.
  - intros [Ha Hb]. specialize (M0v Ha Hs). specialize (Mv1 Hb Hs). lra.
  - intros [Hbelow|Habove].
    + assert (H : z0 <= ArcGauge.min_value c) by lra.
      rewrite (L0 H), (L1 Hbelow). reflexivity.
    + assert (H : ArcGauge.max_value c <= z1) by lra.
      rewrite (H0 Habove), (H1 H). reflexivity.
Qed.

Lemma arc_zone_covers_its_values_witness :
  ArcGauge.min_value ArcGauge.default_config < ArcGauge.max_value ArcGauge.default_config /\
  0 <= ArcGauge.sweep_angle ArcGauge.default_config /\
  100 < 550 /\
  exists (zone : ArcGauge.Object) (a0 a1 : Q),
    ArcGauge.create_zone ArcGauge.default_config "Zone_Normal" "Zone_Normal"
      (Some (100, 550)) = Run.ret [zone] /\
    Extent.arc_extent zone = Some (a1, a0) /\ a1 <= a0.
Proof.
  split; [reflexivity|]. split; [unfold Qle; simpl; lia|]. split; [reflexivity|].
  destruct (arc_zone_covers_its_values ArcGauge.default_config
              "Zone_Normal" "Zone_Normal" 100 550 300)
    as [zone [a0 [a1 [av [Hz [_ [_ [_ [He [_ [Hle _]]]]]]]]]]];
    [reflexivity | unfold Qle; simpl; lia | reflexivity |].
  exists zone, a0, a1. split; [exact Hz|]. split; [exact He | exact Hle].
Defined.

Lemma bar_zone_covers_its_values_witness :
  BarGauge.min_value BarGauge.default_config < BarGauge.max_value BarGauge.default_config /\
  0 <= BarGauge.tube_height BarGauge.default_config /\
  100 < 550 /\
  exists (zone : BarGauge.Object) (lo hi : Q),
    BarGauge.create_zone BarGauge.default_config "Zone_Normal" (Some (100, 550))
      "MAT_BarGauge_Zone_Normal_Temperature" = Run.ret [zone] /\
    Extent.y_extent zone = Some (lo, hi) /\ lo <= hi.
Proof.
  split; [reflexivity|]. split; [unfold Qle; simpl; lia|]. split; [reflexivity|].
  destruct (bar_zone_covers_its_values BarGauge.default_config
              "Zone_Normal" "MAT_BarGauge_Zone_Normal_Temperature" 100 550 300)
    as [zone [y0 [y1 [yv [lo [hi [Hz [_ [_ [_ [He [_ [_ [_ [Hle _]]]]]]]]]]]]]]];
    [reflexivity | unfold Qle; simpl; lia | reflexivity |].
  exists zone, lo, hi. split; [exact Hz|]. split; [exact He | exact Hle].
Defined.

End GaugeZones.

(** ** The parts of a gauge (X5, X6) *)

Section GaugeParts.
Import Blender.
Local Open Scope Q_scope.

(** The whole arc gauge, part by part. *)
Lemma arc_create_gauge_parts (c : ArcGauge.GaugeConfig) (fuel : nat) :
  ArcGauge.min_value c < ArcGauge.max_value c ->
  0 < ArcGauge.major_tick_interval c ->
  0 < ArcGauge.minor_tick_interval c ->
  let limit := ArcGauge.max_value c + 0.001 in
  let n := Scale.iterations (ArcGauge.min_value c) limit (ArcGauge.major_tick_interval c) in
  let n' := Scale.iterations (ArcGauge.min_value c) limit (ArcGauge.minor_tick_interval c) in
  let top := Some ("Gauge_" ++ ArcGauge.name c)%string in
  (n < fuel)%nat -> (n' < fuel)%nat ->
  exists mid zn zw zd,
    ArcGauge.value_to_angle ((ArcGauge.min_value c + ArcGauge.max_value c) / 2) c
    = Py.Ok mid /\
    ArcGauge.create_zone c "Zone_Normal" "Zone_Normal" (ArcGauge.zone_normal c)
    = Run.ret zn /\
    ArcGauge.create_zone c "Zone_Warning" "Zone_Warning" (ArcGauge.zone_warning c)
    = Run.ret zw /\
    ArcGauge.create_zone c "Zone_Danger" "Zone_Danger" (ArcGauge.zone_danger c)
    = Run.ret zd /\
    ArcGauge.create_gauge fuel c
    = Run.ret
        {| ArcGauge.root := ArcGauge.empty ("Gauge_" ++ ArcGauge.name c) None;
           ArcGauge.bezel :=
             ArcGauge.place (XYZ 0 0 0) ArcGauge.still top [ArcGauge.material "Bezel" c]
               (ArcGauge.create_arc_mesh "Bezel"
                  (ArcGauge.radius c - ArcGauge.bezel_width c) (ArcGauge.radius c)
                  0 (2 * Py.pi) 64 (ArcGauge.depth c));
           ArcGauge.face :=
             ArcGauge.place (XYZ 0 0 (ArcGauge.depth c * 0.25)) ArcGauge.still top
               [ArcGauge.material "Face" c]
               (ArcGauge.create_disk "Face"
                  (ArcGauge.radius c - ArcGauge.bezel_width c - 0.005) 64
                  (ArcGauge.depth c * 0.5));
           ArcGauge.scale_empty := ArcGauge.empty "Scale" top;
           ArcGauge.major_ticks_empty := ArcGauge.empty "MajorTicks" (Some "Scale"%string);
           ArcGauge.major_ticks :=
             Scale.collect (Scale.made (ArcGauge.major_tick_body c))
               (ArcGauge.major_tick_interval c) n (ArcGauge.min_value c) 0;
           ArcGauge.minor_ticks_empty := ArcGauge.empty "MinorTicks" (Some "Scale"%string);
           ArcGauge.minor_ticks :=
             Scale.collect (Scale.made (ArcGauge.minor_tick_body c))
               (ArcGauge.minor_tick_interval c) n' (ArcGauge.min_value c) 0;
           ArcGauge.numbers_empty := ArcGauge.empty "Numbers" (Some "Scale"%string);
           ArcGauge.numbers :=
             Scale.collect (Scale.made (ArcGauge.number_body c))
               (ArcGauge.major_tick_interval c) n (ArcGauge.min_value c) 0;
           ArcGauge.zones_empty := ArcGauge.empty "Zones" (Some "Scale"%string);
           ArcGauge.zones := (zn ++ zw ++ zd)%list;
           ArcGauge.needle :=
             ArcGauge.place (XYZ 0 0 (ArcGauge.depth c * 0.5 + 0.01))
               (Euler 0 0 (mid - Py.radians 90)) top [ArcGauge.material "Needle" c]
               (ArcGauge.create_needle "Needle"
                  (ArcGauge.radius c * ArcGauge.needle_length c)
                  (ArcGauge.needle_width c) 0.015);
           ArcGauge.hub :=
             ArcGauge.place (XYZ 0 0 (ArcGauge.depth c * 0.5 + 0.015)) ArcGauge.still top
               [ArcGauge.material "Hub" c]
               (ArcGauge.create_disk "NeedleHub" (ArcGauge.needle_width c * 2) 32 0.02);
           ArcGauge.label_text :=
             ArcGauge.place
               (XYZ 0 (- ArcGauge.radius c * 0.35) (ArcGauge.depth c * 0.5 + 0.005))
               (Euler (Py.radians 90) 0 0) top []
               (ArcGauge.create_text_object "Label" (ArcGauge.label c)
                  (ArcGauge.label_size c) 0.005);
           ArcGauge.units_text :=
             ArcGauge.place
               (XYZ 0 (- ArcGauge.radius c * 0.55) (ArcGauge.depth c * 0.5 + 0.005))
               (Euler (Py.radians 90) 0 0) top []
               (ArcGauge.create_text_object "Units" (ArcGauge.units c)
                  (ArcGauge.units_size c) 0.004) |}.
Proof.
  intros scale Hmajor Hminor limit n n' top Hfuel1 Hfuel2.
  pose proof (scale_loop_runs (ArcGauge.major_tick_body c)
                (Scale.made (ArcGauge.major_tick_body c)) fuel
                (ArcGauge.min_value c) limit (ArcGauge.major_tick_interval c)) as H1.
  pose proof (scale_loop_runs (ArcGauge.minor_tick_body c)
                (Scale.made (ArcGauge.minor_tick_body c)) fuel
                (ArcGauge.min_value c) limit (ArcGauge.minor_tick_interval c)) as H2.
  pose proof (scale_loop_runs (ArcGauge.number_body c)
                (Scale.made (ArcGauge.number_body c)) fuel
                (ArcGauge.min_value c) limit (ArcGauge.major_tick_interval c)) as H3.
  specialize (H1 ltac:(intros v i; apply made_ok;
                       destruct (arc_major_body c scale v i) as [o Ho]; eauto)
                 Hmajor Hfuel1).
  specialize (H2 ltac:(intros v i; apply made_ok; apply arc_minor_body; assumption)
                 Hminor Hfuel2).
  specialize (H3 ltac:(intros v i; apply made_ok;
                       destruct (arc_number_body c scale v i) as [o [Ho _]]; eauto)
                 Hmajor Hfuel1).
  destruct (arc_zone c scale "Zone_Normal" "Zone_Normal" (ArcGauge.zone_normal c))
    as [zn [Hzn _]].
  destruct (arc_zone c scale "Zone_Warning" "Zone_Warning" (ArcGauge.zone_warning c))
    as [zw [Hzw _]].
  destruct (arc_zone c scale "Zone_Danger" "Zone_Danger" (ArcGauge.zone_danger c))
    as [zd [Hzd _]].
  destruct (arc_angle c scale ((ArcGauge.min_value c + ArcGauge.max_value c) / 2))
    as [mid Hmid].
  exists mid, zn, zw, zd.
  split; [exact Hmid|]. split; [exact Hzn|]. split; [exact Hzw|]. split; [exact Hzd|].
  unfold ArcGauge.create_gauge. cbv zeta. fold limit.
  rewrite H1. unfold Run.bind at 1. unfold Run.ret at 1.
  rewrite H2. unfold Run.bind at 1. unfold Run.ret at 1.
  rewrite H3. unfold Run.bind at 1. unfold Run.ret at 1.
  rewrite Hzn. unfold Run.bind at 1. unfold Run.ret at 1.
  rewrite Hzw. unfold Run.bind at 1. unfold Run.ret at 1.
  rewrite Hzd. unfold Run.bind at 1. unfold Run.ret at 1.
  rewrite Hmid. unfold Run.lift, Run.bind.
  reflexivity.
Qed.

(** The whole bar gauge, part by part. *)
Lemma bar_create_gauge_parts (b : BarGauge.BarGaugeConfig) (fuel : nat) :
  BarGauge.min_value b < BarGauge.max_value b ->
  0 < BarGauge.major_tick_interval b ->
  0 < BarGauge.minor_tick_interval b ->
  let limit := BarGauge.max_value b + 0.001 in
  let n := Scale.iterations (BarGauge.min_value b) limit (BarGauge.major_tick_interval b) in
  let n' := Scale.iterations (BarGauge.min_value b) limit (BarGauge.minor_tick_interval b) in
  let top := Some ("BarGauge_" ++ BarGauge.name b)%string in
  (n < fuel)%nat -> (n' < fuel)%nat ->
  exists zn zw zd,
    BarGauge.create_zone b "Zone_Normal" (BarGauge.zone_normal b)
      (BarGauge.material "Zone_Normal" b) = Run.ret zn /\
    BarGauge.create_zone b "Zone_Warning" (BarGauge.zone_warning b)
      (BarGauge.material "Zone_Warning" b) = Run.ret zw /\
    BarGauge.create_zone b "Zone_Danger" (BarGauge.zone_danger b)
      (BarGauge.material "Zone_Danger" b) = Run.ret zd /\
    BarGauge.create_bar_gauge fuel b
    = Run.ret
        {| BarGauge.root := BarGauge.empty ("BarGauge_" ++ BarGauge.name b) None;
           BarGauge.housing :=
             BarGauge.place (XYZ 0 0 0) BarGauge.still top [BarGauge.material "Housing" b]
               (if Py.ltb 0.001 (BarGauge.corner_radius b)
                then BarGauge.create_rounded_box "Housing" (BarGauge.width b)
                       (BarGauge.height b) (BarGauge.depth b) (BarGauge.corner_radius b)
                else BarGauge.create_box "Housing" (BarGauge.width b)
                       (BarGauge.height b) (BarGauge.depth b) false);
           BarGauge.background :=
             BarGauge.place (XYZ 0 0 (BarGauge.depth b * 0.35)) BarGauge.still top
               [BarGauge.material "Background" b]
               (BarGauge.create_box "Background" (BarGauge.width b - 0.02 * 2)
                  (BarGauge.height b - 0.02 * 2) (BarGauge.depth b * 0.3) false);
           BarGauge.tube :=
             BarGauge.place
               (XYZ 0 (BarGauge.tube_bottom_y b + BarGauge.tube_height b / 2)
                  (BarGauge.depth b * 0.5))
               BarGauge.still top [BarGauge.material "Tube" b]
               (BarGauge.create_tube_outline "Tube" (BarGauge.tube_width b + 0.01 * 2)
                  (BarGauge.tube_height b + 0.01 * 2) 0.01 (BarGauge.depth b * 0.2));
           BarGauge.fill :=
             BarGauge.place (XYZ 0 (BarGauge.tube_bottom_y b) (BarGauge.depth b * 0.5))
               BarGauge.still top [BarGauge.material "Fill" b]
               (BarGauge.create_box "Fill" (BarGauge.tube_width b)
                  (BarGauge.tube_height b) (BarGauge.depth b * 0.15) true);
           BarGauge.bulb :=
             if BarGauge.is_thermometer b then
               [BarGauge.place
                  (XYZ 0 (- BarGauge.height b / 2 + BarGauge.tube_margin b
                          + BarGauge.bulb_radius b * 0.3) (BarGauge.depth b * 0.5))
                  BarGauge.still top [BarGauge.material "Bulb" b]
                  (BarGauge.create_sphere "Bulb" (BarGauge.bulb_radius b))]
             else [];
           BarGauge.scale_empty := BarGauge.empty "Scale" top;
           BarGauge.major_ticks_empty := BarGauge.empty "MajorTicks" (Some "Scale"%string);
           BarGauge.major_ticks :=
             Scale.collect (Scale.made (BarGauge.major_tick_body b))
               (BarGauge.major_tick_interval b) n (BarGauge.min_value b) 0;
           BarGauge.minor_ticks_empty := BarGauge.empty "MinorTicks" (Some "Scale"%string);
           BarGauge.minor_ticks :=
             Scale.collect (Scale.made (BarGauge.minor_tick_body b))
               (BarGauge.minor_tick_interval b) n' (BarGauge.min_value b) 0;
           BarGauge.numbers_empty := BarGauge.empty "Numbers" (Some "Scale"%string);
           BarGauge.numbers :=
             Scale.collect (Scale.made (BarGauge.number_body b))
               (BarGauge.major_tick_interval b) n (BarGauge.min_value b) 0;
           BarGauge.zones_empty := BarGauge.empty "Zones" top;
           BarGauge.zones := (zn ++ zw ++ zd)%list;
           BarGauge.label_text :=
             BarGauge.place
               (XYZ 0 (BarGauge.height b / 2 - BarGauge.tube_margin b * 0.7)
                  (BarGauge.depth b * 0.55))
               (Euler (Py.radians 90) 0 0) top []
               (BarGauge.create_text_object "Label" (BarGauge.label b)
                  (BarGauge.label_size b) 0.005);
           BarGauge.units_text :=
             BarGauge.place
               (XYZ 0 (- BarGauge.height b / 2 + BarGauge.tube_margin b * 0.5)
                  (BarGauge.depth b * 0.55))
               (Euler (Py.radians 90) 0 0) top []
               (BarGauge.create_text_object "Units" (BarGauge.units b)
                  (BarGauge.units_size b) 0.005) |}.
Proof.
  intros scale Hmajor Hminor limit n n' top Hfuel1 Hfuel2.
  pose proof (scale_loop_runs (BarGauge.major_tick_body b)
                (Scale.made (BarGauge.major_tick_body b)) fuel
                (BarGauge.min_value b) limit (BarGauge.major_tick_interval b)) as H1.
  pose proof (scale_loop_runs (BarGauge.minor_tick_body b)
                (Scale.made (BarGauge.minor_tick_body b)) fuel
                (BarGauge.min_value b) limit (BarGauge.minor_tick_interval b)) as H2.
  pose proof (scale_loop_runs (BarGauge.number_body b)
                (Scale.made (BarGauge.number_body b)) fuel
                (BarGauge.min_value b) limit (BarGauge.major_tick_interval b)) as H3.
  specialize (H1 ltac:(intros v i; apply made_ok;
                       destruct (bar_major_body b scale v i) as [o Ho]; eauto)
                 Hmajor Hfuel1).
  specialize (H2 ltac:(intros v i; apply made_ok; apply bar_minor_body; assumption)
                 Hminor Hfuel2).
  specialize (H3 ltac:(intros v i; apply made_ok;
                       destruct (bar_number_body b scale v i) as [o [Ho _]]; eauto)
                 Hmajor Hfuel1).
  destruct (bar_zone b scale "Zone_Normal" (BarGauge.zone_normal b)
              (BarGauge.material "Zone_Normal" b)) as [zn [Hzn _]].
  destruct (bar_zone b scale "Zone_Warning" (BarGauge.zone_warning b)
              (BarGauge.material "Zone_Warning" b)) as [zw [Hzw _]].
  destruct (bar_zone b scale "Zone_Danger" (BarGauge.zone_danger b)
              (BarGauge.material "Zone_Danger" b)) as [zd [Hzd _]].
  exists zn, zw, zd.
  split; [exact Hzn|]. split; [exact Hzw|]. split; [exact Hzd|].
  unfold BarGauge.create_bar_gauge. cbv zeta. fold limit.
  rewrite H1. unfold Run.bind at 1. unfold Run.ret at 1.
  rewrite H2. unfold Run.bind at 1. unfold Run.ret at 1.
  rewrite H3. unfold Run.bind at 1. unfold Run.ret at 1.
  rewrite Hzn. unfold Run.bind at 1. unfold Run.ret at 1.
  rewrite Hzw. unfold Run.bind at 1. unfold Run.ret at 1.
  rewrite Hzd. unfold Run.bind at 1. unfold Run.ret at 1.
  reflexivity.
Qed.

(** The names of what a scale loop collects count up from its first
    index without a gap, whichever iterations create nothing. *)
Lemma collect_names (f : Q -> nat -> option (Object Q)) (prefix : string) (step : Q)
  (n : nat) (value : Q) (index : nat) :
  (forall v i o, f v i = Some o -> name o = ArcGauge.index_name prefix i) ->
  map (@name Q) (Scale.collect f step n value index)
  = map (ArcGauge.index_name prefix)
      (seq index (List.length (Scale.collect f step n value index))).
Proof.
  intro Hf. revert value index. induction n as [|n IH]; intros value index; [reflexivity|].
  simpl Scale.collect. destruct (f value index) as [o|] eqn:E.
  - simpl. rewrite (Hf _ _ _ E). f_equal. apply IH.
  - apply IH.
Qed.

Lemma collect_length_le {A : Type} (f : Q -> nat -> option A) (step : Q)
  (n : nat) (value : Q) (index : nat) :
  (List.length (Scale.collect f step n value index) <= n)%nat.
Proof.
  revert value index. induction n as [|n IH]; intros value index; [apply le_n|].
  simpl. destruct (f value index); simpl.
  - apply le_n_S, IH.
  - apply le_S, IH.
Qed.

Lemma collect_length_all {A : Type} (f : Q -> nat -> option A) (step : Q)
  (n : nat) (value : Q) (index : nat) :
  (forall v i, f v i <> None) ->
  List.length (Scale.collect f step n value index) = n.
Proof.
  intro Hf. revert value index. induction n as [|n IH]; intros value index; [reflexivity|].
  simpl. destruct (f value index) eqn:E; [|destruct (Hf _ _ E)].
  simpl. rewrite IH. reflexivity.
Qed.

Ltac body_name :=
  let v := fresh "v" in let i := fresh "i" in let o := fresh "o" in
  let H := fresh "H" in
  intros v i o H; unfold Scale.made in H;
  repeat match type of H with
         | context [ArcGauge.value_to_angle ?x ?c] =>
             destruct (ArcGauge.value_to_angle x c); simpl in H
         | context [ArcGauge.minor_tick_guard ?c ?x] =>
             destruct (ArcGauge.minor_tick_guard c x) as [[|]|]; simpl in H
         | context [BarGauge.value_to_y_position ?x ?c ?h] =>
             destruct (BarGauge.value_to_y_position x c h); simpl in H
         | context [BarGauge.minor_tick_guard ?c ?x] =>
             destruct (BarGauge.minor_tick_guard c x) as [[|]|]; simpl in H
         end;
  try discriminate; inversion H; reflexivity.

Lemma arc_major_name (c : ArcGauge.GaugeConfig) :
  forall v i o, Scale.made (ArcGauge.major_tick_body c) v i = Some o ->
                name o = ArcGauge.index_name "MajorTick_" i.
Proof. unfold ArcGauge.major_tick_body. body_name. Qed.

Lemma arc_minor_name (c : ArcGauge.GaugeConfig) :
  forall v i o, Scale.made (ArcGauge.minor_tick_body c) v i = Some o ->
                name o = ArcGauge.index_name "MinorTick_" i.
Proof. unfold ArcGauge.minor_tick_body. body_name. Qed.

Lemma arc_number_name (c : ArcGauge.GaugeConfig) :
  forall v i o, Scale.made (ArcGauge.number_body c) v i = Some o ->
                name o = ArcGauge.index_name "Number_" i.
Proof. unfold ArcGauge.number_body. body_name. Qed.

Lemma bar_major_name (b : BarGauge.BarGaugeConfig) :
  forall v i o, Scale.made (BarGauge.major_tick_body b) v i = Some o ->
                name o = BarGauge.index_name "MajorTick_" i.
Proof. unfold BarGauge.major_tick_body. body_name. Qed.

Lemma bar_minor_name (b : BarGauge.BarGaugeConfig) :
  forall v i o, Scale.made (BarGauge.minor_tick_body b) v i = Some o ->
                name o = BarGauge.index_name "MinorTick_" i.
Proof. unfold BarGauge.minor_tick_body. body_name. Qed.

Lemma bar_number_name (b : BarGauge.BarGaugeConfig) :
  forall v i o, Scale.made (BarGauge.number_body b) v i = Some o ->
                name o = BarGauge.index_name "Number_" i.
Proof. unfold BarGauge.number_body. body_name. Qed.

Lemma iterations_steps (start limit step : Q) :
  start <= limit -> Scale.iterations start limit step = ScaleNames.steps start limit step.
Proof.
  intro H. unfold Scale.iterations. apply Qle_bool_iff in H. rewrite H. reflexivity.
Qed.

(** X5.  For [min_value < max_value] and positive tick intervals (and
    fuel enough for the loops to end) [create_gauge] and [create_bar_gauge]
    return a gauge with one major tick and one number for each of the
    [floor((max_value + 0.001 - min_value) / interval) + 1] steps of the
    major scale and at most one minor tick for each step of the minor
    scale.  Major ticks, minor ticks and numbers are named [MajorTick_0],
    [MajorTick_1], ... in the order of creation and without a gap, also
    where the minor loop skips a position. *)
Theorem scale_objects_are_numbered_in_order
  (c : ArcGauge.GaugeConfig) (b : BarGauge.BarGaugeConfig) (fuel : nat) :
  let nc := ScaleNames.steps (ArcGauge.min_value c) (ArcGauge.max_value c + 0.001)
              (ArcGauge.major_tick_interval c) in
  let nc' := ScaleNames.steps (ArcGauge.min_value c) (ArcGauge.max_value c + 0.001)
               (ArcGauge.minor_tick_interval c) in
  let nb := ScaleNames.steps (BarGauge.min_value b) (BarGauge.max_value b + 0.001)
              (BarGauge.major_tick_interval b) in
  let nb' := ScaleNames.steps (BarGauge.min_value b) (BarGauge.max_value b + 0.001)
               (BarGauge.minor_tick_interval b) in
  ArcGauge.min_value c < ArcGauge.max_value c ->
  0 < ArcGauge.major_tick_interval c -> 0 < ArcGauge.minor_tick_interval c ->
  BarGauge.min_value b < BarGauge.max_value b ->
  0 < BarGauge.major_tick_interval b -> 0 < BarGauge.minor_tick_interval b ->
  (nc < fuel)%nat -> (nc' < fuel)%nat -> (nb < fuel)%nat -> (nb' < fuel)%nat ->
  exists g h,
    ArcGauge.create_gauge fuel c = Run.ret g /\
    BarGauge.create_bar_gauge fuel b = Run.ret h /\
    List.length (ArcGauge.major_ticks g) = nc /\
    List.length (ArcGauge.numbers g) = nc /\
    (List.length (ArcGauge.minor_ticks g) <= nc')%nat /\
    ScaleNames.counts_up "MajorTick_" (ArcGauge.major_ticks g) /\
    ScaleNames.counts_up "MinorTick_" (ArcGauge.minor_ticks g) /\
    ScaleNames.counts_up "Number_" (ArcGauge.numbers g) /\
    List.length (BarGauge.major_ticks h) = nb /\
    List.length (BarGauge.numbers h) = nb /\
    (List.length (BarGauge.minor_ticks h) <= nb')%nat /\
    ScaleNames.counts_up "MajorTick_" (BarGauge.major_ticks h) /\
    ScaleNames.counts_up "MinorTick_" (BarGauge.minor_ticks h) /\
    ScaleNames.counts_up "Number_" (BarGauge.numbers h).
Proof.
  intros nc nc' nb nb' Hc Hc1 Hc2 Hb Hb1 Hb2 F1 F2 F3 F4.
  subst nc nc' nb nb'.
  rewrite <- !iterations_steps in * by lra.
  destruct (arc_create_gauge_parts c fuel Hc Hc1 Hc2 F1 F2)
    as [mid [zn [zw [zd [_ [_ [_ [_ Hg]]]]]]]].
  destruct (bar_create_gauge_parts b fuel Hb Hb1 Hb2 F3 F4)
    as [zn' [zw' [zd' [_ [_ [_ Hh]]]]]].
  eexists. eexists.
  split; [exact Hg|]. split; [exact Hh|].
  cbv beta iota delta [ArcGauge.major_ticks ArcGauge.minor_ticks ArcGauge.numbers
                       BarGauge.major_ticks BarGauge.minor_ticks BarGauge.numbers].
  unfold ScaleNames.counts_up.
  split.
  { apply collect_length_all. intros v i E.
    destruct (arc_major_body c Hc v i) as [o Ho].
    unfold Scale.made in E. rewrite Ho in E. discriminate. }
  split.
  { apply collect_length_all. intros v i E.
    destruct (arc_number_body c Hc v i) as [o [Ho _]].
    unfold Scale.made in E. rewrite Ho in E. discriminate. }
  split; [apply collect_length_le|].
  split; [apply (collect_names _ "MajorTick_"), arc_major_name|].
  split; [apply (collect_names _ "MinorTick_"), arc_minor_name|].
  split; [apply (collect_names _ "Number_"), arc_number_name|].
  split.
  { apply collect_length_all. intros v i E.
    destruct (bar_major_body b Hb v i) as [o Ho].
    unfold Scale.made in E. rewrite Ho in E. discriminate. }
  split.
  { apply collect_length_all. intros v i E.
    destruct (bar_number_body b Hb v i) as [o [Ho _]].
    unfold Scale.made in E. rewrite Ho in E. discriminate. }
  split; [apply collect_length_le|].
  split; [apply (collect_names _ "MajorTick_"), bar_major_name|].
  split; [apply (collect_names _ "MinorTick_"), bar_minor_name|].
  apply (collect_names _ "Number_"), bar_number_name.
Qed.

Lemma scale_objects_are_numbered_in_order_witness :
  exists g h,
    ArcGauge.create_gauge 100 ArcGauge.default_config = Run.ret g /\
    BarGauge.create_bar_gauge 100 BarGauge.default_config = Run.ret h /\
    List.length (ArcGauge.major_ticks g) = 7%nat /\
    ScaleNames.counts_up "MinorTick_" (ArcGauge.minor_ticks g) /\
    List.length (BarGauge.numbers h) = 7%nat.
Proof.
  destruct (scale_objects_are_numbered_in_order
              ArcGauge.default_config BarGauge.default_config 100)
    as [g [h [Hg [Hh [L1 [_ [_ [_ [N2 [_ [_ [L2 _]]]]]]]]]]]];
    try reflexivity; try (vm_compute; lia).
  exists g, h. split; [exact Hg|]. split; [exact Hh|].
  split; [exact L1|]. split; [exact N2 | exact L2].
Defined.

Lemma collect_Forall {A : Type} (P : A -> Prop) (f : Q -> nat -> option A) (step : Q)
  (n : nat) (value : Q) (index : nat) :
  (forall v i o, f v i = Some o -> P o) ->
  Forall P (Scale.collect f step n value index).
Proof.
  intro Hf. revert value index. induction n as [|n IH]; intros value index; [constructor|].
  simpl. destruct (f value index) as [o|] eqn:E; [|apply IH].
  constructor; [exact (Hf _ _ _ E) | apply IH].
Qed.

Lemma scale_loop_Forall {A : Type} (P : A -> Prop) (body : Q -> nat -> Run.R (option A))
  (fuel : nat) (value limit step : Q) (index : nat) (l : list A) :
  (forall v i o, body v i = Run.ret (Some o) -> P o) ->
  Run.scale_loop fuel value limit step index body = Run.ret l ->
  Forall P l.
Proof.
  intro Hbody. revert value index l.
  induction fuel as [|fuel IH]; intros value index l H; [discriminate|].
  simpl in H. destruct (Qle_bool value limit).
  - destruct (body value index) as [[[o|]|e]|] eqn:E; simpl in H; try discriminate.
    + destruct (Run.scale_loop fuel (value + step) limit step (S index) body)
        as [[rest|e]|] eqn:E'; simpl in H; try discriminate.
      inversion H. subst l. constructor; [exact (Hbody _ _ _ E) | exact (IH _ _ _ E')].
    + exact (IH _ _ _ H).
  - inversion H. constructor.
Qed.

Ltac body_field :=
  let v := fresh "v" in let i := fresh "i" in let o := fresh "o" in
  let H := fresh "H" in
  intros v i o H;
  repeat match type of H with
         | context [ArcGauge.value_to_angle ?x ?c] =>
             destruct (ArcGauge.value_to_angle x c); simpl in H
         | context [ArcGauge.minor_tick_guard ?c ?x] =>
             destruct (ArcGauge.minor_tick_guard c x) as [[|]|]; simpl in H
         | context [BarGauge.value_to_y_position ?x ?c ?h] =>
             destruct (BarGauge.value_to_y_position x c h); simpl in H
         | context [BarGauge.minor_tick_guard ?c ?x] =>
             destruct (BarGauge.minor_tick_guard c x) as [[|]|]; simpl in H
         end;
  try discriminate; inversion H; reflexivity.

Lemma arc_major_parent (c : ArcGauge.GaugeConfig) :
  forall v i o, ArcGauge.major_tick_body c v i = Run.ret (Some o) ->
                parent o = Some "MajorTicks"%string.
Proof. unfold ArcGauge.major_tick_body. body_field. Qed.

Lemma arc_minor_parent (c : ArcGauge.GaugeConfig) :
  forall v i o, ArcGauge.minor_tick_body c v i = Run.ret (Some o) ->
                parent o = Some "MinorTicks"%string.
Proof. unfold ArcGauge.minor_tick_body. body_field. Qed.

Lemma arc_number_parent (c : ArcGauge.GaugeConfig) :
  forall v i o, ArcGauge.number_body c v i = Run.ret (Some o) ->
                parent o = Some "Numbers"%string.
Proof. unfold ArcGauge.number_body. body_field. Qed.

Lemma bar_major_parent (b : BarGauge.BarGaugeConfig) :
  forall v i o, BarGauge.major_tick_body b v i = Run.ret (Some o) ->
                parent o = Some "MajorTicks"%string.
Proof. unfold BarGauge.major_tick_body. body_field. Qed.

Lemma bar_minor_parent (b : BarGauge.BarGaugeConfig) :
  forall v i o, BarGauge.minor_tick_body b v i = Run.ret (Some o) ->
                parent o = Some "MinorTicks"%string.
Proof. unfold BarGauge.minor_tick_body. body_field. Qed.

Lemma bar_number_parent (b : BarGauge.BarGaugeConfig) :
  forall v i o, BarGauge.number_body b v i = Run.ret (Some o) ->
                parent o = Some "Numbers"%string.
Proof. unfold BarGauge.number_body. body_field. Qed.

Lemma arc_zone_parent (c : ArcGauge.GaugeConfig) (zone_name key : string)
  (zone : option (Q * Q)) (l : list ArcGauge.Object) :
  ArcGauge.create_zone c zone_name key zone = Run.ret l ->
  Forall (fun o => parent o = Some "Zones"%string) l.
Proof.
  unfold ArcGauge.create_zone. destruct zone as [[z0 z1]|].
  - destruct (Py.ltb z0 z1).
    + destruct (ArcGauge.value_to_angle z1 c); simpl; [|discriminate].
      destruct (ArcGauge.value_to_angle z0 c); simpl; [|discriminate].
      intro H. inversion H. repeat constructor.
    + intro H. inversion H. constructor.
  - intro H. inversion H. constructor.
Qed.

Lemma bar_zone_parent (b : BarGauge.BarGaugeConfig) (zone_name material : string)
  (zone : option (Q * Q)) (l : list BarGauge.Object) :
  BarGauge.create_zone b zone_name zone material = Run.ret l ->
  Forall (fun o => parent o = Some "Zones"%string) l.
Proof.
  unfold BarGauge.create_zone. destruct zone as [[z0 z1]|].
  - destruct (Py.ltb z0 z1).
    + destruct (BarGauge.value_to_y_position z0 b _); simpl; [|discriminate].
      destruct (BarGauge.value_to_y_position z1 b _); simpl; [|discriminate].
      intro H. inversion H. repeat constructor.
    + intro H. inversion H. constructor.
  - intro H. inversion H. constructor.
Qed.

(** X6.  The object tree of a gauge that [create_gauge] or
    [create_bar_gauge] returns.  The root empty, [Gauge_<name>] or
    [BarGauge_<name>], has no parent; the body parts, the [Scale] empty and
    the two texts are its children; [MajorTicks], [MinorTicks] and
    [Numbers] are children of [Scale]; every tick, number and zone is a
    child of the empty of its kind.  [Zones] is a child of [Scale] in the
    arc gauge and of the root in the bar gauge. *)
Theorem gauge_hierarchy
  (c : ArcGauge.GaugeConfig) (b : BarGauge.BarGaugeConfig) (fuel : nat)
  (g : ArcGauge.Gauge) (h : BarGauge.Gauge) :
  ArcGauge.create_gauge fuel c = Run.ret g ->
  BarGauge.create_bar_gauge fuel b = Run.ret h ->
  (name (ArcGauge.root g) = ("Gauge_" ++ ArcGauge.name c)%string /\
   parent (ArcGauge.root g) = None /\
   Forall (ScaleNames.child_of (ArcGauge.root g))
     [ArcGauge.bezel g; ArcGauge.face g; ArcGauge.scale_empty g; ArcGauge.needle g;
      ArcGauge.hub g; ArcGauge.label_text g; ArcGauge.units_text g] /\
   Forall (ScaleNames.child_of (ArcGauge.scale_empty g))
     [ArcGauge.major_ticks_empty g; ArcGauge.minor_ticks_empty g;
      ArcGauge.numbers_empty g; ArcGauge.zones_empty g] /\
   Forall (ScaleNames.child_of (ArcGauge.major_ticks_empty g)) (ArcGauge.major_ticks g) /\
   Forall (ScaleNames.child_of (ArcGauge.minor_ticks_empty g)) (ArcGauge.minor_ticks g) /\
   Forall (ScaleNames.child_of (ArcGauge.numbers_empty g)) (ArcGauge.numbers g) /\
   Forall (ScaleNames.child_of (ArcGauge.zones_empty g)) (ArcGauge.zones g)) /\
  (name (BarGauge.root h) = ("BarGauge_" ++ BarGauge.name b)%string /\
   parent (BarGauge.root h) = None /\
   Forall (ScaleNames.child_of (BarGauge.root h))
     ([BarGauge.housing h; BarGauge.background h; BarGauge.tube h; BarGauge.fill h]
      ++ BarGauge.bulb h
      ++ [BarGauge.scale_empty h; BarGauge.zones_empty h;
          BarGauge.label_text h; BarGauge.units_text h]) /\
   Forall (ScaleNames.child_of (BarGauge.scale_empty h))
     [BarGauge.major_ticks_empty h; BarGauge.minor_ticks_empty h;
      BarGauge.numbers_empty h] /\
   Forall (ScaleNames.child_of (BarGauge.major_ticks_empty h)) (BarGauge.major_ticks h) /\
   Forall (ScaleNames.child_of (BarGauge.minor_ticks_empty h)) (BarGauge.minor_ticks h) /\
   Forall (ScaleNames.child_of (BarGauge.numbers_empty h)) (BarGauge.numbers h) /\
   Forall (ScaleNames.child_of (BarGauge.zones_empty h)) (BarGauge.zones h)).
Proof.
  intros Hg Hh. split.
  - unfold ArcGauge.create_gauge in Hg. cbv zeta in Hg.
    destruct (Run.scale_loop fuel _ _ _ 0 (ArcGauge.major_tick_body c))
      as [[majors|e]|] eqn:E1; simpl in Hg; try discriminate.
    destruct (Run.scale_loop fuel _ _ _ 0 (ArcGauge.minor_tick_body c))
      as [[minors|e]|] eqn:E2; simpl in Hg; try discriminate.
    destruct (Run.scale_loop fuel _ _ _ 0 (ArcGauge.number_body c))
      as [[nums|e]|] eqn:E3; simpl in Hg; try discriminate.
    destruct (ArcGauge.create_zone c "Zone_Normal" _ _) as [[zn|e]|] eqn:Z1;
      simpl in Hg; try discriminate.
    destruct (ArcGauge.create_zone c "Zone_Warning" _ _) as [[zw|e]|] eqn:Z2;
      simpl in Hg; try discriminate.
    destruct (ArcGauge.create_zone c "Zone_Danger" _ _) as [[zd|e]|] eqn:Z3;
      simpl in Hg; try discriminate.
    destruct (ArcGauge.value_to_angle _ c) as [mid|e] eqn:M;
      simpl in Hg; try discriminate.
    inversion Hg as [G]. clear Hg G.
    cbv beta iota delta [ArcGauge.root ArcGauge.bezel ArcGauge.face ArcGauge.scale_empty
      ArcGauge.major_ticks_empty ArcGauge.major_ticks ArcGauge.minor_ticks_empty
      ArcGauge.minor_ticks ArcGauge.numbers_empty ArcGauge.numbers ArcGauge.zones_empty
      ArcGauge.zones ArcGauge.needle ArcGauge.hub ArcGauge.label_text ArcGauge.units_text].
    split; [reflexivity|]. split; [reflexivity|].
    split; [repeat constructor|]. split; [repeat constructor|].
    split; [apply (scale_loop_Forall _ _ _ _ _ _ _ _ (arc_major_parent c) E1)|].
    split; [apply (scale_loop_Forall _ _ _ _ _ _ _ _ (arc_minor_parent c) E2)|].
    split; [apply (scale_loop_Forall _ _ _ _ _ _ _ _ (arc_number_parent c) E3)|].
    rewrite !Forall_app. split; [|split].
    + exact (arc_zone_parent _ _ _ _ _ Z1).
    + exact (arc_zone_parent _ _ _ _ _ Z2).
    + exact (arc_zone_parent _ _ _ _ _ Z3).
  - unfold BarGauge.create_bar_gauge in Hh. cbv zeta in Hh.
    destruct (Run.scale_loop fuel _ _ _ 0 (BarGauge.major_tick_body b))
      as [[majors|e]|] eqn:E1; simpl in Hh; try discriminate.
    destruct (Run.scale_loop fuel _ _ _ 0 (BarGauge.minor_tick_body b))
      as [[minors|e]|] eqn:E2; simpl in Hh; try discriminate.
    destruct (Run.scale_loop fuel _ _ _ 0 (BarGauge.number_body b))
      as [[nums|e]|] eqn:E3; simpl in Hh; try discriminate.
    destruct (BarGauge.create_zone b "Zone_Normal" _ _) as [[zn|e]|] eqn:Z1;
      simpl in Hh; try discriminate.
    destruct (BarGauge.create_zone b "Zone_Warning" _ _) as [[zw|e]|] eqn:Z2;
      simpl in Hh; try discriminate.
    destruct (BarGauge.create_zone b "Zone_Danger" _ _) as [[zd|e]|] eqn:Z3;
      simpl in Hh; try discriminate.
    inversion Hh as [G]. clear Hh G.
    cbv beta iota delta [BarGauge.root BarGauge.housing BarGauge.background BarGauge.tube
      BarGauge.fill BarGauge.bulb BarGauge.scale_empty
      BarGauge.major_ticks_empty BarGauge.major_ticks BarGauge.minor_ticks_empty
      BarGauge.minor_ticks BarGauge.numbers_empty BarGauge.numbers BarGauge.zones_empty
      BarGauge.zones BarGauge.label_text BarGauge.units_text].
    split; [reflexivity|]. split; [reflexivity|].
    split; [destruct (BarGauge.is_thermometer b); repeat constructor|].
    split; [repeat constructor|].
    split; [apply (scale_loop_Forall _ _ _ _ _ _ _ _ (bar_major_parent b) E1)|].
    split; [apply (scale_loop_Forall _ _ _ _ _ _ _ _ (bar_minor_parent b) E2)|].
    split; [apply (scale_loop_Forall _ _ _ _ _ _ _ _ (bar_number_parent b) E3)|].
    rewrite !Forall_app. split; [|split].
    + exact (bar_zone_parent _ _ _ _ _ Z1).
    + exact (bar_zone_parent _ _ _ _ _ Z2).
    + exact (bar_zone_parent _ _ _ _ _ Z3).
Qed.

Lemma gauge_hierarchy_witness :
  exists g h,
    ArcGauge.create_gauge 100 ArcGauge.default_config = Run.ret g /\
    BarGauge.create_bar_gauge 100 BarGauge.default_config = Run.ret h /\
    name (ArcGauge.root g) = "Gauge_Temperature"%string /\
    Forall (ScaleNames.child_of (ArcGauge.major_ticks_empty g)) (ArcGauge.major_ticks g) /\
    Forall (ScaleNames.child_of (BarGauge.zones_empty h)) (BarGauge.zones h).
Proof.
  assert (Hg : exists g, ArcGauge.create_gauge 100 ArcGauge.default_config = Run.ret g).
  { vm_compute. eexists. reflexivity. }
  assert (Hh : exists h, BarGauge.create_bar_gauge 100 BarGauge.default_config = Run.ret h).
  { vm_compute. eexists. reflexivity. }
  destruct Hg as [g Hg]. destruct Hh as [h Hh].
  destruct (gauge_hierarchy ArcGauge.default_config BarGauge.default_config 100 g h Hg Hh)
    as [[Hn [_ [_ [_ [Hm _]]]]] [_ [_ [_ [_ [_ [_ [_ Hz]]]]]]]].
  exists g, h. split; [exact Hg|]. split; [exact Hh|].
  split; [exact Hn|]. split; [exact Hm | exact Hz].
Defined.

End GaugeParts.

(** ** The render script, step by step (X7 to X9) *)

Section RenderMore.
Import Blender.
Variable env : Render.Env.

Lemma first_usable_spec (paths : list Render.Path) :
  match Render.first_usable env paths with
  | Some dir =>
      exists pre post,
        paths = (pre ++ dir :: post)%list /\
        RenderSpec.usable env dir = true /\
        forall p, In p pre -> RenderSpec.usable env p = false
  | None => forall p, In p paths -> RenderSpec.usable env p = false
  end.
Proof.
  induction paths as [|path rest IH]; simpl.
  - intros p [].
  - unfold RenderSpec.usable at 1 2.
    destruct (Render.isdir env path) eqn:E1.
    + exists [], rest. split; [reflexivity|].
      split; [unfold RenderSpec.usable; rewrite E1; reflexivity | intros p []].
    + destruct (Render.isdir env (Render.dirname path)) eqn:E2.
      * destruct (Render.makedirs_fails env path) eqn:E3.
        -- destruct (Render.first_usable env rest) as [dir|].
           ++ destruct IH as [pre [post [Hp [Hu Hn]]]].
              exists (path :: pre), post. split; [rewrite Hp; reflexivity|].
              split; [exact Hu|].
              intros p [<-|Hin]; [|exact (Hn p Hin)].
              unfold RenderSpec.usable. rewrite E1, E2, E3. reflexivity.
           ++ intros p [<-|Hin]; [|exact (IH p Hin)].
              unfold RenderSpec.usable. rewrite E1, E2, E3. reflexivity.
        -- exists [], rest. split; [reflexivity|].
           split; [unfold RenderSpec.usable; rewrite E1, E2, E3; reflexivity | intros p []].
      * destruct (Render.first_usable env rest) as [dir|].
        -- destruct IH as [pre [post [Hp [Hu Hn]]]].
           exists (path :: pre), post. split; [rewrite Hp; reflexivity|].
           split; [exact Hu|].
           intros p [<-|Hin]; [|exact (Hn p Hin)].
           unfold RenderSpec.usable. rewrite E1, E2. reflexivity.
        -- intros p [<-|Hin]; [|exact (IH p Hin)].
           unfold RenderSpec.usable. rewrite E1, E2. reflexivity.
Qed.

(** X7.  [find_output_dir] returns [True] with [OUTPUT_DIR] set to the
    first candidate, in the order of the list, that exists or that
    [os.makedirs] can create under an existing parent; when no candidate is
    usable it falls back to the directory of the blend file, or to
    [~/Desktop] for an unsaved file.  For a saved file the first candidate
    is [Textures/ReactorOperatorPanel] three directories above the blend
    file. *)
Theorem find_output_dir_takes_the_first_usable (s : Render.State) :
  exists dir,
    Render.find_output_dir env s
    = (true, {| Render.objects := Render.objects s;
                Render.OUTPUT_DIR := Some dir;
                Render.filepath := Render.filepath s;
                Render.written := Render.written s |}) /\
    ((exists pre post,
        Render.candidates env = (pre ++ dir :: post)%list /\
        RenderSpec.usable env dir = true /\
        forall p, In p pre -> RenderSpec.usable env p = false)
     \/
     ((forall p, In p (Render.candidates env) -> RenderSpec.usable env p = false) /\
      dir = RenderSpec.fallback env)) /\
    (Render.blend_path env <> [] ->
     hd_error (Render.candidates env)
     = Some (Render.join
               (Render.dirname (Render.dirname (Render.dirname (Render.blend_path env))))
               ["Textures"; "ReactorOperatorPanel"]%string)).
Proof.
  unfold Render.find_output_dir.
  pose proof (first_usable_spec (Render.candidates env)) as H.
  destruct (Render.first_usable env (Render.candidates env)) as [dir|].
  - exists dir. split; [reflexivity|]. split; [left; exact H|].
    unfold Render.candidates. destruct (Render.blend_path env); [congruence|reflexivity].
  - exists (RenderSpec.fallback env). split.
    + unfold RenderSpec.fallback. destruct (Render.blend_path env); reflexivity.
    + split; [right; split; [exact H | reflexivity]|].
      unfold Render.candidates. destruct (Render.blend_path env); [congruence|reflexivity].
Qed.

Lemma filter_filter_neg {A : Type} (f : A -> bool) (l : list A) :
  filter f (filter (fun x => negb (f x)) l) = [].
Proof.
  induction l as [|x l IH]; [reflexivity|].
  simpl. destruct (f x) eqn:E; simpl; [exact IH|]. rewrite E. exact IH.
Qed.

Lemma filter_idem {A : Type} (f : A -> bool) (l : list A) :
  filter f (filter f l) = filter f l.
Proof.
  induction l as [|x l IH]; [reflexivity|].
  simpl. destruct (f x) eqn:E; simpl; [rewrite E, IH; reflexivity | exact IH].
Qed.

(** X8.  After [setup_camera] the scene holds exactly one camera,
    [RenderCamera], added after the objects that are no cameras, which keep
    their order.  It is orthographic, stands over the centre of the panel
    at height 8, and its scale covers the panel in width and in height.
    Running [setup_camera] again changes nothing. *)
Theorem setup_camera_leaves_one_camera (s : Render.State) :
  let s' := Render.setup_camera s in
  exists camera ortho_scale,
    Render.objects s' = (RenderSpec.others (Render.objects s) ++ [camera])%list /\
    RenderSpec.cameras (Render.objects s') = [camera] /\
    RenderSpec.others (Render.objects s') = RenderSpec.others (Render.objects s) /\
    name camera = "RenderCamera"%string /\
    data camera = CameraData "ORTHO" (Some ortho_scale) /\
    location camera = XYZ (Render.PANEL_WIDTH / 2) (Render.PANEL_HEIGHT / 2) 8.0 /\
    (Render.PANEL_WIDTH <= ortho_scale /\
     Render.PANEL_HEIGHT <= ortho_scale * Render.RENDER_HEIGHT / Render.RENDER_WIDTH)%Q /\
    Render.setup_camera s' = s'.
Proof.
  intro s'. subst s'. unfold Render.setup_camera at 1 2 3.
  cbv beta iota zeta delta [Render.objects].
  do 2 eexists.
  split; [reflexivity|].
  split.
  { unfold RenderSpec.cameras. rewrite filter_app, filter_filter_neg. reflexivity. }
  split.
  { unfold RenderSpec.others. rewrite filter_app, filter_idem. simpl.
    apply app_nil_r. }
  split; [reflexivity|]. split; [reflexivity|]. split; [reflexivity|].
  split; [split; vm_compute; discriminate|].
  unfold Render.setup_camera. simpl Render.objects.
  rewrite filter_app, filter_idem. simpl. rewrite app_nil_r. reflexivity.
Qed.


End RenderMore.


(** ** The scene of the panel (X10 to X13) *)

Section PanelScene.
Import Blender.
Variable apply_fails : nat -> string -> bool.

Lemma construct_panel_built (s : Panel.State) :
  Panel.construct_panel s = Py.Ok (tt, PanelSpec.built).
Proof. vm_compute. reflexivity. Qed.

Lemma built_fresh : forallb Settled.fresh (Panel.objects PanelSpec.built) = true.
Proof. vm_compute. reflexivity. Qed.

Lemma build_panel_result (s : Panel.State) :
  Panel.build_panel apply_fails s
  = Py.Ok (tt, {| Panel.objects :=
                    (Settled.settle_all apply_fails 0 (Panel.objects PanelSpec.built)
                     ++ PanelSpec.lights)%list;
                  Panel.active := Some 0%nat |}).
Proof.
  pose proof built_fresh as Hfresh. rewrite forallb_forall in Hfresh.
  destruct (apply_all_modifiers_settles apply_fails PanelSpec.built) as [act Hloop].
  { intros o Ho. apply (fresh_spec o (Hfresh o Ho)). }
  unfold Panel.build_panel. unfold Panel.bind at 1.
  rewrite construct_panel_built.
  unfold Panel.bind at 1. rewrite Hloop.
  generalize (Settled.settle_all apply_fails 0 (Panel.objects PanelSpec.built)).
  intro l.
  unfold Panel.setup_lighting, Panel.bind, Panel.add_object, Panel.set_active, Panel.ret.
  cbv beta iota delta [Panel.objects Panel.active].
  unfold PanelSpec.lights. rewrite <- !app_assoc. reflexivity.
Qed.

Lemma settle_same_layout (i : nat) (o : Panel.Object) :
  PanelSpec.same_layout o (Settled.settle apply_fails i o).
Proof.
  unfold Settled.settle, PanelSpec.same_layout.
  destruct (type o); destruct (modifiers o); repeat split.
Qed.

Lemma settle_all_cons (k : nat) (o : Panel.Object) (l : list Panel.Object) :
  Settled.settle_all apply_fails k (o :: l)
  = Settled.settle apply_fails k o :: Settled.settle_all apply_fails (S k) l.
Proof. reflexivity. Qed.

Lemma settle_all_Forall (P : Panel.Object -> Prop) (l : list Panel.Object) (k : nat) :
  (forall i o, P o -> P (Settled.settle apply_fails i o)) ->
  Forall P l -> Forall P (Settled.settle_all apply_fails k l).
Proof.
  intros HP H. revert k. induction H as [|o l Ho Hl IH]; intro k.
  - constructor.
  - rewrite settle_all_cons. constructor; [apply HP, Ho | apply IH].
Qed.

Lemma built_shape :
  exists root rest,
    Panel.objects PanelSpec.built = root :: rest /\
    name root = "ReactorOperatorPanel"%string /\
    data root = NoData /\ parent root = None /\
    forallb (fun o => PanelSpec.child_of_root o && negb (PanelSpec.is_root o)) rest = true.
Proof.
  do 2 eexists. split; [vm_compute; reflexivity|].
  split; [reflexivity|]. split; [reflexivity|]. split; [reflexivity|].
  vm_compute. reflexivity.
Qed.

Lemma build_panel_shape (s : Panel.State) :
  exists root rest,
    Panel.build_panel apply_fails s
    = Py.Ok (tt, {| Panel.objects := root :: rest; Panel.active := Some 0%nat |}) /\
    name root = "ReactorOperatorPanel"%string /\
    data root = NoData /\
    parent root = None /\
    Forall (fun o => parent o = Some "ReactorOperatorPanel"%string /\
                     name o <> "ReactorOperatorPanel"%string) rest /\
    get (root :: rest) "ReactorOperatorPanel" = Some root.
Proof.
  destruct built_shape as [root [rest [Hb [Hn [Hd [Hp Hrest]]]]]].
  exists (Settled.settle apply_fails 0 root).
  exists (Settled.settle_all apply_fails 1 rest ++ PanelSpec.lights)%list.
  destruct (settle_same_layout 0 root) as [Hn' [Hd' [_ [_ [Hp' _]]]]].
  split.
  { rewrite build_panel_result, Hb, settle_all_cons. reflexivity. }
  split; [congruence|]. split; [congruence|]. split; [congruence|].
  split.
  - apply Forall_app. split.
    + apply settle_all_Forall.
      * intros i o [H1 H2].
        destruct (settle_same_layout i o) as [En [_ [_ [_ [Ep _]]]]].
        rewrite En, Ep. split; assumption.
      * rewrite forallb_forall in Hrest. apply Forall_forall. intros o Ho.
        specialize (Hrest o Ho). apply andb_true_iff in Hrest. destruct Hrest as [H1 H2].
        unfold PanelSpec.child_of_root in H1. unfold PanelSpec.is_root in H2.
        split.
        -- destruct (parent o) as [p|]; [|discriminate].
           apply String.eqb_eq in H1. congruence.
        -- intro E. rewrite E in H2. discriminate.
    + repeat constructor; discriminate.
  - unfold get. simpl find. rewrite Hn', Hn. reflexivity.
Qed.

(** X10.  Whatever the modifier operator refuses, [build_panel] leaves
    a scene whose first object is the empty [ReactorOperatorPanel], without
    parent, and in which every other object is a child of that empty under
    another name; a lookup of [ReactorOperatorPanel] finds the root, which
    is also the active object. *)
Theorem build_panel_hierarchy (s : Panel.State) :
  exists root rest,
    Panel.build_panel apply_fails s
    = Py.Ok (tt, {| Panel.objects := root :: rest; Panel.active := Some 0%nat |}) /\
    name root = "ReactorOperatorPanel"%string /\
    data root = NoData /\
    parent root = None /\
    Forall (fun o => parent o = Some "ReactorOperatorPanel"%string /\
                     name o <> "ReactorOperatorPanel"%string) rest /\
    get (root :: rest) "ReactorOperatorPanel" = Some root.
Proof. exact (build_panel_shape s). Qed.

Lemma built_within_plate :
  forallb PanelSpec.within_plate (Panel.objects PanelSpec.built) = true.
Proof. vm_compute. reflexivity. Qed.

Lemma within_plate_spans (o : Panel.Object) (x0 x1 y0 y1 z0 z1 : Q) :
  PanelSpec.within_plate o = true ->
  Box.spans o x0 x1 y0 y1 z0 z1 ->
  (0 <= x0 /\ x1 <= Panel.PANEL_WIDTH /\ 0 <= y0 /\ y1 <= Panel.PANEL_HEIGHT /\
   - Panel.PANEL_DEPTH <= z0 /\ z1 <= Panel.BEZEL_DEPTH)%Q.
Proof.
  unfold PanelSpec.within_plate, Box.spans.
  destruct (data o) as [|[[[w h] d]| | | | | | | | | | | | ]| | | |]; try contradiction.
  destruct (location o) as [cx cy cz|]; try contradiction.
  rewrite !andb_true_iff, !Qle_bool_iff.
  intros [[[[[H1 H2] H3] H4] H5] H6] [E1 [E2 [E3 [E4 [E5 E6]]]]].
  rewrite <- E1, <- E2, <- E3, <- E4, <- E5, <- E6. repeat split; assumption.
Qed.

(** X11.  Every mesh [build_panel] makes is a box, and every box lies
    within the plate: inside the footprint [PANEL_WIDTH] by [PANEL_HEIGHT],
    not below the back of the plate ([-PANEL_DEPTH]) and not above the
    bezels ([BEZEL_DEPTH]).  Every text label has its origin over the
    footprint. *)
Theorem build_panel_stays_on_the_plate (s : Panel.State) :
  exists final,
    Panel.build_panel apply_fails s = Py.Ok (tt, final) /\
    (forall o, In o (Panel.objects final) -> type o = MESH ->
       exists dims, data o = MeshData (Cube dims)) /\
    (forall o x0 x1 y0 y1 z0 z1,
       In o (Panel.objects final) -> Box.spans o x0 x1 y0 y1 z0 z1 ->
       0 <= x0 /\ x1 <= Panel.PANEL_WIDTH /\ 0 <= y0 /\ y1 <= Panel.PANEL_HEIGHT /\
       - Panel.PANEL_DEPTH <= z0 /\ z1 <= Panel.BEZEL_DEPTH)%Q /\
    (forall o x y z, In o (Panel.objects final) -> type o = FONT ->
       location o = XYZ x y z ->
       0 <= x <= Panel.PANEL_WIDTH /\ 0 <= y <= Panel.PANEL_HEIGHT)%Q.
Proof.
  eexists. split; [apply build_panel_result|].
  cbv beta iota delta [Panel.objects].
  assert (H : Forall (fun o => PanelSpec.within_plate o = true)
                (Settled.settle_all apply_fails 0 (Panel.objects PanelSpec.built))).
  { apply settle_all_Forall.
    - intros i o Ho. destruct (settle_same_layout i o) as [_ [Ed [El _]]].
      unfold PanelSpec.within_plate. rewrite Ed, El. exact Ho.
    - apply Forall_forall. apply forallb_forall. exact built_within_plate. }
  rewrite Forall_forall in H.
  split; [|split].
  - intros o Ho Ht. apply in_app_or in Ho. destruct Ho as [Ho|Ho].
    + specialize (H o Ho). unfold PanelSpec.within_plate in H. unfold type in Ht.
      destruct (data o) as [|[[[w h] d]| | | | | | | | | | | | ]| | | |];
        try discriminate.
      eexists. reflexivity.
    + simpl in Ho. destruct Ho as [<-|[<-|[<-|[]]]]; discriminate.
  - intros o x0 x1 y0 y1 z0 z1 Ho Hs. apply in_app_or in Ho. destruct Ho as [Ho|Ho].
    + exact (within_plate_spans o _ _ _ _ _ _ (H o Ho) Hs).
    + simpl in Ho. destruct Ho as [<-|[<-|[<-|[]]]]; destruct Hs.
  - intros o x y z Ho Ht El. apply in_app_or in Ho. destruct Ho as [Ho|Ho].
    + specialize (H o Ho). unfold PanelSpec.within_plate in H. unfold type in Ht.
      destruct (data o) as [|m| | | |]; try discriminate.
      rewrite El in H. rewrite !andb_true_iff, !Qle_bool_iff in H.
      destruct H as [[[H1 H2] H3] H4]. repeat split; assumption.
    + simpl in Ho. destruct Ho as [<-|[<-|[<-|[]]]]; discriminate.
Qed.

Lemma spans_b_spec (o : Panel.Object) (x0 x1 y0 y1 z0 z1 : Q) :
  PanelSpec.spans_b o x0 x1 y0 y1 z0 z1 = true -> Box.spans o x0 x1 y0 y1 z0 z1.
Proof.
  unfold PanelSpec.spans_b, Box.spans.
  destruct (data o) as [|[[[w h] d]| | | | | | | | | | | | ]| | | |]; try discriminate.
  destruct (location o) as [cx cy cz|]; try discriminate.
  rewrite !andb_true_iff, !Qeq_bool_iff. tauto.
Qed.

Lemma spans_same_layout (o o' : Panel.Object) (x0 x1 y0 y1 z0 z1 : Q) :
  PanelSpec.same_layout o o' -> Box.spans o x0 x1 y0 y1 z0 z1 ->
  Box.spans o' x0 x1 y0 y1 z0 z1.
Proof.
  intros [_ [Ed [El _]]]. unfold Box.spans. rewrite Ed, El. tauto.
Qed.

(** Looking an object up by name after the modifier loop and the lights. *)
Lemma get_settled (l extra : list Panel.Object) (k : nat) (key : string)
  (o : Panel.Object) :
  get l key = Some o ->
  exists o', get (Settled.settle_all apply_fails k l ++ extra) key = Some o' /\
             PanelSpec.same_layout o o'.
Proof.
  revert k. induction l as [|x l IH]; intros k H; [discriminate|].
  rewrite settle_all_cons. unfold get in *. simpl in *.
  destruct (settle_same_layout k x) as [En Hrest].
  rewrite En. destruct (String.eqb (name x) key).
  - inversion H. subst o. eexists. split; [reflexivity|].
    split; [exact En | exact Hrest].
  - apply IH. exact H.
Qed.

Lemma part_settled (l extra : list Panel.Object) (key : string)
  (x0 x1 y0 y1 z0 z1 : Q) :
  PanelSpec.part_b l key x0 x1 y0 y1 z0 z1 = true ->
  exists o, get (Settled.settle_all apply_fails 0 l ++ extra) key = Some o /\
            Box.spans o x0 x1 y0 y1 z0 z1.
Proof.
  unfold PanelSpec.part_b. destruct (get l key) as [o|] eqn:E; [|discriminate].
  intro H. destruct (get_settled l extra 0 key o E) as [o' [Hg Hl]].
  exists o'. split; [exact Hg|].
  apply (spans_same_layout o o' _ _ _ _ _ _ Hl). apply spans_b_spec, H.
Qed.

Lemma bezel_settled (l extra : list Panel.Object) (key : string) (x y w h : Q) :
  PanelSpec.bezel_b l key x y w h = true ->
  PanelSpec.bezel_around (Settled.settle_all apply_fails 0 l ++ extra) key x y w h.
Proof.
  unfold PanelSpec.bezel_b. rewrite !andb_true_iff.
  intros [[[[H1 H2] H3] H4] H5].
  destruct (part_settled l extra _ _ _ _ _ _ _ H1) as [top [G1 S1]].
  destruct (part_settled l extra _ _ _ _ _ _ _ H2) as [bot [G2 S2]].
  destruct (part_settled l extra _ _ _ _ _ _ _ H3) as [left [G3 S3]].
  destruct (part_settled l extra _ _ _ _ _ _ _ H4) as [right [G4 S4]].
  destruct (part_settled l extra _ _ _ _ _ _ _ H5) as [display [G5 S5]].
  exists top, bot, left, right, display. repeat split; assumption.
Qed.

Lemma enumerate_In {A : Type} (l : list A) (i : nat) (x : A) :
  nth_error l i = Some x -> In (i, x) (Panel.enumerate l).
Proof.
  unfold Panel.enumerate.
  assert (H : forall k, nth_error l i = Some x ->
                        In ((k + i)%nat, x) (combine (seq k (List.length l)) l)).
  { revert i. induction l as [|y l IH]; intros i k Hi; [destruct i; discriminate|].
    destruct i as [|i]; simpl in *.
    - inversion Hi. left. rewrite Nat.add_0_r. reflexivity.
    - right. rewrite Nat.add_succ_r. apply (IH i (S k) Hi). }
  exact (H 0%nat).
Qed.

Lemma column_settled (l extra : list Panel.Object) (prefix : string)
  (names : list string) (rx ry rw rh : Q) :
  PanelSpec.column_b l prefix names rx ry rw rh = true ->
  forall i gname,
    nth_error names i = Some gname ->
    PanelSpec.bezel_around (Settled.settle_all apply_fails 0 l ++ extra)
      (prefix ++ gname)
      (rx + Panel.gauge_padding)%Q
      (PanelSpec.gauge_y ry rh (List.length names) i)
      (rw - Panel.gauge_padding * 2)%Q
      (PanelSpec.gauge_h rh (List.length names)).
Proof.
  unfold PanelSpec.column_b. rewrite forallb_forall.
  intros H i gname Hi. apply bezel_settled.
  exact (H (i, gname) (enumerate_In names i gname Hi)).
Qed.

Lemma built_columns :
  PanelSpec.column_b (Panel.objects PanelSpec.built) "Gauge_L_" Panel.gauge_names_left
    0 (0.26 * Panel.PANEL_HEIGHT) (0.15 * Panel.PANEL_WIDTH) (0.74 * Panel.PANEL_HEIGHT)
  = true /\
  PanelSpec.column_b (Panel.objects PanelSpec.built) "Gauge_R_" Panel.gauge_names_right
    (0.65 * Panel.PANEL_WIDTH) (0.26 * Panel.PANEL_HEIGHT)
    (0.15 * Panel.PANEL_WIDTH) (0.74 * Panel.PANEL_HEIGHT)
  = true.
Proof. split; vm_compute; reflexivity. Qed.

Lemma of_nat_S (n : nat) : (Panel.of_nat (S n) == Panel.of_nat n + 1)%Q.
Proof.
  unfold Panel.of_nat. rewrite Nat2Z.inj_succ, <- Z.add_1_r, inject_Z_plus. reflexivity.
Qed.

(** X12.  The nine gauges of the left column and the eight of the right
    column are bezels of one width and one height per column, stacked
    downwards in the order of their names.  In a column of [n] gauges the
    first ends [gauge_top_margin] below the top of the region, consecutive
    gauges are [gauge_padding] apart, and the last stands [gauge_padding]
    above the bottom of the region. *)
Theorem gauge_columns_are_evenly_spaced (s : Panel.State) :
  let ry := (0.26 * Panel.PANEL_HEIGHT)%Q in
  let rh := (0.74 * Panel.PANEL_HEIGHT)%Q in
  let rw := (0.15 * Panel.PANEL_WIDTH)%Q in
  exists final,
    Panel.build_panel apply_fails s = Py.Ok (tt, final) /\
    (forall i gname,
       nth_error Panel.gauge_names_left i = Some gname ->
       PanelSpec.bezel_around (Panel.objects final) ("Gauge_L_" ++ gname)
         (0 + Panel.gauge_padding)%Q (PanelSpec.gauge_y ry rh 9 i)
         (rw - Panel.gauge_padding * 2)%Q (PanelSpec.gauge_h rh 9)) /\
    (forall i gname,
       nth_error Panel.gauge_names_right i = Some gname ->
       PanelSpec.bezel_around (Panel.objects final) ("Gauge_R_" ++ gname)
         (0.65 * Panel.PANEL_WIDTH + Panel.gauge_padding)%Q (PanelSpec.gauge_y ry rh 8 i)
         (rw - Panel.gauge_padding * 2)%Q (PanelSpec.gauge_h rh 8)) /\
    (forall n i : nat,
       (0 < n)%nat ->
       PanelSpec.gauge_y ry rh n 0 + PanelSpec.gauge_h rh n
       == ry + rh - Panel.gauge_top_margin /\
       PanelSpec.gauge_y ry rh n i
       - (PanelSpec.gauge_y ry rh n (S i) + PanelSpec.gauge_h rh n)
       == Panel.gauge_padding /\
       PanelSpec.gauge_y ry rh n (n - 1) == ry + Panel.gauge_padding)%Q.
Proof.
  intros ry rh rw. destruct built_columns as [HL HR].
  eexists. split; [apply build_panel_result|].
  cbv beta iota delta [Panel.objects].
  split; [exact (column_settled _ _ _ _ _ _ _ _ HL)|].
  split; [exact (column_settled _ _ _ _ _ _ _ _ HR)|].
  intros n i Hn.
  unfold PanelSpec.gauge_y, PanelSpec.gauge_h.
  assert (Hn' : ~ Panel.of_nat n == 0).
  { unfold Panel.of_nat. intro E. unfold Qeq in E. simpl in E. lia. }
  split; [|split].
  - unfold Panel.of_nat at 1. simpl inject_Z. field. exact Hn'.
  - rewrite of_nat_S. field. exact Hn'.
  - destruct n as [|n]; [lia|]. replace (S n - 1)%nat with n by lia.
    rewrite of_nat_S. rewrite of_nat_S in Hn'. field. exact Hn'.
Qed.

Lemma built_no_camera :
  forallb (fun o => negb (Render.is_camera o)) (Panel.objects PanelSpec.built) = true.
Proof. vm_compute. reflexivity. Qed.

Lemma built_length : List.length (Panel.objects PanelSpec.built) = 246%nat.
Proof. vm_compute. reflexivity. Qed.

Lemma filter_all {A : Type} (f : A -> bool) (l : list A) :
  Forall (fun x => f x = true) l -> filter f l = l.
Proof.
  induction 1 as [|x l Hx Hl IH]; [reflexivity|].
  simpl. rewrite Hx, IH. reflexivity.
Qed.

Lemma settle_all_length (l : list Panel.Object) (k : nat) :
  List.length (Settled.settle_all apply_fails k l) = List.length l.
Proof.
  unfold Settled.settle_all. rewrite length_map, length_combine, length_seq.
  apply Nat.min_id.
Qed.

Lemma render_scene (env : Render.Env) (objs : list Render.Object)
  (dir : option Render.Path) (filepath : Render.Path) (written : list Render.Path)
  (root : Render.Object) (n : nat) :
  get objs "ReactorOperatorPanel" = Some root ->
  filter (fun o => negb (Render.is_camera o)) objs = objs ->
  List.length objs = n ->
  let scene := {| Render.objects := objs; Render.OUTPUT_DIR := dir;
                  Render.filepath := filepath; Render.written := written |} in
  (forall s', Render.render_panel env scene <> Py.Ok (false, s')) /\
  (Render.settings_fail env = false -> Render.render_fails env = false ->
   exists s' camera,
     Render.render_panel env scene = Py.Ok (true, s') /\
     Render.objects s' = (objs ++ [camera])%list /\
     name camera = "RenderCamera"%string /\
     List.length (Render.objects s') = S n).
Proof.
  intros Hget Hcam Hlen scene. subst scene.
  destruct (find_output_dir_always env
              {| Render.objects := objs; Render.OUTPUT_DIR := dir;
                 Render.filepath := filepath; Render.written := written |})
    as [out Hout].
  unfold Render.render_panel. cbv beta iota delta [Render.objects].
  rewrite Hget, Hout. cbv beta iota. simpl negb. cbv iota.
  unfold Render.setup_render_settings, Render.render.
  split.
  - intros s'. destruct (Render.settings_fail env); simpl; [discriminate|].
    destruct (Render.render_fails env); simpl; discriminate.
  - intros -> ->. simpl. do 2 eexists. split; [reflexivity|].
    cbv beta iota delta [Render.objects]. rewrite Hcam.
    split; [reflexivity|]. split; [reflexivity|].
    rewrite length_app, Hlen. simpl. lia.
Qed.

(** X13.  [render_panel] on the scene that [build_panel] leaves never
    returns [False]: the panel root is there.  If the host's settings and
    render calls succeed it returns [True] on a scene of 250 objects, the
    249 of the panel followed by the camera [RenderCamera]. *)
Theorem render_after_build (env : Render.Env) (s : Panel.State)
  (dir : option Render.Path) (filepath : Render.Path) (written : list Render.Path) :
  exists final,
    Panel.build_panel apply_fails s = Py.Ok (tt, final) /\
    let scene := {| Render.objects := Panel.objects final; Render.OUTPUT_DIR := dir;
                    Render.filepath := filepath; Render.written := written |} in
    (forall s', Render.render_panel env scene <> Py.Ok (false, s')) /\
    (Render.settings_fail env = false -> Render.render_fails env = false ->
     exists s' camera,
       Render.render_panel env scene = Py.Ok (true, s') /\
       Render.objects s' = (Panel.objects final ++ [camera])%list /\
       name camera = "RenderCamera"%string /\
       List.length (Render.objects s') = 250%nat).
Proof.
  assert (Hget : exists root,
             get (Settled.settle_all apply_fails 0 (Panel.objects PanelSpec.built)
                  ++ PanelSpec.lights) "ReactorOperatorPanel" = Some root).
  { assert (H0 : exists o, get (Panel.objects PanelSpec.built) "ReactorOperatorPanel"
                           = Some o) by (vm_compute; eexists; reflexivity).
    destruct H0 as [o Ho].
    destruct (get_settled _ PanelSpec.lights 0 _ o Ho) as [o' [Ho' _]].
    exists o'. exact Ho'. }
  destruct Hget as [root Hget].
  assert (Hcam : filter (fun o => negb (Render.is_camera o))
                   (Settled.settle_all apply_fails 0 (Panel.objects PanelSpec.built)
                    ++ PanelSpec.lights)
                 = (Settled.settle_all apply_fails 0 (Panel.objects PanelSpec.built)
                    ++ PanelSpec.lights)%list).
  { apply filter_all. apply Forall_app. split.
    - apply settle_all_Forall.
      + intros i o Ho. destruct (settle_same_layout i o) as [_ [Ed _]].
        unfold Render.is_camera, type in *. rewrite Ed. exact Ho.
      + apply Forall_forall. apply forallb_forall. exact built_no_camera.
    - repeat constructor. }
  assert (Hlen : List.length
                   (Settled.settle_all apply_fails 0 (Panel.objects PanelSpec.built)
                    ++ PanelSpec.lights) = 249%nat).
  { rewrite length_app, settle_all_length, built_length. reflexivity. }
  eexists. split; [apply build_panel_result|].
  exact (render_scene env _ dir filepath written root 249 Hget Hcam Hlen).
Qed.

End PanelScene.

(** ** The geometry of the coolant loops (X14 to X18) *)

Section CoolantGeometry.
Import Blender.
Local Open Scope R_scope.

Lemma sqrt_scaled_unit (k c s : R) :
  0 <= k -> c * c + s * s = 1 ->
  sqrt (k * c * (k * c) + k * s * (k * s) + 0 * 0) = k.
Proof.
  intros Hk H.
  replace (k * c * (k * c) + k * s * (k * s) + 0 * 0) with (k * k) by nra.
  apply sqrt_square. exact Hk.
Qed.

(** X14.  A hot leg is a straight horizontal pipe: a cylinder of radius
    [HOT_LEG_RADIUS] along the loop's direction [(cos angle, sin angle, 0)],
    centred 22.1 from the vessel's axis at height 12.  Its length is 25.8,
    the distance between the two nozzles, and not [Config.HOT_LEG_LENGTH],
    which the function does not read. *)
Theorem hot_legs_are_level (n : nat) (angle : R) :
  exists radius depth cx cy cz ux uy uz,
    data (RCS.create_hot_leg n angle)
    = MeshData (Cylinder radius depth RCS.Config.DETAIL_LEVEL) /\
    location (RCS.create_hot_leg n angle) = XYZ cx cy cz /\
    rotation (RCS.create_hot_leg n angle) = AlignZ (ux, uy, uz) /\
    radius = RCS.Config.HOT_LEG_RADIUS /\
    depth = 25.8 /\ depth <> RCS.Config.HOT_LEG_LENGTH /\
    cx = 22.1 * cos angle /\ cy = 22.1 * sin angle /\ cz = 12 /\
    ux = cos angle /\ uy = sin angle /\ uz = 0.
Proof.
  unfold RCS.create_hot_leg, RCS.straight_pipe, RCS.rv_outlet_nozzle, RCS.sg_inlet,
    RCS.create_cylinder, RCS.with_rotation, RCS.with_material, RCS.new_object,
    RCS.normalized, RCS.scaled, RCS.at_.
  cbv beta iota zeta delta [data location rotation].
  do 8 eexists.
  split; [reflexivity|]. split; [reflexivity|]. split; [reflexivity|].
  unfold RCS.Config.SCALE, RCS.Config.LOOP_RADIUS, RCS.Config.RV_RADIUS,
    RCS.Config.SG_INLET_HEIGHT, RCS.Config.RV_NOZZLE_HEIGHT, RCS.Config.HOT_LEG_LENGTH.
  pose proof (cos_sin_square angle) as H.
  set (c := cos angle) in *. set (s := sin angle) in *. clearbody c s.
  assert (E : sqrt ((c * 35.0 - c * (7.2 + 2)) * (c * 35.0 - c * (7.2 + 2))
                    + (s * 35.0 - s * (7.2 + 2)) * (s * 35.0 - s * (7.2 + 2))
                    + (12.0 - (10.0 + 2)) * (12.0 - (10.0 + 2))) = 25.8).
  { replace ((c * 35.0 - c * (7.2 + 2)) * (c * 35.0 - c * (7.2 + 2))
             + (s * 35.0 - s * (7.2 + 2)) * (s * 35.0 - s * (7.2 + 2))
             + (12.0 - (10.0 + 2)) * (12.0 - (10.0 + 2)))
      with (25.8 * c * (25.8 * c) + 25.8 * s * (25.8 * s) + 0 * 0) by lra.
    apply sqrt_scaled_unit; [lra | exact H]. }
  rewrite !E.
  repeat split; try lra; try (field; lra).
Qed.

Lemma loop_angle_S (i : nat) : RCS.loop_angle (S i) = RCS.loop_angle i + PI / 2.
Proof.
  unfold RCS.loop_angle, RCS.radians. rewrite S_INR. field.
Qed.

Lemma cos_quarter (a : R) : cos (a + PI / 2) = - sin a.
Proof. rewrite cos_plus, cos_PI2, sin_PI2. ring. Qed.

Lemma sin_quarter (a : R) : sin (a + PI / 2) = cos a.
Proof. rewrite sin_plus, cos_PI2, sin_PI2. ring. Qed.

Lemma straight_pipe_turned (name name' : string) (radius : R) (segments : nat)
  (a b : RCS.vec3) :
  RCSSpec.turned (RCS.straight_pipe name radius segments a b)
    (RCS.straight_pipe name' radius segments
       (RCSSpec.quarter_turn a) (RCSSpec.quarter_turn b)).
Proof.
  destruct a as [[ax ay] az]. destruct b as [[bx by_] bz].
  unfold RCSSpec.turned, RCS.straight_pipe, RCSSpec.quarter_turn, RCS.create_cylinder,
    RCS.with_rotation, RCS.new_object, RCS.normalized, RCS.scaled, RCS.at_, RCS.xyz.
  cbv beta iota zeta delta [data location rotation].
  replace ((- by_ - - ay) * (- by_ - - ay) + (bx - ax) * (bx - ax)
           + (bz - az) * (bz - az))
    with ((bx - ax) * (bx - ax) + (by_ - ay) * (by_ - ay) + (bz - az) * (bz - az))
    by ring.
  set (len := sqrt _).
  split; [reflexivity|].
  split.
  - apply vec3_eq; unfold RCS.Config.SCALE; field.
  - eexists. split; [reflexivity|].
    apply f_equal. apply vec3_eq; unfold Rdiv; ring.
Qed.

Lemma turned_material (m m' : string) (o o' : RCS.Object) :
  RCSSpec.turned o o' -> RCSSpec.turned (RCS.with_material m o) (RCS.with_material m' o').
Proof. intro H. exact H. Qed.

(** X15.  Loop [i + 1] is loop [i] turned by a quarter about the
    vessel's axis: the loop angles differ by [pi / 2], and the nozzles, the
    steam generator, the pump position and the three legs of the next loop
    are those of the loop before, turned by a quarter turn (the legs as the
    same cylinders with centre and direction turned). *)
Theorem loops_are_quarter_turns (i n n' : nat) (rcp_pos : RCS.vec3) :
  let a := RCS.loop_angle i in
  let a' := RCS.loop_angle (S i) in
  a' = a + PI / 2 /\
  RCS.rv_outlet_nozzle a' = RCSSpec.quarter_turn (RCS.rv_outlet_nozzle a) /\
  RCS.rv_inlet_nozzle a' = RCSSpec.quarter_turn (RCS.rv_inlet_nozzle a) /\
  RCS.sg_inlet a' = RCSSpec.quarter_turn (RCS.sg_inlet a) /\
  RCS.sg_outlet a' = RCSSpec.quarter_turn (RCS.sg_outlet a) /\
  snd (RCS.create_rcp n' a') = RCSSpec.quarter_turn (snd (RCS.create_rcp n a)) /\
  RCS.xyz (RCS.create_steam_generator n' a')
  = RCSSpec.quarter_turn (RCS.xyz (RCS.create_steam_generator n a)) /\
  RCSSpec.turned (RCS.create_hot_leg n a) (RCS.create_hot_leg n' a') /\
  RCSSpec.turned (RCS.create_crossover_leg n a rcp_pos)
    (RCS.create_crossover_leg n' a' (RCSSpec.quarter_turn rcp_pos)) /\
  RCSSpec.turned (RCS.create_cold_leg n a rcp_pos)
    (RCS.create_cold_leg n' a' (RCSSpec.quarter_turn rcp_pos)).
Proof.
  intros a a'. subst a'. rewrite loop_angle_S. fold a.
  assert (Hout : RCS.rv_outlet_nozzle (a + PI / 2)
                 = RCSSpec.quarter_turn (RCS.rv_outlet_nozzle a)).
  { unfold RCS.rv_outlet_nozzle, RCSSpec.quarter_turn.
    rewrite cos_quarter, sin_quarter. apply vec3_eq; ring. }
  assert (Hin : RCS.rv_inlet_nozzle (a + PI / 2)
                = RCSSpec.quarter_turn (RCS.rv_inlet_nozzle a)).
  { unfold RCS.rv_inlet_nozzle, RCSSpec.quarter_turn.
    replace (a + PI / 2 + RCS.radians 45) with (a + RCS.radians 45 + PI / 2) by ring.
    rewrite cos_quarter, sin_quarter. apply vec3_eq; ring. }
  assert (Hsgi : RCS.sg_inlet (a + PI / 2) = RCSSpec.quarter_turn (RCS.sg_inlet a)).
  { unfold RCS.sg_inlet, RCSSpec.quarter_turn.
    rewrite cos_quarter, sin_quarter. apply vec3_eq; ring. }
  assert (Hsgo : RCS.sg_outlet (a + PI / 2) = RCSSpec.quarter_turn (RCS.sg_outlet a)).
  { unfold RCS.sg_outlet, RCSSpec.quarter_turn.
    rewrite cos_quarter, sin_quarter. apply vec3_eq; ring. }
  split; [reflexivity|].
  split; [exact Hout|]. split; [exact Hin|]. split; [exact Hsgi|]. split; [exact Hsgo|].
  split.
  { unfold RCS.create_rcp, RCSSpec.quarter_turn. cbv beta iota zeta delta [snd].
    replace (a + PI / 2 + RCS.radians 25) with (a + RCS.radians 25 + PI / 2) by ring.
    rewrite cos_quarter, sin_quarter. apply vec3_eq; ring. }
  split.
  { unfold RCS.create_steam_generator, RCS.with_material, RCS.join, RCS.create_cylinder,
      RCS.new_object, RCS.scaled, RCS.at_, RCS.xyz, RCSSpec.quarter_turn.
    cbv beta iota zeta delta [location].
    rewrite cos_quarter, sin_quarter. apply vec3_eq; ring. }
  split.
  { unfold RCS.create_hot_leg. apply turned_material.
    rewrite Hout, Hsgi. apply straight_pipe_turned. }
  split.
  { unfold RCS.create_crossover_leg. apply turned_material.
    rewrite Hsgo. unfold RCS.rcp_suction. apply straight_pipe_turned. }
  unfold RCS.create_cold_leg. apply turned_material.
  rewrite Hin.
  replace (RCS.rcp_discharge (RCSSpec.quarter_turn rcp_pos))
    with (RCSSpec.quarter_turn (RCS.rcp_discharge rcp_pos))
    by (destruct rcp_pos as [[x y] z]; reflexivity).
  apply straight_pipe_turned.
Qed.

Ltac extent := unfold RCSSpec.z_extent; simpl; apply f_equal, f_equal2; lra.

(** X16.  A steam generator is five upright parts on one axis, at the
    loop's angle and [LOOP_RADIUS] from the vessel: the lower shell from 0
    to [SG_TRANSITION_HEIGHT], the transition cone over the next 8, the
    upper shell up to [SG_HEIGHT - SG_UPPER_RADIUS], and the dome up to
    [SG_HEIGHT], each starting where the one below ends; the channel head
    is a sphere flattened to half height that reaches from 0 to
    [SG_LOWER_RADIUS]. *)
Theorem steam_generator_stack (n : nat) (angle : R) :
  exists lower transition upper dome head,
    RCSSpec.parts (RCS.create_steam_generator n angle)
    = [lower; transition; upper; dome; head] /\
    Forall RCSSpec.upright [lower; transition; upper; dome; head] /\
    Forall (fun p => RCSSpec.axis p
                     = (cos angle * RCS.Config.LOOP_RADIUS * RCS.Config.SCALE,
                        sin angle * RCS.Config.LOOP_RADIUS * RCS.Config.SCALE))
      [lower; transition; upper; dome; head] /\
    RCSSpec.z_extent head = Some (0, RCS.Config.SG_LOWER_RADIUS) /\
    RCSSpec.z_extent lower = Some (0, RCS.Config.SG_TRANSITION_HEIGHT) /\
    RCSSpec.z_extent transition
    = Some (RCS.Config.SG_TRANSITION_HEIGHT, RCS.Config.SG_TRANSITION_HEIGHT + 8) /\
    RCSSpec.z_extent upper
    = Some (RCS.Config.SG_TRANSITION_HEIGHT + 8,
            RCS.Config.SG_HEIGHT - RCS.Config.SG_UPPER_RADIUS) /\
    RCSSpec.z_extent dome
    = Some (RCS.Config.SG_HEIGHT - RCS.Config.SG_UPPER_RADIUS, RCS.Config.SG_HEIGHT).
Proof.
  unfold RCS.create_steam_generator, RCSSpec.parts, RCS.with_material, RCS.join.
  cbv beta iota zeta delta [data].
  unfold RCS.part, RCS.create_cylinder, RCS.create_cone, RCS.create_sphere,
    RCS.new_object, RCS.scaled, RCS.at_, RCS.xyz, RCS.still.
  cbv beta iota zeta delta [data location rotation name app].
  do 5 eexists. split; [reflexivity|].
  split; [repeat constructor|].
  split; [repeat constructor|].
  unfold RCS.Config.SCALE, RCS.Config.SG_LOWER_RADIUS, RCS.Config.SG_UPPER_RADIUS,
    RCS.Config.SG_HEIGHT, RCS.Config.SG_TRANSITION_HEIGHT.
  repeat split; extent.
Qed.

(** X17.  The reactor vessel is a body, two heads and eight nozzles;
    the pressurizer a body and two heads on one axis.  In both the body
    reaches from one radius above the base to one radius below the top, the
    top head is a sphere flattened to half height that closes the body
    exactly, and the bottom head, flattened likewise but centred where the
    body starts, reaches only half a radius below the body and half a
    radius into it: the vessels start half a radius above their base. *)
Theorem vessel_heads_are_flattened_spheres :
  (exists body bottom top nozzles,
     RCSSpec.parts RCS.create_reactor_vessel = body :: bottom :: top :: nozzles /\
     List.length nozzles = 8%nat /\
     Forall RCSSpec.upright [body; bottom; top] /\
     RCSSpec.z_extent body
     = Some (RCS.Config.RV_RADIUS, RCS.Config.RV_HEIGHT - RCS.Config.RV_RADIUS) /\
     RCSSpec.z_extent top
     = Some (RCS.Config.RV_HEIGHT - RCS.Config.RV_RADIUS, RCS.Config.RV_HEIGHT) /\
     RCSSpec.z_extent bottom
     = Some (RCS.Config.RV_RADIUS / 2, RCS.Config.RV_RADIUS + RCS.Config.RV_RADIUS / 2)) /\
  (exists body bottom top x y,
     RCSSpec.parts (fst RCS.create_pressurizer) = [body; bottom; top] /\
     snd RCS.create_pressurizer = (x, y, RCS.Config.PZR_ELEVATION) /\
     Forall RCSSpec.upright [body; bottom; top] /\
     Forall (fun p => RCSSpec.axis p = (x * RCS.Config.SCALE, y * RCS.Config.SCALE))
       [body; bottom; top] /\
     RCSSpec.z_extent body
     = Some (RCS.Config.PZR_ELEVATION + RCS.Config.PZR_RADIUS,
             RCS.Config.PZR_ELEVATION + RCS.Config.PZR_HEIGHT - RCS.Config.PZR_RADIUS) /\
     RCSSpec.z_extent top
     = Some (RCS.Config.PZR_ELEVATION + RCS.Config.PZR_HEIGHT - RCS.Config.PZR_RADIUS,
             RCS.Config.PZR_ELEVATION + RCS.Config.PZR_HEIGHT) /\
     RCSSpec.z_extent bottom
     = Some (RCS.Config.PZR_ELEVATION + RCS.Config.PZR_RADIUS / 2,
             RCS.Config.PZR_ELEVATION + RCS.Config.PZR_RADIUS
             + RCS.Config.PZR_RADIUS / 2)).
Proof.
  split.
  - unfold RCS.create_reactor_vessel, RCSSpec.parts, RCS.with_material, RCS.join.
    cbv beta iota zeta delta [data].
    unfold RCS.part at 1 2 3. unfold RCS.create_cylinder, RCS.create_sphere,
      RCS.new_object, RCS.scaled, RCS.at_, RCS.xyz, RCS.still.
    cbv beta iota zeta delta [data location rotation name app].
    do 4 eexists. split; [reflexivity|].
    split; [reflexivity|].
    split; [repeat constructor|].
    unfold RCS.Config.SCALE, RCS.Config.RV_RADIUS, RCS.Config.RV_HEIGHT.
    repeat split; extent.
  - unfold RCS.create_pressurizer, RCSSpec.parts, RCS.with_material, RCS.join.
    cbv beta iota zeta delta [data fst snd].
    unfold RCS.part, RCS.create_cylinder, RCS.create_sphere,
      RCS.new_object, RCS.scaled, RCS.at_, RCS.xyz, RCS.still.
    cbv beta iota zeta delta [data location rotation name app].
    do 5 eexists. split; [reflexivity|].
    split; [reflexivity|].
    split; [repeat constructor|].
    split; [repeat constructor|].
    unfold RCS.Config.SCALE, RCS.Config.PZR_RADIUS, RCS.Config.PZR_HEIGHT,
      RCS.Config.PZR_ELEVATION.
    repeat split; extent.
Qed.

Lemma distinct_NoDup (l : list string) : RCSSpec.distinct l = true -> NoDup l.
Proof.
  induction l as [|x l IH]; intro H; [constructor|].
  simpl in H. apply andb_true_iff in H. destruct H as [H1 H2].
  constructor; [|exact (IH H2)].
  intro Hin. apply negb_true_iff in H1.
  assert (E : existsb (String.eqb x) l = true).
  { apply existsb_exists. exists x. split; [exact Hin | apply String.eqb_refl]. }
  congruence.
Qed.

(** X18.  Whatever the scene held before, [main] of the coolant loop
    script leaves objects with distinct names in one tree: the root
    [RCS_Primary_Loop] with the four group empties, the vessel, the steam
    generators, the pumps and the pressurizer under [Components], the
    twelve legs and the surge line under [Piping], the eight arrows under
    [FlowArrows], the four labels under [Labels]; only the root, the sun and
    the camera have no parent. *)
Theorem rcs_scene_hierarchy (scene : list RCS.Object) :
  NoDup (map (@name R) (RCS.main scene)) /\
  RCSSpec.children (RCS.main scene) "RCS_Primary_Loop"
  = ["Components"; "Piping"; "FlowArrows"; "Labels"]%string /\
  RCSSpec.children (RCS.main scene) "Components"
  = ["ReactorVessel"; "SteamGenerator_1"; "RCP_1"; "SteamGenerator_2"; "RCP_2";
     "SteamGenerator_3"; "RCP_3"; "SteamGenerator_4"; "RCP_4"; "Pressurizer"]%string /\
  RCSSpec.children (RCS.main scene) "Piping"
  = ["HotLeg_1"; "CrossoverLeg_1"; "ColdLeg_1"; "HotLeg_2"; "CrossoverLeg_2"; "ColdLeg_2";
     "HotLeg_3"; "CrossoverLeg_3"; "ColdLeg_3"; "HotLeg_4"; "CrossoverLeg_4"; "ColdLeg_4";
     "SurgeLine"]%string /\
  RCSSpec.children (RCS.main scene) "FlowArrows"
  = ["FlowArrow_HotLeg_1"; "FlowArrow_ColdLeg_1"; "FlowArrow_HotLeg_2";
     "FlowArrow_ColdLeg_2"; "FlowArrow_HotLeg_3"; "FlowArrow_ColdLeg_3";
     "FlowArrow_HotLeg_4"; "FlowArrow_ColdLeg_4"]%string /\
  RCSSpec.children (RCS.main scene) "Labels"
  = ["Label_Loop_1"; "Label_Loop_2"; "Label_Loop_3"; "Label_Loop_4"]%string /\
  map (@name R) (filter (fun o => match parent o with None => true | _ => false end)
                   (RCS.main scene))
  = ["RCS_Primary_Loop"; "Sun"; "Camera"]%string /\
  forallb RCSSpec.is_empty
    (filter (fun o => existsb (String.eqb (name o))
                        ["RCS_Primary_Loop"; "Components"; "Piping"; "FlowArrows";
                         "Labels"]%string)
       (RCS.main scene)) = true.
Proof.
  change (RCS.main scene) with (RCS.main []).
  split; [apply distinct_NoDup; reflexivity|].
  repeat split; reflexivity.
Qed.

End CoolantGeometry.

(** ** Materials (X19 to X23) *)

Section StoreFacts.
Import Store.
Variable rename : list string -> string -> string.

Lemma index_of_keys (name : string) (s s' : Store.T) :
  keys s = keys s' -> index_of name s = index_of name s'.
Proof.
  revert s'. induction s as [|m s IH]; intros [|m' s'] H; try discriminate; [reflexivity|].
  simpl in H. inversion H as [[Hk Hr]]. simpl. rewrite Hk, (IH s' Hr). reflexivity.
Qed.

Lemma keys_set_settings (i : nat) (st : Settings) (s : Store.T) :
  keys (set_settings i st s) = keys s.
Proof.
  revert i. induction s as [|m s IH]; intros [|i]; simpl; try reflexivity.
  rewrite IH. reflexivity.
Qed.

Lemma keys_set_blend (i : nat) (s : Store.T) : keys (set_blend i s) = keys s.
Proof.
  revert i. induction s as [|m s IH]; intros [|i]; simpl; try reflexivity.
  rewrite IH. reflexivity.
Qed.

Lemma index_of_bound (name : string) (s : Store.T) (i : nat) :
  index_of name s = Some i -> key_at s i = Some name.
Proof.
  revert i. induction s as [|m s IH]; intros i H; [discriminate|].
  simpl in H. destruct (String.eqb (key m) name) eqn:E.
  - inversion H. subst i. apply String.eqb_eq in E. unfold key_at. simpl. rewrite E.
    reflexivity.
  - destruct (index_of name s) as [j|]; [|discriminate].
    inversion H. subst i. exact (IH j eq_refl).
Qed.

Lemma index_of_app (name : string) (s t : Store.T) :
  index_of name (s ++ t)
  = match index_of name s with
    | Some i => Some i
    | None => option_map (Nat.add (List.length s)) (index_of name t)
    end.
Proof.
  induction s as [|m s IH]; simpl.
  - destruct (index_of name t); reflexivity.
  - destruct (String.eqb (key m) name); [reflexivity|].
    rewrite IH. destruct (index_of name s); [reflexivity|].
    destruct (index_of name t); reflexivity.
Qed.

Lemma settings_set_same (i : nat) (st : Settings) (s : Store.T) :
  (i < List.length s)%nat -> settings_at (set_settings i st s) i = Some st.
Proof.
  revert i. induction s as [|m s IH]; intros i H; [simpl in H; lia|].
  destruct i as [|i]; [reflexivity|]. simpl in H.
  unfold settings_at in *. simpl. apply IH. lia.
Qed.

Lemma settings_set_other (i j : nat) (st : Settings) (s : Store.T) :
  i <> j -> settings_at (set_settings i st s) j = settings_at s j.
Proof.
  revert i j. induction s as [|m s IH]; intros i j H.
  - destruct i; reflexivity.
  - destruct i as [|i]; destruct j as [|j]; try reflexivity; [lia|].
    unfold settings_at in *. simpl. apply IH. lia.
Qed.

Lemma settings_set_blend (i j : nat) (s : Store.T) :
  settings_at (set_blend i s) j = settings_at s j.
Proof.
  revert i j. induction s as [|m s IH]; intros i j.
  - destruct i; reflexivity.
  - destruct i as [|i]; destruct j as [|j]; try reflexivity.
    unfold settings_at in *. simpl. apply IH.
Qed.

Lemma length_keys (s : Store.T) : List.length (keys s) = List.length s.
Proof. apply length_map. Qed.

Lemma keys_length (s s' : Store.T) : keys s = keys s' -> List.length s = List.length s'.
Proof. intro H. rewrite <- !length_keys, H. reflexivity. Qed.

Lemma key_at_lt (s : Store.T) (i : nat) (k : string) :
  key_at s i = Some k -> (i < List.length s)%nat.
Proof.
  unfold key_at. intro H. apply nth_error_Some. destruct (nth_error s i); discriminate.
Qed.

(** What one [create_material] of a gauge script does to the store. *)
Lemma create_spec (c : Call) (s : Store.T) :
  let i := match index_of (mat_name c) s with
           | Some j => j
           | None => List.length s
           end in
  exists s',
    create rename c s = (i, s') /\
    keys s' = (keys s ++ (if contains (mat_name c) s then [] else [mat_name c]))%list /\
    index_of (mat_name c) s' = Some i /\
    settings_at s' i = Some (written c) /\
    (forall j, j <> i -> settings_at s' j = settings_at s j).
Proof.
  intro i. subst i.
  assert (H : forall st blend_it,
             let i := match index_of (mat_name c) s with
                      | Some j => j
                      | None => List.length s
                      end in
             let s1 := match index_of (mat_name c) s with
                       | Some mat => s
                       | None => snd (new rename (mat_name c) s)
                       end in
             let s' := if (blend_it : bool)
                       then set_blend i (set_settings i st s1)
                       else set_settings i st s1 in
             keys s' = (keys s ++ (if contains (mat_name c) s then []
                                   else [mat_name c]))%list /\
             index_of (mat_name c) s' = Some i /\
             settings_at s' i = Some st /\
             (forall j, j <> i -> settings_at s' j = settings_at s j)).
  { intros st blend_it. cbv zeta. unfold new, contains.
    destruct (index_of (mat_name c) s) as [j|] eqn:E.
    - assert (Hk : keys (if blend_it then set_blend j (set_settings j st s)
                         else set_settings j st s) = keys s).
      { destruct blend_it; rewrite ?keys_set_blend, keys_set_settings; reflexivity. }
      split; [rewrite Hk, app_nil_r; reflexivity|].
      split; [rewrite (index_of_keys _ _ _ Hk); exact E|].
      pose proof (key_at_lt _ _ _ (index_of_bound _ _ _ E)) as Hlt.
      split.
      + destruct blend_it; rewrite ?settings_set_blend; apply settings_set_same, Hlt.
      + intros j' Hj. destruct blend_it; rewrite ?settings_set_blend;
          apply settings_set_other; congruence.
    - simpl snd.
      set (s1 := (s ++ [_])%list).
      assert (Hk1 : keys s1 = (keys s ++ [mat_name c])%list).
      { unfold s1, keys. rewrite map_app. reflexivity. }
      assert (Hk : keys (if blend_it
                         then set_blend (List.length s) (set_settings (List.length s) st s1)
                         else set_settings (List.length s) st s1) = keys s1).
      { destruct blend_it; rewrite ?keys_set_blend, keys_set_settings; reflexivity. }
      split; [rewrite Hk; exact Hk1|].
      split.
      { rewrite (index_of_keys _ _ _ Hk). unfold s1. rewrite index_of_app, E.
        simpl. rewrite String.eqb_refl. simpl. rewrite Nat.add_0_r. reflexivity. }
      assert (Hlt : (List.length s < List.length s1)%nat).
      { unfold s1. rewrite length_app. simpl. lia. }
      split.
      + destruct blend_it; rewrite ?settings_set_blend; apply settings_set_same, Hlt.
      + intros j' Hj. destruct blend_it; rewrite ?settings_set_blend;
          rewrite settings_set_other by congruence;
          unfold settings_at, s1.
        * destruct (Nat.lt_ge_cases j' (List.length s)) as [Hl|Hg].
          -- rewrite nth_error_app1 by exact Hl. reflexivity.
          -- rewrite nth_error_app2 by exact Hg.
             destruct (j' - List.length s)%nat as [|d] eqn:Ed; [lia|].
             simpl. destruct d; simpl.
             ++ rewrite (proj2 (nth_error_None s j')) by exact Hg. reflexivity.
             ++ rewrite (proj2 (nth_error_None s j')) by exact Hg. reflexivity.
        * destruct (Nat.lt_ge_cases j' (List.length s)) as [Hl|Hg].
          -- rewrite nth_error_app1 by exact Hl. reflexivity.
          -- rewrite nth_error_app2 by exact Hg.
             destruct (j' - List.length s)%nat as [|d] eqn:Ed; [lia|].
             simpl. destruct d; simpl.
             ++ rewrite (proj2 (nth_error_None s j')) by exact Hg. reflexivity.
             ++ rewrite (proj2 (nth_error_None s j')) by exact Hg. reflexivity. }
  unfold create, written, arc_create_material, bar_create_material.
  destruct (call_alpha c) as [a|].
  - specialize (H {| base_color := color c; metallic := call_metallic c;
                     roughness := call_roughness c;
                     emission := if Py.ltb 0 (call_emission c)
                                 then Some (color c, call_emission c) else None;
                     alpha := Some a |} (Py.ltb a 1.0)).
    cbv zeta in H. unfold new in *.
    destruct (index_of (mat_name c) s) as [j|]; eexists; (split; [reflexivity|]);
      exact H.
  - specialize (H {| base_color := color c; metallic := call_metallic c;
                     roughness := call_roughness c;
                     emission := if Py.ltb 0 (call_emission c)
                                 then Some (color c, call_emission c) else None;
                     alpha := None |} false).
    cbv zeta in H. unfold new in *.
    destruct (index_of (mat_name c) s) as [j|]; eexists; (split; [reflexivity|]);
      exact H.
Qed.

Lemma index_of_extend (name : string) (s s' : Store.T) (l : list string) (i : nat) :
  keys s' = (keys s ++ l)%list -> index_of name s = Some i -> index_of name s' = Some i.
Proof.
  intros Hk Hi.
  set (t := map (fun k => {| key := k; settings := None; blend := false |}) l).
  assert (Hk' : keys s' = keys (s ++ t)).
  { unfold keys, t. rewrite map_app, map_map. simpl. rewrite map_id. exact Hk. }
  rewrite (index_of_keys _ _ _ Hk'), index_of_app, Hi. reflexivity.
Qed.

Lemma index_of_inj (n n' : string) (s : Store.T) (i : nat) :
  index_of n s = Some i -> index_of n' s = Some i -> n = n'.
Proof.
  intros H H'. apply index_of_bound in H. apply index_of_bound in H'. congruence.
Qed.

Lemma contains_extend_other (n m : string) (s s' : Store.T) :
  n <> m ->
  keys s' = (keys s ++ (if contains m s then [] else [m]))%list ->
  contains n s' = contains n s.
Proof.
  intros Hn Hk.
  set (t := map (fun k => {| key := k; settings := None; blend := false |})
              (if contains m s then [] else [m])).
  assert (Hk' : keys s' = keys (s ++ t)).
  { unfold keys, t. rewrite map_app, map_map. simpl. rewrite map_id. exact Hk. }
  unfold contains. rewrite (index_of_keys _ _ _ Hk'), index_of_app.
  destruct (index_of n s); [reflexivity|].
  unfold t. destruct (contains m s); [reflexivity|]. simpl.
  destruct (String.eqb m n) eqn:E; [|reflexivity].
  apply String.eqb_eq in E. congruence.
Qed.

Lemma filter_ext_in_names (f g : string -> bool) (l : list string) :
  (forall n, In n l -> f n = g n) -> filter f l = filter g l.
Proof.
  induction l as [|a l IH]; intro H; [reflexivity|].
  simpl. rewrite (H a (or_introl eq_refl)), IH; [reflexivity|].
  intros n Hn. apply H. right. exact Hn.
Qed.

(** The calls of a [create_..._materials], one after the other. *)
Lemma run_spec (calls : list Call) :
  NoDup (map mat_name calls) ->
  forall s, exists dict s',
    run rename calls s = (dict, s') /\
    keys s' = (keys s ++ filter (fun n => negb (contains n s)) (map mat_name calls))%list /\
    Forall2 (resolved s') calls dict /\
    (forall j, (forall c, In c calls -> index_of (mat_name c) s' <> Some j) ->
               settings_at s' j = settings_at s j).
Proof.
  induction calls as [|c rest IH]; intros Hnd s.
  - exists [], s. simpl. rewrite app_nil_r. repeat split; auto.
  - simpl in Hnd. inversion Hnd as [|x l Hnotin Hnd']. subst x l.
    destruct (create_spec c s) as [s1 [Hc [Hk1 [Hi1 [Hs1 Ho1]]]]].
    destruct (IH Hnd' s1) as [dict [s' [Hr [Hk [Hres Hother]]]]].
    set (i := match index_of (mat_name c) s with
              | Some j => j
              | None => List.length s
              end) in *.
    exists ((slot c, i) :: dict), s'.
    assert (Hi' : index_of (mat_name c) s' = Some i).
    { exact (index_of_extend _ _ _ _ _ Hk Hi1). }
    split; [simpl; rewrite Hc, Hr; reflexivity|].
    split.
    { rewrite Hk, Hk1, <- app_assoc. f_equal. simpl.
      rewrite (filter_ext_in_names (fun n => negb (contains n s1))
                 (fun n => negb (contains n s)) (map mat_name rest)).
      - destruct (contains (mat_name c) s); reflexivity.
      - intros n Hn. f_equal. apply (contains_extend_other n (mat_name c)); [|exact Hk1].
        intro E. apply Hnotin. rewrite <- E. exact Hn. }
    split.
    { constructor; [|exact Hres].
      split; [reflexivity|]. split; [exact Hi'|]. simpl snd.
      rewrite Hother; [exact Hs1|].
      intros c' Hc' E. apply Hnotin.
      rewrite (index_of_inj _ _ _ _ Hi' E). apply in_map. exact Hc'. }
    intros j Hj. rewrite Hother.
    + apply Ho1. intro E. subst j. apply (Hj c (or_introl eq_refl)). exact Hi'.
    + intros c' Hc'. apply Hj. right. exact Hc'.
Qed.

Lemma lookup_resolved (s : Store.T) (calls : list Call) (dict : list (string * nat)) :
  NoDup (map slot calls) -> Forall2 (resolved s) calls dict ->
  forall c, In c calls ->
  exists i, lookup dict (slot c) = Some i /\
            index_of (mat_name c) s = Some i /\ settings_at s i = Some (written c).
Proof.
  intros Hnd H. induction H as [|c0 e calls dict [He [Hi Hs]] H IH]; intros c Hc.
  - destruct Hc.
  - simpl in Hnd. inversion Hnd as [|x l Hnotin Hnd']. subst x l.
    destruct Hc as [E|Hc].
    + subst c0. exists (snd e). unfold lookup. simpl. rewrite He, String.eqb_refl.
      auto.
    + destruct (IH Hnd' c Hc) as [i [Hl Hrest]]. exists i. split; [|exact Hrest].
      unfold lookup in *. simpl. rewrite He.
      destruct (String.eqb (slot c0) (slot c)) eqn:E; [|exact Hl].
      apply String.eqb_eq in E. exfalso. apply Hnotin. rewrite E. apply in_map. exact Hc.
Qed.

Ltac distinct_names :=
  simpl; repeat (constructor; [simpl; intuition discriminate|]); constructor.

Lemma arc_names (name : string) (c : ArcColors) :
  NoDup (map mat_name (arc_calls name c)) /\ NoDup (map slot (arc_calls name c)).
Proof. split; distinct_names. Qed.

Lemma bar_names (name : string) (b : BarColors) :
  NoDup (map mat_name (bar_calls name b)) /\ NoDup (map slot (bar_calls name b)).
Proof. split; distinct_names. Qed.

Lemma run_fills (calls : list Call) (s : Store.T) :
  NoDup (map mat_name calls) -> NoDup (map slot calls) ->
  fills calls s (run rename calls s).
Proof.
  intros Hn Hs. destruct (run_spec calls Hn s) as [dict [s' [Hr [Hk [Hres Ho]]]]].
  rewrite Hr. split; [|split; [exact Hk|exact Ho]].
  exact (lookup_resolved s' calls dict Hs Hres).
Qed.

(** X19. In both gauge scripts every slot of the [materials] dict holds the
    material that a lookup of the slot's name [MAT_..._<name>] finds in
    [bpy.data.materials], carrying the settings of that slot's call; only
    the names that were missing are added, each under exactly the name asked
    for, and no other material is rewritten. *)
Theorem gauge_materials_by_slot (name : string) (c : ArcColors) (b : BarColors)
  (s : Store.T) :
  fills (arc_calls name c) s (create_gauge_materials rename name c s) /\
  fills (bar_calls name b) s (create_bar_gauge_materials rename name b s).
Proof.
  split.
  - apply run_fills; apply arc_names.
  - apply run_fills; apply bar_names.
Qed.

Lemma same_dict (calls1 calls2 : list Call) (d1 d2 : list (string * nat))
  (s1 s2 : Store.T) (l : list string) :
  map slot calls1 = map slot calls2 ->
  map mat_name calls1 = map mat_name calls2 ->
  keys s2 = (keys s1 ++ l)%list ->
  Forall2 (resolved s1) calls1 d1 -> Forall2 (resolved s2) calls2 d2 -> d2 = d1.
Proof.
  intros Hs Hn Hk H1. revert calls2 d2 Hs Hn.
  induction H1 as [|c1 e1 calls1 d1 [He1 [Hi1 _]] H1 IH]; intros calls2 d2 Hs Hn H2.
  - destruct calls2; [|discriminate]. inversion H2. reflexivity.
  - destruct calls2 as [|c2 calls2]; [discriminate|].
    inversion H2 as [|x e2 y d2' [He2 [Hi2 _]] H2']. subst.
    simpl in Hs, Hn. inversion Hs as [[Hs0 Hs']]. inversion Hn as [[Hn0 Hn']].
    f_equal; [|exact (IH calls2 d2' Hs' Hn' H2')].
    rewrite <- Hn0 in Hi2. rewrite (index_of_extend _ _ _ _ _ Hk Hi1) in Hi2.
    destruct e1, e2. simpl in *. congruence.
Qed.

Lemma filter_none (f : string -> bool) (l : list string) :
  (forall n, In n l -> f n = false) -> filter f l = [].
Proof.
  induction l as [|a l IH]; intro H; [reflexivity|].
  simpl. rewrite (H a (or_introl eq_refl)). apply IH. intros n Hn. apply H. right. exact Hn.
Qed.

(** X20. Two arc gauges built under the same name share their materials:
    the second [create_gauge_materials] returns the very materials of the
    first, adds none, and rewrites them, so that the first gauge's slots now
    carry the second configuration's colours. *)
Theorem same_name_gauges_share_materials (name : string) (c1 c2 : ArcColors)
  (s : Store.T) :
  let '(d1, s1) := create_gauge_materials rename name c1 s in
  let '(d2, s2) := create_gauge_materials rename name c2 s1 in
  d2 = d1 /\ keys s2 = keys s1 /\
  forall call, In call (arc_calls name c2) ->
    exists i, lookup d1 (slot call) = Some i /\ settings_at s2 i = Some (written call).
Proof.
  unfold create_gauge_materials.
  destruct (run_spec (arc_calls name c1) (proj1 (arc_names name c1)) s)
    as [d1 [s1 [Hr1 [Hk1 [Hres1 _]]]]].
  rewrite Hr1.
  destruct (run_spec (arc_calls name c2) (proj1 (arc_names name c2)) s1)
    as [d2 [s2 [Hr2 [Hk2 [Hres2 _]]]]].
  rewrite Hr2.
  assert (Hd : d2 = d1).
  { exact (same_dict (arc_calls name c1) (arc_calls name c2) d1 d2 s1 s2 _
             eq_refl eq_refl Hk2 Hres1 Hres2). }
  split; [exact Hd|]. split.
  - rewrite Hk2, filter_none; [apply app_nil_r|].
    intros n Hn. change (map mat_name (arc_calls name c2))
      with (map mat_name (arc_calls name c1)) in Hn.
    apply in_map_iff in Hn. destruct Hn as [call [En Hcall]]. subst n.
    destruct (lookup_resolved s1 _ d1 (proj2 (arc_names name c1)) Hres1 call Hcall)
      as [i [_ [Hi _]]].
    unfold contains. rewrite Hi. reflexivity.
  - intros call Hcall. subst d2.
    destruct (lookup_resolved s2 _ d1 (proj2 (arc_names name c2)) Hres2 call Hcall)
      as [i [Hl [_ Hs]]].
    exists i. split; assumption.
Qed.

Lemma blend_set_settings (i j : nat) (st : Settings) (s : Store.T) :
  blend_at (set_settings i st s) j = blend_at s j.
Proof.
  revert i j. induction s as [|m s IH]; intros i j.
  - destruct i; reflexivity.
  - destruct i as [|i]; destruct j as [|j]; try reflexivity.
    unfold blend_at in *. simpl. apply IH.
Qed.

Lemma blend_set_blend (i j : nat) (s : Store.T) :
  blend_at s j = true -> blend_at (set_blend i s) j = true.
Proof.
  revert i j. induction s as [|m s IH]; intros i j H.
  - destruct i; exact H.
  - destruct i as [|i]; destruct j as [|j]; try exact H; try reflexivity.
    unfold blend_at in *. simpl. apply IH. exact H.
Qed.

Lemma blend_set_blend_same (i : nat) (s : Store.T) :
  (i < List.length s)%nat -> blend_at (set_blend i s) i = true.
Proof.
  revert i. induction s as [|m s IH]; intros i H; [simpl in H; lia|].
  destruct i as [|i]; [reflexivity|]. simpl in H.
  unfold blend_at in *. simpl. apply IH. lia.
Qed.

Lemma length_set_settings (i : nat) (st : Settings) (s : Store.T) :
  List.length (set_settings i st s) = List.length s.
Proof. rewrite <- !length_keys, keys_set_settings. reflexivity. Qed.

Lemma blend_app (s t : Store.T) (j : nat) :
  blend_at s j = true -> blend_at (s ++ t) j = true.
Proof.
  unfold blend_at. intro H. destruct (nth_error s j) as [m|] eqn:E; [|discriminate].
  rewrite nth_error_app1; [rewrite E; exact H|].
  apply nth_error_Some. rewrite E. discriminate.
Qed.

(** A gauge [create_material] never takes a material out of blend mode,
    and puts the one it returns into it for an alpha below 1. *)
Lemma create_blend (c : Call) (s : Store.T) :
  (forall j, blend_at s j = true -> blend_at (snd (create rename c s)) j = true) /\
  (forall a, call_alpha c = Some a -> Py.ltb a 1.0 = true ->
             blend_at (snd (create rename c s)) (fst (create rename c s)) = true).
Proof.
  unfold create, arc_create_material, bar_create_material, new. split.
  - intros j Hj.
    destruct (call_alpha c) as [a|]; destruct (index_of (mat_name c) s) as [k|];
      simpl snd; try destruct (Py.ltb a 1.0);
      try apply blend_set_blend; rewrite blend_set_settings;
      try apply blend_app; exact Hj.
  - intros a Hc Ha. rewrite Hc, Ha.
    destruct (index_of (mat_name c) s) as [k|] eqn:E; simpl.
    + apply blend_set_blend_same. rewrite length_set_settings.
      exact (key_at_lt _ _ _ (index_of_bound _ _ _ E)).
    + apply blend_set_blend_same. rewrite length_set_settings, length_app. simpl. lia.
Qed.

(** X21. Alpha blending outlives the alpha that switched it on: once the
    bar gauge's [create_material] has made a material with an alpha below 1,
    making it again under the same name with alpha 1 returns the same
    material, now with Alpha 1.0 and still in blend mode. *)
Theorem blend_mode_outlives_alpha (name : string) (color : Color)
  (metallic roughness emission alpha : Q) (s : Store.T) :
  Py.ltb alpha 1.0 = true ->
  let '(i, s1) := bar_create_material rename name color metallic roughness emission alpha s in
  let '(j, s2) := bar_create_material rename name color metallic roughness emission 1.0 s1 in
  j = i /\
  option_map Store.alpha (settings_at s2 i) = Some (Some 1.0) /\
  blend_at s2 i = true.
Proof.
  intro Ha.
  set (c := mkCall "" name color metallic roughness emission (Some alpha)).
  set (c' := mkCall "" name color metallic roughness emission (Some 1.0)).
  change (bar_create_material rename name color metallic roughness emission alpha s)
    with (create rename c s).
  destruct (create_spec c s) as [s1 [Hc [_ [Hi _]]]].
  pose proof (proj2 (create_blend c s) alpha eq_refl Ha) as Hb.
  rewrite Hc in Hb |- *. simpl fst in Hb. simpl snd in Hb.
  change (bar_create_material rename name color metallic roughness emission 1.0 s1)
    with (create rename c' s1).
  destruct (create_spec c' s1) as [s2 [Hc' [_ [_ [Hs' _]]]]].
  pose proof (proj1 (create_blend c' s1) _ Hb) as Hb'.
  simpl mat_name in *. rewrite Hi in Hc', Hs'.
  rewrite Hc' in Hb' |- *. simpl snd in Hb'.
  split; [reflexivity|]. split; [rewrite Hs'; reflexivity|exact Hb'].
Qed.

Lemma rcs_create_spec (name : string) (col : Q * Q * Q) (m r : Q)
  (ec : option (Q * Q * Q)) (es : Q) (s : Store.T) :
  exists s',
    rcs_create_material rename name col m r ec es s = (List.length s, s') /\
    keys s' = (keys s ++ [if contains name s then rename (keys s) name else name])%list /\
    index_of name s'
    = Some (match index_of name s with Some i => i | None => List.length s end).
Proof.
  unfold rcs_create_material, new. eexists. split; [reflexivity|].
  match goal with |- keys ?x = _ /\ _ => set (s' := x) end.
  assert (Hk : keys s'
               = (keys s ++ [if contains name s then rename (keys s) name else name])%list).
  { unfold s'. rewrite keys_set_settings. unfold keys. rewrite map_app. reflexivity. }
  split; [exact Hk|].
  destruct (index_of name s) as [i|] eqn:E.
  - exact (index_of_extend _ _ _ _ _ Hk E).
  - set (t := [ {| key := name; settings := None; blend := false |} ]).
    assert (Hk' : keys s' = keys (s ++ t)).
    { rewrite Hk. unfold contains. rewrite E. unfold keys, t. rewrite map_app.
      reflexivity. }
    rewrite (index_of_keys _ _ _ Hk'), index_of_app, E. unfold t. simpl.
    rewrite String.eqb_refl. simpl. rewrite Nat.add_0_r. reflexivity.
Qed.

(** X22. The coolant loop's [create_material] always makes a new
    datablock, so the name it asked for is in [bpy.data.materials]
    afterwards: the [if name not in bpy.data.materials] branch of the
    components never runs, and a component gets the first material of that
    name, which is the new one only if the name was free. *)
Theorem coolant_material_is_the_first_of_its_name (name : string) (col : Q * Q * Q)
  (m r : Q) (ec : option (Q * Q * Q)) (es : Q) (s : Store.T) :
  let '(mat, s') := rcs_create_material rename name col m r ec es s in
  mat = List.length s /\ List.length s' = S (List.length s) /\
  contains name s' = true /\
  attach_shared name mat s'
  = Some (match index_of name s with Some i => i | None => mat end) /\
  (forall i, index_of name s = Some i -> (i < mat)%nat).
Proof.
  destruct (rcs_create_spec name col m r ec es s) as [s' [Hc [Hk Hi]]].
  rewrite Hc. split; [reflexivity|]. split.
  { rewrite <- !length_keys, Hk, length_app. simpl. lia. }
  assert (Hin : contains name s' = true) by (unfold contains; rewrite Hi; reflexivity).
  split; [exact Hin|]. split.
  - unfold attach_shared. rewrite Hin. exact Hi.
  - intros i E. exact (key_at_lt _ _ _ (index_of_bound _ _ _ E)).
Qed.

Lemma rcs_component_spec (c : Component) (s : Store.T) :
  exists a s',
    rcs_component rename c s = (a, s') /\
    (exists k, keys s' = (keys s ++ [k])%list) /\
    a <> None /\
    (comp_attach c = Shared -> a = index_of (comp_material c) s').
Proof.
  unfold rcs_component.
  destruct (rcs_create_spec (comp_material c) (comp_color c) (comp_metallic c)
              (comp_roughness c) (comp_emission_color c) (comp_emission_strength c) s)
    as [s' [Hc [Hk Hi]]].
  rewrite Hc. eexists. exists s'. split; [reflexivity|].
  split; [eexists; exact Hk|].
  unfold attach_shared, contains. rewrite Hi. simpl.
  destruct (comp_attach c); split; try discriminate; try reflexivity.
Qed.

Lemma attached_extend (s s' : Store.T) (l : list string) (cs : list Component)
  (atts : list (option nat)) :
  keys s' = (keys s ++ l)%list ->
  Forall2 (attached_as s) cs atts -> Forall2 (attached_as s') cs atts.
Proof.
  intros Hk H. induction H as [|c a cs atts [Ha Hs] H IH]; constructor; [|exact IH].
  split; [exact Ha|]. intro E. specialize (Hs E). subst a.
  destruct (index_of (comp_material c) s) as [i|] eqn:Ei; [|contradiction].
  symmetry. exact (index_of_extend _ _ _ _ _ Hk Ei).
Qed.

Lemma rcs_run_spec (cs : list Component) (s : Store.T) :
  exists atts s',
    rcs_run rename cs s = (atts, s') /\
    (exists l, keys s' = (keys s ++ l)%list /\ List.length l = List.length cs) /\
    Forall2 (attached_as s') cs atts.
Proof.
  revert s. induction cs as [|c cs IH]; intro s.
  - exists [], s. split; [reflexivity|]. split; [|constructor].
    exists []. rewrite app_nil_r. split; reflexivity.
  - destruct (rcs_component_spec c s) as [a [s1 [Hc [[k Hk] [Ha Hs]]]]].
    destruct (IH s1) as [atts [s' [Hr [[l [Hl Hlen]] Hall]]]].
    exists (a :: atts), s'. cbn [rcs_run]. rewrite Hc, Hr. split; [reflexivity|].
    split.
    + exists (k :: l). rewrite Hl, Hk, <- app_assoc. simpl. rewrite Hlen.
      split; reflexivity.
    + constructor; [|exact Hall]. split; [exact Ha|].
      intro E. specialize (Hs E). subst a.
      destruct (index_of (comp_material c) s1) as [i|] eqn:Ei; [|contradiction].
      symmetry. exact (index_of_extend _ _ _ _ _ Hl Ei).
Qed.

Lemma distinct_cons_in (a : option nat) (l : list (option nat)) :
  In a l -> List.length (distinct (a :: l)) = List.length (distinct l).
Proof.
  intro H. unfold distinct. simpl.
  destruct (in_dec option_nat_dec a l); [reflexivity|contradiction].
Qed.

Lemma distinct_cons_le (a : option nat) (l : list (option nat)) :
  (List.length (distinct (a :: l)) <= S (List.length (distinct l)))%nat.
Proof.
  unfold distinct. simpl. destruct (in_dec option_nat_dec a l); simpl; lia.
Qed.

Ltac count_distinct :=
  repeat first
    [ rewrite distinct_cons_in by (repeat (try (left; reflexivity); right))
    | apply (Nat.le_trans _ _ _ (distinct_cons_le _ _)); apply le_n_S ].

(** X23. The materials of a run of the coolant loop script, from any
    state of [bpy.data.materials]: 23 datablocks are made; every steam
    generator, pump and leg carries the first material of its kind's name,
    so the four loops share one material per kind; the surge line finds the
    hot legs' material; and at most 8 distinct materials end up attached. *)
Theorem coolant_loops_share_their_materials (s : Store.T) :
  let '(attached, surge, s') := rcs_main_materials rename s in
  List.length s' = (List.length s + 23)%nat /\
  Forall2 (attached_as s') (main_components ++ [flow_arrow_material]) attached /\
  surge <> None /\ surge = index_of "MAT_HotLeg" s' /\
  (List.length (distinct (surge :: attached)) <= 8)%nat.
Proof.
  unfold rcs_main_materials.
  destruct (rcs_run_spec main_components s) as [a1 [s1 [Hr1 [[l1 [Hk1 Hlen1]] H1]]]].
  rewrite Hr1.
  destruct (rcs_run_spec [flow_arrow_material] s1)
    as [a2 [s2 [Hr2 [[l2 [Hk2 Hlen2]] H2]]]].
  rewrite Hr2.
  assert (Hall : Forall2 (attached_as s2) (main_components ++ [flow_arrow_material])
                   (a1 ++ a2)).
  { apply Forall2_app; [exact (attached_extend _ _ _ _ _ Hk2 H1)|exact H2]. }
  split.
  { rewrite <- (length_keys s2), Hk2, Hk1, !length_app, length_keys, Hlen1, Hlen2.
    change (List.length main_components) with 22%nat.
    change (List.length [flow_arrow_material]) with 1%nat. lia. }
  split; [exact Hall|].
  clear Hall Hr1 Hr2 Hlen1 Hlen2 Hk1.
  cbv beta iota delta [main_components repeat List.concat app] in H1.
  repeat match goal with
         | H : Forall2 _ (_ :: _) _ |- _ => inversion H; clear H; subst
         end.
  repeat match goal with
         | H : Forall2 _ [] _ |- _ => inversion H; clear H; subst
         end.
  repeat match goal with
         | H : attached_as _ _ _ |- _ =>
             destruct H as [? H]; try (specialize (H eq_refl); simpl in H)
         end.
  subst.
  destruct (index_of "MAT_HotLeg" s1) as [hot|] eqn:Ehot; [|contradiction].
  split; [discriminate|].
  split; [symmetry; exact (index_of_extend _ _ _ _ _ Hk2 Ehot)|].
  cbv beta iota delta [app].
  count_distinct. simpl. lia.
Qed.

End StoreFacts.

Lemma blend_mode_outlives_alpha_witness :
  Py.ltb 0.3 1.0 = true /\
  let '(i, s1) := Store.bar_create_material (fun _ n => n) "MAT_BarGauge_Tube_T_HOT"
                    (0.6, 0.7, 0.8, 0.3)%Q 0.0 0.1 0.0 0.3 [] in
  let '(j, s2) := Store.bar_create_material (fun _ n => n) "MAT_BarGauge_Tube_T_HOT"
                    (0.6, 0.7, 0.8, 0.3)%Q 0.0 0.1 0.0 1.0 s1 in
  j = i /\
  option_map Store.alpha (Store.settings_at s2 i) = Some (Some 1.0%Q) /\
  Store.blend_at s2 i = true.
Proof.
  split; [reflexivity|].
  exact (blend_mode_outlives_alpha (fun _ n => n) "MAT_BarGauge_Tube_T_HOT"
           (0.6, 0.7, 0.8, 0.3)%Q 0.0 0.1 0.0 0.3 [] eq_refl).
Defined.

(** ** The materials of a gauge's parts (X24) *)

Section GaugeMaterialsFacts.
Import Blender Store GaugeMaterials.
Local Open Scope string_scope.
Variable rename : list string -> string -> string.

Lemma fills_carried (calls : list Call) (s : Store.T) (r : list (string * nat) * Store.T)
  (call : Call) :
  fills calls s r -> In call calls -> slot call <> "text" ->
  carried calls r (mat_name call).
Proof.
  intros [H _] Hin Hs. destruct (H call Hin) as [i [Hl [Hi Hset]]].
  exists call, i. repeat split; try assumption.
  exact (index_of_bound _ _ _ Hi).
Qed.

Ltac nth_call := simpl; repeat (try (left; reflexivity); right).

Ltac carried_at Hf k :=
  match goal with
  | |- carried ?calls ?r ?m =>
      let d := constr:(mkCall "" "" (0, 0, 0, 0)%Q 0 0 0 None) in
      change m with (mat_name (nth k calls d));
      apply (fills_carried _ _ _ (nth k calls d) Hf); [nth_call | simpl; discriminate]
  end.

Lemma arc_carried (c : ArcGauge.GaugeConfig) (colors : ArcColors) (s : Store.T) (key : string) :
  In key ["Bezel"; "Face"; "Tick"; "Needle"; "Hub";
          "Zone_Normal"; "Zone_Warning"; "Zone_Danger"] ->
  carried (arc_calls (ArcGauge.name c) colors)
    (create_gauge_materials rename (ArcGauge.name c) colors s)
    (ArcGauge.material key c).
Proof.
  intro Hk.
  pose proof (run_fills rename (arc_calls (ArcGauge.name c) colors) s
                (proj1 (arc_names _ _)) (proj2 (arc_names _ _))) as Hf.
  fold (create_gauge_materials rename (ArcGauge.name c) colors s) in Hf.
  simpl in Hk.
  destruct Hk as [Hk|[Hk|[Hk|[Hk|[Hk|[Hk|[Hk|[Hk|[]]]]]]]]]; subst key.
  - carried_at Hf 0%nat.
  - carried_at Hf 1%nat.
  - carried_at Hf 2%nat.
  - carried_at Hf 3%nat.
  - carried_at Hf 4%nat.
  - carried_at Hf 6%nat.
  - carried_at Hf 7%nat.
  - carried_at Hf 8%nat.
Qed.

Lemma bar_carried (b : BarGauge.BarGaugeConfig) (colors : BarColors) (s : Store.T)
  (key : string) :
  In key ["Housing"; "Background"; "Tube"; "Fill"; "Bulb"; "Tick";
          "Zone_Normal"; "Zone_Warning"; "Zone_Danger"] ->
  carried (bar_calls (BarGauge.name b) colors)
    (create_bar_gauge_materials rename (BarGauge.name b) colors s)
    (BarGauge.material key b).
Proof.
  intro Hk.
  pose proof (run_fills rename (bar_calls (BarGauge.name b) colors) s
                (proj1 (bar_names _ _)) (proj2 (bar_names _ _))) as Hf.
  fold (create_bar_gauge_materials rename (BarGauge.name b) colors s) in Hf.
  simpl in Hk.
  destruct Hk as [Hk|[Hk|[Hk|[Hk|[Hk|[Hk|[Hk|[Hk|[Hk|[]]]]]]]]]]; subst key.
  - carried_at Hf 0%nat.
  - carried_at Hf 1%nat.
  - carried_at Hf 2%nat.
  - carried_at Hf 3%nat.
  - carried_at Hf 4%nat.
  - carried_at Hf 5%nat.
  - carried_at Hf 7%nat.
  - carried_at Hf 8%nat.
  - carried_at Hf 9%nat.
Qed.

Ltac body_mats :=
  let v := fresh "v" in let i := fresh "i" in let o := fresh "o" in
  let H := fresh "H" in
  intros v i o H;
  repeat match type of H with
         | context [ArcGauge.value_to_angle ?x ?c] =>
             destruct (ArcGauge.value_to_angle x c); simpl in H
         | context [ArcGauge.minor_tick_guard ?c ?x] =>
             destruct (ArcGauge.minor_tick_guard c x) as [[|]|]; simpl in H
         | context [BarGauge.value_to_y_position ?x ?c ?h] =>
             destruct (BarGauge.value_to_y_position x c h); simpl in H
         | context [BarGauge.minor_tick_guard ?c ?x] =>
             destruct (BarGauge.minor_tick_guard c x) as [[|]|]; simpl in H
         end;
  try discriminate; inversion H; reflexivity.

Lemma arc_major_materials (c : ArcGauge.GaugeConfig) :
  forall v i o, ArcGauge.major_tick_body c v i = Run.ret (Some o) ->
                materials o = [ArcGauge.material "Tick" c].
Proof. unfold ArcGauge.major_tick_body. body_mats. Qed.

Lemma arc_minor_materials (c : ArcGauge.GaugeConfig) :
  forall v i o, ArcGauge.minor_tick_body c v i = Run.ret (Some o) ->
                materials o = [ArcGauge.material "Tick" c].
Proof. unfold ArcGauge.minor_tick_body. body_mats. Qed.

Lemma arc_number_materials (c : ArcGauge.GaugeConfig) :
  forall v i o, ArcGauge.number_body c v i = Run.ret (Some o) -> bare o.
Proof. unfold ArcGauge.number_body, bare. body_mats. Qed.

Lemma bar_major_materials (b : BarGauge.BarGaugeConfig) :
  forall v i o, BarGauge.major_tick_body b v i = Run.ret (Some o) ->
                materials o = [BarGauge.material "Tick" b].
Proof. unfold BarGauge.major_tick_body. body_mats. Qed.

Lemma bar_minor_materials (b : BarGauge.BarGaugeConfig) :
  forall v i o, BarGauge.minor_tick_body b v i = Run.ret (Some o) ->
                materials o = [BarGauge.material "Tick" b].
Proof. unfold BarGauge.minor_tick_body. body_mats. Qed.

Lemma bar_number_materials (b : BarGauge.BarGaugeConfig) :
  forall v i o, BarGauge.number_body b v i = Run.ret (Some o) -> bare o.
Proof. unfold BarGauge.number_body, bare. body_mats. Qed.

Lemma arc_zone_materials (c : ArcGauge.GaugeConfig) (zone_name key : string)
  (zone : option (Q * Q)) (l : list ArcGauge.Object) :
  ArcGauge.create_zone c zone_name key zone = Run.ret l ->
  Forall (fun o => materials o = [ArcGauge.material key c]) l.
Proof.
  unfold ArcGauge.create_zone. destruct zone as [[z0 z1]|].
  - destruct (Py.ltb z0 z1).
    + destruct (ArcGauge.value_to_angle z1 c); simpl; [|discriminate].
      destruct (ArcGauge.value_to_angle z0 c); simpl; [|discriminate].
      intro H. inversion H. repeat constructor.
    + intro H. inversion H. constructor.
  - intro H. inversion H. constructor.
Qed.

Lemma bar_zone_materials (b : BarGauge.BarGaugeConfig) (zone_name material : string)
  (zone : option (Q * Q)) (l : list BarGauge.Object) :
  BarGauge.create_zone b zone_name zone material = Run.ret l ->
  Forall (fun o => materials o = [material]) l.
Proof.
  unfold BarGauge.create_zone. destruct zone as [[z0 z1]|].
  - destruct (Py.ltb z0 z1).
    + destruct (BarGauge.value_to_y_position z0 b _); simpl; [|discriminate].
      destruct (BarGauge.value_to_y_position z1 b _); simpl; [|discriminate].
      intro H. inversion H. repeat constructor.
    + intro H. inversion H. constructor.
  - intro H. inversion H. constructor.
Qed.

Lemma dressed_one (calls : list Call) (r : list (string * nat) * Store.T) (m : string)
  (l : list (Object Q)) :
  carried calls r m -> Forall (fun o => materials o = [m]) l -> Forall (dressed calls r) l.
Proof.
  intros Hm H. apply (Forall_impl _ (P := fun o => materials o = [m])); [|exact H].
  intros o Ho. unfold dressed. rewrite Ho. constructor; [exact Hm|constructor].
Qed.

Lemma dressed_bare (calls : list Call) (r : list (string * nat) * Store.T)
  (l : list (Object Q)) :
  Forall bare l -> Forall (dressed calls r) l.
Proof.
  apply Forall_impl. intros o Ho. unfold dressed. rewrite Ho. constructor.
Qed.

Ltac keyed := simpl; repeat (try (left; reflexivity); right).

Ltac dress carried_lemma :=
  repeat first
    [ apply Forall_nil
    | apply Forall_cons;
      [ unfold dressed; simpl;
        repeat (constructor; [apply carried_lemma; keyed|]); constructor | ] ].

(** X24. The parts of a gauge carry only materials that the gauge's
    [create_..._materials] made: each material attached to a part is filed
    in [bpy.data.materials] under the name the part asked for and holds the
    colour and settings of its slot.  The slot ['text'] is attached to
    nothing: labels, units and numbers carry no material. *)
Theorem gauge_parts_carry_created_materials
  (c : ArcGauge.GaugeConfig) (b : BarGauge.BarGaugeConfig) (fuel : nat)
  (g : ArcGauge.Gauge) (h : BarGauge.Gauge)
  (colors : ArcColors) (bar_colors : BarColors) (s : Store.T) :
  ArcGauge.create_gauge fuel c = Run.ret g ->
  BarGauge.create_bar_gauge fuel b = Run.ret h ->
  (Forall (dressed (arc_calls (ArcGauge.name c) colors)
             (create_gauge_materials rename (ArcGauge.name c) colors s))
     (ArcGauge.gauge_objects g) /\
   Forall bare (ArcGauge.label_text g :: ArcGauge.units_text g :: ArcGauge.numbers g)) /\
  (Forall (dressed (bar_calls (BarGauge.name b) bar_colors)
             (create_bar_gauge_materials rename (BarGauge.name b) bar_colors s))
     (BarGauge.gauge_objects h) /\
   Forall bare (BarGauge.label_text h :: BarGauge.units_text h :: BarGauge.numbers h)).
Proof.
  intros Hg Hh. split.
  - unfold ArcGauge.create_gauge in Hg. cbv zeta in Hg.
    destruct (Run.scale_loop fuel _ _ _ 0 (ArcGauge.major_tick_body c))
      as [[majors|e]|] eqn:E1; simpl in Hg; try discriminate.
    destruct (Run.scale_loop fuel _ _ _ 0 (ArcGauge.minor_tick_body c))
      as [[minors|e]|] eqn:E2; simpl in Hg; try discriminate.
    destruct (Run.scale_loop fuel _ _ _ 0 (ArcGauge.number_body c))
      as [[nums|e]|] eqn:E3; simpl in Hg; try discriminate.
    destruct (ArcGauge.create_zone c "Zone_Normal" _ _) as [[zn|e]|] eqn:Z1;
      simpl in Hg; try discriminate.
    destruct (ArcGauge.create_zone c "Zone_Warning" _ _) as [[zw|e]|] eqn:Z2;
      simpl in Hg; try discriminate.
    destruct (ArcGauge.create_zone c "Zone_Danger" _ _) as [[zd|e]|] eqn:Z3;
      simpl in Hg; try discriminate.
    destruct (ArcGauge.value_to_angle _ c) as [mid|e] eqn:M;
      simpl in Hg; try discriminate.
    inversion Hg as [G]. clear Hg G.
    pose proof (scale_loop_Forall _ _ _ _ _ _ _ _ (arc_major_materials c) E1) as T1.
    pose proof (scale_loop_Forall _ _ _ _ _ _ _ _ (arc_minor_materials c) E2) as T2.
    pose proof (scale_loop_Forall _ _ _ _ _ _ _ _ (arc_number_materials c) E3) as T3.
    pose proof (arc_zone_materials _ _ _ _ _ Z1) as T4.
    pose proof (arc_zone_materials _ _ _ _ _ Z2) as T5.
    pose proof (arc_zone_materials _ _ _ _ _ Z3) as T6.
    clear E1 E2 E3 Z1 Z2 Z3 M.
    cbv beta iota delta [ArcGauge.gauge_objects
      ArcGauge.root ArcGauge.bezel ArcGauge.face ArcGauge.scale_empty
      ArcGauge.major_ticks_empty ArcGauge.major_ticks ArcGauge.minor_ticks_empty
      ArcGauge.minor_ticks ArcGauge.numbers_empty ArcGauge.numbers ArcGauge.zones_empty
      ArcGauge.zones ArcGauge.needle ArcGauge.hub ArcGauge.label_text ArcGauge.units_text].
    split.
    + set (calls := arc_calls (ArcGauge.name c) colors).
      set (r := create_gauge_materials rename (ArcGauge.name c) colors s).
      assert (K : forall key, In key ["Bezel"; "Face"; "Tick"; "Needle"; "Hub";
                                      "Zone_Normal"; "Zone_Warning"; "Zone_Danger"] ->
                              carried calls r (ArcGauge.material key c)).
      { intros key Hk. apply arc_carried. exact Hk. }
      clearbody calls r.
      rewrite !Forall_app.
      repeat split;
        first [ apply (dressed_one _ _ _ _ (K "Tick" ltac:(keyed))); assumption
              | apply (dressed_one _ _ _ _ (K "Zone_Normal" ltac:(keyed))); assumption
              | apply (dressed_one _ _ _ _ (K "Zone_Warning" ltac:(keyed))); assumption
              | apply (dressed_one _ _ _ _ (K "Zone_Danger" ltac:(keyed))); assumption
              | apply dressed_bare; assumption
              | dress K ].
    + repeat (apply Forall_cons; [reflexivity|]). exact T3.
  - unfold BarGauge.create_bar_gauge in Hh. cbv zeta in Hh.
    destruct (Run.scale_loop fuel _ _ _ 0 (BarGauge.major_tick_body b))
      as [[majors|e]|] eqn:E1; simpl in Hh; try discriminate.
    destruct (Run.scale_loop fuel _ _ _ 0 (BarGauge.minor_tick_body b))
      as [[minors|e]|] eqn:E2; simpl in Hh; try discriminate.
    destruct (Run.scale_loop fuel _ _ _ 0 (BarGauge.number_body b))
      as [[nums|e]|] eqn:E3; simpl in Hh; try discriminate.
    destruct (BarGauge.create_zone b "Zone_Normal" _ _) as [[zn|e]|] eqn:Z1;
      simpl in Hh; try discriminate.
    destruct (BarGauge.create_zone b "Zone_Warning" _ _) as [[zw|e]|] eqn:Z2;
      simpl in Hh; try discriminate.
    destruct (BarGauge.create_zone b "Zone_Danger" _ _) as [[zd|e]|] eqn:Z3;
      simpl in Hh; try discriminate.
    inversion Hh as [G]. clear Hh G.
    pose proof (scale_loop_Forall _ _ _ _ _ _ _ _ (bar_major_materials b) E1) as T1.
    pose proof (scale_loop_Forall _ _ _ _ _ _ _ _ (bar_minor_materials b) E2) as T2.
    pose proof (scale_loop_Forall _ _ _ _ _ _ _ _ (bar_number_materials b) E3) as T3.
    pose proof (bar_zone_materials _ _ _ _ _ Z1) as T4.
    pose proof (bar_zone_materials _ _ _ _ _ Z2) as T5.
    pose proof (bar_zone_materials _ _ _ _ _ Z3) as T6.
    clear E1 E2 E3 Z1 Z2 Z3.
    cbv beta iota delta [BarGauge.gauge_objects
      BarGauge.root BarGauge.housing BarGauge.background BarGauge.tube
      BarGauge.fill BarGauge.bulb BarGauge.scale_empty
      BarGauge.major_ticks_empty BarGauge.major_ticks BarGauge.minor_ticks_empty
      BarGauge.minor_ticks BarGauge.numbers_empty BarGauge.numbers BarGauge.zones_empty
      BarGauge.zones BarGauge.label_text BarGauge.units_text].
    split.
    + set (calls := bar_calls (BarGauge.name b) bar_colors).
      set (r := create_bar_gauge_materials rename (BarGauge.name b) bar_colors s).
      assert (K : forall key, In key ["Housing"; "Background"; "Tube"; "Fill"; "Bulb"; "Tick";
                                      "Zone_Normal"; "Zone_Warning"; "Zone_Danger"] ->
                              carried calls r (BarGauge.material key b)).
      { intros key Hk. apply bar_carried. exact Hk. }
      clearbody calls r.
      rewrite !Forall_app.
      repeat split;
        first [ apply (dressed_one _ _ _ _ (K "Tick" ltac:(keyed))); assumption
              | apply (dressed_one _ _ _ _ (K "Zone_Normal" ltac:(keyed))); assumption
              | apply (dressed_one _ _ _ _ (K "Zone_Warning" ltac:(keyed))); assumption
              | apply (dressed_one _ _ _ _ (K "Zone_Danger" ltac:(keyed))); assumption
              | apply dressed_bare; assumption
              | destruct (BarGauge.is_thermometer b); dress K ].
    + repeat (apply Forall_cons; [reflexivity|]). exact T3.
Qed.

End GaugeMaterialsFacts.

Lemma gauge_parts_carry_created_materials_witness :
  exists g h,
    ArcGauge.create_gauge 100 ArcGauge.default_config = Run.ret g /\
    BarGauge.create_bar_gauge 100 BarGauge.default_config = Run.ret h /\
    Forall (GaugeMaterials.dressed
              (Store.arc_calls (ArcGauge.name ArcGauge.default_config)
                 Store.arc_default_colors)
              (Store.create_gauge_materials (fun _ n => n)
                 (ArcGauge.name ArcGauge.default_config) Store.arc_default_colors []))
      (ArcGauge.gauge_objects g) /\
    Forall GaugeMaterials.bare (BarGauge.numbers h).
Proof.
  assert (Hg : exists g, ArcGauge.create_gauge 100 ArcGauge.default_config = Run.ret g).
  { vm_compute. eexists. reflexivity. }
  assert (Hh : exists h, BarGauge.create_bar_gauge 100 BarGauge.default_config = Run.ret h).
  { vm_compute. eexists. reflexivity. }
  destruct Hg as [g Hg]. destruct Hh as [h Hh].
  destruct (gauge_parts_carry_created_materials (fun _ n => n)
              ArcGauge.default_config BarGauge.default_config 100 g h
              Store.arc_default_colors Store.bar_default_colors [] Hg Hh)
    as [[Ha _] [_ Hb]].
  exists g, h. split; [exact Hg|]. split; [exact Hh|].
  split; [exact Ha|]. inversion Hb as [|x l _ Hb']. inversion Hb' as [|y l' _ Hn].
  exact Hn.
Defined.

(** ** The meshes of the gauges (X25 to X30) *)

Section BarMeshes.
Import Blender.
Local Open Scope Q_scope.

Ltac pick := first [ left; solve [reflexivity | field] | right; solve [reflexivity | field] ].

(** X25. The straight meshes of the bar gauge are closed surfaces with
    one winding.  [create_box] makes eight vertices and six faces: every
    vertex is at [x = -width/2] or [width/2] and [z = -depth/2] or
    [depth/2]; in [y] the box is centred on its origin, or with
    [center_bottom] stands on it, from 0 to [height].
    [create_tube_outline] makes sixteen vertices and sixteen faces: a frame
    between the rectangle [width] by [height] and the one [thickness]
    inside it. *)
Theorem bar_meshes_are_closed (width height depth thickness : Q) (center_bottom : bool) :
  let box := Bmesh.Bar.create_box width height depth center_bottom in
  let tube := Bmesh.Bar.create_tube_outline width height thickness depth in
  let lo := if center_bottom then 0 else - (height / 2) in
  let hi := if center_bottom then height else height / 2 in
  (List.length (Bmesh.verts box) = 8%nat /\
   List.length (Bmesh.faces box) = 6%nat /\
   Bmesh.closed box = true /\
   Forall (fun '(x, y, z) =>
             (x == - (width / 2) \/ x == width / 2) /\
             (y == lo \/ y == hi) /\
             (z == - (depth / 2) \/ z == depth / 2)) (Bmesh.verts box) /\
   hi - lo == height) /\
  (List.length (Bmesh.verts tube) = 16%nat /\
   List.length (Bmesh.faces tube) = 16%nat /\
   Bmesh.closed tube = true /\
   Forall (fun '(x, y, z) =>
             (x == - (width / 2) \/ x == width / 2) /\
             (y == - (height / 2) \/ y == height / 2) /\
             (z == - (depth / 2) \/ z == depth / 2)) (firstn 8 (Bmesh.verts tube)) /\
   Forall (fun '(x, y, z) =>
             (x == - (width / 2 - thickness) \/ x == width / 2 - thickness) /\
             (y == - (height / 2 - thickness) \/ y == height / 2 - thickness) /\
             (z == - (depth / 2) \/ z == depth / 2))
     (Bmesh.Bar.hole (Bmesh.verts tube))).
Proof.
  intros box tube lo hi. subst box tube lo hi. split.
  - split; [reflexivity|]. split; [reflexivity|]. split; [reflexivity|].
    split; [|destruct center_bottom; field].
    simpl. destruct center_bottom;
      repeat (apply Forall_cons; [split; [pick|split; pick]|]); apply Forall_nil.
  - split; [reflexivity|]. split; [reflexivity|]. split; [reflexivity|].
    split; simpl;
      repeat (apply Forall_cons; [split; [pick|split; pick]|]); apply Forall_nil.
Qed.

Lemma world_box (name : string) (lx ly lz w h d s : Q) (cb : bool)
  (rot : Rot Q) (p : option string) (mats : list string) :
  Bmesh.Bar.world
    (BarGauge.place (XYZ lx ly lz) rot p mats (BarGauge.create_box name w h d cb)) s
  = Some (map (fun '(x, y, z) => (lx + x, ly + s * y, lz + z))
            (Bmesh.verts (Bmesh.Bar.create_box w h d cb))).
Proof. reflexivity. Qed.

Lemma world_tube (name : string) (lx ly lz w h t d s : Q)
  (rot : Rot Q) (p : option string) (mats : list string) :
  Bmesh.Bar.world
    (BarGauge.place (XYZ lx ly lz) rot p mats (BarGauge.create_tube_outline name w h t d)) s
  = Some (map (fun '(x, y, z) => (lx + x, ly + s * y, lz + z))
            (Bmesh.verts (Bmesh.Bar.create_tube_outline w h t d))).
Proof. reflexivity. Qed.

(** X26. The fill of a bar gauge stands in the tube at the level the
    scale gives it.  With the scale [initial_fill] the script sets along Y,
    for [0 <= initial_fill <= 1], the fill is as wide as the hole of the
    tube outline, starts at the bottom of the hole and ends at the height
    where the scale puts the value [initial_fill] of the way from
    [min_value] to [max_value]. *)
Theorem fill_stands_at_its_level (b : BarGauge.BarGaugeConfig) (fuel : nat)
  (h : BarGauge.Gauge) :
  BarGauge.create_bar_gauge fuel b = Run.ret h ->
  BarGauge.min_value b < BarGauge.max_value b ->
  0 <= BarGauge.initial_fill b <= 1 ->
  let v := BarGauge.min_value b
           + BarGauge.initial_fill b * (BarGauge.max_value b - BarGauge.min_value b) in
  exists yv fill tube,
    BarGauge.value_to_y_position v b (BarGauge.tube_height b) = Py.Ok yv /\
    yv == BarGauge.initial_fill b * BarGauge.tube_height b /\
    Bmesh.Bar.world (BarGauge.fill h) (BarGauge.initial_fill b) = Some fill /\
    Bmesh.Bar.world (BarGauge.tube h) 1 = Some tube /\
    Forall (fun '(x, y, z) =>
              (x == - (BarGauge.tube_width b / 2) \/ x == BarGauge.tube_width b / 2) /\
              (y == BarGauge.tube_bottom_y b \/ y == BarGauge.tube_bottom_y b + yv)) fill /\
    Forall (fun '(x, y, z) =>
              (x == - (BarGauge.tube_width b / 2) \/ x == BarGauge.tube_width b / 2) /\
              (y == BarGauge.tube_bottom_y b \/
               y == BarGauge.tube_bottom_y b + BarGauge.tube_height b))
      (Bmesh.Bar.hole tube).
Proof.
  intros Hh Hlt Hfill v.
  assert (Hv : BarGauge.min_value b <= v <= BarGauge.max_value b) by (subst v; nra).
  destruct (clamp_fraction _ _ v Hlt) as [_ [_ [_ Hmid]]]. specialize (Hmid Hv).
  assert (Hn : Py.max 0.0 (Py.min 1.0 ((v - BarGauge.min_value b)
                                       / (BarGauge.max_value b - BarGauge.min_value b)))
               == BarGauge.initial_fill b).
  { rewrite Hmid. subst v. field. lra. }
  clear Hmid Hv.
  exists (Py.max 0.0 (Py.min 1.0 ((v - BarGauge.min_value b)
                                  / (BarGauge.max_value b - BarGauge.min_value b)))
          * BarGauge.tube_height b).
  set (yv := Py.max 0.0 (Py.min 1.0 ((v - BarGauge.min_value b)
                                     / (BarGauge.max_value b - BarGauge.min_value b)))
             * BarGauge.tube_height b).
  assert (Ey : yv == BarGauge.initial_fill b * BarGauge.tube_height b).
  { unfold yv. rewrite Hn. reflexivity. }
  unfold BarGauge.create_bar_gauge in Hh. cbv zeta in Hh.
  destruct (Run.scale_loop fuel _ _ _ 0 (BarGauge.major_tick_body b))
    as [[majors|e]|] eqn:E1; simpl in Hh; try discriminate.
  destruct (Run.scale_loop fuel _ _ _ 0 (BarGauge.minor_tick_body b))
    as [[minors|e]|] eqn:E2; simpl in Hh; try discriminate.
  destruct (Run.scale_loop fuel _ _ _ 0 (BarGauge.number_body b))
    as [[nums|e]|] eqn:E3; simpl in Hh; try discriminate.
  destruct (BarGauge.create_zone b "Zone_Normal" _ _) as [[zn|e]|] eqn:Z1;
    simpl in Hh; try discriminate.
  destruct (BarGauge.create_zone b "Zone_Warning" _ _) as [[zw|e]|] eqn:Z2;
    simpl in Hh; try discriminate.
  destruct (BarGauge.create_zone b "Zone_Danger" _ _) as [[zd|e]|] eqn:Z3;
    simpl in Hh; try discriminate.
  inversion Hh as [G]. clear Hh G E1 E2 E3 Z1 Z2 Z3.
  cbv beta iota delta [BarGauge.fill BarGauge.tube].
  rewrite world_box, world_tube.
  do 2 eexists. split; [exact (value_to_y_position_ok b v _ Hlt)|].
  split; [exact Ey|]. split; [reflexivity|]. split; [reflexivity|].
  clear Hn. clearbody yv. split; simpl.
  - repeat (apply Forall_cons;
            [split; first [pick | left; field | right; rewrite Ey; field]|]);
      apply Forall_nil.
  - repeat (apply Forall_cons; [split; pick|]); apply Forall_nil.
Qed.

End BarMeshes.

Lemma fill_stands_at_its_level_witness :
  exists h yv fill,
    BarGauge.create_bar_gauge 100 BarGauge.default_config = Run.ret h /\
    BarGauge.value_to_y_position
      (BarGauge.min_value BarGauge.default_config
       + BarGauge.initial_fill BarGauge.default_config
         * (BarGauge.max_value BarGauge.default_config
            - BarGauge.min_value BarGauge.default_config))
      BarGauge.default_config (BarGauge.tube_height BarGauge.default_config)
    = Py.Ok yv /\
    (yv == BarGauge.initial_fill BarGauge.default_config
           * BarGauge.tube_height BarGauge.default_config)%Q /\
    Bmesh.Bar.world (BarGauge.fill h) (BarGauge.initial_fill BarGauge.default_config)
    = Some fill.
Proof.
  assert (Hh : exists h, BarGauge.create_bar_gauge 100 BarGauge.default_config = Run.ret h).
  { vm_compute. eexists. reflexivity. }
  destruct Hh as [h Hh].
  destruct (fill_stands_at_its_level BarGauge.default_config 100 h Hh)
    as [yv [fill [tube [Hy [Ey [Hf _]]]]]].
  - reflexivity.
  - split; unfold Qle; simpl; lia.
  - exists h, yv, fill. split; [exact Hh|]. split; [exact Hy|]. split; [exact Ey|exact Hf].
Defined.

Section ArcMeshes.
Local Open Scope R_scope.

Lemma flat_map_blocks_length {A B : Type} (f : A -> list B) (k : nat) (l : list A) :
  (forall x, List.length (f x) = k) ->
  List.length (flat_map f l) = (k * List.length l)%nat.
Proof.
  intro H. induction l as [|a l IH]; simpl; [lia|].
  rewrite length_app, H, IH. lia.
Qed.

Lemma nth_error_flat_map_blocks {B : Type} (f : nat -> list B) (k : nat) :
  (forall j, List.length (f j) = k) ->
  forall n s i r, (i < n)%nat -> (r < k)%nat ->
  nth_error (flat_map f (seq s n)) (k * i + r) = nth_error (f (s + i)%nat) r.
Proof.
  intro H. induction n as [|n IH]; intros s i r Hi Hr; [lia|].
  simpl. destruct i as [|i].
  - rewrite Nat.mul_0_r, Nat.add_0_r. simpl.
    rewrite nth_error_app1 by (rewrite H; exact Hr). reflexivity.
  - rewrite nth_error_app2 by (rewrite H; nia).
    rewrite H. replace (k * S i + r - k)%nat with (k * i + r)%nat by nia.
    rewrite (IH (S s) i r) by lia. f_equal. f_equal. lia.
Qed.

Lemma Forall_flat_map_seq {B : Type} (P : B -> Prop) (f : nat -> list B) (s n : nat) :
  (forall i, (s <= i < s + n)%nat -> Forall P (f i)) ->
  Forall P (flat_map f (seq s n)).
Proof.
  intro H. apply Forall_flat_map. apply Forall_forall. intros i Hi.
  apply in_seq in Hi. apply H. exact Hi.
Qed.

(** X27. [create_arc_mesh] raises [ZeroDivisionError] for
    [segments = 0].  For [segments > 0] it makes [4 (segments + 1)]
    vertices and [4 segments + 2] faces, each a quad over vertices of the
    mesh; every vertex lies on the inner or the outer circle, at
    [depth / 2] before or behind the plane; the first column stands at
    [start_angle] and the last exactly at [end_angle]. *)
Theorem arc_mesh_shape (inner_radius outer_radius start_angle end_angle depth : R)
  (n : nat) :
  Bmesh.Arc.create_arc_mesh inner_radius outer_radius start_angle end_angle 0 depth
  = Py.Raised Py.ZeroDivisionError /\
  exists m,
    Bmesh.Arc.create_arc_mesh inner_radius outer_radius start_angle end_angle (S n) depth
    = Py.Ok m /\
    List.length (Bmesh.verts m) = (4 * (S n + 1))%nat /\
    List.length (Bmesh.faces m) = (4 * S n + 2)%nat /\
    Forall (fun f => List.length f = 4%nat /\
                     Forall (fun v => (v < List.length (Bmesh.verts m))%nat) f)
      (Bmesh.faces m) /\
    Forall (fun '(x, y, z) =>
              (x * x + y * y = inner_radius * inner_radius \/
               x * x + y * y = outer_radius * outer_radius) /\
              (z = depth / 2 \/ z = - (depth / 2))) (Bmesh.verts m) /\
    nth_error (Bmesh.verts m) 0
    = Some (inner_radius * cos start_angle, inner_radius * sin start_angle, depth / 2) /\
    nth_error (Bmesh.verts m) (4 * S n)
    = Some (inner_radius * cos end_angle, inner_radius * sin end_angle, depth / 2).
Proof.
  split; [reflexivity|].
  eexists. split; [reflexivity|].
  cbv beta iota zeta delta [Bmesh.verts Bmesh.faces].
  set (column := fun i : nat => _ :: _ :: _ :: _ :: nil).
  assert (Hcol : forall j, List.length (column j) = 4%nat) by reflexivity.
  assert (Hlen : List.length (flat_map column (seq 0 (S n + 1))) = (4 * (S n + 1))%nat).
  { rewrite (flat_map_blocks_length column 4 _ Hcol), length_seq. reflexivity. }
  split; [exact Hlen|].
  split.
  { rewrite length_app, (flat_map_blocks_length _ 4) by reflexivity.
    rewrite length_seq. simpl. lia. }
  split.
  { rewrite Hlen. apply Forall_app. split.
    - apply Forall_flat_map_seq. intros i Hi.
      repeat (apply Forall_cons;
              [split; [reflexivity|repeat (apply Forall_cons; [lia|]); apply Forall_nil]|]).
      apply Forall_nil.
    - repeat (apply Forall_cons;
              [split; [reflexivity|repeat (apply Forall_cons; [lia|]); apply Forall_nil]|]).
      apply Forall_nil. }
  split.
  { apply Forall_flat_map_seq. intros i _. unfold column.
    set (a := start_angle + INR i * ((end_angle - start_angle) / INR (S n))).
    pose proof (cos_sin_square a) as Hcs.
    repeat (apply Forall_cons;
            [split; [first [left; nra | right; nra]
                    |first [left; reflexivity | right; reflexivity]]|]).
    apply Forall_nil. }
  split.
  { change 0%nat with (4 * 0 + 0)%nat.
    rewrite (nth_error_flat_map_blocks column 4 Hcol) by lia.
    unfold column. simpl nth_error. rewrite Rmult_0_l, Rplus_0_r. reflexivity. }
  replace (4 * S n)%nat with (4 * S n + 0)%nat by lia.
  rewrite (nth_error_flat_map_blocks column 4 Hcol) by lia.
  unfold column. cbv beta iota delta [nth_error Nat.add].
  replace (start_angle + INR (S n) * ((end_angle - start_angle) / INR (S n)))
    with end_angle.
  - reflexivity.
  - field. apply not_0_INR. discriminate.
Qed.




Lemma along_the_ray (r w c s : R) :
  c * c + s * s = 1 -> (r * c + w * - s) * c + (r * s + w * c) * s = r.
Proof.
  intro H. replace ((r * c + w * - s) * c + (r * s + w * c) * s)
    with (r * (c * c + s * s)) by ring.
  rewrite H. ring.
Qed.

Lemma across_the_ray (r w c s : R) :
  c * c + s * s = 1 -> (r * s + w * c) * c - (r * c + w * - s) * s = w.
Proof.
  intro H. replace ((r * s + w * c) * c - (r * c + w * - s) * s)
    with (w * (c * c + s * s)) by ring.
  rewrite H. ring.
Qed.

(** X29. [create_tick_mark] makes a closed box with one winding that lies
    along the ray at [angle]: measured along the ray every corner is at
    [inner_radius] or at [outer_radius], across it at half the width to
    either side, and in depth at half the depth to either side. *)
Theorem tick_mark_is_radial (inner_radius outer_radius angle width depth : R) :
  let m := Bmesh.Arc.create_tick_mark inner_radius outer_radius angle width depth in
  List.length (Bmesh.verts m) = 8%nat /\
  Bmesh.closed m = true /\
  Forall (fun '(x, y, z) =>
            (x * cos angle + y * sin angle = inner_radius \/
             x * cos angle + y * sin angle = outer_radius) /\
            (y * cos angle - x * sin angle = - (width / 2) \/
             y * cos angle - x * sin angle = width / 2) /\
            (z = - (depth / 2) \/ z = depth / 2)) (Bmesh.verts m).
Proof.
  intro m. subst m. split; [reflexivity|]. split; [reflexivity|].
  pose proof (cos_sin_square angle) as Hcs.
  simpl.
  repeat (apply Forall_cons;
          [split; [first [left; exact (along_the_ray _ _ _ _ Hcs)
                         | right; exact (along_the_ray _ _ _ _ Hcs)]
                  |split; [first [left; exact (across_the_ray _ _ _ _ Hcs)
                                 | right; exact (across_the_ray _ _ _ _ Hcs)]
                          |first [left; reflexivity | right; reflexivity]]]|]).
  apply Forall_nil.
Qed.

(** X30. The needle points where the scale puts the middle value.  Its
    mesh is a closed wedge with one winding whose tip is [length] along the
    local Y axis; turned by the rotation [mid_angle - radians(90)] that
    [create_gauge] gives it, the tip stands at the needle's length from the
    pivot at the angle of the middle value, displaced by the difference
    between [pi / 2] and [math.radians(90)]. *)
Theorem needle_points_at_mid_scale (c : ArcGauge.GaugeConfig) (fuel : nat)
  (g : ArcGauge.Gauge) :
  ArcGauge.create_gauge fuel c = Run.ret g ->
  exists mid,
    ArcGauge.value_to_angle ((ArcGauge.min_value c + ArcGauge.max_value c) / 2) c
    = Py.Ok mid /\
    Blender.data (ArcGauge.needle g)
    = Blender.MeshData
        (Blender.Needle (ArcGauge.radius c * ArcGauge.needle_length c)%Q
           (ArcGauge.needle_width c) 0.015%Q) /\
    Blender.rotation (ArcGauge.needle g)
    = Blender.Euler 0%Q 0%Q (mid - Py.radians 90)%Q /\
    let m := Bmesh.Arc.create_needle (ArcGauge.radius c * ArcGauge.needle_length c)%Q
               (ArcGauge.needle_width c) 0.015%Q in
    let turn := Q2R (mid - Py.radians 90)%Q in
    let aim := Q2R mid + (PI / 2 - Q2R (Py.radians 90)) in
    let len := Q2R (ArcGauge.radius c * ArcGauge.needle_length c)%Q in
    Bmesh.closed m = true /\
    map (fun v => Bmesh.Arc.rotate_z turn (Bmesh.Arc.to_R v)) (skipn 4 (Bmesh.verts m))
    = [ (len * cos aim, len * sin aim, Q2R (0.015 / 2)%Q);
        (len * cos aim, len * sin aim, Q2R (- (0.015 / 2))%Q) ].
Proof.
  intro Hg.
  unfold ArcGauge.create_gauge in Hg. cbv zeta in Hg.
  destruct (Run.scale_loop fuel _ _ _ 0 (ArcGauge.major_tick_body c))
    as [[majors|e]|] eqn:E1; simpl in Hg; try discriminate.
  destruct (Run.scale_loop fuel _ _ _ 0 (ArcGauge.minor_tick_body c))
    as [[minors|e]|] eqn:E2; simpl in Hg; try discriminate.
  destruct (Run.scale_loop fuel _ _ _ 0 (ArcGauge.number_body c))
    as [[nums|e]|] eqn:E3; simpl in Hg; try discriminate.
  destruct (ArcGauge.create_zone c "Zone_Normal" _ _) as [[zn|e]|] eqn:Z1;
    simpl in Hg; try discriminate.
  destruct (ArcGauge.create_zone c "Zone_Warning" _ _) as [[zw|e]|] eqn:Z2;
    simpl in Hg; try discriminate.
  destruct (ArcGauge.create_zone c "Zone_Danger" _ _) as [[zd|e]|] eqn:Z3;
    simpl in Hg; try discriminate.
  destruct (ArcGauge.value_to_angle _ c) as [mid|e] eqn:M;
    simpl in Hg; try discriminate.
  inversion Hg as [G]. clear Hg G E1 E2 E3 Z1 Z2 Z3.
  exists mid. split; [reflexivity|].
  cbv beta iota delta [ArcGauge.needle].
  split; [reflexivity|]. split; [reflexivity|].
  intros m turn aim len. split; [reflexivity|].
  assert (Haim : aim = turn + PI / 2).
  { unfold aim, turn. rewrite Qreals.Q2R_minus. ring. }
  rewrite Haim, cos_plus, sin_plus, cos_PI2, sin_PI2.
  subst m. cbv beta iota zeta delta [Bmesh.Arc.create_needle Bmesh.verts skipn map
                                      Bmesh.Arc.to_R Bmesh.Arc.rotate_z].
  fold len. rewrite RMicromega.Q2R_0.
  f_equal; [|f_equal]; f_equal; try (f_equal; ring).
Qed.

End ArcMeshes.

Lemma needle_points_at_mid_scale_witness :
  exists g mid,
    ArcGauge.create_gauge 100 ArcGauge.default_config = Run.ret g /\
    ArcGauge.value_to_angle
      ((ArcGauge.min_value ArcGauge.default_config
        + ArcGauge.max_value ArcGauge.default_config) / 2)%Q ArcGauge.default_config
    = Py.Ok mid /\
    Blender.rotation (ArcGauge.needle g)
    = Blender.Euler 0%Q 0%Q (mid - Py.radians 90)%Q.
Proof.
  assert (Hg : exists g, ArcGauge.create_gauge 100 ArcGauge.default_config = Run.ret g).
  { vm_compute. eexists. reflexivity. }
  destruct Hg as [g Hg].
  destruct (needle_points_at_mid_scale ArcGauge.default_config 100 g Hg)
    as [mid [Hm [_ [Hr _]]]].
  exists g, mid. split; [exact Hg|]. split; [exact Hm|exact Hr].
Defined.
